(** * ADXL345 vibration node firmware: wire protocol core

    A shallow embedding of the protocol core of the firmware
    (Core/Src, Core/Inc) and the properties its specification states
    about it.  Every definition names the C function it is translated
    from.  Machine integers are [Z] with the wrap-around written out,
    C strings are lists of characters that end at the first NUL (or at
    the end of the list), arrays are lists read and written by index,
    [float] and [double] are IEEE 754 binary32 and binary64 values
    with the operations of [SpecFloat], which round to nearest, ties
    to even. *)

From Stdlib Require Import ZArith Lia List Ascii String Bool.
From Stdlib.Strings Require Import Byte.
From Stdlib Require SpecFloat.
From stdpp Require Import base tactics list sorting.
Import ListNotations.

Local Open Scope Z_scope.

(** ** Machine integers *)

Definition wrap8  (z : Z) : Z := z mod 2 ^ 8.
Definition wrap16 (z : Z) : Z := z mod 2 ^ 16.
Definition wrap32 (z : Z) : Z := z mod 2 ^ 32.

(** Conversion to [int16_t]: reduction modulo 2^16 into [-32768, 32767]. *)
Definition to_int16 (z : Z) : Z := (z + 32768) mod 65536 - 32768.

Definition UINT32_MAX : Z := 4294967295.

(** ** C strings *)

Module CStr.

(** A [const char*] is the list of the characters it points at; the
    string ends at the first NUL or where the list ends. *)
Definition cstring := list ascii.

Definition lit (s : string) : cstring := list_ascii_of_string s.

Definition NUL : ascii := Ascii.zero.

Definition code (c : ascii) : Z := Z.of_N (N_of_ascii c).

(** [*s] *)
Definition peek (s : cstring) : ascii :=
  match s with
  | [] => NUL
  | c :: _ => c
  end.

(** [strncmp(s, pfx, strlen(pfx)) == 0], for a NUL-free [pfx]. *)
Fixpoint starts_with (pfx s : cstring) : bool :=
  match pfx, s with
  | [], _ => true
  | p :: pfx', c :: s' => Ascii.eqb p c && starts_with pfx' s'
  | _ :: _, [] => false
  end.

(** [strstr(hay, needle)]: the suffix of [hay] at the first
    occurrence of [needle], searched up to the end of the string. *)
Fixpoint strstr (hay needle : cstring) : option cstring :=
  if starts_with needle hay then Some hay
  else match hay with
       | [] => None
       | c :: hay' => if Ascii.eqb c NUL then None else strstr hay' needle
       end.

(** Pointer arithmetic [q + n] inside a string. *)
Definition advance (n : nat) (s : cstring) : cstring := drop n s.

End CStr.

Import CStr.

(** ** api_parse.c *)

Module ApiParse.

Definition is_blank (c : ascii) : bool :=
  (code c =? 32) || (code c =? 9).

Definition is_digit (c : ascii) : bool :=
  (48 <=? code c) && (code c <=? 57).

Definition digit_val (c : ascii) : Z := code c - 48.

(** [skip_ws] *)
Fixpoint skip_ws (s : cstring) : cstring :=
  match s with
  | c :: s' => if is_blank c then skip_ws s' else s
  | [] => []
  end.

(** [is_term_or_eol] *)
Definition is_term_or_eol (c : ascii) : bool :=
  (code c =? 0) || (code c =? 44) || (code c =? 32) || (code c =? 9)
  || (code c =? 13) || (code c =? 10).

(** The digit loop of [api_parse_u32]: [None] is the early
    [return 0] of the overflow check, otherwise the accumulator, the
    digit count and the rest of the string. *)
Fixpoint u32_digits (s : cstring) (acc nd : Z) : option (Z * Z * cstring) :=
  match s with
  | c :: s' =>
      if is_digit c then
        let d := wrap32 (digit_val c) in
        if (429496729 <? acc) || ((acc =? 429496729) && (5 <? d)) then None
        else u32_digits s' (wrap32 (acc * 10 + d)) (nd + 1)
      else Some (acc, nd, s)
  | [] => Some (acc, nd, [])
  end.

(** [api_parse_u32]: [Some v] stands for "returns 1 with [*out = v]",
    [None] for "returns 0" ([*out] is then not written).  Both
    pointers are non-null at every call site. *)
Definition api_parse_u32 (s : cstring) : option Z :=
  match u32_digits (skip_ws s) 0 0 with
  | None => None
  | Some (acc, nd, s1) =>
      if nd =? 0 then None
      else if is_term_or_eol (peek (skip_ws s1)) then Some acc
      else None
  end.

(** The accepted language, with the set of terminating characters as
    a parameter: blanks, a non-empty run of digits of value [v] that
    fits 32 bits, blanks, and then a terminator (the end of the string
    counts as NUL); what follows the terminator is free. *)
Definition digits_value (ds : list ascii) : Z :=
  fold_left (fun a c => a * 10 + digit_val c) ds 0.

Definition u32_grammar (term : ascii -> bool) (s : cstring) (v : Z) : Prop :=
  exists ws1 ds ws2 rest,
    s = ws1 ++ ds ++ ws2 ++ rest /\
    forallb is_blank ws1 = true /\
    forallb is_digit ds = true /\ ds <> [] /\
    forallb is_blank ws2 = true /\
    term (peek rest) = true /\
    digits_value ds = v /\ v <= UINT32_MAX.

(** NUL, comma, CR or LF. *)
Definition is_hard_term (c : ascii) : bool :=
  (code c =? 0) || (code c =? 44) || (code c =? 13) || (code c =? 10).

Definition is_sign (c : ascii) : bool :=
  (code c =? 43) || (code c =? 45).

End ApiParse.

Import ApiParse.


(** ** C floating point *)

Module CFloat.
Import SpecFloat.

(** [float] is binary32 (24 bits of precision, exponents up to
    128), [double] is binary64 (53 bits, exponents up to 1024). *)
Definition float : Set := spec_float.
Definition double : Set := spec_float.

(** [(float)n] and [(double)n] for an unsigned integer [n]. *)
Definition float_of_u32 (n : Z) : float := binary_normalize 24 128 n 0 false.
Definition double_of_u32 (n : Z) : double := binary_normalize 53 1024 n 0 false.

(** [(float)v] for a [double] [v]. *)
Definition float_of_double (v : double) : float :=
  match v with
  | S754_finite s m e => binary_round 24 128 s m e
  | _ => v
  end.

Definition float_div (a b : float) : float := SFdiv 24 128 a b.
Definition double_div (a b : double) : double := SFdiv 53 1024 a b.
Definition double_add (a b : double) : double := SFadd 53 1024 a b.

(** Unary minus, on both types. *)
Definition neg (v : spec_float) : spec_float := SFopp v.

(** [a < b] *)
Definition lt (a b : spec_float) : bool := SFltb a b.

End CFloat.

(** ** protocol_crc16.h *)

Module Crc16.

Definition PROTO_CRC16_POLY : Z := 0x1021.
Definition PROTO_CRC16_INIT : Z := 0xFFFF.

Definition byte_val (b : Byte.byte) : Z := Z.of_N (Byte.to_N b).

(** One round of the [for] loop of [proto_crc16_update_byte]:
    [if (crc & 0x8000u) crc = (uint16_t)((crc << 1) ^ POLY);
     else crc = (uint16_t)(crc << 1);] *)
Definition crc_round (crc : Z) : Z :=
  if negb (Z.land crc 0x8000 =? 0)
  then wrap16 (Z.lxor (Z.shiftl crc 1) PROTO_CRC16_POLY)
  else wrap16 (Z.shiftl crc 1).

(** [proto_crc16_update_byte] *)
Definition proto_crc16_update_byte (crc : Z) (b : Byte.byte) : Z :=
  let crc := wrap16 (Z.lxor crc (Z.shiftl (byte_val b) 8)) in
  Nat.iter 8 crc_round crc.

(** [proto_crc16_t] holds the running value only; [proto_crc16_init]
    sets it, [proto_crc16_update] feeds [len] bytes, and
    [proto_crc16_final] reads it back. *)
Definition proto_crc16_init : Z := wrap16 PROTO_CRC16_INIT.

Definition proto_crc16_update (crc : Z) (data : list Byte.byte) : Z :=
  fold_left proto_crc16_update_byte data crc.

Definition proto_crc16_final (crc : Z) : Z := crc.

(** [proto_crc16_buf] *)
Definition proto_crc16_buf (data : list Byte.byte) : Z :=
  proto_crc16_final (proto_crc16_update proto_crc16_init data).

(** *** Reference CRC-16/CCITT-FALSE

    The definition the specification names: a 16-bit shift register
    that starts at 0xFFFF and is fed the message one bit at a time,
    the most significant bit of each byte first (no input
    reflection).  Feeding a bit shifts the register left by one; when
    the bit shifted out differs from the message bit, the polynomial
    0x1021 is added (xor).  The register is read out as it is (no
    output reflection) and xored with 0x0000. *)

Definition byte_bits (b : Byte.byte) : list bool :=
  map (Z.testbit (byte_val b)) [7; 6; 5; 4; 3; 2; 1; 0].

Definition message_bits (data : list Byte.byte) : list bool :=
  flat_map byte_bits data.

Definition ref_feed (poly : Z) (reg : Z) (bit : bool) : Z :=
  let out := Z.testbit reg 15 in
  let reg' := (2 * reg) mod 2 ^ 16 in
  if xorb out bit then Z.lxor reg' poly else reg'.

Definition crc16_reference (poly init xorout : Z) (data : list Byte.byte) : Z :=
  Z.lxor (fold_left (ref_feed poly) (message_bits data) init) xorout.

Definition crc16_ccitt_false (data : list Byte.byte) : Z :=
  crc16_reference 0x1021 0xFFFF 0x0000 data.

(** The bytes of ["123456789\r\n"]. *)
Definition check_line : list Byte.byte :=
  list_byte_of_string "123456789" ++ [Byte.x0d; Byte.x0a].

End Crc16.

(** ** sensor_hal.c: ODR selection *)

Module Sensor.

(** [Sensor_SnapODR] *)
Definition Sensor_SnapODR (req : Z) : Z :=
  if 3200 <=? req then 3200
  else if 1600 <=? req then 1600
  else if 800 <=? req then 800
  else if 400 <=? req then 400
  else if 200 <=? req then 200
  else 100.

Definition supported_odr : list Z := [100; 200; 400; 800; 1600; 3200].

(** "Snap up": [r] is the smallest supported value that is at least
    [req]; requests above 3200 get 3200. *)
Definition snaps_up (req r : Z) : Prop :=
  In r supported_odr /\
  (req <= 3200 -> req <= r /\ forall s, In s supported_odr -> req <= s -> r <= s) /\
  (3200 < req -> r = 3200).

(** "Snap down": [r] is the largest supported value that is at most
    [req]; requests below 100 get 100. *)
Definition snaps_down (req r : Z) : Prop :=
  In r supported_odr /\
  (100 <= req -> r <= req /\ forall s, In s supported_odr -> s <= req -> s <= r) /\
  (req < 100 -> r = 100).

End Sensor.

(** ** Application context, telemetry and command handler

    main.h, app_context.h, telemetry.c, sensor_hal.c, streaming.c and
    cmd_handler.c.  The main loop runs every command to completion;
    interrupt handlers are not interleaved (they write none of the
    fields the properties below are about). *)

Module Fw.

Import Sensor.

(** *** main.h *)

Inductive OpMode_t :=
| OP_MODE_INIT | OP_MODE_IDLE
| OP_MODE_WAIT_CAL_ZERO | OP_MODE_TRG_CAL_ZERO | OP_MODE_WAIT_ARM | OP_MODE_ARMED
| OP_MODE_COUNTDOWN | OP_MODE_BURST | OP_MODE_BURST_SENDING
| OP_MODE_STATIC_RUN | OP_MODE_STREAMING | OP_MODE_ERROR.

Inductive TrgState_t := TRG_STATE_IDLE | TRG_STATE_ARMED | TRG_STATE_IN_HOLDOFF.

Definition OpMode_eqb (a b : OpMode_t) : bool :=
  match a, b with
  | OP_MODE_INIT, OP_MODE_INIT | OP_MODE_IDLE, OP_MODE_IDLE
  | OP_MODE_WAIT_CAL_ZERO, OP_MODE_WAIT_CAL_ZERO
  | OP_MODE_TRG_CAL_ZERO, OP_MODE_TRG_CAL_ZERO
  | OP_MODE_WAIT_ARM, OP_MODE_WAIT_ARM | OP_MODE_ARMED, OP_MODE_ARMED
  | OP_MODE_COUNTDOWN, OP_MODE_COUNTDOWN | OP_MODE_BURST, OP_MODE_BURST
  | OP_MODE_BURST_SENDING, OP_MODE_BURST_SENDING
  | OP_MODE_STATIC_RUN, OP_MODE_STATIC_RUN
  | OP_MODE_STREAMING, OP_MODE_STREAMING | OP_MODE_ERROR, OP_MODE_ERROR => true
  | _, _ => false
  end.

Definition TrgState_eqb (a b : TrgState_t) : bool :=
  match a, b with
  | TRG_STATE_IDLE, TRG_STATE_IDLE | TRG_STATE_ARMED, TRG_STATE_ARMED
  | TRG_STATE_IN_HOLDOFF, TRG_STATE_IN_HOLDOFF => true
  | _, _ => false
  end.

Record TriggerSettings_t := {
  k_mult : CFloat.float;
  win_ms : Z;
  hold_ms : Z
}.

Record RuntimeCfg_t := {
  hb_ms : Z;
  burst_ms : Z;
  odr_hz : Z;
  stream_rate_hz : Z
}.

Record DiagCounters_t := {
  i2c_fail : Z; ring_ovf : Z; live_drops : Z; hb_pauses : Z; last_err : Z
}.

Record TimeSync_t := {
  has_sync : bool; host_ms_at_sync : Z; tick_at_sync : Z
}.

(** *** app_context.h (the HAL handles are constant pointers and are
    left out) *)
Record AppContext_t := {
  op_mode : OpMode_t;
  trg_state : TrgState_t;
  state_timer_start_ms : Z;
  cfg : RuntimeCfg_t;
  trigger_settings : TriggerSettings_t;
  tsync : TimeSync_t;
  diag : DiagCounters_t;
  stop_flag : bool;
  is_dumping : bool;
  burst_abort_pending : bool;
  test_trigger_flag : bool
}.

Definition set_cfg (c : RuntimeCfg_t) (a : AppContext_t) : AppContext_t :=
  {| op_mode := op_mode a; trg_state := trg_state a;
     state_timer_start_ms := state_timer_start_ms a;
     cfg := c; trigger_settings := trigger_settings a;
     tsync := tsync a; diag := diag a; stop_flag := stop_flag a;
     is_dumping := is_dumping a; burst_abort_pending := burst_abort_pending a;
     test_trigger_flag := test_trigger_flag a |}.

Definition set_trigger_settings (t : TriggerSettings_t) (a : AppContext_t)
  : AppContext_t :=
  {| op_mode := op_mode a; trg_state := trg_state a;
     state_timer_start_ms := state_timer_start_ms a;
     cfg := cfg a; trigger_settings := t;
     tsync := tsync a; diag := diag a; stop_flag := stop_flag a;
     is_dumping := is_dumping a; burst_abort_pending := burst_abort_pending a;
     test_trigger_flag := test_trigger_flag a |}.

Definition set_stop_flag (b : bool) (a : AppContext_t) : AppContext_t :=
  {| op_mode := op_mode a; trg_state := trg_state a;
     state_timer_start_ms := state_timer_start_ms a;
     cfg := cfg a; trigger_settings := trigger_settings a;
     tsync := tsync a; diag := diag a; stop_flag := b;
     is_dumping := is_dumping a; burst_abort_pending := burst_abort_pending a;
     test_trigger_flag := test_trigger_flag a |}.

Definition set_hb_ms (v : Z) (c : RuntimeCfg_t) : RuntimeCfg_t :=
  {| hb_ms := v; burst_ms := burst_ms c; odr_hz := odr_hz c;
     stream_rate_hz := stream_rate_hz c |}.

(** [AppContext_Init] (the HAL handles apart). *)
Definition AppContext_Init : AppContext_t :=
  {| op_mode := OP_MODE_INIT; trg_state := TRG_STATE_IDLE;
     state_timer_start_ms := 0;
     cfg := {| hb_ms := 1000; burst_ms := 5000; odr_hz := 800;
               stream_rate_hz := 100 |};
     trigger_settings := {| k_mult := CFloat.float_of_u32 5; (* 5.0f *)
                            win_ms := 100; hold_ms := 1500 |};
     tsync := {| has_sync := false; host_ms_at_sync := 0; tick_at_sync := 0 |};
     diag := {| i2c_fail := 0; ring_ovf := 0; live_drops := 0; hb_pauses := 0;
                last_err := 0 |};
     stop_flag := false; is_dumping := false; burst_abort_pending := false;
     test_trigger_flag := false |}.

(** *** Lines handed to [COMM_Sendf]

    [MSG_ACK s] is the line ["ACK,SUBJECT=s"], [MSG_NACK s r c] the
    line ["NACK,SUBJECT=s,reason=r,code=c"], [MSG_ERROR] the line
    ["ERROR,src=..,code=..,msg=.."]; [MSG_LINE] is any other line. *)
Inductive Msg :=
| MSG_ACK (subject : string)
| MSG_NACK (subject reason : string) (code : Z)
| MSG_ERROR (src : string) (code : Z) (msg : string)
| MSG_LINE (text : string).

(** *** sensor_hal.c and streaming.c: module state *)

Inductive I2CState_t :=
| I2C_STATE_IDLE | I2C_STATE_WAIT_FIFO_DATA | I2C_STATE_DRAIN_STATUS
| I2C_STATE_CLEAR_INT_SOURCE.

Record SensorState := {
  g_sampling_active : bool;
  sample_ring_head : Z;
  sample_ring_tail : Z;
  g_i2c_state : I2CState_t
}.

Record StreamState := {
  g_stream_enabled : bool;
  g_stream_div : Z;
  g_stream_decim : Z;
  g_stream_seq : Z;
  g_stream_suspended : bool;
  g_stream_owns_timer : bool
}.

(** *** The board: the STM32 HAL and the peripherals behind it

    [true] stands for [HAL_OK].  [I2C1_AbortIfBusy] and
    [I2C1_WaitReady] poll the HAL until the bus is ready or their
    time-out has passed. *)
Class Board := {
  Hal : Type;
  HAL_I2C_Mem_Write : Z -> Z -> Hal -> bool * Hal;
  HAL_I2C_Mem_Read : Z -> Hal -> bool * Z * Hal;
  HAL_Delay : Z -> Hal -> Hal;
  I2C1_AbortIfBusy : Z -> Hal -> Hal;
  I2C1_WaitReady : Z -> Hal -> Hal;
  HAL_TIM_Base_Stop_IT : Hal -> Hal;
  HAL_TIM_Base_Init : Z -> Z -> Hal -> bool * Hal;
  (** private state of the burst manager, transport, trigger and
      countdown modules *)
  Rest : Type
}.

Section WithBoard.
Context {board : Board}.

Record World := {
  ctx : AppContext_t;
  tx : list Msg;
  sensor : SensorState;
  streaming : StreamState;
  tim3_prescaler : Z;
  tim3_period : Z;
  hal : Hal;
  rest : Rest;
  g_is_processing_command : bool
}.

Definition set_ctx (a : AppContext_t) (w : World) : World :=
  {| ctx := a; tx := tx w; sensor := sensor w; streaming := streaming w;
     tim3_prescaler := tim3_prescaler w; tim3_period := tim3_period w;
     hal := hal w; rest := rest w;
     g_is_processing_command := g_is_processing_command w |}.

Definition set_tx (t : list Msg) (w : World) : World :=
  {| ctx := ctx w; tx := t; sensor := sensor w; streaming := streaming w;
     tim3_prescaler := tim3_prescaler w; tim3_period := tim3_period w;
     hal := hal w; rest := rest w;
     g_is_processing_command := g_is_processing_command w |}.

Definition set_sensor (s : SensorState) (w : World) : World :=
  {| ctx := ctx w; tx := tx w; sensor := s; streaming := streaming w;
     tim3_prescaler := tim3_prescaler w; tim3_period := tim3_period w;
     hal := hal w; rest := rest w;
     g_is_processing_command := g_is_processing_command w |}.

Definition set_streaming (s : StreamState) (w : World) : World :=
  {| ctx := ctx w; tx := tx w; sensor := sensor w; streaming := s;
     tim3_prescaler := tim3_prescaler w; tim3_period := tim3_period w;
     hal := hal w; rest := rest w;
     g_is_processing_command := g_is_processing_command w |}.

Definition set_tim3 (presc period : Z) (w : World) : World :=
  {| ctx := ctx w; tx := tx w; sensor := sensor w; streaming := streaming w;
     tim3_prescaler := presc; tim3_period := period;
     hal := hal w; rest := rest w;
     g_is_processing_command := g_is_processing_command w |}.

Definition set_hal (h : Hal) (w : World) : World :=
  {| ctx := ctx w; tx := tx w; sensor := sensor w; streaming := streaming w;
     tim3_prescaler := tim3_prescaler w; tim3_period := tim3_period w;
     hal := h; rest := rest w;
     g_is_processing_command := g_is_processing_command w |}.

Definition set_processing (b : bool) (w : World) : World :=
  {| ctx := ctx w; tx := tx w; sensor := sensor w; streaming := streaming w;
     tim3_prescaler := tim3_prescaler w; tim3_period := tim3_period w;
     hal := hal w; rest := rest w;
     g_is_processing_command := b |}.

(** A call either returns or ends in [Error_Handler], which never
    returns; [Halted] carries the state the firmware stops in. *)
Inductive Outcome :=
| Done (w : World)
| Halted (w : World).

Definition bind (o : Outcome) (k : World -> Outcome) : Outcome :=
  match o with
  | Done w => k w
  | Halted w => Halted w
  end.

(** *** telemetry.c *)

Definition COMM_Sendf (m : Msg) (w : World) : World :=
  set_tx (tx w ++ [m]) w.

Definition Telemetry_SendACK (subject : string) (w : World) : World :=
  COMM_Sendf (MSG_ACK subject) w.

Definition Telemetry_SendNACK (subject reason : string) (code : Z) (w : World)
  : World :=
  COMM_Sendf (MSG_NACK subject reason code) w.

Definition Telemetry_SendERROR (src : string) (code : Z) (msg : string)
  (w : World) : World :=
  COMM_Sendf (MSG_ERROR src code msg) w.

(** [Error_Handler] (main.c) *)
Definition Error_Handler (w : World) : Outcome :=
  let w := Telemetry_SendERROR "HAL" 0 "fatal_error" w in
  Halted (set_hal (HAL_Delay 100 (hal w)) w).

(** *** sensor_hal.c *)

Definition Sensor_StartSampling (w : World) : World :=
  set_sensor {| g_sampling_active := true; sample_ring_head := 0;
                sample_ring_tail := 0; g_i2c_state := I2C_STATE_IDLE |} w.

Definition Sensor_StopSampling (w : World) : World :=
  set_sensor {| g_sampling_active := false;
                sample_ring_head := sample_ring_head (sensor w);
                sample_ring_tail := sample_ring_tail (sensor w);
                g_i2c_state := g_i2c_state (sensor w) |} w.

Definition Sensor_IsSampling (w : World) : bool :=
  g_sampling_active (sensor w).

Definition SENSOR_WRITE_VERIFY_RETRIES : nat := 3.
Definition ACCEL_REG_BW_RATE : Z := 0x2C.

(** [Sensor_WriteVerifyReg]: the retry loop, [tries] rounds left. *)
Fixpoint write_verify_loop (tries : nat) (reg value : Z) (h : Hal)
  : bool * Hal :=
  match tries with
  | O => (false, h)
  | S tries' =>
      let '(ok, h) := HAL_I2C_Mem_Write reg value h in
      if negb ok then write_verify_loop tries' reg value (HAL_Delay 1 h)
      else
        let '(ok, read_value, h) := HAL_I2C_Mem_Read reg h in
        if negb ok then write_verify_loop tries' reg value (HAL_Delay 1 h)
        else if read_value =? value then (true, h)
        else write_verify_loop tries' reg value (HAL_Delay 1 h)
  end.

Definition Sensor_WriteVerifyReg (reg value : Z) (w : World) : bool * World :=
  let '(ok, h) := write_verify_loop SENSOR_WRITE_VERIFY_RETRIES reg value (hal w) in
  (ok, set_hal h w).

(** [Sensor_SetODR] *)
Definition Sensor_SetODR (odr : Z) (w : World) : bool * World :=
  let rate_code :=
    if 3200 <=? odr then 0x0F
    else if 1600 <=? odr then 0x0E
    else if 800 <=? odr then 0x0D
    else if 400 <=? odr then 0x0C
    else if 200 <=? odr then 0x0B
    else 0x0A in
  let w := set_hal (I2C1_WaitReady 10 (I2C1_AbortIfBusy 10 (hal w))) w in
  let '(ok, w) := Sensor_WriteVerifyReg ACCEL_REG_BW_RATE rate_code w in
  if negb ok then (ok, Telemetry_SendERROR "I2C" 10 "set_odr_busy" w)
  else (ok, w).

(** [Sensor_ReconfigureTimer] *)
Definition Sensor_ReconfigureTimer (odr : Z) (w : World) : Outcome :=
  let odr := if odr =? 0 then 1 else odr in
  let w := set_hal (HAL_TIM_Base_Stop_IT (hal w)) w in
  let period := 100000 / odr in
  let period := if period <? 1 then 1 else period in
  let w := set_tim3 899 (wrap32 (period - 1)) w in
  let '(ok, h) := HAL_TIM_Base_Init 899 (wrap32 (period - 1)) (hal w) in
  let w := set_hal h w in
  if negb ok then Error_Handler w else Done w.

(** *** streaming.c *)

Definition Streaming_Reconfigure (w : World) : World :=
  let s := streaming w in
  if g_stream_enabled s then
    let w :=
      if g_stream_owns_timer s && OpMode_eqb (op_mode (ctx w)) OP_MODE_IDLE
      then Sensor_StopSampling w else w in
    set_streaming {| g_stream_enabled := false; g_stream_div := g_stream_div s;
                     g_stream_decim := 0; g_stream_seq := g_stream_seq s;
                     g_stream_suspended := true;
                     g_stream_owns_timer := false |} w
  else w.

Definition Streaming_UpdateDivider (w : World) : World :=
  let s := streaming w in
  let c := cfg (ctx w) in
  let div := if 0 <? stream_rate_hz c then odr_hz c / stream_rate_hz c else 1 in
  let div := if div =? 0 then 1 else div in
  set_streaming {| g_stream_enabled := g_stream_enabled s; g_stream_div := div;
                   g_stream_decim := g_stream_decim s;
                   g_stream_seq := g_stream_seq s;
                   g_stream_suspended := g_stream_suspended s;
                   g_stream_owns_timer := g_stream_owns_timer s |} w.

End WithBoard.

(** *** cmd_handler.c *)

(** The branches of [process_command] that are not spelled out
    below. *)
Inductive Verb :=
| V_HELLO | V_GET_STATUS | V_GET_CFG | V_TIME_SYNC | V_STREAM_START
| V_STREAM_STOP | V_GET_TRG | V_MODE | V_CAL_READY | V_ARM
| V_START_BURST_WEIGHT | V_START_BURST_DAMPING | V_GET_PREVIEW | V_GET_DIAG
| V_REBOOT | V_ZERO | V_TEST_FORCE_TRIGGER | V_ADXL_ST | V_DIAG_HW_TEST.

(** The rest of the firmware as the dispatcher sees it:
    [host_line_hook] is [BM_HandleHostLine] on a line that begins
    with ACK_BLK, NACK_BLK or ACK_COMPLETE, and [other_command] runs
    the branch of a verb of [Verb]. *)
Class Handlers {board : Board} := {
  host_line_hook : cstring -> World -> bool * World;
  other_command : Verb -> cstring -> World -> Outcome
}.

Section WithHandlers.
Context {board : Board} {handlers : Handlers}.

Definition is_some {A} (o : option A) : bool :=
  match o with Some _ => true | None => false end.

(** [cmd_exact] *)
Definition cmd_exact (line : cstring) (cmd : string) : bool :=
  starts_with (lit cmd) line &&
  (let c := peek (advance (String.length cmd) line) in
   (code c =? 0) || (code c =? 32) || (code c =? 44)).

(** [if ((q = strstr(line, key)) && api_parse_u32(q + strlen(key), &tmp))
     var = tmp;] with [dflt] the value [var] had. *)
Definition param_u32 (line : cstring) (key : string) (dflt : Z) : Z :=
  match strstr line (lit key) with
  | Some q =>
      match api_parse_u32 (advance (String.length key) q) with
      | Some v => v
      | None => dflt
      end
  | None => dflt
  end.

(** The values [Parse_SetCfg] works with after reading the line:
    the requested rate before it is snapped, and the three others
    as they would be stored. *)
Record SetCfgRequest := {
  req_odr_hz : Z;
  new_burst_ms : Z;
  new_hb_ms : Z;
  new_stream_rate : Z
}.

Definition SetCfg_request (line : cstring) (c : RuntimeCfg_t) : SetCfgRequest :=
  {| req_odr_hz := param_u32 line "odr_hz=" (odr_hz c);
     new_burst_ms := param_u32 line "burst_ms=" (burst_ms c);
     new_hb_ms := param_u32 line "hb_ms=" (hb_ms c);
     new_stream_rate := param_u32 line "stream_rate_hz=" (stream_rate_hz c) |}.

(** [Parse_SetCfg] *)
Definition Parse_SetCfg (line : cstring) (w : World) : Outcome :=
  let r := SetCfg_request line (cfg (ctx w)) in
  let eff_odr := Sensor_SnapODR (req_odr_hz r) in
  if (new_burst_ms r =? 0) || (600000 <? new_burst_ms r) then
    Done (Telemetry_SendNACK "SET_CFG" "param_range" 102 w)
  else if (0 <? new_hb_ms r) && (new_hb_ms r <? 100) then
    Done (Telemetry_SendNACK "SET_CFG" "param_range" 102 w)
  else if eff_odr <? new_stream_rate r then
    Done (Telemetry_SendNACK "SET_CFG" "param_range" 102 w)
  else if (0 <? new_stream_rate r)
          && negb (eff_odr mod new_stream_rate r =? 0) then
    Done (Telemetry_SendNACK "SET_CFG" "param_range" 102 w)
  else
    let old_odr := odr_hz (cfg (ctx w)) in
    let w := set_ctx (set_cfg {| hb_ms := new_hb_ms r;
                                 burst_ms := new_burst_ms r;
                                 odr_hz := eff_odr;
                                 stream_rate_hz := new_stream_rate r |}
                              (ctx w)) w in
    bind
      (if negb (old_odr =? eff_odr) then
         let was_sampling := Sensor_IsSampling w in
         let w := if was_sampling then Sensor_StopSampling w else w in
         let w := snd (Sensor_SetODR eff_odr w) in
         bind (Sensor_ReconfigureTimer eff_odr w) (fun w =>
         let w := if was_sampling then Sensor_StartSampling w else w in
         Done (Streaming_Reconfigure w))
       else Done w)
      (fun w => Done (Telemetry_SendACK "SET_CFG" (Streaming_UpdateDivider w))).

(** What the specification asks of the values a SET_CFG would
    store: [burst_ms] in [1, 600000], [hb_ms] zero or at least 100,
    [stream_rate_hz] at most the snapped rate and, when it is not
    zero, a divisor of it. *)
Definition SetCfg_valid (r : SetCfgRequest) : Prop :=
  let odr := Sensor_SnapODR (req_odr_hz r) in
  1 <= new_burst_ms r <= 600000 /\
  (new_hb_ms r = 0 \/ 100 <= new_hb_ms r) /\
  new_stream_rate r <= odr /\
  (new_stream_rate r <> 0 -> odr mod new_stream_rate r = 0).

Definition SetCfg_result (r : SetCfgRequest) : RuntimeCfg_t :=
  {| hb_ms := new_hb_ms r; burst_ms := new_burst_ms r;
     odr_hz := Sensor_SnapODR (req_odr_hz r);
     stream_rate_hz := new_stream_rate r |}.

Definition is_u32 (z : Z) : Prop := 0 <= z <= UINT32_MAX.

Definition cfg_wf (c : RuntimeCfg_t) : Prop :=
  is_u32 (hb_ms c) /\ is_u32 (burst_ms c) /\ is_u32 (odr_hz c) /\
  is_u32 (stream_rate_hz c).

(** The integer and the fraction loops of [api_parse_float_fixed3]. *)
Fixpoint float_int_part (s : cstring) (ip nd_int : Z) : Z * Z * cstring :=
  match s with
  | c :: s' =>
      if is_digit c
      then float_int_part s' (wrap32 (ip * 10 + wrap32 (digit_val c))) (nd_int + 1)
      else (ip, nd_int, s)
  | [] => (ip, nd_int, [])
  end.

Fixpoint float_frac_part (s : cstring) (fp nd_frac : Z)
  : option (Z * Z * cstring) :=
  match s with
  | c :: s' =>
      if is_digit c then
        if nd_frac <? 3
        then float_frac_part s' (wrap32 (fp * 10 + wrap32 (digit_val c)))
                             (nd_frac + 1)
        else None
      else Some (fp, nd_frac, s)
  | [] => Some (fp, nd_frac, [])
  end.

(** The end of [api_parse_float_fixed3]: the float made of the
    integer part [ip], the thousandths [fp] and the sign. *)
Definition float_combine (neg : bool) (ip fp : Z) : CFloat.float :=
  let scaled := ip in
  if 4294966 <? scaled then
    let v := CFloat.double_add
               (CFloat.double_of_u32 ip)
               (CFloat.double_div (CFloat.double_of_u32 fp)
                                  (CFloat.double_of_u32 1000)) in
    let v := if neg then CFloat.neg v else v in
    CFloat.float_of_double v
  else
    let scaled := wrap32 (wrap32 (scaled * 1000) + fp) in
    let v := CFloat.float_div (CFloat.float_of_u32 scaled)
                              (CFloat.float_of_u32 1000) in
    if neg then CFloat.neg v else v.

(** The loop that pads the fraction to three digits. *)
Fixpoint float_pad (fuel : nat) (fp nd_frac : Z) : Z :=
  match fuel with
  | O => fp
  | S fuel =>
      if nd_frac <? 3 then float_pad fuel (wrap32 (fp * 10)) (nd_frac + 1)
      else fp
  end.

(** [api_parse_float_fixed3] (api_parse.c): [Some v] stands for
    "returns 1 and stores [v]". *)
Definition api_parse_float_fixed3 (s : cstring) : option CFloat.float :=
  let s := skip_ws s in
  let '(neg, s) :=
    if is_sign (peek s) then (code (peek s) =? 45, advance 1 s)
    else (false, s) in
  let '(ip, nd_int, s) := float_int_part s 0 0 in
  match (if code (peek s) =? 46 then float_frac_part (advance 1 s) 0 0
         else Some (0, 0, s)) with
  | None => None
  | Some (fp, nd_frac, s) =>
      if (nd_int =? 0) && (nd_frac =? 0) then None
      else if negb (is_term_or_eol (peek (skip_ws s))) then None
      else
        let fp := float_pad 3 fp nd_frac in
        Some (float_combine neg ip fp)
  end.

(** [Parse_SetTrg] *)
Definition Parse_SetTrg (line : cstring) (w : World) : World :=
  let ts := trigger_settings (ctx w) in
  let ns_k_mult :=
    match strstr line (lit "k_mult=") with
    | Some q =>
        match api_parse_float_fixed3 (advance 7 q) with
        | Some v => v
        | None => k_mult ts
        end
    | None => k_mult ts
    end in
  let ns := {| k_mult := ns_k_mult;
               win_ms := param_u32 line "win_ms=" (win_ms ts);
               hold_ms := param_u32 line "hold_ms=" (hold_ms ts) |} in
  let valid := (100 <=? hold_ms ns) && (hold_ms ns <=? 10000) in
  if negb valid then Telemetry_SendNACK "SET_TRG" "param_range" 102 w
  else Telemetry_SendACK "SET_TRG" (set_ctx (set_trigger_settings ns (ctx w)) w).

(** [Parse_HB] *)
Definition Parse_HB (line : cstring) (w : World) : World :=
  let store v w := set_ctx (set_cfg (set_hb_ms v (cfg (ctx w))) (ctx w)) w in
  if is_some (strstr line (lit "OFF")) then
    Telemetry_SendACK "HB" (store 0 w)
  else if is_some (strstr line (lit "ON")) then
    let w := if hb_ms (cfg (ctx w)) =? 0 then store 1000 w else w in
    Telemetry_SendACK "HB" w
  else
    match strstr line (lit "ms=") with
    | Some p =>
        match api_parse_u32 (advance 3 p) with
        | Some v =>
            let v := if (0 <? v) && (v <? 100) then 100 else v in
            Telemetry_SendACK "HB" (store v w)
        | None => Telemetry_SendNACK "HB" "bad_arg" 101 w
        end
    | None => Telemetry_SendNACK "HB" "bad_arg" 101 w
    end.

(** The STOP branch of [process_command]. *)
Definition handle_stop (line : cstring) (w : World) : World :=
  let force := is_some (strstr line (lit ",FORCE")) in
  if OpMode_eqb (op_mode (ctx w)) OP_MODE_ARMED
     && TrgState_eqb (trg_state (ctx w)) TRG_STATE_ARMED
     && negb force
  then Telemetry_SendNACK "STOP" "blocked_while_armed" 201 w
  else set_ctx (set_stop_flag true (ctx w)) w.

(** [BM_HandleHostLine] (burst_mgr.c) with [TB_HandleHostLine]
    (transport_blocks.c): they act on lines that begin with
    ACK_BLK, NACK_BLK or ACK_COMPLETE only; on any other line both
    return 0 and write nothing. *)
Definition BM_HandleHostLine (line : cstring) (w : World) : bool * World :=
  if starts_with (lit "ACK_BLK") line || starts_with (lit "NACK_BLK") line
     || starts_with (lit "ACK_COMPLETE") line
  then host_line_hook line w
  else (false, w).

(** The loop that steps [line] over leading spaces. *)
Fixpoint skip_spaces (s : cstring) : cstring :=
  match s with
  | c :: s' => if code c =? 32 then skip_spaces s' else s
  | [] => []
  end.

(** The chain of [cmd_exact] tests of [process_command]. *)
Definition dispatch (line : cstring) (w : World) : Outcome :=
  if cmd_exact line "HELLO" then other_command V_HELLO line w
  else if cmd_exact line "GET_STATUS" then other_command V_GET_STATUS line w
  else if cmd_exact line "GET_CFG" then other_command V_GET_CFG line w
  else if cmd_exact line "SET_CFG" then Parse_SetCfg line w
  else if cmd_exact line "HB" then Done (Parse_HB line w)
  else if cmd_exact line "TIME_SYNC" then other_command V_TIME_SYNC line w
  else if cmd_exact line "STREAM_START" then other_command V_STREAM_START line w
  else if cmd_exact line "STREAM_STOP" then other_command V_STREAM_STOP line w
  else if cmd_exact line "GET_TRG" then other_command V_GET_TRG line w
  else if cmd_exact line "SET_TRG" then Done (Parse_SetTrg line w)
  else if cmd_exact line "MODE" then other_command V_MODE line w
  else if cmd_exact line "CAL_READY" then other_command V_CAL_READY line w
  else if cmd_exact line "ARM" then other_command V_ARM line w
  else if cmd_exact line "START_BURST_WEIGHT"
       then other_command V_START_BURST_WEIGHT line w
  else if cmd_exact line "START_BURST_DAMPING"
       then other_command V_START_BURST_DAMPING line w
  else if cmd_exact line "GET_PREVIEW" then other_command V_GET_PREVIEW line w
  else if cmd_exact line "STOP" then Done (handle_stop line w)
  else if cmd_exact line "GET_DIAG" then other_command V_GET_DIAG line w
  else if cmd_exact line "REBOOT" then other_command V_REBOOT line w
  else if cmd_exact line "ZERO" then other_command V_ZERO line w
  else if cmd_exact line "_TEST_FORCE_TRIGGER"
       then other_command V_TEST_FORCE_TRIGGER line w
  else if cmd_exact line "ADXL_ST" then other_command V_ADXL_ST line w
  else if cmd_exact line "DIAG_HW_TEST" then other_command V_DIAG_HW_TEST line w
  else Done (Telemetry_SendNACK "UNKNOWN" "unknown_command" 100 w).

(** [process_command]; the context pointer [s_ctx] is set. *)
Definition process_command (line : cstring) (w : World) : Outcome :=
  let w := set_processing true w in
  if code (peek line) =? 0 then Done (set_processing false w)
  else
    let line := skip_spaces line in
    let '(handled, w) := BM_HandleHostLine line w in
    if handled then Done (set_processing false w)
    else bind (dispatch line w) (fun w => Done (set_processing false w)).

End WithHandlers.

(** *** A board on which every HAL call succeeds (its state is the
    register file of the sensor), and handlers that do nothing; used
    to run the model on examples. *)

Definition ideal_board : Board := {|
  Hal := Z -> Z;
  HAL_I2C_Mem_Write := fun reg v h => (true, fun r => if r =? reg then v else h r);
  HAL_I2C_Mem_Read := fun reg h => (true, h reg, h);
  HAL_Delay := fun _ h => h;
  I2C1_AbortIfBusy := fun _ h => h;
  I2C1_WaitReady := fun _ h => h;
  HAL_TIM_Base_Stop_IT := fun h => h;
  HAL_TIM_Base_Init := fun _ _ h => (true, h);
  Rest := unit
|}.

Definition idle_handlers : Handlers (board := ideal_board) := {|
  host_line_hook := fun _ w => (false, w);
  other_command := fun _ _ w => Done w
|}.

(** The state after [AppContext_Init], [Streaming_Init] and
    [COMM_Init], with nothing sent yet. *)
Definition boot_world : World (board := ideal_board) :=
  Build_World (board := ideal_board) AppContext_Init []
    {| g_sampling_active := false; sample_ring_head := 0;
       sample_ring_tail := 0; g_i2c_state := I2C_STATE_IDLE |}
    {| g_stream_enabled := false; g_stream_div := 8;
       g_stream_decim := 0; g_stream_seq := 0;
       g_stream_suspended := false; g_stream_owns_timer := false |}
    0 0 (fun _ : Z => 0) tt false.

Definition outcome_world {board : Board} (o : Outcome) : World :=
  match o with Done w => w | Halted w => w end.

(** [process_command] on the ideal board. *)
Definition run_ideal (line : string) (w : World (board := ideal_board))
  : World (board := ideal_board) :=
  outcome_world (process_command (handlers := idle_handlers) (lit line) w).

Definition with_modes (m : OpMode_t) (t : TrgState_t)
  (w : World (board := ideal_board)) : World (board := ideal_board) :=
  set_ctx {| op_mode := m; trg_state := t;
             state_timer_start_ms := state_timer_start_ms (ctx w);
             cfg := cfg (ctx w); trigger_settings := trigger_settings (ctx w);
             tsync := tsync (ctx w); diag := diag (ctx w);
             stop_flag := stop_flag (ctx w); is_dumping := is_dumping (ctx w);
             burst_abort_pending := burst_abort_pending (ctx w);
             test_trigger_flag := test_trigger_flag (ctx w) |} w.

End Fw.

(** ** comm.c: the receive ring and the line assembler *)

Module Comm.

Definition PROTO_MAX_LINE : Z := 256.
Definition PROTO_EOL_LEN : Z := 2.
Definition LINE_BUFFER_SIZE : Z := PROTO_MAX_LINE.
Definition RX_RING_BUFFER_SIZE : Z := 2048.
Definition COMM_MAX_LINES_PER_CALL : Z := 8.
Definition COMM_MAX_MS_PER_CALL : Z := 2.

(** What the assembler does to the rest of the firmware, in order:
    a call [process_command(line_buffer)], or the line
    ["NACK,SUBJECT=UNKNOWN,reason=line_too_long,code=300"] handed to
    [COMM_Sendf]. *)
Inductive Event :=
| EvCommand (line : cstring)
| EvSend (m : Fw.Msg).

Definition NACK_line_too_long : Fw.Msg :=
  Fw.MSG_NACK "UNKNOWN" "line_too_long" 300.

(** The static variables of comm.c on the receive side. *)
Record CommState := {
  rx_ring_buffer : list ascii;
  rx_ring_head : Z;
  rx_ring_tail : Z;
  s_rx_overflow_count : Z;
  line_buffer : list ascii;
  line_len : Z;
  line_truncated : bool
}.

Definition set_line (buf : list ascii) (len : Z) (trunc : bool) (st : CommState)
  : CommState :=
  {| rx_ring_buffer := rx_ring_buffer st; rx_ring_head := rx_ring_head st;
     rx_ring_tail := rx_ring_tail st;
     s_rx_overflow_count := s_rx_overflow_count st;
     line_buffer := buf; line_len := len; line_truncated := trunc |}.

Definition set_tail (t : Z) (st : CommState) : CommState :=
  {| rx_ring_buffer := rx_ring_buffer st; rx_ring_head := rx_ring_head st;
     rx_ring_tail := t;
     s_rx_overflow_count := s_rx_overflow_count st;
     line_buffer := line_buffer st; line_len := line_len st;
     line_truncated := line_truncated st |}.

Definition is_eol (c : ascii) : bool := (code c =? 13) || (code c =? 10).

(** The string [process_command] is given: [line_buffer] up to the
    NUL written at index [line_len]. *)
Definition terminated_line (st : CommState) : cstring :=
  take (Z.to_nat (line_len st)) (line_buffer st).

(** The body of the [while] loop of [COMM_Process] (and of
    [COMM_Process_Budgeted]) for the byte [c] taken from the ring. *)
Definition line_step (c : ascii) (st : CommState) : CommState * list Event :=
  if is_eol c then
    if 0 <? line_len st then
      (set_line (<[Z.to_nat (line_len st) := NUL]> (line_buffer st)) 0 false st,
       [EvCommand (terminated_line st)])
    else if line_truncated st then
      (set_line (line_buffer st) 0 false st, [EvSend NACK_line_too_long])
    else (set_line (line_buffer st) 0 false st, [])
  else if negb (line_truncated st) then
    if line_len st <? LINE_BUFFER_SIZE - 1 then
      (set_line (<[Z.to_nat (line_len st) := c]> (line_buffer st))
                (wrap16 (line_len st + 1)) false st, [])
    else (set_line (line_buffer st) 0 true st, [])
  else (st, []).

(** The byte at [rx_ring_tail] is read and the tail moves on, modulo
    the size of the ring. *)
Definition ring_pop (st : CommState) : ascii * CommState :=
  (nth (Z.to_nat (rx_ring_tail st)) (rx_ring_buffer st) NUL,
   set_tail ((rx_ring_tail st + 1) mod RX_RING_BUFFER_SIZE) st).

(** [COMM_OnRxEvent]: the bytes the DMA received go into the ring; a
    byte that finds it full is counted and dropped. *)
Fixpoint rx_push (data : list ascii) (buf : list ascii) (local_head local_tail ovf : Z)
  : list ascii * Z * Z :=
  match data with
  | [] => (buf, local_head, ovf)
  | d :: data' =>
      let next_head := (local_head + 1) mod RX_RING_BUFFER_SIZE in
      if negb (next_head =? local_tail)
      then rx_push data' (<[Z.to_nat local_head := d]> buf) next_head local_tail ovf
      else rx_push data' buf local_head local_tail (wrap32 (ovf + 1))
  end.

Definition COMM_OnRxEvent (data : list ascii) (st : CommState) : CommState :=
  let '(buf, head, ovf) :=
    rx_push data (rx_ring_buffer st) (rx_ring_head st) (rx_ring_tail st)
            (s_rx_overflow_count st) in
  {| rx_ring_buffer := buf; rx_ring_head := head;
     rx_ring_tail := rx_ring_tail st; s_rx_overflow_count := ovf;
     line_buffer := line_buffer st; line_len := line_len st;
     line_truncated := line_truncated st |}.

(** [COMM_Process]: the loop runs until the ring is empty; [fuel]
    bounds the number of rounds.  The calls of [process_command] are
    taken to return. *)
Fixpoint COMM_Process_loop (fuel : nat) (st : CommState) : CommState * list Event :=
  match fuel with
  | O => (st, [])
  | S fuel' =>
      if rx_ring_head st =? rx_ring_tail st then (st, [])
      else
        let '(c, st) := ring_pop st in
        let '(st, ev) := line_step c st in
        let '(st, evs) := COMM_Process_loop fuel' st in
        (st, ev ++ evs)
  end.

(** The number of bytes waiting in the ring. *)
Definition rx_pending (st : CommState) : Z :=
  (rx_ring_head st - rx_ring_tail st) mod RX_RING_BUFFER_SIZE.

Definition COMM_Process (st : CommState) : CommState * list Event :=
  COMM_Process_loop (Z.to_nat (rx_pending st)) st.

(** [COMM_Process_Budgeted]: the same loop body, left after 8
    dispatched lines or when 2 ms have passed.  [tick n] is what
    [HAL_GetTick] returns at the check after the n-th byte of this
    call, [start_ms] what it returned on entry. *)
Fixpoint COMM_Process_Budgeted_loop (fuel : nat) (tick : nat -> Z) (start_ms : Z)
  (n : nat) (lines_processed : Z) (st : CommState) : CommState * list Event :=
  match fuel with
  | O => (st, [])
  | S fuel' =>
      if rx_ring_head st =? rx_ring_tail st then (st, [])
      else
        let '(c, st0) := ring_pop st in
        let '(st1, ev) := line_step c st0 in
        let lines_processed :=
          if is_eol c && (0 <? line_len st0)
          then wrap32 (lines_processed + 1) else lines_processed in
        if COMM_MAX_LINES_PER_CALL <=? lines_processed then (st1, ev)
        else if COMM_MAX_MS_PER_CALL <=? wrap32 (tick (S n) - start_ms)
        then (st1, ev)
        else
          let '(st2, evs) :=
            COMM_Process_Budgeted_loop fuel' tick start_ms (S n)
                                       lines_processed st1 in
          (st2, ev ++ evs)
  end.

Definition COMM_Process_Budgeted (tick : nat -> Z) (st : CommState)
  : CommState * list Event :=
  COMM_Process_Budgeted_loop (Z.to_nat (rx_pending st)) tick (tick O) O 0 st.

(** The bytes waiting in the ring, oldest first. *)
Fixpoint ring_bytes (n : nat) (buf : list ascii) (tail : Z) : list ascii :=
  match n with
  | O => []
  | S n' => nth (Z.to_nat tail) buf NUL
            :: ring_bytes n' buf ((tail + 1) mod RX_RING_BUFFER_SIZE)
  end.

Definition pending_bytes (st : CommState) : list ascii :=
  ring_bytes (Z.to_nat (rx_pending st)) (rx_ring_buffer st) (rx_ring_tail st).

(** The assembler run over a sequence of bytes. *)
Fixpoint feed (bytes : list ascii) (st : CommState) : CommState * list Event :=
  match bytes with
  | [] => (st, [])
  | c :: bytes' =>
      let '(st, ev) := line_step c st in
      let '(st, evs) := feed bytes' st in
      (st, ev ++ evs)
  end.

(** [COMM_Init] *)
Definition COMM_Init : CommState :=
  {| rx_ring_buffer := repeat NUL (Z.to_nat RX_RING_BUFFER_SIZE);
     rx_ring_head := 0; rx_ring_tail := 0; s_rx_overflow_count := 0;
     line_buffer := repeat NUL (Z.to_nat LINE_BUFFER_SIZE);
     line_len := 0; line_truncated := false |}.

(** At a line boundary: nothing assembled, no over-long line under
    way. *)
Definition at_line_start (st : CommState) : Prop :=
  line_len st = 0 /\ line_truncated st = false /\
  length (line_buffer st) = Z.to_nat LINE_BUFFER_SIZE.

Definition CR : ascii := ascii_of_nat 13.
Definition LF : ascii := ascii_of_nat 10.

End Comm.

(** ** transport_blocks.c: the BLOCKS sender *)

Module TB.

Import Crc16.

Definition TB_MAX_INFLIGHT : Z := 8.
Definition TB_MAX_QUEUE : Z := 16.
Definition PROTO_BLOCK_LINES_DEFAULT : Z := 128.
Definition PROTO_MAX_RETRIES : Z := 3.
Definition PROTO_BLOCK_TIMEOUT_MS : Z := 1000.

(** A line generator [gen] together with its [user] pointer: the
    bytes of line [index], the empty list when [gen] returns a value
    that is not positive. *)
Definition TB_GenLineFn := Z -> list Byte.byte.

(** [TB_BlockGen]; [None] is a NULL [gen]. *)
Record TB_BlockGen := {
  bg_gen : option TB_GenLineFn;
  bg_lines : Z
}.

Record tb_entry_t := {
  gen : option TB_GenLineFn;
  lines : Z;
  blk : Z;
  crc16 : Z;
  retries : Z;
  sent : bool;
  t_last_tx_ms : Z;
  inflight : bool;
  done : bool
}.

(** [memset(e, 0, sizeof( *e))] *)
Definition entry_zero : tb_entry_t :=
  {| gen := None; lines := 0; blk := 0; crc16 := 0; retries := 0;
     sent := false; t_last_tx_ms := 0; inflight := false; done := false |}.

(** What the sender does to the outside, in order: the lines it
    writes with the blocking writers, and its calls of
    [BM_EndAborted]. *)
Inductive TxEvent :=
| TxBlockHeader (burst_id blk lines crc16 : Z)
| TxData (line : list Byte.byte)
| TxBlockEnd (blk crc16 : Z)
| CallBmEndAborted (code : Z).

(** [g_tb]; the pointers of [inflight] are indices of [queue] slots.
    [wire] collects the events and [tick_reads] counts the calls of
    [HAL_GetTick]. *)
Record State := {
  window : Z;
  blk_lines : Z;
  max_retries : Z;
  burst_id : Z;
  next_blk : Z;
  burst_active : bool;
  queue : list tb_entry_t;
  q_head : Z;
  q_tail : Z;
  q_count : Z;
  inflight_ptrs : list nat;
  inflight_count : Z;
  wire : list TxEvent;
  tick_reads : nat
}.

Definition set_params (w bl mr : Z) (s : State) : State :=
  {| window := w; blk_lines := bl; max_retries := mr;
     burst_id := burst_id s; next_blk := next_blk s;
     burst_active := burst_active s; queue := queue s; q_head := q_head s;
     q_tail := q_tail s; q_count := q_count s;
     inflight_ptrs := inflight_ptrs s; inflight_count := inflight_count s;
     wire := wire s; tick_reads := tick_reads s |}.

Definition set_burst (id nb : Z) (act : bool) (s : State) : State :=
  {| window := window s; blk_lines := blk_lines s; max_retries := max_retries s;
     burst_id := id; next_blk := nb; burst_active := act;
     queue := queue s; q_head := q_head s;
     q_tail := q_tail s; q_count := q_count s;
     inflight_ptrs := inflight_ptrs s; inflight_count := inflight_count s;
     wire := wire s; tick_reads := tick_reads s |}.

Definition set_queue (q : list tb_entry_t) (s : State) : State :=
  {| window := window s; blk_lines := blk_lines s; max_retries := max_retries s;
     burst_id := burst_id s; next_blk := next_blk s;
     burst_active := burst_active s; queue := q; q_head := q_head s;
     q_tail := q_tail s; q_count := q_count s;
     inflight_ptrs := inflight_ptrs s; inflight_count := inflight_count s;
     wire := wire s; tick_reads := tick_reads s |}.

Definition set_q_indices (h t c : Z) (s : State) : State :=
  {| window := window s; blk_lines := blk_lines s; max_retries := max_retries s;
     burst_id := burst_id s; next_blk := next_blk s;
     burst_active := burst_active s; queue := queue s; q_head := h;
     q_tail := t; q_count := c;
     inflight_ptrs := inflight_ptrs s; inflight_count := inflight_count s;
     wire := wire s; tick_reads := tick_reads s |}.

Definition set_inflight (ptrs : list nat) (n : Z) (s : State) : State :=
  {| window := window s; blk_lines := blk_lines s; max_retries := max_retries s;
     burst_id := burst_id s; next_blk := next_blk s;
     burst_active := burst_active s; queue := queue s; q_head := q_head s;
     q_tail := q_tail s; q_count := q_count s;
     inflight_ptrs := ptrs; inflight_count := n;
     wire := wire s; tick_reads := tick_reads s |}.

Definition emit (evs : list TxEvent) (s : State) : State :=
  {| window := window s; blk_lines := blk_lines s; max_retries := max_retries s;
     burst_id := burst_id s; next_blk := next_blk s;
     burst_active := burst_active s; queue := queue s; q_head := q_head s;
     q_tail := q_tail s; q_count := q_count s;
     inflight_ptrs := inflight_ptrs s; inflight_count := inflight_count s;
     wire := wire s ++ evs; tick_reads := tick_reads s |}.

Definition set_tick_reads (n : nat) (s : State) : State :=
  {| window := window s; blk_lines := blk_lines s; max_retries := max_retries s;
     burst_id := burst_id s; next_blk := next_blk s;
     burst_active := burst_active s; queue := queue s; q_head := q_head s;
     q_tail := q_tail s; q_count := q_count s;
     inflight_ptrs := inflight_ptrs s; inflight_count := inflight_count s;
     wire := wire s; tick_reads := n |}.

(** The entry a pointer refers to, and a write through a pointer. *)
Definition entry_at (slot : nat) (s : State) : tb_entry_t :=
  nth slot (queue s) entry_zero.

Definition set_entry (slot : nat) (e : tb_entry_t) (s : State) : State :=
  set_queue (<[slot := e]> (queue s)) s.

Definition set_flags (i d : bool) (e : tb_entry_t) : tb_entry_t :=
  {| gen := gen e; lines := lines e; blk := blk e; crc16 := crc16 e;
     retries := retries e; sent := sent e; t_last_tx_ms := t_last_tx_ms e;
     inflight := i; done := d |}.

Definition set_retries (r : Z) (e : tb_entry_t) : tb_entry_t :=
  {| gen := gen e; lines := lines e; blk := blk e; crc16 := crc16 e;
     retries := r; sent := sent e; t_last_tx_ms := t_last_tx_ms e;
     inflight := inflight e; done := done e |}.

(** The static [g_tb] before any call: all zero. *)
Definition tb_zero : State :=
  {| window := 0; blk_lines := 0; max_retries := 0; burst_id := 0;
     next_blk := 0; burst_active := false;
     queue := repeat entry_zero (Z.to_nat TB_MAX_QUEUE);
     q_head := 0; q_tail := 0; q_count := 0;
     inflight_ptrs := repeat O (Z.to_nat TB_MAX_INFLIGHT); inflight_count := 0;
     wire := []; tick_reads := O |}.

Section WithClock.
(** [clock n] is what the n-th call of [HAL_GetTick] returns. *)
Variable clock : nat -> Z.

Definition HAL_GetTick (s : State) : Z * State :=
  (wrap32 (clock (tick_reads s)), set_tick_reads (S (tick_reads s)) s).

Definition _queue_full (s : State) : bool := TB_MAX_QUEUE <=? q_count s.
Definition _queue_empty (s : State) : bool := q_count s =? 0.

(** [_queue_push]: the slot, zeroed, or [None] for NULL. *)
Definition _queue_push (s : State) : option nat * State :=
  if _queue_full s then (None, s)
  else
    let slot := Z.to_nat (q_tail s) in
    let s := set_entry slot entry_zero s in
    (Some slot,
     set_q_indices (q_head s) (wrap8 ((q_tail s + 1) mod TB_MAX_QUEUE))
                   (wrap8 (q_count s + 1)) s).

(** [_queue_pop] *)
Definition _queue_pop (s : State) : option nat * State :=
  if _queue_empty s then (None, s)
  else
    (Some (Z.to_nat (q_head s)),
     set_q_indices (wrap8 ((q_head s + 1) mod TB_MAX_QUEUE)) (q_tail s)
                   (wrap8 (q_count s - 1)) s).

(** [_inflight_add] *)
Definition _inflight_add (slot : nat) (s : State) : State :=
  if inflight_count s <? TB_MAX_INFLIGHT then
    let s := set_inflight (<[Z.to_nat (inflight_count s) := slot]> (inflight_ptrs s))
                          (wrap8 (inflight_count s + 1)) s in
    let e := entry_at slot s in
    set_entry slot (set_flags true (done e) e) s
  else s.

(** The [for] loop of [_inflight_remove_index]:
    [inflight[i - 1] = inflight[i]] for [i] up to the count. *)
Fixpoint shift_down (steps : nat) (i : nat) (ptrs : list nat) : list nat :=
  match steps with
  | O => ptrs
  | S steps' => shift_down steps' (S i) (<[pred i := nth i ptrs O]> ptrs)
  end.

(** [_inflight_remove_index] *)
Definition _inflight_remove_index (idx : Z) (s : State) : State :=
  if inflight_count s <=? idx then s
  else
    let first := wrap8 (idx + 1) in
    set_inflight
      (shift_down (Z.to_nat (inflight_count s - first)) (Z.to_nat first)
                  (inflight_ptrs s))
      (wrap8 (inflight_count s - 1)) s.

Definition inflight_entry (i : Z) (s : State) : tb_entry_t :=
  entry_at (nth (Z.to_nat i) (inflight_ptrs s) O) s.

(** [_inflight_find_blk]: the index, or [None] for "returns 0". *)
Fixpoint find_from (fuel : nat) (i : Z) (b : Z) (s : State) : option Z :=
  match fuel with
  | O => None
  | S fuel' =>
      if i <? inflight_count s then
        let e := inflight_entry i s in
        if (blk e =? b) && inflight e then Some i
        else find_from fuel' (wrap8 (i + 1)) b s
      else None
  end.

Definition _inflight_find_blk (b : Z) (s : State) : option Z :=
  find_from (Z.to_nat (inflight_count s)) 0 b s.

(** The two loops of [_abort_all]. *)
Fixpoint abort_mark (fuel : nat) (i : Z) (s : State) : State :=
  match fuel with
  | O => s
  | S fuel' =>
      if i <? inflight_count s then
        let slot := nth (Z.to_nat i) (inflight_ptrs s) O in
        let e := entry_at slot s in
        abort_mark fuel' (wrap8 (i + 1)) (set_entry slot (set_flags false true e) s)
      else s
  end.

Fixpoint drain_queue (fuel : nat) (s : State) : State :=
  match fuel with
  | O => s
  | S fuel' =>
      if negb (_queue_empty s) then drain_queue fuel' (snd (_queue_pop s))
      else s
  end.

(** [_abort_all] *)
Definition _abort_all (s : State) : State :=
  let s := abort_mark (Z.to_nat (inflight_count s)) 0 s in
  let s := set_inflight (inflight_ptrs s) 0 s in
  let s := drain_queue (Z.to_nat (q_count s)) s in
  set_burst (burst_id s) (next_blk s) false s.

(** [TB_Init]; the arguments are converted to their C types. *)
Definition TB_Init (w bl mr : Z) (s : State) : State :=
  let w := wrap16 w in
  let bl := wrap16 bl in
  let mr := wrap8 mr in
  let w := if (w =? 0) || (TB_MAX_INFLIGHT <? w) then TB_MAX_INFLIGHT else w in
  let bl := if bl =? 0 then PROTO_BLOCK_LINES_DEFAULT else bl in
  let mr := if mr =? 0 then PROTO_MAX_RETRIES else mr in
  let s := set_params w bl mr s in
  let s := set_burst 0 0 false s in
  let s := set_q_indices 0 0 0 s in
  set_inflight (inflight_ptrs s) 0 s.

Definition TB_SetWindow (w : Z) (s : State) : State :=
  let w := wrap16 w in
  set_params (if w =? 0 then 1 else w) (blk_lines s) (max_retries s) s.

Definition TB_SetBlockLines (bl : Z) (s : State) : State :=
  let bl := wrap16 bl in
  set_params (window s) (if bl =? 0 then 1 else bl) (max_retries s) s.

Definition TB_SetMaxRetries (mr : Z) (s : State) : State :=
  let mr := wrap8 mr in
  set_params (window s) (blk_lines s) (if mr =? 0 then 1 else mr) s.

(** [TB_BeginBurst] *)
Definition TB_BeginBurst (id : Z) (s : State) : State :=
  let s := set_burst (wrap32 id) 1 true s in
  let s := set_q_indices 0 0 0 s in
  set_inflight (inflight_ptrs s) 0 s.

(** [TB_EndBurst] *)
Definition TB_EndBurst (s : State) : State :=
  set_burst (burst_id s) (next_blk s) false s.

(** [_compute_crc16] *)
Fixpoint crc_lines (n : nat) (i : Z) (g : TB_GenLineFn) (crc : Z) : Z :=
  match n with
  | O => proto_crc16_final crc
  | S n' =>
      match g i with
      | [] => 0
      | line => crc_lines n' (wrap16 (i + 1)) g (proto_crc16_update crc line)
      end
  end.

Definition _compute_crc16 (g : option TB_GenLineFn) (n : Z) : Z :=
  match g with
  | Some g => crc_lines (Z.to_nat n) 0 g proto_crc16_init
  | None => 0
  end.

(** The DATA lines of [_send_block]. *)
Fixpoint data_lines (n : nat) (i : Z) (g : TB_GenLineFn) : list TxEvent :=
  match n with
  | O => []
  | S n' =>
      match g i with
      | [] => data_lines n' (wrap16 (i + 1)) g
      | line => TxData line :: data_lines n' (wrap16 (i + 1)) g
      end
  end.

(** [_send_block] on the entry in [slot]. *)
Definition _send_block (slot : nat) (s : State) : State :=
  let e := entry_at slot s in
  let s := emit ([TxBlockHeader (burst_id s) (blk e) (lines e) (crc16 e)]
                 ++ match gen e with
                    | Some g => data_lines (Z.to_nat (lines e)) 0 g
                    | None => []
                    end
                 ++ [TxBlockEnd (blk e) (crc16 e)]) s in
  let '(now, s) := HAL_GetTick s in
  set_entry slot {| gen := gen e; lines := lines e; blk := blk e;
                    crc16 := crc16 e; retries := retries e; sent := true;
                    t_last_tx_ms := now; inflight := true; done := done e |} s.

(** [TB_EnqueueBlock]: the value returned and the new state. *)
Definition TB_EnqueueBlock (b : option TB_BlockGen) (s : State) : Z * State :=
  match b with
  | None => (0, s)
  | Some b =>
      let n := wrap16 (bg_lines b) in
      if negb (burst_active s) || negb (Fw.is_some (bg_gen b))
         || (n =? 0) || (blk_lines s <? n)
      then (0, s)
      else if _queue_full s then (0, s)
      else
        match _queue_push s with
        | (None, s) => (0, s)
        | (Some slot, s) =>
            let e := {| gen := bg_gen b; lines := n; blk := next_blk s;
                        crc16 := _compute_crc16 (bg_gen b) n;
                        retries := 0; sent := false; t_last_tx_ms := 0;
                        inflight := false; done := false |} in
            let s := set_burst (burst_id s) (wrap16 (next_blk s + 1))
                               (burst_active s) s in
            (1, set_entry slot e s)
        end
  end.

(** [_pump_send]: every round takes a block from the queue. *)
Fixpoint pump_send_loop (fuel : nat) (s : State) : State :=
  match fuel with
  | O => s
  | S fuel' =>
      if (inflight_count s <? window s) && negb (_queue_empty s) then
        match _queue_pop s with
        | (Some slot, s) =>
            pump_send_loop fuel' (_inflight_add slot (_send_block slot s))
        | (None, s) => s
        end
      else s
  end.

Definition _pump_send (s : State) : State :=
  pump_send_loop (Z.to_nat (q_count s)) s.

(** [_pump_timeouts]: every round either removes an entry or moves
    [i] on. *)
Fixpoint pump_timeouts_loop (fuel : nat) (now : Z) (i : Z) (s : State) : State :=
  match fuel with
  | O => s
  | S fuel' =>
      if i <? inflight_count s then
        let slot := nth (Z.to_nat i) (inflight_ptrs s) O in
        let e := entry_at slot s in
        if negb (inflight e) then
          pump_timeouts_loop fuel' now i (_inflight_remove_index i s)
        else if PROTO_BLOCK_TIMEOUT_MS <=? wrap32 (now - t_last_tx_ms e) then
          if retries e <? max_retries s then
            let s := set_entry slot (set_retries (wrap8 (retries e + 1)) e) s in
            pump_timeouts_loop fuel' now (wrap8 (i + 1)) (_send_block slot s)
          else
            pump_timeouts_loop fuel' now i
              (emit [CallBmEndAborted 400] (_abort_all s))
        else pump_timeouts_loop fuel' now (wrap8 (i + 1)) s
      else s
  end.

Definition _pump_timeouts (s : State) : State :=
  let '(now, s) := HAL_GetTick s in
  pump_timeouts_loop (Z.to_nat (inflight_count s)) now 0 s.

(** [TB_Pump] *)
Definition TB_Pump (s : State) : State :=
  if negb (burst_active s) then s
  else _pump_timeouts (_pump_send s).

(** [TB_IsIdle] *)
Definition TB_IsIdle (s : State) : bool :=
  (inflight_count s =? 0) && _queue_empty s.

(** [TB_OnAckBlk] *)
Definition TB_OnAckBlk (b : Z) (s : State) : State :=
  let b := wrap16 b in
  match _inflight_find_blk b s with
  | Some idx =>
      let slot := nth (Z.to_nat idx) (inflight_ptrs s) O in
      let e := entry_at slot s in
      _inflight_remove_index idx (set_entry slot (set_flags false true e) s)
  | None => s
  end.

(** [TB_OnNackBlk] *)
Definition TB_OnNackBlk (b code : Z) (s : State) : State :=
  let b := wrap16 b in
  let code := wrap32 code in
  match _inflight_find_blk b s with
  | Some idx =>
      let slot := nth (Z.to_nat idx) (inflight_ptrs s) O in
      let e := entry_at slot s in
      if retries e <? max_retries s then
        _send_block slot (set_entry slot (set_retries (wrap8 (retries e + 1)) e) s)
      else
        emit [CallBmEndAborted (if negb (code =? 0) then code else 400)]
             (_abort_all s)
  | None => s
  end.

(** *** Sequences of calls *)

Inductive Call :=
| CallInit (window blk_lines max_retries : Z)
| CallBeginBurst (burst_id : Z)
| CallEnqueueBlock (b : option TB_BlockGen)
| CallPump
| CallOnAckBlk (blk : Z)
| CallOnNackBlk (blk code : Z)
| CallEndBurst.

Definition run_call (s : State) (c : Call) : State :=
  match c with
  | CallInit w bl mr => TB_Init w bl mr s
  | CallBeginBurst id => TB_BeginBurst id s
  | CallEnqueueBlock b => snd (TB_EnqueueBlock b s)
  | CallPump => TB_Pump s
  | CallOnAckBlk b => TB_OnAckBlk b s
  | CallOnNackBlk b code => TB_OnNackBlk b code s
  | CallEndBurst => TB_EndBurst s
  end.

Definition run_calls (calls : list Call) : State :=
  fold_left run_call calls tb_zero.

End WithClock.

End TB.

(** ** burst_mgr.c: the median of the weight burst *)

Module Median.

Definition INT16_MIN : Z := -32768.
Definition INT_MAX : Z := 2147483647.

(** [arr[i]] and [arr[i] = v] on an [int16_t] array; the indices are
    C [int]s. *)
Definition get (arr : list Z) (i : Z) : Z := nth (Z.to_nat i) arr 0.
Definition put (arr : list Z) (i : Z) (v : Z) : list Z := <[Z.to_nat i := v]> arr.

(** [swap_int16(&arr[i], &arr[j])] *)
Definition swap_int16 (arr : list Z) (i j : Z) : list Z :=
  let temp := get arr i in
  let arr := put arr i (get arr j) in
  put arr j temp.

(** The [for] loop of [quickselect_int16], [steps] rounds from [j]. *)
Fixpoint partition_loop (steps : nat) (arr : list Z) (j high pivot i : Z)
  : Z * list Z :=
  match steps with
  | O => (i, arr)
  | S steps' =>
      if j <? high then
        if get arr j <? pivot
        then partition_loop steps' (swap_int16 arr i j) (j + 1) high pivot (i + 1)
        else partition_loop steps' arr (j + 1) high pivot i
      else (i, arr)
  end.

(** The [while] loop of [quickselect_int16]: the value returned and
    the array as it is left, or [None] when [fuel] rounds were not
    enough. *)
Fixpoint quickselect_loop (fuel : nat) (arr : list Z) (low high k : Z)
  : option (Z * list Z) :=
  match fuel with
  | O => None
  | S fuel' =>
      if low <=? high then
        if low =? high then Some (get arr low, arr)
        else
          let pivot_idx := low + Z.quot (high - low) 2 in
          let pivot := get arr pivot_idx in
          let arr := swap_int16 arr pivot_idx high in
          let '(i, arr) :=
            partition_loop (Z.to_nat (high - low)) arr low high pivot low in
          let arr := swap_int16 arr i high in
          if k =? i then Some (get arr i, arr)
          else if k <? i then quickselect_loop fuel' arr low (i - 1) k
          else quickselect_loop fuel' arr (i + 1) high k
      else Some (INT16_MIN, arr)
  end.

(** [quickselect_int16]: every round shrinks the window, so its width
    bounds the number of rounds. *)
Definition quickselect_int16 (arr : list Z) (low high k : Z)
  : option (Z * list Z) :=
  quickselect_loop (Z.to_nat (high - low + 1)) arr low high k.

(** [calculate_median_int16]: the median and the scratch buffer as
    it is left. *)
Definition calculate_median_int16 (data : list Z) (size : Z)
  : option (Z * list Z) :=
  if size =? 0 then Some (0, data)
  else if size =? 1 then Some (get data 0, data)
  else if Z.rem size 2 =? 1 then
    quickselect_int16 data 0 (size - 1) (Z.quot size 2)
  else
    let mid1_idx := Z.quot size 2 - 1 in
    let mid2_idx := Z.quot size 2 in
    match quickselect_int16 data 0 (size - 1) mid1_idx with
    | None => None
    | Some (mid1, data) =>
        match quickselect_int16 data (mid1_idx + 1) (size - 1) mid2_idx with
        | None => None
        | Some (mid2, data) => Some (to_int16 (Z.quot (mid1 + mid2) 2), data)
        end
    end.

Definition is_int16 (z : Z) : Prop := -32768 <= z <= 32767.

(** The median as the specification defines it, read off the sorted
    values: the element of rank n/2 for odd n, the mean of the
    elements of ranks n/2 - 1 and n/2, truncated toward zero, for
    even n, and 0 for no value at all. *)
Definition median_of_sorted (sorted : list Z) : Z :=
  let n := length sorted in
  if (n =? 0)%nat then 0
  else if Nat.odd n then nth (n / 2) sorted 0
  else Z.quot (nth (n / 2 - 1) sorted 0 + nth (n / 2) sorted 0) 2.

End Median.

(** ** api_parse.c: the 16-bit and 64-bit integer parsers *)

Module ApiParseInt.

Definition wrap64 (z : Z) : Z := z mod 2 ^ 64.
Definition UINT16_MAX : Z := 65535.
Definition UINT64_MAX : Z := 18446744073709551615.

(** The digit loop of [api_parse_u64]; [None] is the early
    [return 0] of the overflow check. *)
Fixpoint u64_digits (s : cstring) (acc nd : Z) : option (Z * Z * cstring) :=
  match s with
  | c :: s' =>
      if is_digit c then
        let d := wrap64 (digit_val c) in
        if (1844674407370955161 <? acc)
           || ((acc =? 1844674407370955161) && (5 <? d)) then None
        else u64_digits s' (wrap64 (acc * 10 + d)) (nd + 1)
      else Some (acc, nd, s)
  | [] => Some (acc, nd, [])
  end.

(** [api_parse_u64]: [Some v] stands for "returns 1 with [*out = v]",
    [None] for "returns 0". *)
Definition api_parse_u64 (s : cstring) : option Z :=
  match u64_digits (skip_ws s) 0 0 with
  | None => None
  | Some (acc, nd, s1) =>
      if nd =? 0 then None
      else if is_term_or_eol (peek (skip_ws s1)) then Some acc
      else None
  end.

(** The digit loop of [api_parse_u16]: the accumulator has 32 bits,
    and the test comes after the digit is added. *)
Fixpoint u16_digits (s : cstring) (acc nd : Z) : option (Z * Z * cstring) :=
  match s with
  | c :: s' =>
      if is_digit c then
        let acc := wrap32 (acc * 10 + wrap32 (digit_val c)) in
        if 65535 <? acc then None
        else u16_digits s' acc (nd + 1)
      else Some (acc, nd, s)
  | [] => Some (acc, nd, [])
  end.

(** [api_parse_u16] *)
Definition api_parse_u16 (s : cstring) : option Z :=
  match u16_digits (skip_ws s) 0 0 with
  | None => None
  | Some (acc, nd, s1) =>
      if nd =? 0 then None
      else if is_term_or_eol (peek (skip_ws s1)) then Some (wrap16 acc)
      else None
  end.

End ApiParseInt.

(** ** comm.c: the transmit ring and its DMA *)

Module CommTx.

Definition COMM_TX_RING_SIZE : Z := 4096.
Definition COMM_TX_DMA_SIZE : Z := 512.

(** The static variables of comm.c on the transmit side, and the
    lock [is_sending_debug_message] of dev_telemetry.c.  Two
    histories are kept with them: [uart] lists the transfers that
    were started, the bytes [HAL_UART_Transmit_DMA] was given each
    time it returned [HAL_OK]; [queued] lists the bytes the [memcpy]
    of [Telemetry_Write] put into the ring, in their order. *)
Record TxState := {
  tx_ring_buffer : list ascii;
  tx_ring_head : Z;
  tx_ring_tail : Z;
  tx_dma_busy : bool;
  tx_dma_buffer : list ascii;
  tx_dma_active_len : Z;
  s_tx_drop_count : Z;
  is_sending_debug_message : bool;
  uart : list (list ascii);
  queued : list (list ascii)
}.

(** [COMM_Init], the transmit side. *)
Definition COMM_Init : TxState :=
  {| tx_ring_buffer := repeat NUL (Z.to_nat COMM_TX_RING_SIZE);
     tx_ring_head := 0; tx_ring_tail := 0; tx_dma_busy := false;
     tx_dma_buffer := repeat NUL (Z.to_nat COMM_TX_DMA_SIZE);
     tx_dma_active_len := 0; s_tx_drop_count := 0;
     is_sending_debug_message := false; uart := []; queued := [] |}.

(** [memcpy(&dst[at], src, length src)] *)
Fixpoint memcpy (dst : list ascii) (at_ : nat) (src : list ascii) : list ascii :=
  match src with
  | [] => dst
  | c :: src' => memcpy (<[at_ := c]> dst) (S at_) src'
  end.

(** [_rb_free] *)
Definition _rb_free (st : TxState) : Z :=
  let head := tx_ring_head st in
  let tail := tx_ring_tail st in
  if tail <=? head
  then wrap16 ((COMM_TX_RING_SIZE - 1) - (head - tail))
  else wrap16 (tail - head - 1).

(** [_tx_rb_usage] *)
Definition _tx_rb_usage (st : TxState) : Z :=
  let head := tx_ring_head st in
  let tail := tx_ring_tail st in
  if tail <=? head then wrap16 (head - tail)
  else wrap16 (COMM_TX_RING_SIZE - (tail - head)).

(** [StartDmaTx]; [hal_ok] tells whether [HAL_UART_Transmit_DMA]
    returns [HAL_OK] when it is called. *)
Definition StartDmaTx (hal_ok : bool) (st : TxState) : TxState :=
  if tx_dma_busy st then st
  else if tx_ring_head st =? tx_ring_tail st then
    {| tx_ring_buffer := tx_ring_buffer st; tx_ring_head := tx_ring_head st;
       tx_ring_tail := tx_ring_tail st; tx_dma_busy := tx_dma_busy st;
       tx_dma_buffer := tx_dma_buffer st; tx_dma_active_len := 0;
       s_tx_drop_count := s_tx_drop_count st;
       is_sending_debug_message := is_sending_debug_message st;
       uart := uart st; queued := queued st |}
  else
    let len :=
      if tx_ring_tail st <? tx_ring_head st
      then wrap16 (tx_ring_head st - tx_ring_tail st)
      else wrap16 (COMM_TX_RING_SIZE - tx_ring_tail st) in
    let len := if COMM_TX_DMA_SIZE <? len then COMM_TX_DMA_SIZE else len in
    let dma :=
      memcpy (tx_dma_buffer st) 0
             (take (Z.to_nat len)
                   (drop (Z.to_nat (tx_ring_tail st)) (tx_ring_buffer st))) in
    if hal_ok then
      {| tx_ring_buffer := tx_ring_buffer st; tx_ring_head := tx_ring_head st;
         tx_ring_tail := tx_ring_tail st; tx_dma_busy := true;
         tx_dma_buffer := dma; tx_dma_active_len := len;
         s_tx_drop_count := s_tx_drop_count st;
         is_sending_debug_message := is_sending_debug_message st;
         uart := uart st ++ [take (Z.to_nat len) dma]; queued := queued st |}
    else
      {| tx_ring_buffer := tx_ring_buffer st; tx_ring_head := tx_ring_head st;
         tx_ring_tail := tx_ring_tail st; tx_dma_busy := false;
         tx_dma_buffer := dma; tx_dma_active_len := 0;
         s_tx_drop_count := s_tx_drop_count st;
       is_sending_debug_message := is_sending_debug_message st;
       uart := uart st; queued := queued st |}.

(** The saturating count of dropped bytes. *)
Definition count_drops (len : Z) (st : TxState) : TxState :=
  let drops := wrap32 len in
  {| tx_ring_buffer := tx_ring_buffer st; tx_ring_head := tx_ring_head st;
     tx_ring_tail := tx_ring_tail st; tx_dma_busy := tx_dma_busy st;
     tx_dma_buffer := tx_dma_buffer st;
     tx_dma_active_len := tx_dma_active_len st;
     s_tx_drop_count :=
       if s_tx_drop_count st <=? UINT32_MAX - drops
       then wrap32 (s_tx_drop_count st + drops) else UINT32_MAX;
     is_sending_debug_message := is_sending_debug_message st;
     uart := uart st; queued := queued st |}.

(** *** dev_telemetry.c, compiled in by [RXTX_DEBUG 1] *)

Definition set_debug_lock (b : bool) (st : TxState) : TxState :=
  {| tx_ring_buffer := tx_ring_buffer st; tx_ring_head := tx_ring_head st;
     tx_ring_tail := tx_ring_tail st; tx_dma_busy := tx_dma_busy st;
     tx_dma_buffer := tx_dma_buffer st;
     tx_dma_active_len := tx_dma_active_len st;
     s_tx_drop_count := s_tx_drop_count st;
     is_sending_debug_message := b;
     uart := uart st; queued := queued st |}.

(** What [printf] makes of [%u]: the decimal digits of an
    [unsigned], which has at most ten of them. *)
Fixpoint dec_digits (fuel : nat) (n : Z) (acc : list ascii) : list ascii :=
  match fuel with
  | O => acc
  | S fuel =>
      let acc := ascii_of_nat (Z.to_nat (48 + n mod 10)) :: acc in
      if n / 10 =? 0 then acc else dec_digits fuel (n / 10) acc
  end.

Definition fmt_u (n : Z) : list ascii := dec_digits 10 (wrap32 n) [].

(** The text of ["TX_ENQ: DROP, req=%u, free=%u\r\n"]. *)
Definition TX_ENQ_DROP (len free_before : Z) : list ascii :=
  lit "TX_ENQ: DROP, req=" ++ fmt_u len ++ lit ", free=" ++ fmt_u free_before
  ++ [Comm.CR; Comm.LF].

(** [DevTel_SendMessage] on the text [vsnprintf] makes of its
    arguments; [write] is the call of [Telemetry_Write].  [temp_buf]
    has [PROTO_MAX_LINE] bytes, and a text that does not fit it with
    the prefix is not sent. *)
Definition DevTel_SendMessage (write : list ascii -> TxState -> option (Z * TxState))
  (msg : list ascii) (st : TxState) : option TxState :=
  if is_sending_debug_message st then Some st
  else
    let st := set_debug_lock true st in
    let total_len := Z.of_nat (length (lit "[DEBUG] ")) in
    let sent :=
      if (0 <? total_len) && (total_len <? Comm.PROTO_MAX_LINE) then
        let len := Z.of_nat (length msg) in
        if 0 <? len then
          let total_len := total_len + len in
          if Comm.PROTO_MAX_LINE <=? total_len then Some st
          else
            match write (lit "[DEBUG] " ++ msg) st with
            | Some (_, st) => Some st
            | None => None
            end
        else Some st
      else Some st in
    match sent with
    | Some st => Some (set_debug_lock false st)
    | None => None
    end.

(** [DevTel_TxEnqueue] *)
Definition DevTel_TxEnqueue (write : list ascii -> TxState -> option (Z * TxState))
  (len free_before : Z) (dropped : bool) (st : TxState) : option TxState :=
  if dropped then DevTel_SendMessage write (TX_ENQ_DROP len free_before) st
  else Some st.

(** [Telemetry_Write]: the value returned and the new state.  It
    calls [DevTel_TxEnqueue], which calls it again for the debug
    line of a refused write; [fuel] bounds the depth of these calls.
    The calls of this module do not overlap otherwise: the interrupt
    handler [COMM_TxCpltCallback] runs between them. *)
Fixpoint Telemetry_Write_fuel (fuel : nat) (hal_ok : bool) (data : list ascii)
  (st : TxState) : option (Z * TxState) :=
  match fuel with
  | O => None
  | S fuel =>
      let len := Z.of_nat (length data) in
      if len =? 0 then Some (0, st)
      else
        let free_space := _rb_free st in
        if free_space <? len then
          let st := count_drops len st in
          match DevTel_TxEnqueue (Telemetry_Write_fuel fuel hal_ok)
                                 len free_space true st with
          | Some st => Some (0, st)
          | None => None
          end
        else
          let head := tx_ring_head st in
          let first_chunk_len := wrap16 (COMM_TX_RING_SIZE - head) in
          let first_chunk_len :=
            if len <? first_chunk_len then wrap16 len else first_chunk_len in
          let buf := memcpy (tx_ring_buffer st) (Z.to_nat head)
                            (take (Z.to_nat first_chunk_len) data) in
          let head := wrap16 ((head + first_chunk_len) mod COMM_TX_RING_SIZE) in
          let remaining_len := len - first_chunk_len in
          let buf := if 0 <? remaining_len
                     then memcpy buf 0 (drop (Z.to_nat first_chunk_len) data)
                     else buf in
          let head := if 0 <? remaining_len then wrap16 (head + remaining_len)
                      else head in
          let start_tx := negb (tx_dma_busy st) in
          let st :=
            {| tx_ring_buffer := buf; tx_ring_head := head;
               tx_ring_tail := tx_ring_tail st; tx_dma_busy := tx_dma_busy st;
               tx_dma_buffer := tx_dma_buffer st;
               tx_dma_active_len := tx_dma_active_len st;
               s_tx_drop_count := s_tx_drop_count st;
               is_sending_debug_message := is_sending_debug_message st;
               uart := uart st; queued := queued st ++ [data] |} in
          match DevTel_TxEnqueue (Telemetry_Write_fuel fuel hal_ok)
                                 len free_space false st with
          | Some st => Some (len, if start_tx then StartDmaTx hal_ok st else st)
          | None => None
          end
  end.

(** A call goes two deep at most: the write of the debug line finds
    the lock taken. *)
Definition Telemetry_Write (hal_ok : bool) (data : list ascii) (st : TxState)
  : Z * TxState :=
  match Telemetry_Write_fuel 2 hal_ok data st with
  | Some r => r
  | None => (0, st)
  end.

(** [COMM_TxCpltCallback] for USART2 *)
Definition COMM_TxCpltCallback (hal_ok : bool) (st : TxState) : TxState :=
  let done := tx_dma_active_len st in
  let tail := if negb (done =? 0)
              then wrap16 ((tx_ring_tail st + done) mod COMM_TX_RING_SIZE)
              else tx_ring_tail st in
  StartDmaTx hal_ok
    {| tx_ring_buffer := tx_ring_buffer st; tx_ring_head := tx_ring_head st;
       tx_ring_tail := tail; tx_dma_busy := false;
       tx_dma_buffer := tx_dma_buffer st; tx_dma_active_len := 0;
       s_tx_drop_count := s_tx_drop_count st;
       is_sending_debug_message := is_sending_debug_message st;
       uart := uart st; queued := queued st |}.

(** [COMM_TxIsIdle] *)
Definition COMM_TxIsIdle (st : TxState) : bool :=
  negb (tx_dma_busy st) && (tx_ring_head st =? tx_ring_tail st).

(** [COMM_TxFree] *)
Definition COMM_TxFree (st : TxState) : Z := _rb_free st.

(** [COMM_Sendf] on the text [vsnprintf] makes of its arguments:
    [vsnprintf] returns the length of the whole text and
    [temp_buf] has [PROTO_MAX_LINE + 1] bytes. *)
Definition COMM_Sendf (hal_ok : bool) (text : list ascii) (st : TxState)
  : Z * TxState :=
  let len := Z.of_nat (length text) in
  if len <=? 0 then (0, st)
  else if Comm.PROTO_MAX_LINE + 1 <=? len then (0, count_drops len st)
  else
    let '(n, st) := Telemetry_Write hal_ok text st in
    if n =? len then (len, st) else (0, st).

(** The bytes that wait in the ring, oldest first: [n] bytes from
    index [start] on, around the end of the buffer. *)
Definition ring_read (buf : list ascii) (start : Z) (n : nat) : list ascii :=
  map (fun i => nth (Z.to_nat ((start + Z.of_nat i) mod COMM_TX_RING_SIZE)) buf NUL)
      (seq 0 n).

Definition tx_pending (st : TxState) : list ascii :=
  ring_read (tx_ring_buffer st) (tx_ring_tail st) (Z.to_nat (_tx_rb_usage st)).

(** Calls of the module in some order. *)
Inductive TxOp :=
| OpWrite (data : list ascii) (hal_ok : bool)
| OpTxCplt (hal_ok : bool).

Definition tx_step (st : TxState) (op : TxOp) : TxState :=
  match op with
  | OpWrite data hal_ok => snd (Telemetry_Write hal_ok data st)
  | OpTxCplt hal_ok => COMM_TxCpltCallback hal_ok st
  end.

Definition tx_run (ops : list TxOp) : TxState :=
  fold_left tx_step ops COMM_Init.

End CommTx.

(** ** blocks_cfg.c: the BLOCKS parameters *)

Module BlocksCfg.

Record BlocksCfg_t := {
  window : Z;
  lines : Z;
  retries : Z
}.

(** [g_bc] before any call. *)
Definition bc_zero : BlocksCfg_t := {| window := 0; lines := 0; retries := 0 |}.

(** [BlocksCfg_Init]: the new [g_bc] and the transport it was
    applied to; the arguments are converted to their C types. *)
Definition BlocksCfg_Init (def_window def_lines def_retries : Z) (tb : TB.State)
  : BlocksCfg_t * TB.State :=
  let def_window := wrap16 def_window in
  let def_lines := wrap16 def_lines in
  let def_retries := wrap8 def_retries in
  let def_window :=
    if def_window <? 1 then 1 else if 8 <? def_window then 8 else def_window in
  let def_lines :=
    if def_lines <? 32 then 32 else if 512 <? def_lines then 512 else def_lines in
  let def_retries := if def_retries <? 1 then 1 else def_retries in
  let g_bc := {| window := def_window; lines := def_lines;
                 retries := def_retries |} in
  (g_bc,
   TB.TB_SetMaxRetries (retries g_bc)
     (TB.TB_SetBlockLines (lines g_bc) (TB.TB_SetWindow (window g_bc) tb))).

(** [BlocksCfg_Get] *)
Definition BlocksCfg_Get (g_bc : BlocksCfg_t) : BlocksCfg_t := g_bc.

(** [BlocksCfg_Set]: the value returned, the new [g_bc] and the
    transport. *)
Definition BlocksCfg_Set (w l r : Z) (tb : TB.State)
  : Z * BlocksCfg_t * TB.State :=
  let w := wrap16 w in
  let l := wrap16 l in
  let r := wrap8 r in
  let w := if w <? 1 then 1 else if 8 <? w then 8 else w in
  let l := if l <? 32 then 32 else if 512 <? l then 512 else l in
  let r := if r <? 1 then 1 else r in
  let g_bc := {| window := w; lines := l; retries := r |} in
  (1, g_bc,
   TB.TB_SetMaxRetries (retries g_bc)
     (TB.TB_SetBlockLines (lines g_bc) (TB.TB_SetWindow (window g_bc) tb))).

End BlocksCfg.

(** ** countdown.c *)

Module Countdown.

(** [g_cd] *)
Record cd_ctx_t := {
  active : bool;
  step : Z;
  last_ms : Z
}.

(** A line ["COUNTDOWN_ID,id=<id>"] handed to [COMM_Sendf] or
    [COMM_Send]. *)
Inductive CdMsg := COUNTDOWN_ID (id : Z).

(** [Countdown_Init] *)
Definition Countdown_Init : cd_ctx_t :=
  {| active := false; step := 0; last_ms := 0 |}.

(** [Countdown_Start]; [now] is what [HAL_GetTick] returns. *)
Definition Countdown_Start (seconds : Z) (now : Z) (g_cd : cd_ctx_t)
  : cd_ctx_t * list CdMsg :=
  let seconds := wrap8 seconds in
  let seconds := if seconds <? 5 then 5 else seconds in
  let seconds := if 10 <? seconds then 10 else seconds in
  ({| active := true; step := seconds; last_ms := wrap32 now |},
   [COUNTDOWN_ID seconds]).

(** [Countdown_Stop] *)
Definition Countdown_Stop (g_cd : cd_ctx_t) : cd_ctx_t * list CdMsg :=
  if negb (active g_cd) then (g_cd, [])
  else ({| active := false; step := step g_cd; last_ms := last_ms g_cd |},
        [COUNTDOWN_ID 0]).

Definition Countdown_IsActive (g_cd : cd_ctx_t) : bool := active g_cd.

(** [Countdown_Tick]; [now] is what [HAL_GetTick] returns. *)
Definition Countdown_Tick (now : Z) (g_cd : cd_ctx_t) : cd_ctx_t * list CdMsg :=
  if negb (active g_cd) then (g_cd, [])
  else
    let now := wrap32 now in
    if 1000 <=? wrap32 (now - last_ms g_cd) then
      if 1 <? step g_cd then
        let s := wrap8 (step g_cd - 1) in
        ({| active := true; step := s; last_ms := now |}, [COUNTDOWN_ID s])
      else ({| active := false; step := step g_cd; last_ms := now |}, [])
    else (g_cd, []).

(** Calls of [Countdown_Tick] one after the other, the tick read by
    each; the lines sent are collected. *)
Fixpoint ticks (nows : list Z) (g_cd : cd_ctx_t) : cd_ctx_t * list CdMsg :=
  match nows with
  | [] => (g_cd, [])
  | now :: nows' =>
      let '(g_cd, out1) := Countdown_Tick now g_cd in
      let '(g_cd, out2) := ticks nows' g_cd in
      (g_cd, out1 ++ out2)
  end.

End Countdown.

(** ** burst_mgr.c: a burst cut into blocks *)

Module Burst.

Definition SAMPLES_PER_BURST : Z := 8000.
Definition PROTO_BLOCK_LINES_DEFAULT : Z := 128.
Definition PROTO_MAX_LINE : Z := 256.

Definition BM_CTX_MAX_BLOCKS : Z :=
  (SAMPLES_PER_BURST + PROTO_BLOCK_LINES_DEFAULT - 1) / PROTO_BLOCK_LINES_DEFAULT.

(** [total_blocks] of [ProcessAndTransmitBurstData], from the
    [samples] collected; the sum is unsigned, the result a
    [uint16_t]. *)
Definition total_blocks (samples : Z) : Z :=
  let t := wrap16 (wrap32 (samples + PROTO_BLOCK_LINES_DEFAULT - 1)
                   / PROTO_BLOCK_LINES_DEFAULT) in
  if BM_CTX_MAX_BLOCKS <? t then BM_CTX_MAX_BLOCKS else t.

(** [g_burst_gen_ctxs[i].base] as [ProcessAndTransmitBurstData]
    sets it. *)
Definition gen_ctx_base (i : Z) : Z :=
  wrap16 (wrap32 (i * PROTO_BLOCK_LINES_DEFAULT)).

(** [lines_in_block] of [BurstManager_Pump] in
    [OP_MODE_BURST_SENDING]. *)
Definition lines_in_block (next_block total samples : Z) : Z :=
  wrap16 (if next_block =? total - 1
          then wrap32 (samples - wrap32 (next_block * PROTO_BLOCK_LINES_DEFAULT))
          else PROTO_BLOCK_LINES_DEFAULT).

Section Lines.
(** [render i] is the text [snprintf] builds for sample [i]:
    ["DATA,<ts_us>,<ax>,<ay>,<az>,0.000"] and the end of line; its
    length is what [snprintf] returns. *)
Variable render : Z -> list Byte.byte.

(** [GenDataLine] with [user] pointing to a context of base [base];
    the empty list stands for -1. *)
Definition GenDataLine (base : Z) (out_sz : Z) (index : Z) : list Byte.byte :=
  let i := wrap16 (base + index) in
  if SAMPLES_PER_BURST <=? i then []
  else
    let line := render i in
    if out_sz <=? Z.of_nat (length line) then [] else line.

(** The block [BurstManager_Pump] hands to [BM_Enqueue] when
    [g_burst_tx_next_block] is [next_block]. *)
Definition block_generator (next_block total samples : Z) : TB.TB_BlockGen :=
  {| TB.bg_gen := Some (GenDataLine (gen_ctx_base next_block) PROTO_MAX_LINE);
     TB.bg_lines := lines_in_block next_block total samples |}.

(** The lines of a block, as [_send_block] asks for them. *)
Definition block_lines (b : TB.TB_BlockGen) : list (list Byte.byte) :=
  match TB.bg_gen b with
  | Some g => map (fun i => g (Z.of_nat i)) (seq 0 (Z.to_nat (TB.bg_lines b)))
  | None => []
  end.

End Lines.

End Burst.

(** ** sensor_hal.c and streaming.c: live samples

    The interrupt that delivers a sample is taken between two calls
    of the main loop; [Streaming_Pump] copies the hand-over buffer
    with interrupts disabled. *)

Module Live.
Import Fw.

(** [Sample_t] *)
Record Sample_t := {
  x : Z;
  y : Z;
  z : Z;
  timestamp : Z
}.

(** What [Sensor_TicksToUs] reads from the clock tree and from
    TIM2. *)
Record TimerClock := {
  pclk1 : Z;
  ppre1_is_div1 : bool;
  tim2_prescaler : Z
}.

(** [Sensor_TicksToUs] *)
Definition Sensor_TicksToUs (clk : TimerClock) (ticks : Z) : Z :=
  let timclk := pclk1 clk in
  let timclk := if negb (ppre1_is_div1 clk) then wrap32 (timclk * 2) else timclk in
  let tick_hz := timclk / wrap32 (tim2_prescaler clk + 1) in
  if tick_hz =? 0 then 0
  else
    let us := (ticks * 1000000) / tick_hz in
    if 4294967295 <? us then 4294967295 else wrap32 us.

(** [g_live_buf] *)
Record live_buf_t := {
  buf_seq : Z;
  buf_x : Z;
  buf_y : Z;
  buf_z : Z;
  buf_ts_us : Z
}.

(** A line ["LIVE,seq=..,ax=..,ay=..,az=..,ts_us=.."] handed to
    [COMM_Sendf]. *)
Record LiveLine := {
  live_seq : Z;
  live_ax : Z;
  live_ay : Z;
  live_az : Z;
  live_ts_us : Z
}.

Section WithBoard.
Context {board : Board}.

(** The firmware state with the hand-over buffer of streaming.c;
    [live_tx] lists the LIVE lines handed to [COMM_Sendf]. *)
Record LiveWorld := {
  fw : World;
  g_live_ready : bool;
  g_live_buf : live_buf_t;
  live_tx : list LiveLine
}.

Definition set_fw (w : World) (l : LiveWorld) : LiveWorld :=
  {| fw := w; g_live_ready := g_live_ready l; g_live_buf := g_live_buf l;
     live_tx := live_tx l |}.

Definition set_live_ready (b : bool) (l : LiveWorld) : LiveWorld :=
  {| fw := fw l; g_live_ready := b; g_live_buf := g_live_buf l;
     live_tx := live_tx l |}.

Definition set_diag (d : DiagCounters_t) (a : AppContext_t) : AppContext_t :=
  {| op_mode := op_mode a; trg_state := trg_state a;
     state_timer_start_ms := state_timer_start_ms a;
     cfg := cfg a; trigger_settings := trigger_settings a;
     tsync := tsync a; diag := d; stop_flag := stop_flag a;
     is_dumping := is_dumping a; burst_abort_pending := burst_abort_pending a;
     test_trigger_flag := test_trigger_flag a |}.

Definition set_is_dumping (b : bool) (a : AppContext_t) : AppContext_t :=
  {| op_mode := op_mode a; trg_state := trg_state a;
     state_timer_start_ms := state_timer_start_ms a;
     cfg := cfg a; trigger_settings := trigger_settings a;
     tsync := tsync a; diag := diag a; stop_flag := stop_flag a;
     is_dumping := b; burst_abort_pending := burst_abort_pending a;
     test_trigger_flag := test_trigger_flag a |}.

Definition set_stream (enabled owns : bool) (decim seq_no : Z) (s : StreamState)
  : StreamState :=
  {| g_stream_enabled := enabled; g_stream_div := g_stream_div s;
     g_stream_decim := decim; g_stream_seq := seq_no;
     g_stream_suspended := g_stream_suspended s;
     g_stream_owns_timer := owns |}.

(** [Streaming_Init] *)
Definition Streaming_Init (l : LiveWorld) : LiveWorld :=
  let s := {| g_stream_enabled := false;
              g_stream_div := if 1 <? 800 / 100 then 800 / 100 else 1;
              g_stream_decim := 0; g_stream_seq := 0;
              g_stream_suspended := false; g_stream_owns_timer := false |} in
  set_live_ready false (set_fw (set_streaming s (fw l)) l).

(** [Streaming_Start] *)
Definition Streaming_Start (l : LiveWorld) : LiveWorld :=
  let w := fw l in
  let s := streaming w in
  let w := set_streaming (set_stream (g_stream_enabled s) (g_stream_owns_timer s)
                                     0 0 s) w in
  let w := Streaming_UpdateDivider w in
  let idle := OpMode_eqb (op_mode (ctx w)) OP_MODE_IDLE in
  let w := if idle then Sensor_StartSampling w else w in
  let s := streaming w in
  let w := set_streaming (set_stream true idle (g_stream_decim s)
                                     (g_stream_seq s) s) w in
  let d := diag (ctx w) in
  let w := set_ctx (set_diag {| i2c_fail := i2c_fail d; ring_ovf := ring_ovf d;
                                live_drops := live_drops d;
                                hb_pauses := wrap32 (hb_pauses d + 1);
                                last_err := last_err d |}
                             (set_is_dumping true (ctx w))) w in
  set_fw w l.

(** [Streaming_Stop] *)
Definition Streaming_Stop (l : LiveWorld) : LiveWorld :=
  let w := fw l in
  let s := streaming w in
  let w := set_streaming (set_stream false (g_stream_owns_timer s)
                                     (g_stream_decim s) (g_stream_seq s) s) w in
  let w :=
    if OpMode_eqb (op_mode (ctx w)) OP_MODE_IDLE
       && g_stream_owns_timer (streaming w)
    then
      let w := Sensor_StopSampling w in
      let s := streaming w in
      set_streaming (set_stream (g_stream_enabled s) false (g_stream_decim s)
                                (g_stream_seq s) s) w
    else w in
  set_fw (set_ctx (set_is_dumping true (ctx w)) w) l.

(** [Streaming_Pump]; [tx_free] is what [COMM_TxFree] returns. *)
Definition Streaming_Pump (tx_free : Z) (l : LiveWorld) : LiveWorld :=
  if negb (g_live_ready l) then l
  else if negb (g_stream_enabled (streaming (fw l))) then set_live_ready false l
  else if 128 <? tx_free then
    let b := g_live_buf l in
    {| fw := fw l; g_live_ready := false; g_live_buf := b;
       live_tx := live_tx l ++ [{| live_seq := buf_seq b; live_ax := buf_x b;
                                   live_ay := buf_y b; live_az := buf_z b;
                                   live_ts_us := buf_ts_us b |}] |}
  else l.

(** [Streaming_ProcessSampleFromISR]; [tx_free] is what
    [COMM_TxFree] returns. *)
Definition Streaming_ProcessSampleFromISR (clk : TimerClock) (tx_free : Z)
  (s : Sample_t) (l : LiveWorld) : LiveWorld :=
  let st := streaming (fw l) in
  if negb (g_stream_enabled st) then l
  else
    let decim := wrap32 (g_stream_decim st + 1) in
    if g_stream_div st <=? decim then
      if negb (g_live_ready l) && (128 <? tx_free) then
        {| fw := set_streaming
                   (set_stream (g_stream_enabled st) (g_stream_owns_timer st) 0
                               (wrap32 (g_stream_seq st + 1)) st) (fw l);
           g_live_ready := true;
           g_live_buf := {| buf_seq := g_stream_seq st; buf_x := x s;
                            buf_y := y s; buf_z := z s;
                            buf_ts_us := Sensor_TicksToUs clk (timestamp s) |};
           live_tx := live_tx l |}
      else
        let w := set_streaming
                   (set_stream (g_stream_enabled st) (g_stream_owns_timer st) 0
                               (g_stream_seq st) st) (fw l) in
        let d := diag (ctx w) in
        set_fw (set_ctx (set_diag {| i2c_fail := i2c_fail d;
                                     ring_ovf := ring_ovf d;
                                     live_drops := wrap32 (live_drops d + 1);
                                     hb_pauses := hb_pauses d;
                                     last_err := last_err d |} (ctx w)) w) l
    else
      set_fw (set_streaming
                (set_stream (g_stream_enabled st) (g_stream_owns_timer st) decim
                            (g_stream_seq st) st) (fw l)) l.

(** What happens while streaming: a sample arrives, or the main
    loop pumps. *)
Inductive LiveOp :=
| OpSample (tx_free : Z) (s : Sample_t)
| OpPump (tx_free : Z).

Definition live_step (clk : TimerClock) (l : LiveWorld) (op : LiveOp) : LiveWorld :=
  match op with
  | OpSample tx_free s => Streaming_ProcessSampleFromISR clk tx_free s l
  | OpPump tx_free => Streaming_Pump tx_free l
  end.

Definition live_run (clk : TimerClock) (ops : list LiveOp) (l : LiveWorld)
  : LiveWorld :=
  fold_left (live_step clk) ops l.

End WithBoard.

End Live.

(** ** burst_mgr.c: the burst around the blocks *)

Module BM.
Import TB.

Inductive BM_Type := BM_TYPE_WEIGHT | BM_TYPE_DAMP_TRG | BM_TYPE_DAMP_CD.

(** [g_bm] *)
Record bm_ctx_t := {
  active : bool;
  waiting_ack_complete : bool;
  type : BM_Type;
  bm_burst_id : Z;
  done_pending : bool;
  aborted : bool;
  abort_code : Z;
  samples : Z;
  odr_hz : Z
}.

(** [memset(&g_bm, 0, sizeof(g_bm))] *)
Definition bm_zero : bm_ctx_t :=
  {| active := false; waiting_ack_complete := false; type := BM_TYPE_WEIGHT;
     bm_burst_id := 0; done_pending := false; aborted := false;
     abort_code := 0; samples := 0; odr_hz := 0 |}.

(** The lines [burst_mgr.c] hands to [COMM_Sendf]:
    ["DATA_HEADER,type=..,burst_id=..,ts0_us=..,samples=..,mode=CSV"],
    ["COMPLETE,burst_id=..,reason=aborted,code=.."] and
    ["COMPLETE,burst_id=..,samples=..,dropped=..,time_ms=.."]. *)
Inductive BmLine :=
| DATA_HEADER (type : BM_Type) (burst_id ts0_us samples : Z)
| COMPLETE_aborted (burst_id code : Z)
| COMPLETE (burst_id samples dropped time_ms : Z).

(** [BM_EndOk] *)
Definition BM_EndOk (g : bm_ctx_t) : bm_ctx_t :=
  if negb (active g) then g
  else {| active := active g; waiting_ack_complete := waiting_ack_complete g;
          type := type g; bm_burst_id := bm_burst_id g; done_pending := true;
          aborted := false; abort_code := abort_code g; samples := samples g;
          odr_hz := odr_hz g |}.

(** [BM_EndAborted] *)
Definition BM_EndAborted (code : Z) (g : bm_ctx_t) : bm_ctx_t :=
  if negb (active g) then g
  else {| active := active g; waiting_ack_complete := waiting_ack_complete g;
          type := type g; bm_burst_id := bm_burst_id g; done_pending := true;
          aborted := true; abort_code := wrap32 code; samples := samples g;
          odr_hz := odr_hz g |}.

(** The burst manager with the transport under it. *)
Record BmWorld := {
  g_bm : bm_ctx_t;
  tb : TB.State;
  bm_tx : list BmLine
}.

(** The calls of [BM_EndAborted] the transport made, carried out on
    [g_bm] in their order; the transport reads nothing of [g_bm]. *)
Definition callbacks (evs : list TxEvent) (g : bm_ctx_t) : bm_ctx_t :=
  fold_left (fun g ev => match ev with
                         | CallBmEndAborted code => BM_EndAborted code g
                         | _ => g
                         end) evs g.

(** A call into the transport from the state [w]: [tb'] is the
    transport after it. *)
Definition after_tb (tb' : TB.State) (w : BmWorld) : BmWorld :=
  {| g_bm := callbacks (drop (length (wire (tb w))) (wire tb')) (g_bm w);
     tb := tb'; bm_tx := bm_tx w |}.

Section WithClock.
Variable clock : nat -> Z.

(** [BM_Init] *)
Definition BM_Init (window blk_lines max_retries : Z) (w : BmWorld) : BmWorld :=
  {| g_bm := bm_zero; tb := TB_Init window blk_lines max_retries (tb w);
     bm_tx := bm_tx w |}.

(** [BM_Begin] *)
Definition BM_Begin (t : BM_Type) (burst_id ts0_us n odr : Z) (w : BmWorld)
  : BmWorld :=
  let g := g_bm w in
  let g := {| active := true; waiting_ack_complete := false; type := t;
              bm_burst_id := wrap32 burst_id; done_pending := done_pending g;
              aborted := aborted g; abort_code := abort_code g;
              samples := wrap16 n; odr_hz := wrap32 odr |} in
  {| g_bm := g; tb := TB_BeginBurst (wrap32 burst_id) (tb w);
     bm_tx := bm_tx w ++ [DATA_HEADER t (wrap32 burst_id) (wrap32 ts0_us)
                                      (wrap16 n)] |}.

(** [BM_Enqueue] *)
Definition BM_Enqueue (b : option TB_BlockGen) (w : BmWorld) : Z * BmWorld :=
  let '(r, tb') := TB_EnqueueBlock b (tb w) in
  (r, {| g_bm := g_bm w; tb := tb'; bm_tx := bm_tx w |}).

(** [TB_OnAckBlk] and [TB_OnNackBlk] as [TB_HandleHostLine] calls
    them. *)
Definition on_ack_blk (b : Z) (w : BmWorld) : BmWorld :=
  after_tb (TB_OnAckBlk b (tb w)) w.

Definition on_nack_blk (b code : Z) (w : BmWorld) : BmWorld :=
  after_tb (TB_OnNackBlk clock b code (tb w)) w.

(** [time_ms] of [BM_Pump]: 64-bit arithmetic, the quotient cut to
    32 bits. *)
Definition complete_time_ms (n odr : Z) : Z :=
  if 0 <? odr then
    let num := ApiParseInt.wrap64 (ApiParseInt.wrap64 (n * 1000) + odr / 2) in
    wrap32 (num / odr)
  else 0.

(** [BM_Pump] *)
Definition BM_Pump (w : BmWorld) : BmWorld :=
  if negb (active (g_bm w)) then w
  else
    let w := after_tb (TB_Pump clock (tb w)) w in
    let g := g_bm w in
    if done_pending g && negb (waiting_ack_complete g) && TB_IsIdle (tb w) then
      let line :=
        if aborted g then COMPLETE_aborted (bm_burst_id g) (abort_code g)
        else COMPLETE (bm_burst_id g) (samples g) 0
                      (complete_time_ms (samples g) (odr_hz g)) in
      {| g_bm := {| active := active g; waiting_ack_complete := true;
                    type := type g; bm_burst_id := bm_burst_id g;
                    done_pending := false; aborted := aborted g;
                    abort_code := abort_code g; samples := samples g;
                    odr_hz := odr_hz g |};
         tb := tb w; bm_tx := bm_tx w ++ [line] |}
    else w.

Definition BM_IsActive (w : BmWorld) : bool := active (g_bm w).
Definition BM_IsWaitingAckComplete (w : BmWorld) : bool :=
  waiting_ack_complete (g_bm w).

End WithClock.

End BM.

(** ** The operating mode and the trigger state

    Every function of the firmware that writes [op_mode],
    [trg_state] or [g_mode_before_burst], as far as these and the
    flags that steer them go.  A condition on a part of the state
    that is not kept here (the clock, the sample ring, the block
    transport, the countdown) is an input of the function that tests
    it. *)

Module Modes.
Import Fw.

(** [DataKind_t] (main.h) *)
Inductive DataKind_t := KIND_UNKNOWN | KIND_DAMP_TRG | KIND_DAMP_CD | KIND_WEIGHT.

Definition DataKind_eqb (a b : DataKind_t) : bool :=
  match a, b with
  | KIND_UNKNOWN, KIND_UNKNOWN | KIND_DAMP_TRG, KIND_DAMP_TRG
  | KIND_DAMP_CD, KIND_DAMP_CD | KIND_WEIGHT, KIND_WEIGHT => true
  | _, _ => false
  end.

(** The fields of [AppContext_t] and the statics of burst_mgr.c
    that decide the mode. *)
Record ModeState := {
  op_mode : OpMode_t;
  trg_state : TrgState_t;
  stop_flag : bool;
  burst_abort_pending : bool;
  test_trigger_flag : bool;
  g_current_kind : DataKind_t;
  g_mode_before_burst : OpMode_t;
  g_burst_after_countdown : bool;
  g_pending_burst_kind : DataKind_t
}.

Definition set_op_mode (m : OpMode_t) (s : ModeState) : ModeState :=
  {| op_mode := m; trg_state := trg_state s; stop_flag := stop_flag s;
     burst_abort_pending := burst_abort_pending s;
     test_trigger_flag := test_trigger_flag s;
     g_current_kind := g_current_kind s;
     g_mode_before_burst := g_mode_before_burst s;
     g_burst_after_countdown := g_burst_after_countdown s;
     g_pending_burst_kind := g_pending_burst_kind s |}.

Definition set_trg_state (t : TrgState_t) (s : ModeState) : ModeState :=
  {| op_mode := op_mode s; trg_state := t; stop_flag := stop_flag s;
     burst_abort_pending := burst_abort_pending s;
     test_trigger_flag := test_trigger_flag s;
     g_current_kind := g_current_kind s;
     g_mode_before_burst := g_mode_before_burst s;
     g_burst_after_countdown := g_burst_after_countdown s;
     g_pending_burst_kind := g_pending_burst_kind s |}.

Definition set_stop_flag (b : bool) (s : ModeState) : ModeState :=
  {| op_mode := op_mode s; trg_state := trg_state s; stop_flag := b;
     burst_abort_pending := burst_abort_pending s;
     test_trigger_flag := test_trigger_flag s;
     g_current_kind := g_current_kind s;
     g_mode_before_burst := g_mode_before_burst s;
     g_burst_after_countdown := g_burst_after_countdown s;
     g_pending_burst_kind := g_pending_burst_kind s |}.

Definition set_burst_abort_pending (b : bool) (s : ModeState) : ModeState :=
  {| op_mode := op_mode s; trg_state := trg_state s; stop_flag := stop_flag s;
     burst_abort_pending := b;
     test_trigger_flag := test_trigger_flag s;
     g_current_kind := g_current_kind s;
     g_mode_before_burst := g_mode_before_burst s;
     g_burst_after_countdown := g_burst_after_countdown s;
     g_pending_burst_kind := g_pending_burst_kind s |}.

Definition set_test_trigger_flag (b : bool) (s : ModeState) : ModeState :=
  {| op_mode := op_mode s; trg_state := trg_state s; stop_flag := stop_flag s;
     burst_abort_pending := burst_abort_pending s;
     test_trigger_flag := b;
     g_current_kind := g_current_kind s;
     g_mode_before_burst := g_mode_before_burst s;
     g_burst_after_countdown := g_burst_after_countdown s;
     g_pending_burst_kind := g_pending_burst_kind s |}.

(** [AppContext_Init], [BurstManager_Init]: the state when [main]
    starts. *)
Definition reset_state : ModeState :=
  {| op_mode := OP_MODE_INIT; trg_state := TRG_STATE_IDLE; stop_flag := false;
     burst_abort_pending := false; test_trigger_flag := false;
     g_current_kind := KIND_UNKNOWN; g_mode_before_burst := OP_MODE_IDLE;
     g_burst_after_countdown := false; g_pending_burst_kind := KIND_UNKNOWN |}.

(** [AppContext_SetOpMode] *)
Definition AppContext_SetOpMode (new_mode : OpMode_t) (s : ModeState) : ModeState :=
  if OpMode_eqb (op_mode s) new_mode then s else set_op_mode new_mode s.

(** The state when the main loop is entered (main.c). *)
Definition boot_state : ModeState := AppContext_SetOpMode OP_MODE_IDLE reset_state.

(** *** burst_mgr.c *)

(** [BurstManager_Reset] *)
Definition BurstManager_Reset (s : ModeState) : ModeState :=
  {| op_mode := op_mode s; trg_state := trg_state s; stop_flag := stop_flag s;
     burst_abort_pending := burst_abort_pending s;
     test_trigger_flag := test_trigger_flag s;
     g_current_kind := KIND_UNKNOWN;
     g_mode_before_burst := OP_MODE_IDLE;
     g_burst_after_countdown := false;
     g_pending_burst_kind := KIND_UNKNOWN |}.

(** [BurstManager_Configure] *)
Definition BurstManager_Configure (kind : DataKind_t) (s : ModeState) : ModeState :=
  {| op_mode := op_mode s; trg_state := trg_state s; stop_flag := stop_flag s;
     burst_abort_pending := burst_abort_pending s;
     test_trigger_flag := test_trigger_flag s;
     g_current_kind := g_current_kind s;
     g_mode_before_burst := op_mode s;
     g_burst_after_countdown := true;
     g_pending_burst_kind := kind |}.

(** [BurstManager_Start] *)
Definition BurstManager_Start (kind : DataKind_t) (s : ModeState) : ModeState :=
  AppContext_SetOpMode OP_MODE_BURST
    {| op_mode := op_mode s; trg_state := trg_state s; stop_flag := stop_flag s;
       burst_abort_pending := burst_abort_pending s;
       test_trigger_flag := test_trigger_flag s;
       g_current_kind := kind;
       g_mode_before_burst := g_mode_before_burst s;
       g_burst_after_countdown := g_burst_after_countdown s;
       g_pending_burst_kind := g_pending_burst_kind s |}.

(** [ProcessAndTransmitBurstData] *)
Definition ProcessAndTransmitBurstData (s : ModeState) : ModeState :=
  if DataKind_eqb (g_current_kind s) KIND_WEIGHT then
    BurstManager_Reset
      (AppContext_SetOpMode
         (if negb (OpMode_eqb (g_mode_before_burst s) OP_MODE_IDLE)
          then g_mode_before_burst s else OP_MODE_IDLE) s)
  else AppContext_SetOpMode OP_MODE_BURST_SENDING s.

(** What [BurstManager_Pump] asks of the rest: whether the sampling
    has stalled, whether the burst has its samples or its time is
    up, what [BM_IsActive] returns at each place it is called,
    [Countdown_IsActive] and [COMM_TxIsIdle]. *)
Record BurstEnv := {
  sampling_stalled : bool;
  burst_complete : bool;
  bm_active_on_stall : bool;
  bm_active_when_sending : bool;
  countdown_active : bool;
  bm_active_on_abort : bool;
  tx_idle : bool
}.

(** The end of [BurstManager_Pump], after the [switch]. *)
Definition pump_abort_pending (env : BurstEnv) (s : ModeState) : ModeState :=
  if burst_abort_pending s then
    if negb (bm_active_on_abort env) && tx_idle env then
      let s := BurstManager_Reset (set_burst_abort_pending false s) in
      let next_mode :=
        if DataKind_eqb (g_current_kind s) KIND_DAMP_TRG then OP_MODE_WAIT_ARM
        else g_mode_before_burst s in
      let next_mode :=
        if negb (OpMode_eqb next_mode OP_MODE_WAIT_ARM) then OP_MODE_IDLE
        else next_mode in
      AppContext_SetOpMode next_mode s
    else s
  else s.

(** [BurstManager_Pump] *)
Definition BurstManager_Pump (env : BurstEnv) (s : ModeState) : ModeState :=
  match op_mode s with
  | OP_MODE_BURST =>
      if sampling_stalled env then
        if bm_active_on_stall env then set_burst_abort_pending true s
        else
          let s := BurstManager_Reset s in
          AppContext_SetOpMode (g_mode_before_burst s) s
      else
        pump_abort_pending env
          (if burst_complete env then ProcessAndTransmitBurstData s else s)
  | OP_MODE_BURST_SENDING =>
      pump_abort_pending env
        (if negb (bm_active_when_sending env) && negb (burst_abort_pending s)
         then
           let s := BurstManager_Reset s in
           let next_mode :=
             if DataKind_eqb (g_current_kind s) KIND_DAMP_TRG
             then OP_MODE_WAIT_ARM else g_mode_before_burst s in
           let next_mode :=
             if OpMode_eqb next_mode OP_MODE_IDLE
                && negb (OpMode_eqb (g_mode_before_burst s) OP_MODE_IDLE)
             then g_mode_before_burst s
             else if negb (OpMode_eqb next_mode OP_MODE_WAIT_ARM)
                  then OP_MODE_IDLE else next_mode in
           AppContext_SetOpMode next_mode s
         else s)
  | OP_MODE_COUNTDOWN =>
      pump_abort_pending env
        (if negb (countdown_active env) then
           if g_burst_after_countdown s then
             let kind := g_pending_burst_kind s in
             BurstManager_Start kind
               {| op_mode := op_mode s; trg_state := trg_state s;
                  stop_flag := stop_flag s;
                  burst_abort_pending := burst_abort_pending s;
                  test_trigger_flag := test_trigger_flag s;
                  g_current_kind := g_current_kind s;
                  g_mode_before_burst := g_mode_before_burst s;
                  g_burst_after_countdown := false;
                  g_pending_burst_kind := KIND_UNKNOWN |}
           else AppContext_SetOpMode OP_MODE_IDLE s
         else s)
  | _ => pump_abort_pending env s
  end.

(** *** trigger_logic.c *)

(** [Trigger_Zero] *)
Definition Trigger_Zero (s : ModeState) : ModeState :=
  AppContext_SetOpMode OP_MODE_WAIT_ARM s.

(** What [Trigger_Pump] asks of the rest: [Countdown_IsActive],
    whether the hold-off time has passed, whether [Sensor_GetSample]
    has a sample, and [SimpleTrigger_Exceeds] on it. *)
Record TriggerEnv := {
  countdown_running : bool;
  holdoff_elapsed : bool;
  sample_available : bool;
  trigger_exceeds : bool
}.

(** [Trigger_Pump] *)
Definition Trigger_Pump (env : TriggerEnv) (s : ModeState) : ModeState :=
  if OpMode_eqb (op_mode s) OP_MODE_TRG_CAL_ZERO then
    if negb (countdown_running env) then Trigger_Zero s else s
  else
    let in_holdoff := TrgState_eqb (trg_state s) TRG_STATE_IN_HOLDOFF in
    if in_holdoff && negb (holdoff_elapsed env) then s
    else
      let s := if in_holdoff then set_trg_state TRG_STATE_ARMED s else s in
      if negb (TrgState_eqb (trg_state s) TRG_STATE_ARMED) then s
      else if test_trigger_flag s then
        let s := set_test_trigger_flag false s in
        let s := set_trg_state TRG_STATE_IN_HOLDOFF s in
        BurstManager_Start KIND_DAMP_TRG s
      else if negb (sample_available env) then s
      else if trigger_exceeds env then
        let s := set_trg_state TRG_STATE_IN_HOLDOFF s in
        BurstManager_Start KIND_DAMP_TRG s
      else s.

(** *** cmd_handler.c *)

(** [CmdHandler_HandleStop]; [bm_active] is what [BM_IsActive]
    returns. *)
Definition CmdHandler_HandleStop (bm_active : bool) (s : ModeState) : ModeState :=
  let prev_mode := op_mode s in
  if OpMode_eqb prev_mode OP_MODE_BURST
     || OpMode_eqb prev_mode OP_MODE_BURST_SENDING then
    if bm_active then set_burst_abort_pending true s
    else
      let s := BurstManager_Reset s in
      let next_mode :=
        if DataKind_eqb (g_current_kind s) KIND_DAMP_TRG then OP_MODE_WAIT_ARM
        else OP_MODE_IDLE in
      AppContext_SetOpMode next_mode s
  else
    let s := BurstManager_Reset s in
    let next_idle_mode :=
      if OpMode_eqb prev_mode OP_MODE_ARMED then OP_MODE_WAIT_ARM
      else OP_MODE_IDLE in
    AppContext_SetOpMode next_idle_mode s.

(** [Parse_StartBurstWeight] *)
Definition Parse_StartBurstWeight (line : cstring) (s : ModeState) : ModeState :=
  match strstr line (lit "cycles=") with
  | Some p =>
      match api_parse_u32 (advance 7 p) with
      | Some cycles =>
          if (cycles =? 0) || (1024 <? cycles) then s
          else
            AppContext_SetOpMode OP_MODE_COUNTDOWN
              (BurstManager_Configure KIND_WEIGHT s)
      | None => s
      end
  | None => s
  end.

(** [Parse_StartBurstDamping] *)
Definition Parse_StartBurstDamping (line : cstring) (s : ModeState) : ModeState :=
  match strstr line (lit "seconds=") with
  | Some p =>
      match api_parse_u32 (advance 8 p) with
      | Some seconds =>
          if (seconds =? 0) || (600 <? seconds) then s
          else
            AppContext_SetOpMode OP_MODE_COUNTDOWN
              (BurstManager_Configure KIND_DAMP_CD s)
      | None => s
      end
  | None => s
  end.

(** [Parse_Mode] *)
Definition Parse_Mode (line : cstring) (s : ModeState) : ModeState :=
  if is_some (strstr line (lit "TRIGGER_ON")) then
    if negb (OpMode_eqb (op_mode s) OP_MODE_IDLE) then s
    else
      let cd_ok :=
        match strstr line (lit "cd_s=") with
        | Some p =>
            match api_parse_u32 (advance 5 p) with
            | Some val => negb ((val <? 5) || (10 <? val))
            | None => false
            end
        | None => true
        end in
      if negb cd_ok then s
      else AppContext_SetOpMode OP_MODE_WAIT_CAL_ZERO s
  else if is_some (strstr line (lit "TRIGGER_OFF")) then
    AppContext_SetOpMode OP_MODE_IDLE (BurstManager_Reset s)
  else s.

(** [Parse_CalReady] *)
Definition Parse_CalReady (line : cstring) (s : ModeState) : ModeState :=
  if negb (OpMode_eqb (op_mode s) OP_MODE_WAIT_CAL_ZERO) then s
  else
    match strstr line (lit "phase=") with
    | Some p =>
        if starts_with (lit "hold_zero") (advance 6 p)
        then AppContext_SetOpMode OP_MODE_TRG_CAL_ZERO s
        else s
    | None => s
    end.

(** What [process_command] asks of the rest: whether
    [BM_HandleHostLine] takes the line, and
    [Trigger_IsZeroCalibrated]. *)
Record CommandEnv := {
  host_line_taken : bool;
  zero_calibrated : bool
}.

(** [process_command]; REBOOT ends in [HAL_NVIC_SystemReset], after
    which [main] starts again. *)
Definition process_command (line : cstring) (env : CommandEnv) (s : ModeState)
  : ModeState :=
  if code (peek line) =? 0 then s
  else
    let line := skip_spaces line in
    if (starts_with (lit "ACK_BLK") line || starts_with (lit "NACK_BLK") line
        || starts_with (lit "ACK_COMPLETE") line) && host_line_taken env
    then s
    else if cmd_exact line "HELLO" then
      AppContext_SetOpMode OP_MODE_IDLE (set_stop_flag false s)
    else if cmd_exact line "GET_STATUS" then s
    else if cmd_exact line "GET_CFG" then s
    else if cmd_exact line "SET_CFG" then s
    else if cmd_exact line "HB" then s
    else if cmd_exact line "TIME_SYNC" then s
    else if cmd_exact line "STREAM_START" then s
    else if cmd_exact line "STREAM_STOP" then s
    else if cmd_exact line "GET_TRG" then s
    else if cmd_exact line "SET_TRG" then s
    else if cmd_exact line "MODE" then Parse_Mode line s
    else if cmd_exact line "CAL_READY" then Parse_CalReady line s
    else if cmd_exact line "ARM" then
      if OpMode_eqb (op_mode s) OP_MODE_WAIT_ARM then
        if negb (zero_calibrated env) then s
        else AppContext_SetOpMode OP_MODE_ARMED (set_trg_state TRG_STATE_ARMED s)
      else s
    else if cmd_exact line "START_BURST_WEIGHT" then
      if OpMode_eqb (op_mode s) OP_MODE_IDLE then Parse_StartBurstWeight line s
      else s
    else if cmd_exact line "START_BURST_DAMPING" then
      if OpMode_eqb (op_mode s) OP_MODE_IDLE then Parse_StartBurstDamping line s
      else s
    else if cmd_exact line "GET_PREVIEW" then s
    else if cmd_exact line "STOP" then
      let force := is_some (strstr line (lit ",FORCE")) in
      if OpMode_eqb (op_mode s) OP_MODE_ARMED
         && TrgState_eqb (trg_state s) TRG_STATE_ARMED && negb force
      then s
      else set_stop_flag true s
    else if cmd_exact line "GET_DIAG" then s
    else if cmd_exact line "REBOOT" then boot_state
    else if cmd_exact line "ZERO" then s
    else if cmd_exact line "_TEST_FORCE_TRIGGER" then
      if OpMode_eqb (op_mode s) OP_MODE_ARMED then set_test_trigger_flag true s
      else s
    else if cmd_exact line "ADXL_ST" then s
    else if cmd_exact line "DIAG_HW_TEST" then s
    else s.

(** *** main.c: the main loop *)

(** One turn of the loop: the lines [COMM_Process_Budgeted] hands to
    [process_command], and what the pumps find. *)
Record Turn := {
  lines : list (cstring * CommandEnv);
  burst_env : BurstEnv;
  trigger_env : TriggerEnv;
  bm_active_on_stop : bool
}.

Definition run_commands (cmds : list (cstring * CommandEnv)) (s : ModeState)
  : ModeState :=
  fold_left (fun s c => process_command (fst c) (snd c) s) cmds s.

(** The body of [while (1)] in [main]. *)
Definition main_loop_turn (s : ModeState) (t : Turn) : ModeState :=
  let s := run_commands (lines t) s in
  let s := BurstManager_Pump (burst_env t) s in
  let s := Trigger_Pump (trigger_env t) s in
  if stop_flag s
  then set_stop_flag false (CmdHandler_HandleStop (bm_active_on_stop t) s)
  else s.

(** The state [process_command] finds: after some turns of the loop
    and some lines of the turn under way. *)
Definition state_at_command (turns : list Turn)
  (cmds : list (cstring * CommandEnv)) : ModeState :=
  run_commands cmds (fold_left main_loop_turn turns boot_state).

Definition reachable (s : ModeState) : Prop :=
  exists turns cmds, s = state_at_command turns cmds.

End Modes.

(** * Properties *)

(** ** api_parse_u32 *)

Module ApiParseFacts.

Example api_parse_u32_max : api_parse_u32 (lit "  4294967295 ,x") = Some 4294967295.
Proof. reflexivity. Qed.

Example api_parse_u32_max_plus_one : api_parse_u32 (lit "4294967296") = None.
Proof. reflexivity. Qed.

Example api_parse_u32_leading_zeros : api_parse_u32 (lit "00000000000000000042") = Some 42.
Proof. reflexivity. Qed.

Ltac char_cases :=
  unfold is_blank, is_digit, is_term_or_eol, is_hard_term, is_sign, digit_val in *;
  repeat match goal with
    | H : _ && _ = true |- _ => apply andb_true_iff in H; destruct H
    | H : _ || _ = true |- _ => apply orb_true_iff in H; destruct H
    | H : _ || _ = false |- _ => apply orb_false_iff in H; destruct H
    | H : _ && _ = false |- _ => apply andb_false_iff in H; destruct H
    | H : (_ =? _) = true |- _ => apply Z.eqb_eq in H
    | H : (_ =? _) = false |- _ => apply Z.eqb_neq in H
    | H : (_ <=? _) = true |- _ => apply Z.leb_le in H
    | H : (_ <=? _) = false |- _ => apply Z.leb_gt in H
    end.

Ltac char_goal :=
  repeat match goal with
    | |- _ || _ = false => apply orb_false_iff; split
    | |- _ && _ = true => apply andb_true_iff; split
    | |- (_ =? _) = false => apply Z.eqb_neq
    | |- (_ =? _) = true => apply Z.eqb_eq
    | |- (_ <=? _) = true => apply Z.leb_le
    | |- (_ <=? _) = false => apply Z.leb_gt
    end.

Lemma blank_not_digit c : is_blank c = true -> is_digit c = false.
Proof.
  intros H. char_cases; apply andb_false_iff; rewrite !Z.leb_gt; lia.
Qed.

Lemma digit_not_blank c : is_digit c = true -> is_blank c = false.
Proof. intros H. char_cases. char_goal; lia. Qed.

Lemma hard_term_not_blank c : is_hard_term c = true -> is_blank c = false.
Proof. intros H. char_cases; char_goal; lia. Qed.

Lemma hard_term_not_digit c : is_hard_term c = true -> is_digit c = false.
Proof.
  intros H. char_cases; apply andb_false_iff; rewrite !Z.leb_gt; lia.
Qed.

Lemma hard_term_is_term c : is_hard_term c = true -> is_term_or_eol c = true.
Proof.
  intros H. unfold is_term_or_eol. char_cases;
    repeat match goal with H : code c = _ |- _ => rewrite H end; reflexivity.
Qed.

Lemma term_not_blank_hard c :
  is_term_or_eol c = true -> is_blank c = false -> is_hard_term c = true.
Proof.
  intros H Hb. unfold is_hard_term. char_cases;
    repeat match goal with H : code c = _ |- _ => rewrite H end;
    try reflexivity; lia.
Qed.

Lemma sign_not_digit c : is_sign c = true -> is_digit c = false.
Proof.
  intros H. char_cases; apply andb_false_iff; rewrite !Z.leb_gt; lia.
Qed.

Lemma sign_not_blank c : is_sign c = true -> is_blank c = false.
Proof. intros H. char_cases; char_goal; lia. Qed.

Lemma digit_val_range c : is_digit c = true -> 0 <= digit_val c <= 9.
Proof. intros H. char_cases. lia. Qed.

(** *** skip_ws *)

Lemma skip_ws_app_blank ws s :
  forallb is_blank ws = true -> skip_ws (ws ++ s) = skip_ws s.
Proof.
  induction ws as [|c ws IH]; simpl; [reflexivity|].
  intros H. apply andb_true_iff in H as [Hc Hws]. rewrite Hc. auto.
Qed.

Lemma skip_ws_nonblank s : is_blank (peek s) = false -> skip_ws s = s.
Proof. destruct s as [|c s]; simpl; [reflexivity|]. intros ->. reflexivity. Qed.

Lemma skip_ws_split s :
  exists ws, s = ws ++ skip_ws s /\ forallb is_blank ws = true /\
             is_blank (peek (skip_ws s)) = false.
Proof.
  induction s as [|c s IH]; simpl.
  - exists []. repeat split.
  - destruct (is_blank c) eqn:Hc.
    + destruct IH as (ws & Hs & Hws & Hp).
      exists (c :: ws). simpl. rewrite Hc, Hws. repeat split; [|assumption].
      f_equal. assumption.
    + exists []. simpl. repeat split. assumption.
Qed.

(** *** The digit loop *)

Definition fold_digits (acc : Z) (ds : list ascii) : Z :=
  fold_left (fun a c => a * 10 + digit_val c) ds acc.

Lemma fold_digits_mono ds : forall acc,
  forallb is_digit ds = true -> 0 <= acc -> acc <= fold_digits acc ds.
Proof.
  induction ds as [|c ds IH]; simpl; intros acc H Hacc; [lia|].
  apply andb_true_iff in H as [Hc Hds].
  pose proof (digit_val_range c Hc).
  specialize (IH (acc * 10 + digit_val c) Hds). unfold fold_digits in *. lia.
Qed.

Lemma wrap32_small z : 0 <= z <= UINT32_MAX -> wrap32 z = z.
Proof. unfold wrap32, UINT32_MAX. intros H. apply Z.mod_small. lia. Qed.

Lemma u32_digits_sound s : forall acc nd acc' nd' s1,
  0 <= acc <= UINT32_MAX ->
  u32_digits s acc nd = Some (acc', nd', s1) ->
  exists ds, s = ds ++ s1 /\ forallb is_digit ds = true /\
             acc' = fold_digits acc ds /\
             nd' = nd + Z.of_nat (length ds) /\
             0 <= acc' <= UINT32_MAX /\
             is_digit (peek s1) = false.
Proof.
  induction s as [|c s IH]; simpl; intros acc nd acc' nd' s1 Hacc H.
  - injection H as <- <- <-. exists []. simpl. repeat split; try lia.
  - destruct (is_digit c) eqn:Hc.
    + pose proof (digit_val_range c Hc) as Hd.
      rewrite (wrap32_small (digit_val c)) in H by (unfold UINT32_MAX; lia).
      destruct ((429496729 <? acc) || ((acc =? 429496729) && (5 <? digit_val c)))
        eqn:Hov; [discriminate|].
      apply orb_false_iff in Hov as [Hov1 Hov2].
      apply Z.ltb_ge in Hov1.
      assert (Hfit : 0 <= acc * 10 + digit_val c <= UINT32_MAX).
      { unfold UINT32_MAX. apply andb_false_iff in Hov2 as [Hov2|Hov2].
        - apply Z.eqb_neq in Hov2. lia.
        - apply Z.ltb_ge in Hov2. lia. }
      rewrite wrap32_small in H by exact Hfit.
      destruct (IH _ _ _ _ _ Hfit H) as (ds & -> & Hds & -> & -> & Hr & Hp).
      exists (c :: ds). simpl. rewrite Hc, Hds.
      repeat split; try assumption; try lia.
    + injection H as <- <- <-. exists []. simpl.
      repeat split; try lia. assumption.
Qed.

Lemma u32_digits_complete ds : forall rest acc nd,
  forallb is_digit ds = true -> is_digit (peek rest) = false ->
  0 <= acc -> fold_digits acc ds <= UINT32_MAX ->
  u32_digits (ds ++ rest) acc nd =
    Some (fold_digits acc ds, nd + Z.of_nat (length ds), rest).
Proof.
  induction ds as [|c ds IH]; simpl; intros rest acc nd Hds Hrest Hacc Hfit.
  - destruct rest as [|r rest]; simpl in *.
    + do 3 f_equal; lia.
    + rewrite Hrest. do 3 f_equal; lia.
  - apply andb_true_iff in Hds as [Hc Hds]. rewrite Hc.
    pose proof (digit_val_range c Hc) as Hd.
    rewrite (wrap32_small (digit_val c)) by (unfold UINT32_MAX; lia).
    pose proof (fold_digits_mono ds (acc * 10 + digit_val c) Hds ltac:(lia)) as Hm.
    unfold fold_digits in Hm, Hfit. simpl in Hfit.
    assert (Hle : acc * 10 + digit_val c <= UINT32_MAX) by lia.
    replace ((429496729 <? acc) || ((acc =? 429496729) && (5 <? digit_val c)))
      with false.
    2:{ symmetry. apply orb_false_iff. unfold UINT32_MAX in Hle. split.
        - apply Z.ltb_ge. lia.
        - apply andb_false_iff.
          destruct (Z.eq_dec acc 429496729) as [->|Hne].
          + right. apply Z.ltb_ge. lia.
          + left. apply Z.eqb_neq. assumption. }
    rewrite wrap32_small by lia.
    rewrite (IH rest (acc * 10 + digit_val c) (nd + 1) Hds Hrest ltac:(lia) Hfit).
    unfold fold_digits. simpl. do 3 f_equal. lia.
Qed.

Lemma u32_digits_overflow ds : forall rest acc nd,
  forallb is_digit ds = true ->
  0 <= acc <= UINT32_MAX -> UINT32_MAX < fold_digits acc ds ->
  u32_digits (ds ++ rest) acc nd = None.
Proof.
  induction ds as [|c ds IH]; simpl; intros rest acc nd Hds Hacc Hov.
  - unfold fold_digits in Hov. simpl in Hov. lia.
  - apply andb_true_iff in Hds as [Hc Hds]. rewrite Hc.
    pose proof (digit_val_range c Hc) as Hd.
    rewrite (wrap32_small (digit_val c)) by (unfold UINT32_MAX; lia).
    destruct ((429496729 <? acc) || ((acc =? 429496729) && (5 <? digit_val c)))
      eqn:Hchk; [reflexivity|].
    apply orb_false_iff in Hchk as [Hov1 Hov2]. apply Z.ltb_ge in Hov1.
    assert (Hfit : 0 <= acc * 10 + digit_val c <= UINT32_MAX).
    { unfold UINT32_MAX. apply andb_false_iff in Hov2 as [Hov2|Hov2].
      - apply Z.eqb_neq in Hov2. lia.
      - apply Z.ltb_ge in Hov2. lia. }
    rewrite wrap32_small by exact Hfit.
    apply IH; assumption.
Qed.

Lemma peek_app_digit ds rest :
  forallb is_digit ds = true -> ds <> [] -> is_digit (peek (ds ++ rest)) = true.
Proof.
  destruct ds as [|c ds]; [congruence|]. simpl.
  intros H _. apply andb_true_iff in H as [H _]. exact H.
Qed.

Lemma peek_blank_then_nondigit ws rest :
  forallb is_blank ws = true -> is_digit (peek rest) = false ->
  is_digit (peek (ws ++ rest)) = false.
Proof.
  destruct ws as [|c ws]; simpl; [auto|].
  intros H _. apply andb_true_iff in H as [H _]. apply blank_not_digit, H.
Qed.

(** No digit where the number should start: the parser fails. *)
Lemma api_parse_u32_no_digit s :
  is_digit (peek (skip_ws s)) = false -> api_parse_u32 s = None.
Proof.
  unfold api_parse_u32. intros H.
  destruct (skip_ws s) as [|c s']; simpl in *; [reflexivity|].
  rewrite H. reflexivity.
Qed.

Lemma api_parse_u32_accepts ws1 ds ws2 rest :
  forallb is_blank ws1 = true ->
  forallb is_digit ds = true -> ds <> [] ->
  forallb is_blank ws2 = true ->
  is_hard_term (peek rest) = true ->
  digits_value ds <= UINT32_MAX ->
  api_parse_u32 (ws1 ++ ds ++ ws2 ++ rest) = Some (digits_value ds).
Proof.
  intros Hws1 Hds Hne Hws2 Hterm Hfit. unfold api_parse_u32.
  rewrite skip_ws_app_blank by assumption.
  rewrite skip_ws_nonblank
    by (apply digit_not_blank, peek_app_digit; assumption).
  rewrite (u32_digits_complete ds (ws2 ++ rest) 0 0); try assumption; try lia.
  2:{ apply peek_blank_then_nondigit; [assumption|].
      apply hard_term_not_digit, Hterm. }
  replace (0 + Z.of_nat (length ds) =? 0) with false.
  2:{ symmetry. apply Z.eqb_neq. destruct ds; [congruence|].
      rewrite length_cons. lia. }
  rewrite skip_ws_app_blank by assumption.
  rewrite skip_ws_nonblank by (apply hard_term_not_blank, Hterm).
  rewrite (hard_term_is_term _ Hterm). reflexivity.
Qed.

Lemma api_parse_u32_sound s v :
  api_parse_u32 s = Some v -> u32_grammar is_hard_term s v.
Proof.
  unfold api_parse_u32. intros H.
  destruct (u32_digits (skip_ws s) 0 0) as [[[acc nd] s1]|] eqn:Hd;
    [|discriminate].
  destruct (nd =? 0) eqn:Hnd; [discriminate|]. apply Z.eqb_neq in Hnd.
  destruct (is_term_or_eol (peek (skip_ws s1))) eqn:Ht; [|discriminate].
  injection H as ->.
  apply u32_digits_sound in Hd; [|unfold UINT32_MAX; lia].
  destruct Hd as (ds & Hs & Hds & Hv & Hn & Hr & Hp).
  destruct (skip_ws_split s) as (ws1 & Hs1 & Hws1 & _).
  destruct (skip_ws_split s1) as (ws2 & Hs2 & Hws2 & Hnb).
  exists ws1, ds, ws2, (skip_ws s1).
  repeat split; try assumption.
  - rewrite <- Hs2, <- Hs. exact Hs1.
  - intros ->. simpl in Hn. lia.
  - apply term_not_blank_hard; assumption.
  - symmetry. exact Hv.
  - lia.
Qed.

(** The language with space and tab among the terminators, as the
    helper [is_term_or_eol] lists them, is not the accepted one: a
    blank after the digits is skipped as trailing white space, and
    the character after it decides. *)
Lemma api_parse_u32_blank_terminator_cex :
  ~ (forall s v, api_parse_u32 s = Some v <-> u32_grammar is_term_or_eol s v).
Proof.
  intros H.
  assert (G : u32_grammar is_term_or_eol (lit "12 x") 12).
  { exists [], (lit "12"), [], (lit " x"). repeat split; try reflexivity.
    - discriminate.
    - unfold UINT32_MAX. lia. }
  apply H in G. vm_compute in G. discriminate.
Qed.

(** C4 (amended).  [api_parse_u32] accepts exactly: blanks, one or
    more decimal digits whose value fits 32 bits, blanks, and then
    NUL, a comma, CR or LF; it returns that value.  A digit run
    denoting more than 4294967295 fails, and so does a string with a
    sign or with no digit where the number should start. *)
Theorem api_parse_u32_spec :
  (forall s v, api_parse_u32 s = Some v <-> u32_grammar is_hard_term s v) /\
  (forall ws ds rest,
      forallb is_blank ws = true -> forallb is_digit ds = true ->
      UINT32_MAX < digits_value ds ->
      api_parse_u32 (ws ++ ds ++ rest) = None) /\
  (forall ws c rest,
      forallb is_blank ws = true -> is_sign c = true ->
      api_parse_u32 (ws ++ c :: rest) = None) /\
  (forall s, is_digit (peek (skip_ws s)) = false -> api_parse_u32 s = None).
Proof.
  split; [|split; [|split]].
  - intros s v. split; [apply api_parse_u32_sound|].
    intros (ws1 & ds & ws2 & rest & -> & H1 & H2 & H3 & H4 & H5 & <- & H7).
    apply api_parse_u32_accepts; assumption.
  - intros ws ds rest Hws Hds Hov. unfold api_parse_u32.
    rewrite skip_ws_app_blank by assumption.
    destruct ds as [|c ds].
    { unfold digits_value, UINT32_MAX in Hov. simpl in Hov. lia. }
    rewrite skip_ws_nonblank
      by (apply digit_not_blank, peek_app_digit; [assumption|discriminate]).
    rewrite u32_digits_overflow; try assumption; [reflexivity|].
    unfold UINT32_MAX. lia.
  - intros ws c rest Hws Hc. apply api_parse_u32_no_digit.
    rewrite skip_ws_app_blank by assumption.
    rewrite skip_ws_nonblank by (apply sign_not_blank, Hc).
    apply sign_not_digit, Hc.
  - apply api_parse_u32_no_digit.
Qed.

Lemma api_parse_u32_spec_witness :
  (api_parse_u32 (lit " 0800 ,k=1") = Some 800 <->
     u32_grammar is_hard_term (lit " 0800 ,k=1") 800) /\
  api_parse_u32 (lit " " ++ lit "99999999999" ++ lit ",x") = None /\
  api_parse_u32 (lit " " ++ "-"%char :: lit "5") = None /\
  api_parse_u32 (lit "abc") = None.
Proof.
  destruct api_parse_u32_spec as (H1 & H2 & H3 & H4).
  split; [apply H1|split; [|split]].
  - apply H2; [reflexivity|reflexivity|]. unfold UINT32_MAX. vm_compute. reflexivity.
  - apply H3; reflexivity.
  - apply H4. reflexivity.
Defined.

End ApiParseFacts.

(** ** CRC-16 *)

Module Crc16Facts.
Import Crc16.

Example crc16_catalogue_check :
  crc16_ccitt_false (list_byte_of_string "123456789") = 0x29B1.
Proof. vm_compute. reflexivity. Qed.

Example proto_crc16_buf_catalogue_check :
  proto_crc16_buf (list_byte_of_string "123456789") = 0x29B1.
Proof. vm_compute. reflexivity. Qed.

(** *** Bit-level facts *)

Lemma wrap16_bit z n : Z.testbit (wrap16 z) n = (n <? 16) && Z.testbit z n.
Proof. unfold wrap16. apply Z.testbit_mod_pow2. lia. Qed.

Lemma wrap16_idem z : wrap16 (wrap16 z) = wrap16 z.
Proof. unfold wrap16. apply Z.mod_mod. lia. Qed.

Lemma wrap16_lxor a b : wrap16 (Z.lxor a b) = Z.lxor (wrap16 a) (wrap16 b).
Proof.
  apply Z.bits_inj'. intros n Hn.
  rewrite Z.lxor_spec, !wrap16_bit, Z.lxor_spec.
  destruct (n <? 16); simpl; [reflexivity|].
  reflexivity.
Qed.

Lemma top_bit_test x : negb (Z.land x 0x8000 =? 0) = Z.testbit x 15.
Proof.
  assert (H : Z.land x 0x8000 = if Z.testbit x 15 then 0x8000 else 0).
  { apply Z.bits_inj'. intros n Hn.
    rewrite Z.land_spec. change 0x8000 with (2 ^ 15).
    rewrite Z.pow2_bits_eqb by lia.
    destruct (Z.eqb_spec 15 n) as [<-|Hne].
    - rewrite andb_true_r. destruct (Z.testbit x 15).
      + rewrite Z.pow2_bits_eqb by lia. reflexivity.
      + rewrite Z.bits_0. reflexivity.
    - rewrite andb_false_r. destruct (Z.testbit x 15).
      + rewrite Z.pow2_bits_eqb by lia. symmetry. apply Z.eqb_neq. exact Hne.
      + rewrite Z.bits_0. reflexivity. }
  rewrite H. destruct (Z.testbit x 15); reflexivity.
Qed.

(** Adding the polynomial when the bit shifted out is set. *)
Definition reduce (t : bool) : Z := if t then PROTO_CRC16_POLY else 0.

Definition shl16 (q : Z) : Z := wrap16 (Z.shiftl q 1).

Lemma crc_round_eq x :
  crc_round x = Z.lxor (shl16 x) (reduce (Z.testbit x 15)).
Proof.
  unfold crc_round, shl16, reduce. rewrite top_bit_test.
  destruct (Z.testbit x 15).
  - rewrite wrap16_lxor. reflexivity.
  - rewrite Z.lxor_0_r. reflexivity.
Qed.

Lemma ref_feed_eq x bit :
  ref_feed PROTO_CRC16_POLY x bit =
    Z.lxor (shl16 x) (reduce (xorb (Z.testbit x 15) bit)).
Proof.
  unfold ref_feed, shl16, reduce, wrap16.
  rewrite Z.shiftl_mul_pow2 by lia. rewrite (Z.mul_comm 2 x).
  change (2 ^ 1) with 2.
  destruct (xorb (Z.testbit x 15) bit); [reflexivity|].
  rewrite Z.lxor_0_r. reflexivity.
Qed.

Lemma shl16_lxor a b : shl16 (Z.lxor a b) = Z.lxor (shl16 a) (shl16 b).
Proof. unfold shl16. rewrite Z.shiftl_lxor. apply wrap16_lxor. Qed.

Lemma reduce_xorb s t : reduce (xorb s t) = Z.lxor (reduce s) (reduce t).
Proof. destruct s, t; reflexivity. Qed.

(** One round on the register xored with the pending message bits
    [q] is one reference step on the register, with the pending bits
    moved up by one. *)
Lemma crc_round_feed x q :
  crc_round (Z.lxor x q) =
    Z.lxor (ref_feed PROTO_CRC16_POLY x (Z.testbit q 15)) (shl16 q).
Proof.
  rewrite crc_round_eq, ref_feed_eq, shl16_lxor, Z.lxor_spec.
  rewrite !Z.lxor_assoc. f_equal. apply Z.lxor_comm.
Qed.

Fixpoint top_bits (k : nat) (q : Z) : list bool :=
  match k with
  | O => []
  | S k' => Z.testbit q 15 :: top_bits k' (shl16 q)
  end.

Lemma rounds_feed k : forall x q,
  Nat.iter k crc_round (Z.lxor x q) =
    Z.lxor (fold_left (ref_feed PROTO_CRC16_POLY) (top_bits k q) x)
           (Nat.iter k shl16 q).
Proof.
  induction k as [|k IH]; intros x q; [reflexivity|].
  rewrite !Nat.iter_succ_r. rewrite crc_round_feed, IH. reflexivity.
Qed.

Lemma byte_top_bits b :
  top_bits 8 (Z.shiftl (byte_val b) 8) = byte_bits b /\
  Nat.iter 8 shl16 (Z.shiftl (byte_val b) 8) = 0 /\
  wrap16 (Z.shiftl (byte_val b) 8) = Z.shiftl (byte_val b) 8.
Proof. destruct b; vm_compute; repeat split. Qed.

Definition is_u16 (z : Z) : Prop := wrap16 z = z.

Lemma crc_round_u16 x : is_u16 (crc_round x).
Proof.
  unfold is_u16, crc_round.
  destruct (negb (Z.land x 32768 =? 0)); apply wrap16_idem.
Qed.

Lemma update_byte_u16 crc b : is_u16 (proto_crc16_update_byte crc b).
Proof. unfold proto_crc16_update_byte. simpl. apply crc_round_u16. Qed.

(** The byte-wise update is eight reference steps. *)
Lemma update_byte_reference crc b :
  is_u16 crc ->
  proto_crc16_update_byte crc b =
    fold_left (ref_feed PROTO_CRC16_POLY) (byte_bits b) crc.
Proof.
  intros Hc. unfold proto_crc16_update_byte.
  destruct (byte_top_bits b) as (Hbits & Hzero & Hw).
  rewrite wrap16_lxor, Hc, Hw, rounds_feed, Hbits, Hzero.
  apply Z.lxor_0_r.
Qed.

Lemma update_reference data : forall crc,
  is_u16 crc ->
  proto_crc16_update crc data =
    fold_left (ref_feed PROTO_CRC16_POLY) (message_bits data) crc.
Proof.
  induction data as [|b data IH]; intros crc Hc; [reflexivity|].
  change (proto_crc16_update crc (b :: data))
    with (proto_crc16_update (proto_crc16_update_byte crc b) data).
  change (message_bits (b :: data)) with (byte_bits b ++ message_bits data).
  rewrite fold_left_app.
  rewrite <- update_byte_reference by exact Hc.
  apply IH, update_byte_u16.
Qed.

Lemma update_app crc d1 d2 :
  proto_crc16_update (proto_crc16_update crc d1) d2 =
    proto_crc16_update crc (d1 ++ d2).
Proof. unfold proto_crc16_update. rewrite fold_left_app. reflexivity. Qed.

Lemma update_chunks chunks : forall crc,
  fold_left proto_crc16_update chunks crc =
    proto_crc16_update crc (concat chunks).
Proof.
  induction chunks as [|c chunks IH]; intros crc; [reflexivity|].
  simpl. rewrite IH, update_app. reflexivity.
Qed.

(** C5.  [proto_crc16_buf] is CRC-16/CCITT-FALSE (polynomial 0x1021,
    initial value 0xFFFF, no reflection, xor-out 0); feeding the
    bytes through [proto_crc16_update] in any split into chunks gives
    the one-shot value; on the 11 bytes of "123456789\r\n" both the
    code and the reference give 0xDC92. *)
Theorem proto_crc16_is_ccitt_false :
  (forall data, proto_crc16_buf data = crc16_ccitt_false data) /\
  (forall chunks,
      proto_crc16_final (fold_left proto_crc16_update chunks proto_crc16_init) =
        proto_crc16_buf (concat chunks)) /\
  (proto_crc16_buf check_line = 0xDC92 /\
   crc16_ccitt_false check_line = 0xDC92).
Proof.
  assert (H : forall data, proto_crc16_buf data = crc16_ccitt_false data).
  { intros data. unfold proto_crc16_buf, proto_crc16_final, crc16_ccitt_false,
      crc16_reference.
    rewrite update_reference by reflexivity.
    rewrite Z.lxor_0_r. reflexivity. }
  split; [exact H|split; [|split; vm_compute; reflexivity]].
  intros chunks. unfold proto_crc16_buf. rewrite update_chunks. reflexivity.
Qed.

End Crc16Facts.

(** ** Sensor_SnapODR *)

Module SensorFacts.
Import Sensor.

Example snap_150 : Sensor_SnapODR 150 = 100.
Proof. reflexivity. Qed.

Example snap_801 : Sensor_SnapODR 801 = 800.
Proof. reflexivity. Qed.

Example snap_5000 : Sensor_SnapODR 5000 = 3200.
Proof. reflexivity. Qed.

Lemma Sensor_SnapODR_supported req : In (Sensor_SnapODR req) supported_odr.
Proof.
  unfold Sensor_SnapODR, supported_odr.
  repeat (match goal with |- context [?a <=? ?b] => destruct (a <=? b) end);
    simpl; tauto.
Qed.

Lemma Sensor_SnapODR_fixes req : In req supported_odr -> Sensor_SnapODR req = req.
Proof.
  unfold supported_odr. simpl.
  intros [<-|[<-|[<-|[<-|[<-|[<-|[]]]]]]]; reflexivity.
Qed.

(** [Sensor_SnapODR] returns the largest supported rate that does not
    exceed the request, and 100 for a request below 100. *)
Lemma Sensor_SnapODR_floor :
  forall req, snaps_down req (Sensor_SnapODR req).
Proof.
  intros req. split; [apply Sensor_SnapODR_supported|].
  unfold Sensor_SnapODR, supported_odr. split.
  - intros Hreq.
    repeat (match goal with
            | |- context [?a <=? ?b] => destruct (Z.leb_spec a b)
            end); (split; [lia|]); simpl;
      intros s Hs Hle; intuition lia.
  - intros Hreq.
    repeat (match goal with
            | |- context [?a <=? ?b] => destruct (Z.leb_spec a b)
            end); lia.
Qed.

Lemma snaps_up_199_200 : snaps_up 199 200.
Proof.
  unfold snaps_up, supported_odr. simpl. split; [tauto|]. split; [|lia].
  intros _. split; [lia|]. intros s Hs Hle. intuition lia.
Qed.

(** C2 (the code at the failing input).  A request of 199 is answered
    with 100, although 200 is both the smallest supported rate that is
    at least 199 and the supported rate closest to 199; the answer of
    the code is not a snap up.  The host reaches it with the line
    [SET_CFG,odr_hz=199], which is acknowledged and stores 100. *)
Theorem Sensor_SnapODR_199_floors :
  Sensor_SnapODR 199 = 100 /\
  snaps_up 199 200 /\
  ~ snaps_up 199 (Sensor_SnapODR 199) /\
  Fw.tx (Fw.run_ideal "SET_CFG,odr_hz=199" Fw.boot_world)
    = [Fw.MSG_ACK "SET_CFG"] /\
  Fw.odr_hz (Fw.cfg (Fw.ctx (Fw.run_ideal "SET_CFG,odr_hz=199" Fw.boot_world)))
    = 100.
Proof.
  split; [reflexivity|]. split; [apply snaps_up_199_200|].
  split; [|vm_compute; split; reflexivity].
  intros (_ & Hup & _). destruct Hup as [Hle _]; [lia|].
  vm_compute in Hle. apply Hle. reflexivity.
Qed.

End SensorFacts.

(** ** The mode [Armed] and the trigger state *)

Module ModeFacts.
Import Fw Modes.

(** What holds whenever [process_command] is entered: the mode a
    burst returns to is [Idle], and in [Armed] the trigger state is
    [Armed]. *)
Definition mode_inv (s : ModeState) : Prop :=
  g_mode_before_burst s = OP_MODE_IDLE /\
  (op_mode s = OP_MODE_ARMED -> trg_state s = TRG_STATE_ARMED).

Lemma OpMode_eqb_eq a b : OpMode_eqb a b = true <-> a = b.
Proof. destruct a, b; cbn; split; congruence. Qed.

Lemma AppContext_SetOpMode_op m s : op_mode (AppContext_SetOpMode m s) = m.
Proof.
  unfold AppContext_SetOpMode. destruct (OpMode_eqb (op_mode s) m) eqn:E.
  - apply OpMode_eqb_eq. exact E.
  - reflexivity.
Qed.

Lemma AppContext_SetOpMode_rest m s :
  trg_state (AppContext_SetOpMode m s) = trg_state s /\
  g_mode_before_burst (AppContext_SetOpMode m s) = g_mode_before_burst s /\
  g_current_kind (AppContext_SetOpMode m s) = g_current_kind s.
Proof.
  unfold AppContext_SetOpMode. destruct (OpMode_eqb (op_mode s) m);
    repeat split.
Qed.

(** Leaving for a mode other than [Armed]. *)
Lemma leave_inv m s :
  m <> OP_MODE_ARMED -> g_mode_before_burst s = OP_MODE_IDLE ->
  mode_inv (AppContext_SetOpMode m s).
Proof.
  intros Hm Hg. destruct (AppContext_SetOpMode_rest m s) as (_ & Hg' & _).
  split; [rewrite Hg'; exact Hg|].
  rewrite AppContext_SetOpMode_op. intros ->. contradiction.
Qed.

Lemma BurstManager_Start_inv kind s :
  g_mode_before_burst s = OP_MODE_IDLE -> mode_inv (BurstManager_Start kind s).
Proof. intros Hg. apply leave_inv; [discriminate|exact Hg]. Qed.

Lemma BurstManager_Reset_inv s : mode_inv s -> mode_inv (BurstManager_Reset s).
Proof. intros [_ H]. split; [reflexivity|exact H]. Qed.

Lemma set_stop_flag_inv b s : mode_inv s -> mode_inv (set_stop_flag b s).
Proof. intros H. exact H. Qed.

Lemma set_burst_abort_pending_inv b s :
  mode_inv s -> mode_inv (set_burst_abort_pending b s).
Proof. intros H. exact H. Qed.

Lemma set_test_trigger_flag_inv b s :
  mode_inv s -> mode_inv (set_test_trigger_flag b s).
Proof. intros H. exact H. Qed.

Lemma pump_abort_pending_inv env s :
  mode_inv s -> mode_inv (pump_abort_pending env s).
Proof.
  intros Hinv. unfold pump_abort_pending.
  destruct (burst_abort_pending s); [|exact Hinv].
  destruct (negb (bm_active_on_abort env) && tx_idle env); [|exact Hinv].
  cbv zeta. apply leave_inv; [|reflexivity].
  cbn [BurstManager_Reset g_current_kind g_mode_before_burst DataKind_eqb
       OpMode_eqb negb].
  discriminate.
Qed.

Lemma ProcessAndTransmitBurstData_inv s :
  mode_inv s -> mode_inv (ProcessAndTransmitBurstData s).
Proof.
  intros [Hg H]. unfold ProcessAndTransmitBurstData.
  destruct (DataKind_eqb (g_current_kind s) KIND_WEIGHT).
  - apply BurstManager_Reset_inv. rewrite Hg. cbn [OpMode_eqb negb].
    apply leave_inv; [discriminate|exact Hg].
  - apply leave_inv; [discriminate|exact Hg].
Qed.

Lemma BurstManager_Pump_inv env s :
  mode_inv s -> mode_inv (BurstManager_Pump env s).
Proof.
  intros Hinv. pose proof Hinv as [Hg H]. unfold BurstManager_Pump.
  destruct (op_mode s) eqn:Hop; try (apply pump_abort_pending_inv; exact Hinv).
  - (* Countdown *)
    apply pump_abort_pending_inv.
    destruct (negb (countdown_active env)); [|exact Hinv].
    destruct (g_burst_after_countdown s).
    + cbv zeta. apply BurstManager_Start_inv. exact Hg.
    + apply leave_inv; [discriminate|exact Hg].
  - (* Burst *)
    destruct (sampling_stalled env).
    + destruct (bm_active_on_stall env); [exact Hinv|].
      cbv zeta. apply leave_inv; [|reflexivity].
      cbn [BurstManager_Reset g_mode_before_burst]. discriminate.
    + apply pump_abort_pending_inv.
      destruct (burst_complete env); [|exact Hinv].
      apply ProcessAndTransmitBurstData_inv. exact Hinv.
  - (* Burst sending *)
    apply pump_abort_pending_inv.
    destruct (negb (bm_active_when_sending env) && negb (burst_abort_pending s));
      [|exact Hinv].
    cbv zeta. apply leave_inv; [|reflexivity].
    cbn [BurstManager_Reset g_current_kind g_mode_before_burst DataKind_eqb
         OpMode_eqb negb andb].
    discriminate.
Qed.

Lemma Trigger_Pump_inv env s : mode_inv s -> mode_inv (Trigger_Pump env s).
Proof.
  intros Hinv. pose proof Hinv as [Hg H]. unfold Trigger_Pump.
  destruct (OpMode_eqb (op_mode s) OP_MODE_TRG_CAL_ZERO).
  { destruct (negb (countdown_running env)); [|exact Hinv].
    apply leave_inv; [discriminate|exact Hg]. }
  cbv zeta.
  destruct (TrgState_eqb (trg_state s) TRG_STATE_IN_HOLDOFF
            && negb (holdoff_elapsed env)); [exact Hinv|].
  set (s1 := if TrgState_eqb (trg_state s) TRG_STATE_IN_HOLDOFF
             then set_trg_state TRG_STATE_ARMED s else s).
  assert (Hinv1 : mode_inv s1).
  { unfold s1. destruct (TrgState_eqb (trg_state s) TRG_STATE_IN_HOLDOFF);
      [|exact Hinv].
    split; [exact Hg|]. intros _. reflexivity. }
  destruct Hinv1 as [Hg1 H1].
  destruct (negb (TrgState_eqb (trg_state s1) TRG_STATE_ARMED));
    [split; assumption|].
  destruct (test_trigger_flag s1).
  { apply BurstManager_Start_inv. exact Hg1. }
  destruct (negb (sample_available env)); [split; assumption|].
  destruct (trigger_exceeds env); [|split; assumption].
  apply BurstManager_Start_inv. exact Hg1.
Qed.

Lemma CmdHandler_HandleStop_inv bm_active s :
  mode_inv s -> mode_inv (CmdHandler_HandleStop bm_active s).
Proof.
  intros Hinv. unfold CmdHandler_HandleStop. cbv zeta.
  destruct (OpMode_eqb (op_mode s) OP_MODE_BURST
            || OpMode_eqb (op_mode s) OP_MODE_BURST_SENDING).
  - destruct bm_active; [exact Hinv|].
    apply leave_inv; [|reflexivity].
    cbn [BurstManager_Reset g_current_kind DataKind_eqb]. discriminate.
  - apply leave_inv; [|reflexivity].
    destruct (OpMode_eqb (op_mode s) OP_MODE_ARMED); discriminate.
Qed.

Lemma boot_state_inv : mode_inv boot_state.
Proof. split; [reflexivity|discriminate]. Qed.

Lemma configure_inv kind s :
  op_mode s = OP_MODE_IDLE ->
  mode_inv (AppContext_SetOpMode OP_MODE_COUNTDOWN (BurstManager_Configure kind s)).
Proof. intros Hop. apply leave_inv; [discriminate|exact Hop]. Qed.

Lemma process_command_inv line env s :
  mode_inv s -> mode_inv (process_command line env s).
Proof.
  intros Hinv. pose proof Hinv as [Hg H]. unfold process_command.
  repeat match goal with
         | |- mode_inv (if ?c then _ else _) => destruct c eqn:?
         | |- mode_inv (let line := _ in _) => cbv zeta
         end;
    try exact Hinv; try exact boot_state_inv.
  - apply leave_inv; [discriminate|exact Hg].
  - unfold Parse_Mode.
    repeat match goal with
           | |- mode_inv (if ?c then _ else _) => destruct c eqn:?
           | |- mode_inv (let _ := _ in _) => cbv zeta
           end;
      try exact Hinv; apply leave_inv; try discriminate; try exact Hg;
      reflexivity.
  - unfold Parse_CalReady.
    repeat match goal with
           | |- mode_inv (if ?c then _ else _) => destruct c eqn:?
           | |- mode_inv (match ?c with Some _ => _ | None => _ end) =>
               destruct c eqn:?
           end;
      try exact Hinv; apply leave_inv; try discriminate; exact Hg.
  - split.
    + destruct (AppContext_SetOpMode_rest OP_MODE_ARMED
                  (set_trg_state TRG_STATE_ARMED s)) as (_ & Hg' & _).
      rewrite Hg'. exact Hg.
    + intros _.
      destruct (AppContext_SetOpMode_rest OP_MODE_ARMED
                  (set_trg_state TRG_STATE_ARMED s)) as (Ht & _ & _).
      rewrite Ht. reflexivity.
  - unfold Parse_StartBurstWeight.
    repeat match goal with
           | |- mode_inv (if ?c then _ else _) => destruct c eqn:?
           | |- mode_inv (match ?c with Some _ => _ | None => _ end) =>
               destruct c eqn:?
           end;
      try exact Hinv. apply configure_inv. apply OpMode_eqb_eq. assumption.
  - unfold Parse_StartBurstDamping.
    repeat match goal with
           | |- mode_inv (if ?c then _ else _) => destruct c eqn:?
           | |- mode_inv (match ?c with Some _ => _ | None => _ end) =>
               destruct c eqn:?
           end;
      try exact Hinv. apply configure_inv. apply OpMode_eqb_eq. assumption.
Qed.

Lemma run_commands_inv cmds : forall s,
  mode_inv s -> mode_inv (run_commands cmds s).
Proof.
  unfold run_commands. induction cmds as [|c cmds IH]; intros s Hinv;
    [exact Hinv|].
  cbn [fold_left]. apply IH. apply process_command_inv. exact Hinv.
Qed.

Lemma main_loop_turn_inv s t : mode_inv s -> mode_inv (main_loop_turn s t).
Proof.
  intros Hinv. unfold main_loop_turn. cbv zeta.
  set (s3 := Trigger_Pump (trigger_env t)
               (BurstManager_Pump (burst_env t) (run_commands (lines t) s))).
  assert (H3 : mode_inv s3).
  { apply Trigger_Pump_inv, BurstManager_Pump_inv, run_commands_inv, Hinv. }
  destruct (stop_flag s3); [|exact H3].
  apply set_stop_flag_inv, CmdHandler_HandleStop_inv, H3.
Qed.

(** In every state [process_command] can find, the mode [Armed]
    goes with the trigger state [Armed]: the hold-off state is
    entered only together with the mode [Burst], and [Armed] is
    entered only by ARM, which sets the trigger state first. *)
Lemma reachable_inv s : reachable s -> mode_inv s.
Proof.
  intros (turns & cmds & ->). unfold state_at_command.
  apply run_commands_inv.
  assert (H : forall s0, mode_inv s0 ->
                mode_inv (fold_left main_loop_turn turns s0)).
  { induction turns as [|t turns IH]; intros s0 H0; [exact H0|].
    cbn [fold_left]. apply IH, main_loop_turn_inv, H0. }
  apply H, boot_state_inv.
Qed.

Lemma reachable_armed s :
  reachable s -> op_mode s = OP_MODE_ARMED -> trg_state s = TRG_STATE_ARMED.
Proof. intros Hr. apply (reachable_inv s Hr). Qed.

(** The way to [Armed]: MODE,TRIGGER_ON; CAL_READY,phase=hold_zero;
    the countdown runs out and [Trigger_Pump] takes the zero; ARM. *)
Definition quiet_burst : BurstEnv :=
  {| sampling_stalled := false; burst_complete := false;
     bm_active_on_stall := false; bm_active_when_sending := false;
     countdown_active := true; bm_active_on_abort := false; tx_idle := true |}.

Definition quiet_trigger : TriggerEnv :=
  {| countdown_running := false; holdoff_elapsed := false;
     sample_available := false; trigger_exceeds := false |}.

Definition calibrated : CommandEnv :=
  {| host_line_taken := false; zero_calibrated := true |}.

Definition arming_turns : list Turn :=
  [{| lines := [(lit "MODE,TRIGGER_ON", calibrated);
                (lit "CAL_READY,phase=hold_zero", calibrated)];
      burst_env := quiet_burst; trigger_env := quiet_trigger;
      bm_active_on_stop := false |}].

Definition armed_state : ModeState :=
  state_at_command arming_turns [(lit "ARM", calibrated)].

Example armed_state_modes :
  op_mode armed_state = OP_MODE_ARMED /\ trg_state armed_state = TRG_STATE_ARMED.
Proof. vm_compute. split; reflexivity. Qed.

Lemma armed_state_reachable : reachable armed_state.
Proof. exists arming_turns, [(lit "ARM", calibrated)]. reflexivity. Qed.

(** After a trigger the mode is [Burst], with the trigger in
    hold-off. *)
Example triggered_state_modes :
  let s := state_at_command
             (arming_turns ++
              [{| lines := [(lit "ARM", calibrated);
                            (lit "_TEST_FORCE_TRIGGER", calibrated)];
                  burst_env := quiet_burst; trigger_env := quiet_trigger;
                  bm_active_on_stop := false |}]) [] in
  op_mode s = OP_MODE_BURST /\ trg_state s = TRG_STATE_IN_HOLDOFF.
Proof. vm_compute. split; reflexivity. Qed.

End ModeFacts.

(** ** Command handler *)

Module CmdFacts.
Import Sensor Fw ApiParseFacts.

(** *** Strings *)

Lemma starts_with_split pfx : forall s,
  starts_with pfx s = true -> exists rest, s = pfx ++ rest.
Proof.
  induction pfx as [|p pfx IH]; intros s H; simpl in *.
  - exists s. reflexivity.
  - destruct s as [|c s]; [discriminate|].
    apply andb_true_iff in H as [Hc Hs]. apply Ascii.eqb_eq in Hc as ->.
    destruct (IH _ Hs) as [rest ->]. exists rest. reflexivity.
Qed.

Lemma strstr_absent_char c needle s :
  Forall (fun x => x <> c) s -> strstr s (c :: needle) = None.
Proof.
  induction 1 as [|x s Hx Hs IH]; simpl; [reflexivity|].
  destruct (Ascii.eqb_spec c x) as [->|_]; [congruence|]. simpl.
  destruct (Ascii.eqb x NUL); [reflexivity|exact IH].
Qed.

Lemma space_not_nul c : code c = 32 -> Ascii.eqb c NUL = false.
Proof.
  intros H. destruct (Ascii.eqb_spec c NUL) as [->|]; [|reflexivity].
  vm_compute in H. discriminate.
Qed.

Lemma strstr_skip_spaces s needle :
  strstr s needle = None -> strstr (skip_spaces s) needle = None.
Proof.
  induction s as [|c s IH]; [auto|].
  cbn [skip_spaces]. destruct (code c =? 32) eqn:Hc; [|auto].
  apply Z.eqb_eq in Hc. cbn [strstr].
  destruct (starts_with needle (c :: s)); [discriminate|].
  rewrite (space_not_nul c Hc). exact IH.
Qed.

Section Dispatch.
Context {board : Board} {handlers : Handlers}.

Ltac other_verbs :=
  repeat match goal with
    | |- context [cmd_exact ?l ?v] =>
        let E := fresh "E" in
        assert (E : cmd_exact l v = false) by (unfold cmd_exact; reflexivity);
        rewrite E; clear E
    end.

Lemma hook_skips_commands line w :
  starts_with (lit "ACK_BLK") line = false ->
  starts_with (lit "NACK_BLK") line = false ->
  starts_with (lit "ACK_COMPLETE") line = false ->
  BM_HandleHostLine line w = (false, w).
Proof. unfold BM_HandleHostLine. intros -> -> ->. reflexivity. Qed.

Lemma skip_spaces_peek line :
  peek (skip_spaces line) <> NUL -> (code (peek line) =? 0) = false.
Proof.
  destruct line as [|c line]; simpl; [congruence|].
  destruct (code c =? 32) eqn:Hc.
  - intros _. apply Z.eqb_eq in Hc. rewrite Hc. reflexivity.
  - intros H. apply Z.eqb_neq. intros H0. apply H.
    unfold code in H0. destruct c as [[] [] [] [] [] [] [] []];
      vm_compute in H0; try discriminate. reflexivity.
Qed.

(** *** STOP *)

Lemma dispatch_stop line w :
  cmd_exact line "STOP" = true -> dispatch line w = Done (handle_stop line w).
Proof.
  intros H. pose proof H as H'.
  unfold cmd_exact in H'. apply andb_true_iff in H' as [Hp _].
  apply starts_with_split in Hp as [rest ->].
  unfold dispatch. other_verbs. rewrite H. reflexivity.
Qed.

Lemma handle_stop_processing line b w :
  set_processing false (handle_stop line (set_processing b w)) =
    set_processing false (handle_stop line w).
Proof.
  unfold handle_stop. cbn [ctx set_processing].
  destruct (OpMode_eqb (op_mode (ctx w)) OP_MODE_ARMED
            && TrgState_eqb (trg_state (ctx w)) TRG_STATE_ARMED
            && negb (is_some (strstr line (lit ",FORCE")))); reflexivity.
Qed.

Lemma process_command_stop line w :
  cmd_exact (skip_spaces line) "STOP" = true ->
  process_command line w =
    Done (set_processing false (handle_stop (skip_spaces line) w)).
Proof.
  intros H. unfold process_command.
  pose proof H as H'. unfold cmd_exact in H'.
  apply andb_true_iff in H' as [Hp _].
  apply starts_with_split in Hp as [rest Hline].
  rewrite skip_spaces_peek by (rewrite Hline; discriminate).
  rewrite hook_skips_commands by (rewrite Hline; reflexivity).
  rewrite dispatch_stop by exact H. cbn [bind].
  rewrite handle_stop_processing. reflexivity.
Qed.

Lemma stop_while_armed_cases (line : cstring) (w : World) :
  cmd_exact (skip_spaces line) "STOP" = true ->
  strstr line (lit ",FORCE") = None ->
  op_mode (ctx w) = OP_MODE_ARMED ->
  (trg_state (ctx w) = TRG_STATE_ARMED ->
   process_command line w =
     Done (set_processing false
             (Telemetry_SendNACK "STOP" "blocked_while_armed" 201 w))) /\
  (trg_state (ctx w) <> TRG_STATE_ARMED ->
   process_command line w =
     Done (set_processing false (set_ctx (set_stop_flag true (ctx w)) w))).
Proof.
  intros Hstop Hforce Hop.
  rewrite (process_command_stop line w Hstop).
  unfold handle_stop.
  rewrite (strstr_skip_spaces _ _ Hforce), Hop. simpl.
  split; intros Ht.
  - rewrite Ht. reflexivity.
  - destruct (trg_state (ctx w)); try congruence; reflexivity.
Qed.

(** The STOP branch in the model of the modes. *)
Lemma modes_process_command_stop line env s :
  cmd_exact (skip_spaces line) "STOP" = true ->
  Modes.process_command line env s =
    if OpMode_eqb (Modes.op_mode s) OP_MODE_ARMED
       && TrgState_eqb (Modes.trg_state s) TRG_STATE_ARMED
       && negb (is_some (strstr (skip_spaces line) (lit ",FORCE")))
    then s else Modes.set_stop_flag true s.
Proof.
  intros H. unfold Modes.process_command.
  pose proof H as H'. unfold cmd_exact in H'.
  apply andb_true_iff in H' as [Hp _].
  apply starts_with_split in Hp as [rest Hline].
  rewrite skip_spaces_peek by (rewrite Hline; discriminate).
  cbv zeta. revert H. rewrite Hline. intros H.
  change (starts_with (lit "ACK_BLK") (lit "STOP" ++ rest)) with false.
  change (starts_with (lit "NACK_BLK") (lit "STOP" ++ rest)) with false.
  change (starts_with (lit "ACK_COMPLETE") (lit "STOP" ++ rest)) with false.
  cbn [orb andb].
  other_verbs. rewrite H. reflexivity.
Qed.

(** C3.  In [Armed], a STOP without ",FORCE" is answered
    NACK,SUBJECT=STOP,reason=blocked_while_armed,code=201 and the
    context (mode, trigger state, stop flag) is unchanged.  The
    state is any state in which the firmware can receive the line:
    one that the main loop reaches from start-up, by commands and by
    the pumps of the burst manager and of the trigger, whatever the
    sensor, the clock and the host do.  In these states the mode
    [Armed] goes with the trigger state [Armed], which is what the
    STOP branch tests besides the mode. *)
Theorem stop_blocked_while_armed (line : cstring) (w : World)
  (s : Modes.ModeState) (env : Modes.CommandEnv) :
  Modes.reachable s ->
  op_mode (ctx w) = Modes.op_mode s ->
  trg_state (ctx w) = Modes.trg_state s ->
  cmd_exact (skip_spaces line) "STOP" = true ->
  strstr line (lit ",FORCE") = None ->
  op_mode (ctx w) = OP_MODE_ARMED ->
  process_command line w =
    Done (set_processing false
            (Telemetry_SendNACK "STOP" "blocked_while_armed" 201 w)) /\
  Modes.process_command line env s = s.
Proof.
  intros Hreach Hop_s Htrg_s Hstop Hforce Hop.
  assert (Htrg : Modes.trg_state s = TRG_STATE_ARMED).
  { apply (ModeFacts.reachable_armed s Hreach). rewrite <- Hop_s. exact Hop. }
  split.
  - apply (stop_while_armed_cases line w Hstop Hforce Hop).
    rewrite Htrg_s. exact Htrg.
  - rewrite (modes_process_command_stop line env s Hstop).
    rewrite <- Hop_s, Hop, Htrg, (strstr_skip_spaces _ _ Hforce).
    reflexivity.
Qed.

(** *** HB *)

Lemma dispatch_hb line w :
  cmd_exact line "HB" = true -> dispatch line w = Done (Parse_HB line w).
Proof.
  intros H. pose proof H as H'.
  unfold cmd_exact in H'. apply andb_true_iff in H' as [Hp _].
  apply starts_with_split in Hp as [rest ->].
  unfold dispatch. other_verbs. rewrite H. reflexivity.
Qed.

Definition store_hb (v : Z) (w : World) : World :=
  set_ctx (set_cfg (set_hb_ms v (cfg (ctx w))) (ctx w)) w.

Definition hb_stored (v : Z) : Z :=
  if (0 <? v) && (v <? 100) then 100 else v.

Lemma Parse_HB_ms tail v w :
  Forall (fun c => c <> "O"%char) tail ->
  api_parse_u32 tail = Some v ->
  Parse_HB (lit "HB,ms=" ++ tail) w =
    Telemetry_SendACK "HB" (store_hb (hb_stored v) w).
Proof.
  intros HO Hv. unfold Parse_HB.
  assert (HnoO : Forall (fun c => c <> "O"%char) (lit "HB,ms=" ++ tail)).
  { apply Forall_app. split; [|exact HO].
    repeat constructor; discriminate. }
  change (lit "OFF") with ("O"%char :: lit "FF").
  change (lit "ON") with ("O"%char :: lit "N").
  rewrite !strstr_absent_char by exact HnoO. cbn [is_some].
  change (strstr (lit "HB,ms=" ++ tail) (lit "ms="))
    with (Some (lit "ms=" ++ tail)).
  cbv beta iota.
  change (advance 3 (lit "ms=" ++ tail)) with tail.
  rewrite Hv. reflexivity.
Qed.

(** C10.  "HB,ms=<v>" with a value the integer parser accepts is
    always acknowledged; the heartbeat period stored is 100 when
    0 < v < 100 (no range NACK), 0 when v = 0, and v when
    v >= 100. *)
Theorem hb_ms_below_100_snaps_up (tail : cstring) (v : Z) (w : World) :
  Forall (fun c => c <> "O"%char) tail ->
  api_parse_u32 tail = Some v ->
  process_command (lit "HB,ms=" ++ tail) w =
    Done (set_processing false
            (Telemetry_SendACK "HB" (store_hb (hb_stored v) w))) /\
  (0 < v < 100 -> hb_stored v = 100) /\
  (v = 0 -> hb_stored v = 0) /\
  (100 <= v -> hb_stored v = v).
Proof.
  intros HO Hv. split.
  - unfold process_command.
    change (code (peek (lit "HB,ms=" ++ tail)) =? 0) with false.
    change (skip_spaces (lit "HB,ms=" ++ tail)) with (lit "HB,ms=" ++ tail).
    cbv iota.
    rewrite hook_skips_commands by reflexivity.
    rewrite dispatch_hb by reflexivity. cbn [bind].
    rewrite (Parse_HB_ms tail v _ HO Hv). reflexivity.
  - unfold hb_stored. repeat split; intros H.
    + replace (0 <? v) with true by (symmetry; apply Z.ltb_lt; lia).
      replace (v <? 100) with true by (symmetry; apply Z.ltb_lt; lia).
      reflexivity.
    + subst v. reflexivity.
    + replace (v <? 100) with false by (symmetry; apply Z.ltb_ge; lia).
      rewrite andb_false_r. reflexivity.
Qed.

(** *** SET_TRG *)

(** What [Parse_SetTrg] checks: the hold-off time, and nothing
    else. *)
Lemma Parse_SetTrg_checks_hold_ms_only line w :
  let hold := param_u32 line "hold_ms=" (hold_ms (trigger_settings (ctx w))) in
  (100 <= hold <= 10000 ->
   exists ns, Parse_SetTrg line w =
                Telemetry_SendACK "SET_TRG"
                  (set_ctx (set_trigger_settings ns (ctx w)) w) /\
              hold_ms ns = hold /\
              win_ms ns = param_u32 line "win_ms="
                            (win_ms (trigger_settings (ctx w)))) /\
  (~ 100 <= hold <= 10000 ->
   Parse_SetTrg line w = Telemetry_SendNACK "SET_TRG" "param_range" 102 w).
Proof.
  intros hold. unfold Parse_SetTrg. cbn [hold_ms]. fold hold.
  split; intros H.
  - replace (100 <=? hold) with true by (symmetry; apply Z.leb_le; lia).
    replace (hold <=? 10000) with true by (symmetry; apply Z.leb_le; lia).
    cbn [andb negb]. eexists. split; [reflexivity|]. split; reflexivity.
  - destruct (Z.leb_spec 100 hold); [|reflexivity].
    destruct (Z.leb_spec hold 10000); [lia|reflexivity].
Qed.

(** *** SET_CFG *)

Lemma param_u32_range line key dflt :
  is_u32 dflt -> is_u32 (param_u32 line key dflt).
Proof.
  intros Hd. unfold param_u32.
  destruct (strstr line (lit key)) as [q|]; [|exact Hd].
  destruct (api_parse_u32 (advance (String.length key) q)) as [v|] eqn:Hv;
    [|exact Hd].
  apply api_parse_u32_sound in Hv.
  destruct Hv as (ws1 & ds & ws2 & rest0 & _ & _ & Hds & _ & _ & _ & <- & Hle).
  split; [|exact Hle].
  apply (fold_digits_mono ds 0 Hds). lia.
Qed.

Lemma SetCfg_request_range line c :
  cfg_wf c ->
  let r := SetCfg_request line c in
  is_u32 (req_odr_hz r) /\ is_u32 (new_burst_ms r) /\
  is_u32 (new_hb_ms r) /\ is_u32 (new_stream_rate r).
Proof.
  intros (H1 & H2 & H3 & H4). cbn.
  repeat split; apply param_u32_range; assumption.
Qed.

Definition SetCfg_rejects (r : SetCfgRequest) : bool :=
  let eff_odr := Sensor_SnapODR (req_odr_hz r) in
  (new_burst_ms r =? 0) || (600000 <? new_burst_ms r)
  || ((0 <? new_hb_ms r) && (new_hb_ms r <? 100))
  || (eff_odr <? new_stream_rate r)
  || ((0 <? new_stream_rate r) && negb (eff_odr mod new_stream_rate r =? 0)).

Lemma SetCfg_rejects_spec r :
  is_u32 (new_burst_ms r) -> is_u32 (new_hb_ms r) ->
  is_u32 (new_stream_rate r) ->
  SetCfg_rejects r = false <-> SetCfg_valid r.
Proof.
  unfold SetCfg_rejects, SetCfg_valid, is_u32.
  intros Hb Hh Hs.
  set (odr := Sensor_SnapODR (req_odr_hz r)).
  rewrite !orb_false_iff, !andb_false_iff, negb_false_iff.
  rewrite !Z.eqb_neq, !Z.ltb_ge, Z.eqb_eq.
  cbv zeta. intuition lia.
Qed.

(** The part of [Parse_SetCfg] after the checks. *)
Definition SetCfg_apply (r : SetCfgRequest) (w : World) : Outcome :=
  let eff_odr := Sensor_SnapODR (req_odr_hz r) in
  let old_odr := odr_hz (cfg (ctx w)) in
  let w := set_ctx (set_cfg (SetCfg_result r) (ctx w)) w in
  bind
    (if negb (old_odr =? eff_odr) then
       let was_sampling := Sensor_IsSampling w in
       let w := if was_sampling then Sensor_StopSampling w else w in
       let w := snd (Sensor_SetODR eff_odr w) in
       bind (Sensor_ReconfigureTimer eff_odr w) (fun w =>
       let w := if was_sampling then Sensor_StartSampling w else w in
       Done (Streaming_Reconfigure w))
     else Done w)
    (fun w => Done (Telemetry_SendACK "SET_CFG" (Streaming_UpdateDivider w))).

Lemma Parse_SetCfg_cases line w :
  let r := SetCfg_request line (cfg (ctx w)) in
  Parse_SetCfg line w =
    if SetCfg_rejects r
    then Done (Telemetry_SendNACK "SET_CFG" "param_range" 102 w)
    else SetCfg_apply r w.
Proof.
  intros r. unfold Parse_SetCfg, SetCfg_rejects. fold r.
  destruct ((new_burst_ms r =? 0) || (600000 <? new_burst_ms r));
    [reflexivity|].
  destruct ((0 <? new_hb_ms r) && (new_hb_ms r <? 100)); [reflexivity|].
  destruct (Sensor_SnapODR (req_odr_hz r) <? new_stream_rate r);
    [reflexivity|].
  destruct ((0 <? new_stream_rate r)
            && negb (Sensor_SnapODR (req_odr_hz r) mod new_stream_rate r =? 0));
    reflexivity.
Qed.

Lemma Sensor_SetODR_ctx odr w : ctx (snd (Sensor_SetODR odr w)) = ctx w.
Proof.
  unfold Sensor_SetODR, Sensor_WriteVerifyReg. cbn [hal set_hal].
  destruct (write_verify_loop _ _ _ _) as [ok h]. destruct ok; reflexivity.
Qed.

Lemma Sensor_ReconfigureTimer_cases odr w :
  (exists w', Sensor_ReconfigureTimer odr w = Done w' /\ ctx w' = ctx w /\
              tx w' = tx w) \/
  (exists w', Sensor_ReconfigureTimer odr w = Halted w' /\ ctx w' = ctx w /\
              tx w' = tx w ++ [MSG_ERROR "HAL" 0 "fatal_error"]).
Proof.
  unfold Sensor_ReconfigureTimer. cbn [hal set_hal set_tim3].
  destruct (HAL_TIM_Base_Init _ _ _) as [ok h]. destruct ok; cbn [negb].
  - left. eexists. repeat split.
  - right. eexists. repeat split.
Qed.

Lemma Streaming_Reconfigure_ctx w : ctx (Streaming_Reconfigure w) = ctx w.
Proof.
  unfold Streaming_Reconfigure. destruct (g_stream_enabled (streaming w));
    [|reflexivity].
  destruct (g_stream_owns_timer (streaming w)
            && OpMode_eqb (op_mode (ctx w)) OP_MODE_IDLE); reflexivity.
Qed.

Lemma SetCfg_apply_cases r w :
  (exists w1, SetCfg_apply r w = Done (Telemetry_SendACK "SET_CFG" w1) /\
              ctx w1 = set_cfg (SetCfg_result r) (ctx w)) \/
  (exists w1, SetCfg_apply r w = Halted w1 /\
              odr_hz (cfg (ctx w)) <> Sensor_SnapODR (req_odr_hz r) /\
              last (tx w1) = Some (MSG_ERROR "HAL" 0 "fatal_error")).
Proof.
  unfold SetCfg_apply.
  set (w0 := set_ctx (set_cfg (SetCfg_result r) (ctx w)) w).
  assert (Hw0 : ctx w0 = set_cfg (SetCfg_result r) (ctx w)) by reflexivity.
  destruct (Z.eqb_spec (odr_hz (cfg (ctx w))) (Sensor_SnapODR (req_odr_hz r)))
    as [Heq|Hne]; cbn [negb].
  - left. eexists. split; [reflexivity|]. reflexivity.
  - set (w1 := if Sensor_IsSampling w0 then Sensor_StopSampling w0 else w0).
    assert (Hw1 : ctx w1 = ctx w0)
      by (unfold w1; destruct (Sensor_IsSampling w0); reflexivity).
    set (w2 := snd (Sensor_SetODR (Sensor_SnapODR (req_odr_hz r)) w1)).
    assert (Hw2 : ctx w2 = ctx w0)
      by (unfold w2; rewrite Sensor_SetODR_ctx; exact Hw1).
    destruct (Sensor_ReconfigureTimer_cases (Sensor_SnapODR (req_odr_hz r)) w2)
      as [(w3 & -> & Hc3 & _)|(w3 & -> & _ & Ht3)]; cbn [bind].
    + left. eexists. split; [reflexivity|].
      cbn [ctx Streaming_UpdateDivider set_streaming].
      rewrite Streaming_Reconfigure_ctx.
      destruct (Sensor_IsSampling w0); cbn [ctx Sensor_StartSampling set_sensor];
        congruence.
    + right. exists w3. split; [reflexivity|]. split; [exact Hne|].
      rewrite Ht3. apply last_snoc.
Qed.

(** C7.  SET_CFG is acknowledged exactly when the values it would
    store are valid (burst_ms in [1, 600000], hb_ms 0 or at least
    100, stream_rate_hz at most the snapped odr_hz and dividing it
    when non-zero); otherwise the reply is
    NACK,SUBJECT=SET_CFG,reason=param_range,code=102 and nothing
    else changes.  A valid request ends without the ACK only in
    [Error_Handler], when the rate changed and the sampling timer
    could not be re-initialised. *)
Theorem set_cfg_ack_iff_valid (line : cstring) (w : World) :
  cfg_wf (cfg (ctx w)) ->
  let r := SetCfg_request line (cfg (ctx w)) in
  (~ SetCfg_valid r ->
   Parse_SetCfg line w =
     Done (Telemetry_SendNACK "SET_CFG" "param_range" 102 w)) /\
  (SetCfg_valid r ->
   (exists w1, Parse_SetCfg line w = Done (Telemetry_SendACK "SET_CFG" w1) /\
               cfg (ctx w1) = SetCfg_result r) \/
   (exists w1, Parse_SetCfg line w = Halted w1 /\
               odr_hz (cfg (ctx w)) <> Sensor_SnapODR (req_odr_hz r) /\
               last (tx w1) = Some (MSG_ERROR "HAL" 0 "fatal_error"))) /\
  (forall w', Parse_SetCfg line w = Done w' ->
              (last (tx w') = Some (MSG_ACK "SET_CFG") <-> SetCfg_valid r)).
Proof.
  intros Hwf r.
  destruct (SetCfg_request_range line _ Hwf) as (_ & Hb & Hh & Hs).
  fold r in Hb, Hh, Hs.
  pose proof (SetCfg_rejects_spec r Hb Hh Hs) as Hspec.
  rewrite (Parse_SetCfg_cases line w). fold r.
  destruct (SetCfg_rejects r) eqn:Hrej.
  - assert (Hinv : ~ SetCfg_valid r)
      by (intros Hv; apply Hspec in Hv; discriminate).
    split; [reflexivity|]. split; [intros Hv; contradiction|].
    intros w' Hw'. injection Hw' as <-. split; [|contradiction].
    unfold Telemetry_SendNACK, COMM_Sendf. cbn [tx set_tx].
    rewrite last_snoc. discriminate.
  - assert (Hval : SetCfg_valid r) by (apply Hspec; reflexivity).
    split; [intros Hn; contradiction|].
    destruct (SetCfg_apply_cases r w) as [(w1 & Hw1 & Hc1)|(w1 & Hw1 & Hx)].
    + split.
      * intros _. left. exists w1. split; [exact Hw1|]. rewrite Hc1. reflexivity.
      * intros w' Hw'. rewrite Hw1 in Hw'. injection Hw' as <-.
        split; [intros _; exact Hval|]. intros _.
        unfold Telemetry_SendACK, COMM_Sendf. cbn [tx set_tx].
        apply last_snoc.
    + split.
      * intros _. right. exists w1. split; [exact Hw1|exact Hx].
      * intros w' Hw'. rewrite Hw1 in Hw'. discriminate.
Qed.

(** With a timer that can always be re-initialised, [Parse_SetCfg]
    returns. *)
Lemma Parse_SetCfg_returns line w :
  (forall p q h, fst (HAL_TIM_Base_Init p q h) = true) ->
  exists w', Parse_SetCfg line w = Done w'.
Proof.
  intros Htim. rewrite Parse_SetCfg_cases.
  destruct (SetCfg_rejects _); [eexists; reflexivity|].
  unfold SetCfg_apply.
  destruct (negb _); cbn [bind]; [|eexists; reflexivity].
  unfold Sensor_ReconfigureTimer. cbn [hal set_hal set_tim3].
  match goal with
  | |- context [HAL_TIM_Base_Init ?p ?q ?h] =>
      specialize (Htim p q h); destruct (HAL_TIM_Base_Init p q h) as [ok h']
  end.
  cbn in Htim. subst ok. cbn [negb bind]. eexists. reflexivity.
Qed.

End Dispatch.

Definition armed_world : World (board := ideal_board) :=
  with_modes OP_MODE_ARMED TRG_STATE_ARMED boot_world.

Lemma stop_blocked_while_armed_witness :
  tx (run_ideal "STOP" armed_world) =
    [MSG_NACK "STOP" "blocked_while_armed" 201] /\
  stop_flag (ctx (run_ideal "STOP" armed_world)) = false /\
  op_mode (ctx (run_ideal "STOP" armed_world)) = OP_MODE_ARMED /\
  Modes.process_command (lit "STOP") ModeFacts.calibrated ModeFacts.armed_state
  = ModeFacts.armed_state.
Proof.
  unfold run_ideal.
  destruct (stop_blocked_while_armed (handlers := idle_handlers)
              (lit "STOP") armed_world ModeFacts.armed_state
              ModeFacts.calibrated ModeFacts.armed_state_reachable
              eq_refl eq_refl eq_refl eq_refl eq_refl) as [Ha Hm].
  rewrite Ha. repeat split.
Defined.

Lemma hb_ms_below_100_snaps_up_witness :
  hb_ms (cfg (ctx (run_ideal "HB,ms=50" boot_world))) = 100 /\
  tx (run_ideal "HB,ms=50" boot_world) = [MSG_ACK "HB"].
Proof.
  unfold run_ideal.
  destruct (hb_ms_below_100_snaps_up (handlers := idle_handlers)
              (lit "50") 50 boot_world) as [H _].
  - repeat constructor; discriminate.
  - reflexivity.
  - change (lit "HB,ms=50") with (lit "HB,ms=" ++ lit "50"). rewrite H.
    split; reflexivity.
Defined.

(** C1 (the code at the failing inputs).  A SET_TRG whose [win_ms]
    or [k_mult] is outside the documented range is acknowledged and
    the value is stored: [win_ms] 10, and [k_mult] 1.0 (the float
    8388608 * 2^-23), which is below 2.0. *)
Theorem set_trg_out_of_range_is_acked :
  tx (run_ideal "SET_TRG,win_ms=10" boot_world) = [MSG_ACK "SET_TRG"] /\
  win_ms (trigger_settings (ctx (run_ideal "SET_TRG,win_ms=10" boot_world))) = 10 /\
  tx (run_ideal "SET_TRG,k_mult=1.000" boot_world) = [MSG_ACK "SET_TRG"] /\
  k_mult (trigger_settings (ctx (run_ideal "SET_TRG,k_mult=1.000" boot_world)))
    = SpecFloat.S754_finite false 8388608 (-23) /\
  CFloat.lt
    (k_mult (trigger_settings (ctx (run_ideal "SET_TRG,k_mult=1.000" boot_world))))
    (CFloat.float_of_u32 2) = true.
Proof. vm_compute. repeat split. Qed.

Definition set_cfg_minimal : cstring :=
  lit "SET_CFG,odr_hz=100,burst_ms=100,hb_ms=0,stream_rate_hz=0".

Lemma set_cfg_ack_iff_valid_witness :
  cfg_wf (cfg (ctx boot_world)) /\
  last (tx (outcome_world (Parse_SetCfg set_cfg_minimal boot_world)))
    = Some (MSG_ACK "SET_CFG") /\
  Parse_SetCfg (lit "SET_CFG,stream_rate_hz=3") boot_world
    = Done (Telemetry_SendNACK "SET_CFG" "param_range" 102 boot_world).
Proof.
  assert (Hwf : cfg_wf (cfg (ctx boot_world)))
    by (vm_compute; intuition discriminate).
  split; [exact Hwf|split].
  - apply (proj2 (proj2 (set_cfg_ack_iff_valid (board := ideal_board)
                           set_cfg_minimal boot_world Hwf))
             (outcome_world (Parse_SetCfg set_cfg_minimal boot_world)) eq_refl).
    vm_compute. intuition discriminate.
  - apply (proj1 (set_cfg_ack_iff_valid (board := ideal_board)
                    (lit "SET_CFG,stream_rate_hz=3") boot_world Hwf)).
    intros (_ & _ & _ & H). vm_compute in H.
    assert (X : 2 = 0) by (apply H; discriminate). discriminate X.
Defined.

End CmdFacts.

(** ** Line assembler *)

Module CommFacts.
Import Comm.

Definition no_eol (p : list ascii) : Prop :=
  forallb (fun c => negb (is_eol c)) p = true.

Definition buffer_ok (st : CommState) : Prop :=
  length (line_buffer st) = Z.to_nat LINE_BUFFER_SIZE.

Lemma feed_app a : forall b st,
  feed (a ++ b) st =
    let '(st1, e1) := feed a st in
    let '(st2, e2) := feed b st1 in
    (st2, e1 ++ e2).
Proof.
  induction a as [|c a IH]; intros b st; simpl.
  - destruct (feed b st). reflexivity.
  - destruct (line_step c st) as [st1 ev]. rewrite IH.
    destruct (feed a st1) as [st2 e1]. destruct (feed b st2) as [st3 e2].
    rewrite app_assoc. reflexivity.
Qed.

(** A payload byte while there is room. *)
Lemma line_step_store c st :
  is_eol c = false -> line_truncated st = false ->
  0 <= line_len st < LINE_BUFFER_SIZE - 1 -> buffer_ok st ->
  exists st', line_step c st = (st', []) /\
              line_len st' = line_len st + 1 /\
              line_truncated st' = false /\ buffer_ok st' /\
              terminated_line st' = terminated_line st ++ [c].
Proof.
  unfold buffer_ok, LINE_BUFFER_SIZE, PROTO_MAX_LINE.
  intros Hc Ht Hlen Hbuf. unfold line_step. rewrite Hc, Ht. cbn [negb].
  replace (line_len st <? LINE_BUFFER_SIZE - 1) with true
    by (symmetry; apply Z.ltb_lt; unfold LINE_BUFFER_SIZE, PROTO_MAX_LINE; lia).
  eexists. split; [reflexivity|].
  cbn [line_len line_truncated line_buffer set_line].
  assert (Hw : wrap16 (line_len st + 1) = line_len st + 1)
    by (unfold wrap16; apply Z.mod_small; lia).
  rewrite Hw. repeat split.
  - rewrite length_insert. exact Hbuf.
  - unfold terminated_line. cbn [line_len line_buffer set_line].
    replace (Z.to_nat (line_len st + 1)) with (S (Z.to_nat (line_len st)))
      by lia.
    rewrite (take_S_r _ _ c).
    + rewrite take_insert_ge by lia. reflexivity.
    + apply list_lookup_insert_eq. rewrite Hbuf. lia.
Qed.

(** A payload that fits is stored as it is. *)
Lemma feed_payload p : forall st,
  no_eol p -> line_truncated st = false -> 0 <= line_len st ->
  line_len st + Z.of_nat (length p) <= LINE_BUFFER_SIZE - 1 -> buffer_ok st ->
  exists st', feed p st = (st', []) /\
              line_len st' = line_len st + Z.of_nat (length p) /\
              line_truncated st' = false /\ buffer_ok st' /\
              terminated_line st' = terminated_line st ++ p.
Proof.
  induction p as [|c p IH]; intros st Hp Ht H0 Hfit Hbuf.
  - exists st. simpl. rewrite app_nil_r. repeat split; try assumption. lia.
  - unfold no_eol in Hp. simpl in Hp. apply andb_true_iff in Hp as [Hc Hp].
    apply negb_true_iff in Hc. rewrite length_cons in Hfit.
    destruct (line_step_store c st Hc Ht ltac:(lia) Hbuf)
      as (st1 & Hs1 & Hl1 & Ht1 & Hb1 & Hline1).
    destruct (IH st1 Hp Ht1 ltac:(lia) ltac:(lia) Hb1)
      as (st2 & Hs2 & Hl2 & Ht2 & Hb2 & Hline2).
    exists st2. cbn [feed]. rewrite Hs1, Hs2.
    repeat split; try assumption.
    + rewrite length_cons. lia.
    + rewrite Hline2, Hline1, <- app_assoc. reflexivity.
Qed.

(** Once the line is over-long, its bytes are dropped. *)
Lemma feed_dropped p : forall st,
  no_eol p -> line_truncated st = true -> feed p st = (st, []).
Proof.
  induction p as [|c p IH]; intros st Hp Ht; [reflexivity|].
  unfold no_eol in Hp. simpl in Hp. apply andb_true_iff in Hp as [Hc Hp].
  apply negb_true_iff in Hc. simpl. unfold line_step. rewrite Hc, Ht.
  cbn [negb]. rewrite (IH st Hp Ht). reflexivity.
Qed.

Lemma no_eol_app a b : no_eol (a ++ b) <-> no_eol a /\ no_eol b.
Proof. unfold no_eol. rewrite forallb_app. apply andb_true_iff. Qed.

(** A payload of 256 bytes or more leaves the assembler in the
    "over-long" state with nothing assembled, and nothing was
    dispatched or sent on the way. *)
Lemma feed_overlong p st :
  no_eol p -> at_line_start st ->
  LINE_BUFFER_SIZE <= Z.of_nat (length p) ->
  exists st', feed p st = (st', []) /\ line_len st' = 0 /\
              line_truncated st' = true /\ buffer_ok st'.
Proof.
  intros Hp (Hl & Ht & Hb) Hlong.
  unfold LINE_BUFFER_SIZE, PROTO_MAX_LINE in Hlong.
  rewrite <- (take_drop 255 p) in Hp |- *.
  apply no_eol_app in Hp as [Hp1 Hp2].
  assert (Hlen1 : length (take 255 p) = 255%nat)
    by (rewrite length_take; lia).
  destruct (feed_payload (take 255 p) st Hp1 Ht ltac:(lia)) as
    (st1 & Hs1 & Hl1 & Ht1 & Hb1 & _).
  { rewrite Hlen1, Hl. unfold LINE_BUFFER_SIZE, PROTO_MAX_LINE. lia. }
  { exact Hb. }
  rewrite feed_app, Hs1.
  destruct (drop 255 p) as [|c rest] eqn:Hd.
  { apply (f_equal length) in Hd. rewrite length_drop in Hd. simpl in Hd. lia. }
  unfold no_eol in Hp2. simpl in Hp2. apply andb_true_iff in Hp2 as [Hc Hr].
  apply negb_true_iff in Hc.
  cbn [feed]. unfold line_step at 1. rewrite Hc, Ht1. cbn [negb].
  replace (line_len st1 <? LINE_BUFFER_SIZE - 1) with false.
  2:{ symmetry. apply Z.ltb_ge. rewrite Hl1, Hlen1, Hl.
      unfold LINE_BUFFER_SIZE, PROTO_MAX_LINE. lia. }
  rewrite feed_dropped by (exact Hr || reflexivity).
  eexists. split; [reflexivity|]. repeat split. exact Hb1.
Qed.

(** What a complete line leads to: nothing for an empty line, the
    call of [process_command] for a payload of up to 255 bytes, the
    NACK for a longer one. *)
Definition line_events (p : list ascii) : list Event :=
  if (length p =? 0)%nat then []
  else if (length p <=? 255)%nat then [EvCommand p]
  else [EvSend NACK_line_too_long].

Lemma terminated_line_start st : line_len st = 0 -> terminated_line st = [].
Proof. unfold terminated_line. intros ->. reflexivity. Qed.

Lemma feed_line p t st :
  no_eol p -> is_eol t = true -> at_line_start st ->
  exists st', feed (p ++ [t]) st = (st', line_events p) /\ at_line_start st'.
Proof.
  intros Hp Ht Hst. pose proof Hst as (Hl & Htr & Hb).
  unfold line_events.
  destruct (Nat.leb_spec (length p) 255) as [Hshort|Hlong].
  - destruct (feed_payload p st Hp Htr ltac:(lia)) as
      (st1 & Hs1 & Hl1 & Ht1 & Hb1 & Hline1).
    { rewrite Hl. unfold LINE_BUFFER_SIZE, PROTO_MAX_LINE. lia. }
    { exact Hb. }
    rewrite feed_app, Hs1. cbn [feed]. unfold line_step. rewrite Ht.
    rewrite Hl1, Hl, Ht1.
    rewrite (terminated_line_start st Hl) in Hline1. cbn [app] in Hline1.
    destruct p as [|c p].
    + simpl. eexists. split; [reflexivity|]. repeat split. exact Hb1.
    + replace (0 <? 0 + Z.of_nat (length (c :: p))) with true
        by (symmetry; apply Z.ltb_lt; rewrite length_cons; lia).
      rewrite Hline1. cbn [Nat.eqb length app].
      eexists. split; [reflexivity|]. repeat split.
      cbn [line_buffer set_line]. rewrite length_insert. exact Hb1.
  - destruct (feed_overlong p st Hp Hst) as (st1 & Hs1 & Hl1 & Ht1 & Hb1).
    { unfold LINE_BUFFER_SIZE, PROTO_MAX_LINE. lia. }
    rewrite feed_app, Hs1. cbn [feed]. unfold line_step. rewrite Ht.
    rewrite Hl1, Ht1. cbn.
    replace (length p =? 0)%nat with false
      by (symmetry; apply Nat.eqb_neq; lia).
    eexists. split; [reflexivity|]. repeat split. exact Hb1.
Qed.

(** A line feed right after a carriage return does nothing. *)
Lemma feed_second_eol t st :
  is_eol t = true -> at_line_start st ->
  exists st', feed [t] st = (st', []) /\ at_line_start st'.
Proof.
  intros Ht Hst. destruct (feed_line [] t st eq_refl Ht Hst) as (st' & H & Hs).
  exists st'. split; [exact H|exact Hs].
Qed.

(** CR, LF and CR LF end a line alike; a payload of 256 bytes or more
    gets the one NACK and is never dispatched. *)
Lemma line_terminators p st :
  no_eol p -> at_line_start st ->
  snd (feed (p ++ [CR]) st) = line_events p /\
  snd (feed (p ++ [LF]) st) = line_events p /\
  snd (feed (p ++ [CR; LF]) st) = line_events p /\
  (LINE_BUFFER_SIZE <= Z.of_nat (length p) ->
   line_events p = [EvSend NACK_line_too_long]).
Proof.
  intros Hp Hst.
  destruct (feed_line p CR st Hp eq_refl Hst) as (s1 & H1 & Hs1).
  destruct (feed_line p LF st Hp eq_refl Hst) as (s2 & H2 & Hs2).
  destruct (feed_second_eol LF s1 eq_refl Hs1) as (s3 & H3 & Hs3).
  split; [rewrite H1; reflexivity|].
  split; [rewrite H2; reflexivity|]. split.
  - change (p ++ [CR; LF]) with (p ++ [CR] ++ [LF]).
    rewrite app_assoc, feed_app, H1, H3. simpl. apply app_nil_r.
  - unfold LINE_BUFFER_SIZE, PROTO_MAX_LINE, line_events. intros Hlong.
    replace (length p =? 0)%nat with false
      by (symmetry; apply Nat.eqb_neq; lia).
    replace (length p <=? 255)%nat with false
      by (symmetry; apply Nat.leb_gt; lia).
    reflexivity.
Qed.

(** *** The ring and the two processing functions *)

Definition ring_wf (st : CommState) : Prop :=
  0 <= rx_ring_head st < RX_RING_BUFFER_SIZE /\
  0 <= rx_ring_tail st < RX_RING_BUFFER_SIZE.

Lemma line_step_set_tail c t st :
  line_step c (set_tail t st) =
    (set_tail t (fst (line_step c st)), snd (line_step c st)).
Proof.
  unfold line_step, terminated_line. cbn [set_tail line_len line_truncated line_buffer].
  destruct (is_eol c).
  - destruct (0 <? line_len st); [reflexivity|].
    destruct (line_truncated st); reflexivity.
  - destruct (line_truncated st); cbn [negb]; [reflexivity|].
    destruct (line_len st <? LINE_BUFFER_SIZE - 1); reflexivity.
Qed.

Lemma line_step_ring c st :
  rx_ring_buffer (fst (line_step c st)) = rx_ring_buffer st /\
  rx_ring_head (fst (line_step c st)) = rx_ring_head st /\
  rx_ring_tail (fst (line_step c st)) = rx_ring_tail st.
Proof.
  unfold line_step.
  destruct (is_eol c).
  - destruct (0 <? line_len st); [repeat split|].
    destruct (line_truncated st); repeat split.
  - destruct (line_truncated st); cbn [negb]; [repeat split|].
    destruct (line_len st <? LINE_BUFFER_SIZE - 1); repeat split.
Qed.

Lemma feed_set_tail p : forall t st,
  feed p (set_tail t st) = (set_tail t (fst (feed p st)), snd (feed p st)).
Proof.
  induction p as [|c p IH]; intros t st; [reflexivity|].
  cbn [feed]. rewrite line_step_set_tail.
  destruct (line_step c st) as [st1 ev]. cbn [fst snd].
  rewrite IH. destruct (feed p st1) as [st2 evs]. reflexivity.
Qed.

Lemma set_tail_same st : set_tail (rx_ring_tail st) st = st.
Proof. destruct st. reflexivity. Qed.

Lemma pending_zero st : ring_wf st -> rx_pending st = 0 ->
  rx_ring_head st = rx_ring_tail st.
Proof.
  unfold ring_wf, rx_pending, RX_RING_BUFFER_SIZE. intros Hwf H.
  Z.div_mod_to_equations. lia.
Qed.

Lemma pending_succ st n : ring_wf st -> rx_pending st = Z.of_nat (S n) ->
  rx_ring_head st <> rx_ring_tail st /\
  (rx_ring_head st - (rx_ring_tail st + 1) mod RX_RING_BUFFER_SIZE)
    mod RX_RING_BUFFER_SIZE = Z.of_nat n /\
  0 <= (rx_ring_tail st + 1) mod RX_RING_BUFFER_SIZE < RX_RING_BUFFER_SIZE.
Proof.
  unfold ring_wf, rx_pending, RX_RING_BUFFER_SIZE. intros Hwf H.
  rewrite Nat2Z.inj_succ in H.
  Z.div_mod_to_equations. lia.
Qed.

(** [COMM_Process] runs the assembler over the bytes that wait in
    the ring and leaves the ring empty. *)
Lemma COMM_Process_loop_feed n : forall st,
  ring_wf st -> rx_pending st = Z.of_nat n ->
  COMM_Process_loop n st =
    (set_tail (rx_ring_head st)
       (fst (feed (ring_bytes n (rx_ring_buffer st) (rx_ring_tail st)) st)),
     snd (feed (ring_bytes n (rx_ring_buffer st) (rx_ring_tail st)) st)).
Proof.
  induction n as [|n IH]; intros st Hwf Hp.
  - cbn. rewrite (pending_zero st Hwf Hp), set_tail_same. reflexivity.
  - destruct (pending_succ st n Hwf Hp) as (Hne & Hp' & Ht').
    cbn [COMM_Process_loop ring_bytes feed].
    replace (rx_ring_head st =? rx_ring_tail st) with false
      by (symmetry; apply Z.eqb_neq; exact Hne).
    unfold ring_pop. rewrite line_step_set_tail.
    set (c := nth (Z.to_nat (rx_ring_tail st)) (rx_ring_buffer st) NUL).
    set (t' := (rx_ring_tail st + 1) mod RX_RING_BUFFER_SIZE) in *.
    destruct (line_step_ring c st) as (Hb & Hh & Htl).
    destruct (line_step c st) as [st1 ev]. cbn [fst snd] in *.
    rewrite IH.
    + cbn [set_tail rx_ring_buffer rx_ring_head rx_ring_tail].
      rewrite Hb, Hh, feed_set_tail.
      destruct (feed (ring_bytes n (rx_ring_buffer st) t') st1) as [st2 evs].
      reflexivity.
    + unfold ring_wf. cbn [set_tail rx_ring_head rx_ring_tail].
      rewrite Hh. split; [apply Hwf|exact Ht'].
    + unfold rx_pending. cbn [set_tail rx_ring_head rx_ring_tail].
      rewrite Hh. exact Hp'.
Qed.

Lemma COMM_Process_feed st :
  ring_wf st ->
  COMM_Process st =
    (set_tail (rx_ring_head st) (fst (feed (pending_bytes st) st)),
     snd (feed (pending_bytes st) st)).
Proof.
  intros Hwf. unfold COMM_Process, pending_bytes.
  apply COMM_Process_loop_feed; [exact Hwf|].
  unfold rx_pending, RX_RING_BUFFER_SIZE. rewrite Z2Nat.id; [reflexivity|].
  apply Z.mod_pos_bound. lia.
Qed.

(** [COMM_Process_Budgeted] runs the assembler over the first [k] of
    the waiting bytes, for some [k], and leaves the others in the
    ring. *)
Lemma COMM_Process_Budgeted_loop_feed tick start n : forall i lp st,
  ring_wf st -> rx_pending st = Z.of_nat n ->
  exists k, (k <= n)%nat /\
    COMM_Process_Budgeted_loop n tick start i lp st =
      (set_tail ((rx_ring_tail st + Z.of_nat k) mod RX_RING_BUFFER_SIZE)
         (fst (feed (take k (ring_bytes n (rx_ring_buffer st) (rx_ring_tail st)))
                    st)),
       snd (feed (take k (ring_bytes n (rx_ring_buffer st) (rx_ring_tail st)))
                 st)).
Proof.
  induction n as [|n IH]; intros i lp st Hwf Hp.
  - exists O. split; [lia|].
    cbn [COMM_Process_Budgeted_loop ring_bytes take firstn feed fst snd].
    change (Z.of_nat 0) with 0.
    replace ((rx_ring_tail st + 0) mod RX_RING_BUFFER_SIZE)
      with (rx_ring_tail st).
    + rewrite set_tail_same. reflexivity.
    + rewrite Z.add_0_r. symmetry. apply Z.mod_small. apply Hwf.
  - destruct (pending_succ st n Hwf Hp) as (Hne & Hp' & Ht').
    cbn [COMM_Process_Budgeted_loop ring_bytes].
    replace (rx_ring_head st =? rx_ring_tail st) with false
      by (symmetry; apply Z.eqb_neq; exact Hne).
    unfold ring_pop. rewrite line_step_set_tail.
    set (c := nth (Z.to_nat (rx_ring_tail st)) (rx_ring_buffer st) NUL).
    set (t' := (rx_ring_tail st + 1) mod RX_RING_BUFFER_SIZE) in *.
    destruct (line_step_ring c st) as (Hb & Hh & Htl).
    set (lp' := if is_eol c && (0 <? line_len (set_tail t' st))
                then wrap32 (lp + 1) else lp).
    assert (Hone :
      (set_tail t' (fst (line_step c st)), snd (line_step c st)) =
      (set_tail ((rx_ring_tail st + Z.of_nat 1) mod RX_RING_BUFFER_SIZE)
         (fst (feed (take 1 (c :: ring_bytes n (rx_ring_buffer st) t')) st)),
       snd (feed (take 1 (c :: ring_bytes n (rx_ring_buffer st) t')) st))).
    { change (take 1 (c :: ring_bytes n (rx_ring_buffer st) t')) with [c].
      cbn [feed]. destruct (line_step c st) as [s1 e1]. cbn [fst snd].
      rewrite app_nil_r. reflexivity. }
    destruct (COMM_MAX_LINES_PER_CALL <=? lp').
    { exists 1%nat. split; [lia|]. exact Hone. }
    destruct (COMM_MAX_MS_PER_CALL <=? wrap32 (tick (S i) - start)).
    { exists 1%nat. split; [lia|]. exact Hone. }
    clear Hone.
    destruct (line_step c st) as [st1 ev] eqn:Hstep. cbn [fst snd] in *.
    destruct (IH (S i) lp' (set_tail t' st1)) as (k & Hk & Hrun).
    + unfold ring_wf. cbn [set_tail rx_ring_head rx_ring_tail].
      rewrite Hh. split; [apply Hwf|exact Ht'].
    + unfold rx_pending. cbn [set_tail rx_ring_head rx_ring_tail].
      rewrite Hh. exact Hp'.
    + exists (S k). split; [lia|]. rewrite Hrun.
      change (take (S k) (c :: ring_bytes n (rx_ring_buffer st) t'))
        with (c :: take k (ring_bytes n (rx_ring_buffer st) t')).
      cbn [set_tail rx_ring_buffer rx_ring_head rx_ring_tail feed].
      rewrite Hb, Hstep, feed_set_tail.
      destruct (feed (take k (ring_bytes n (rx_ring_buffer st) t')) st1)
        as [st2 evs].
      cbn [fst snd]. f_equal.
      replace ((t' + Z.of_nat k) mod RX_RING_BUFFER_SIZE)
        with ((rx_ring_tail st + Z.of_nat (S k)) mod RX_RING_BUFFER_SIZE);
        [reflexivity|].
      unfold t', RX_RING_BUFFER_SIZE. rewrite Nat2Z.inj_succ.
      rewrite Zplus_mod_idemp_l. f_equal. lia.
Qed.

Lemma COMM_Init_at_line_start : at_line_start COMM_Init.
Proof. repeat split. Qed.

(** C6 (the code at the failing input).  A payload of 255 bytes,
    one more than the 254 the protocol allows, is handed to
    [process_command] by [COMM_Process] and by
    [COMM_Process_Budgeted], and no NACK is sent; the NACK comes from
    256 bytes on. *)
Theorem line_of_255_bytes_is_dispatched :
  let received n :=
    COMM_OnRxEvent [CR; LF] (COMM_OnRxEvent (repeat "A"%char n) COMM_Init) in
  snd (COMM_Process (received 255%nat)) = [EvCommand (repeat "A"%char 255)] /\
  snd (COMM_Process_Budgeted (fun _ => 0) (received 255%nat))
    = [EvCommand (repeat "A"%char 255)] /\
  snd (COMM_Process (received 256%nat)) = [EvSend NACK_line_too_long] /\
  snd (COMM_Process (received 254%nat)) = [EvCommand (repeat "A"%char 254)].
Proof. vm_compute. repeat split. Qed.

End CommFacts.

(** ** BLOCKS transport *)

Module TBFacts.
Import TB.

Section Window.
Variable clock : nat -> Z.

(** The window invariant. *)
Definition window_inv (s : State) : Prop :=
  0 <= inflight_count s <= window s /\ inflight_count s <= TB_MAX_INFLIGHT.

(** Steps that leave the window and the inflight count alone. *)
Definition same_window (s s' : State) : Prop :=
  inflight_count s' = inflight_count s /\ window s' = window s.

Lemma same_window_refl s : same_window s s.
Proof. split; reflexivity. Qed.

Lemma same_window_trans s1 s2 s3 :
  same_window s1 s2 -> same_window s2 s3 -> same_window s1 s3.
Proof. unfold same_window. intros [-> ->] [-> ->]. split; reflexivity. Qed.

Lemma same_window_inv s s' : same_window s s' -> window_inv s -> window_inv s'.
Proof. unfold same_window, window_inv. intros [-> ->]. trivial. Qed.

Lemma send_block_same slot s : same_window s (_send_block clock slot s).
Proof. split; reflexivity. Qed.

Lemma queue_pop_same s : same_window s (snd (_queue_pop s)).
Proof. unfold _queue_pop. destruct (_queue_empty s); split; reflexivity. Qed.

Lemma wrap8_small z : 0 <= z < 256 -> wrap8 z = z.
Proof. unfold wrap8. intros H. apply Z.mod_small. lia. Qed.

Lemma inflight_add_inv slot s :
  window_inv s -> inflight_count s < window s ->
  window_inv (_inflight_add slot s).
Proof.
  unfold window_inv, _inflight_add, TB_MAX_INFLIGHT. intros [H1 H2] Hlt.
  destruct (Z.ltb_spec (inflight_count s) 8) as [H8|H8].
  - cbn [inflight_count window set_entry set_queue set_inflight].
    rewrite wrap8_small by lia. lia.
  - lia.
Qed.

Lemma inflight_remove_inv idx s :
  0 <= idx -> window_inv s ->
  window_inv (_inflight_remove_index idx s) /\
  inflight_count (_inflight_remove_index idx s) <= inflight_count s /\
  (idx < inflight_count s ->
   inflight_count (_inflight_remove_index idx s) = inflight_count s - 1).
Proof.
  unfold window_inv, _inflight_remove_index, TB_MAX_INFLIGHT.
  intros Hidx [H1 H2].
  destruct (Z.leb_spec (inflight_count s) idx) as [Hge|Hlt].
  - repeat split; lia.
  - cbn [inflight_count window set_inflight].
    rewrite (wrap8_small (inflight_count s - 1)) by lia.
    repeat split; lia.
Qed.

Lemma drain_queue_same fuel : forall s, same_window s (drain_queue fuel s).
Proof.
  induction fuel as [|fuel IH]; intros s; [apply same_window_refl|].
  cbn [drain_queue]. destruct (negb (_queue_empty s)); [|apply same_window_refl].
  eapply same_window_trans; [apply queue_pop_same|apply IH].
Qed.

Lemma abort_mark_same fuel : forall i s, same_window s (abort_mark fuel i s).
Proof.
  induction fuel as [|fuel IH]; intros i s; [apply same_window_refl|].
  cbn [abort_mark]. destruct (i <? inflight_count s); [|apply same_window_refl].
  eapply same_window_trans; [|apply IH]. split; reflexivity.
Qed.

Lemma abort_all_window s :
  inflight_count (_abort_all s) = 0 /\ window (_abort_all s) = window s.
Proof.
  unfold _abort_all.
  set (s1 := abort_mark (Z.to_nat (inflight_count s)) 0 s).
  set (s2 := set_inflight (inflight_ptrs s1) 0 s1).
  destruct (abort_mark_same (Z.to_nat (inflight_count s)) 0 s) as [_ Hw1].
  destruct (drain_queue_same (Z.to_nat (q_count s2)) s2) as [Hc3 Hw3].
  cbn [inflight_count window set_burst]. rewrite Hc3, Hw3. split; [reflexivity|].
  exact Hw1.
Qed.

Lemma abort_all_inv s : window_inv s -> window_inv (_abort_all s).
Proof.
  unfold window_inv, TB_MAX_INFLIGHT. intros [H1 H2].
  destruct (abort_all_window s) as [-> ->]. lia.
Qed.

(** *** [_pump_send] *)

Lemma pump_send_loop_inv fuel : forall s,
  window_inv s -> window_inv (pump_send_loop clock fuel s).
Proof.
  induction fuel as [|fuel IH]; intros s Hinv; [exact Hinv|].
  cbn [pump_send_loop].
  destruct (Z.ltb_spec (inflight_count s) (window s)) as [Hlt|Hge];
    [|exact Hinv].
  destruct (negb (_queue_empty s)) eqn:Hq; cbn [andb]; [|exact Hinv].
  unfold _queue_pop. apply negb_true_iff in Hq. rewrite Hq.
  apply IH. apply inflight_add_inv.
  - eapply same_window_inv; [apply send_block_same|]. exact Hinv.
  - exact Hlt.
Qed.

(** The fuel is enough: with more of it [_pump_send] does the
    same, and when it is left the condition of its [while] is
    false. *)
Lemma pump_send_step_q_count slot s :
  0 < q_count s < 256 ->
  q_count (_inflight_add slot (_send_block clock slot (snd (_queue_pop s))))
    = q_count s - 1.
Proof.
  intros Hq. unfold _queue_pop, _queue_empty.
  replace (q_count s =? 0) with false by (symmetry; apply Z.eqb_neq; lia).
  unfold _inflight_add.
  destruct (inflight_count _ <? TB_MAX_INFLIGHT);
    cbn [q_count set_entry set_queue set_inflight _send_block HAL_GetTick
         set_tick_reads emit set_q_indices snd];
    apply wrap8_small; lia.
Qed.

Lemma pump_send_loop_stable fuel : forall extra s,
  0 <= q_count s <= Z.of_nat fuel -> q_count s < 256 ->
  pump_send_loop clock (fuel + extra) s = pump_send_loop clock fuel s /\
  (let s' := pump_send_loop clock fuel s in
   (inflight_count s' <? window s') && negb (_queue_empty s') = false).
Proof.
  induction fuel as [|fuel IH]; intros extra s Hq Hq8.
  - assert (He : _queue_empty s = true)
      by (unfold _queue_empty; apply Z.eqb_eq; lia).
    split.
    + destruct extra as [|extra]; [reflexivity|].
      cbn [Nat.add pump_send_loop]. rewrite He, andb_false_r. reflexivity.
    + cbn. rewrite He. apply andb_false_r.
  - cbn [Nat.add pump_send_loop].
    destruct ((inflight_count s <? window s) && negb (_queue_empty s)) eqn:Hc;
      [|split; [reflexivity|exact Hc]].
    apply andb_true_iff in Hc as [_ Hne]. apply negb_true_iff in Hne.
    assert (Hpos : 0 < q_count s < 256)
      by (unfold _queue_empty in Hne; apply Z.eqb_neq in Hne; lia).
    pose proof (pump_send_step_q_count (Z.to_nat (q_head s)) s Hpos) as Hstep.
    unfold _queue_pop in *. rewrite Hne in *. cbn [snd] in Hstep.
    apply IH; rewrite Hstep; lia.
Qed.

(** *** [_pump_timeouts] *)

Lemma pump_timeouts_loop_inv fuel : forall now i s,
  0 <= i -> window_inv s -> window_inv (pump_timeouts_loop clock fuel now i s).
Proof.
  induction fuel as [|fuel IH]; intros now i s Hi Hinv; [exact Hinv|].
  cbn [pump_timeouts_loop].
  destruct (i <? inflight_count s); [|exact Hinv].
  assert (Hw : 0 <= wrap8 (i + 1)) by (unfold wrap8; apply Z.mod_pos_bound; lia).
  destruct (negb (inflight _)).
  { apply IH; [exact Hi|]. apply inflight_remove_inv; assumption. }
  destruct (PROTO_BLOCK_TIMEOUT_MS <=? _).
  - destruct (retries _ <? max_retries s).
    + apply IH; [exact Hw|].
      eapply same_window_inv; [apply send_block_same|].
      eapply same_window_inv; [|exact Hinv]. split; reflexivity.
    + apply IH; [exact Hi|].
      eapply same_window_inv; [|apply abort_all_inv; exact Hinv].
      split; reflexivity.
  - apply IH; [exact Hw|exact Hinv].
Qed.

(** The fuel is enough: with more of it [_pump_timeouts] does the
    same. *)
Lemma pump_timeouts_loop_stable fuel : forall extra now i s,
  0 <= i -> window_inv s -> inflight_count s - i <= Z.of_nat fuel ->
  pump_timeouts_loop clock (fuel + extra) now i s =
    pump_timeouts_loop clock fuel now i s.
Proof.
  induction fuel as [|fuel IH]; intros extra now i s Hi Hinv Hm.
  - destruct extra as [|extra]; [reflexivity|].
    cbn [Nat.add pump_timeouts_loop].
    replace (i <? inflight_count s) with false
      by (symmetry; apply Z.ltb_ge; lia).
    reflexivity.
  - cbn [Nat.add pump_timeouts_loop].
    destruct (Z.ltb_spec i (inflight_count s)) as [Hlt|Hge]; [|reflexivity].
    pose proof Hinv as [[H0 _] H8]. unfold TB_MAX_INFLIGHT in H8.
    assert (Hw : wrap8 (i + 1) = i + 1) by (apply wrap8_small; lia).
    destruct (negb (inflight _)).
    { destruct (inflight_remove_inv i s Hi Hinv) as (Hinv' & _ & Hdec).
      apply IH; [exact Hi|exact Hinv'|]. rewrite Hdec by exact Hlt. lia. }
    destruct (PROTO_BLOCK_TIMEOUT_MS <=? _).
    + destruct (retries _ <? max_retries s).
      * rewrite Hw. apply IH; [lia| |].
        -- eapply same_window_inv; [apply send_block_same|].
           eapply same_window_inv; [|exact Hinv]. split; reflexivity.
        -- cbn [inflight_count _send_block HAL_GetTick set_tick_reads emit
                set_entry set_queue]. lia.
      * apply IH; [exact Hi| |].
        -- eapply same_window_inv; [|apply abort_all_inv; exact Hinv].
           split; reflexivity.
        -- cbn [inflight_count emit].
           destruct (abort_all_window s) as [-> _]. lia.
    + rewrite Hw. apply IH; [lia|exact Hinv|lia].
Qed.

Lemma find_from_nonneg fuel : forall i b s idx,
  0 <= i -> find_from fuel i b s = Some idx -> 0 <= idx.
Proof.
  induction fuel as [|fuel IH]; intros i b s idx Hi H; [discriminate|].
  cbn [find_from] in H.
  destruct (i <? inflight_count s); [|discriminate].
  destruct ((blk _ =? b) && inflight _).
  - injection H as <-. exact Hi.
  - eapply IH; [|exact H]. unfold wrap8. apply Z.mod_pos_bound. lia.
Qed.

(** *** The calls *)

Lemma TB_Init_inv w bl mr s : window_inv (TB_Init w bl mr s).
Proof.
  unfold window_inv, TB_Init, TB_MAX_INFLIGHT.
  cbn [inflight_count window set_inflight set_q_indices set_burst set_params].
  destruct ((wrap16 w =? 0) || (8 <? wrap16 w)) eqn:Hc; [lia|].
  apply orb_false_iff in Hc as [H0 H8].
  apply Z.eqb_neq in H0. apply Z.ltb_ge in H8.
  assert (0 <= wrap16 w) by (unfold wrap16; apply Z.mod_pos_bound; lia).
  lia.
Qed.

Lemma TB_BeginBurst_inv id s : window_inv s -> window_inv (TB_BeginBurst id s).
Proof.
  unfold window_inv, TB_BeginBurst, TB_MAX_INFLIGHT.
  cbn [inflight_count window set_inflight set_q_indices set_burst]. lia.
Qed.

Lemma TB_EnqueueBlock_same b s : same_window s (snd (TB_EnqueueBlock b s)).
Proof.
  unfold TB_EnqueueBlock. destruct b as [b|]; [|apply same_window_refl].
  destruct (negb (burst_active s) || negb (Fw.is_some (bg_gen b))
            || (wrap16 (bg_lines b) =? 0) || (blk_lines s <? wrap16 (bg_lines b)));
    [apply same_window_refl|].
  destruct (_queue_full s) eqn:Hf; [apply same_window_refl|].
  unfold _queue_push. rewrite Hf. split; reflexivity.
Qed.

Lemma TB_Pump_inv s : window_inv s -> window_inv (TB_Pump clock s).
Proof.
  intros Hinv. unfold TB_Pump. destruct (negb (burst_active s)); [exact Hinv|].
  unfold _pump_timeouts, _pump_send, HAL_GetTick.
  apply pump_timeouts_loop_inv; [lia|].
  eapply same_window_inv; [|apply pump_send_loop_inv; exact Hinv].
  split; reflexivity.
Qed.

Lemma TB_OnAckBlk_inv b s : window_inv s -> window_inv (TB_OnAckBlk b s).
Proof.
  intros Hinv. unfold TB_OnAckBlk, _inflight_find_blk.
  destruct (find_from _ 0 (wrap16 b) s) as [idx|] eqn:Hf; [|exact Hinv].
  apply find_from_nonneg in Hf; [|lia].
  apply inflight_remove_inv; [exact Hf|].
  eapply same_window_inv; [|exact Hinv]. split; reflexivity.
Qed.

Lemma TB_OnNackBlk_inv b code s :
  window_inv s -> window_inv (TB_OnNackBlk clock b code s).
Proof.
  intros Hinv. unfold TB_OnNackBlk.
  destruct (_inflight_find_blk (wrap16 b) s) as [idx|]; [|exact Hinv].
  destruct (retries _ <? max_retries s).
  - eapply same_window_inv; [apply send_block_same|].
    eapply same_window_inv; [|exact Hinv]. split; reflexivity.
  - eapply same_window_inv; [|apply abort_all_inv; exact Hinv].
    split; reflexivity.
Qed.

Lemma run_call_inv s c : window_inv s -> window_inv (run_call clock s c).
Proof.
  intros Hinv. destruct c as [w bl mr|id|b| |b|b code|]; cbn [run_call].
  - apply TB_Init_inv.
  - apply TB_BeginBurst_inv, Hinv.
  - eapply same_window_inv; [apply TB_EnqueueBlock_same|exact Hinv].
  - apply TB_Pump_inv, Hinv.
  - apply TB_OnAckBlk_inv, Hinv.
  - apply TB_OnNackBlk_inv, Hinv.
  - exact Hinv.
Qed.

(** *** The queue count stays within the queue *)

Definition queue_inv (s : State) : Prop := 0 <= q_count s <= TB_MAX_QUEUE.

Definition same_queue (s s' : State) : Prop := q_count s' = q_count s.

Lemma drain_queue_q_count fuel : forall s,
  queue_inv s -> queue_inv (drain_queue fuel s).
Proof.
  unfold queue_inv, TB_MAX_QUEUE.
  induction fuel as [|fuel IH]; intros s Hq; [exact Hq|].
  cbn [drain_queue]. destruct (_queue_empty s) eqn:He; cbn [negb]; [exact Hq|].
  apply IH. unfold _queue_pop. rewrite He. cbn [snd q_count set_q_indices].
  unfold _queue_empty in He. apply Z.eqb_neq in He.
  rewrite wrap8_small by lia. lia.
Qed.

Lemma abort_mark_q_count fuel : forall i s,
  q_count (abort_mark fuel i s) = q_count s.
Proof.
  induction fuel as [|fuel IH]; intros i s; [reflexivity|].
  cbn [abort_mark]. destruct (i <? inflight_count s); [|reflexivity].
  rewrite IH. reflexivity.
Qed.

Lemma abort_all_queue_inv s : queue_inv s -> queue_inv (_abort_all s).
Proof.
  intros Hq. unfold _abort_all.
  set (s1 := abort_mark (Z.to_nat (inflight_count s)) 0 s).
  set (s2 := set_inflight (inflight_ptrs s1) 0 s1).
  assert (H2 : queue_inv s2).
  { unfold queue_inv, s2, s1. cbn [q_count set_inflight].
    rewrite abort_mark_q_count. exact Hq. }
  apply (drain_queue_q_count (Z.to_nat (q_count s2))) in H2.
  exact H2.
Qed.

Lemma inflight_add_q_count slot s : q_count (_inflight_add slot s) = q_count s.
Proof.
  unfold _inflight_add. destruct (inflight_count s <? TB_MAX_INFLIGHT);
    reflexivity.
Qed.

Lemma inflight_remove_q_count idx s :
  q_count (_inflight_remove_index idx s) = q_count s.
Proof.
  unfold _inflight_remove_index. destruct (inflight_count s <=? idx);
    reflexivity.
Qed.

Lemma pump_send_loop_queue_inv fuel : forall s,
  queue_inv s -> queue_inv (pump_send_loop clock fuel s).
Proof.
  induction fuel as [|fuel IH]; intros s Hq; [exact Hq|].
  cbn [pump_send_loop].
  destruct ((inflight_count s <? window s) && negb (_queue_empty s)) eqn:Hc;
    [|exact Hq].
  apply andb_true_iff in Hc as [_ Hne]. apply negb_true_iff in Hne.
  unfold queue_inv, TB_MAX_QUEUE in Hq.
  assert (Hpos : 0 < q_count s < 256)
    by (unfold _queue_empty in Hne; apply Z.eqb_neq in Hne; lia).
  pose proof (pump_send_step_q_count (Z.to_nat (q_head s)) s Hpos) as Hstep.
  unfold _queue_pop in *. rewrite Hne in *. cbn [snd] in Hstep.
  apply IH. unfold queue_inv. rewrite Hstep. unfold TB_MAX_QUEUE. lia.
Qed.

Lemma pump_timeouts_loop_queue_inv fuel : forall now i s,
  queue_inv s -> queue_inv (pump_timeouts_loop clock fuel now i s).
Proof.
  induction fuel as [|fuel IH]; intros now i s Hq; [exact Hq|].
  cbn [pump_timeouts_loop].
  destruct (i <? inflight_count s); [|exact Hq].
  destruct (negb (inflight _)).
  { apply IH. unfold queue_inv. rewrite inflight_remove_q_count. exact Hq. }
  destruct (PROTO_BLOCK_TIMEOUT_MS <=? _).
  - destruct (retries _ <? max_retries s).
    + apply IH. exact Hq.
    + apply IH. apply abort_all_queue_inv in Hq. exact Hq.
  - apply IH. exact Hq.
Qed.

Lemma run_call_queue_inv s c : queue_inv s -> queue_inv (run_call clock s c).
Proof.
  intros Hq. destruct c as [w bl mr|id|b| |b|b code|]; cbn [run_call].
  - unfold queue_inv, TB_MAX_QUEUE. cbn. lia.
  - unfold queue_inv, TB_MAX_QUEUE. cbn. lia.
  - unfold TB_EnqueueBlock. destruct b as [b|]; [|exact Hq].
    destruct (negb (burst_active s) || negb (Fw.is_some (bg_gen b))
              || (wrap16 (bg_lines b) =? 0)
              || (blk_lines s <? wrap16 (bg_lines b))); [exact Hq|].
    destruct (_queue_full s) eqn:Hf; [exact Hq|].
    unfold _queue_push. rewrite Hf.
    unfold queue_inv, TB_MAX_QUEUE, _queue_full in *.
    apply Z.leb_gt in Hf. unfold TB_MAX_QUEUE in Hf.
    cbn [snd q_count set_entry set_queue set_burst set_q_indices].
    rewrite wrap8_small by lia. lia.
  - unfold TB_Pump. destruct (negb (burst_active s)); [exact Hq|].
    unfold _pump_timeouts, _pump_send, HAL_GetTick.
    apply pump_timeouts_loop_queue_inv.
    apply (pump_send_loop_queue_inv (Z.to_nat (q_count s))) in Hq. exact Hq.
  - unfold TB_OnAckBlk.
    destruct (_inflight_find_blk (wrap16 b) s); [|exact Hq].
    unfold queue_inv. rewrite inflight_remove_q_count. exact Hq.
  - unfold TB_OnNackBlk.
    destruct (_inflight_find_blk (wrap16 b) s); [|exact Hq].
    destruct (retries _ <? max_retries s); [exact Hq|].
    apply abort_all_queue_inv in Hq. exact Hq.
  - exact Hq.
Qed.

Lemma run_calls_inv calls :
  window_inv (run_calls clock calls) /\ queue_inv (run_calls clock calls).
Proof.
  unfold run_calls.
  assert (H0 : window_inv tb_zero /\ queue_inv tb_zero).
  { unfold window_inv, queue_inv, TB_MAX_INFLIGHT, TB_MAX_QUEUE. cbn. lia. }
  revert H0. generalize tb_zero.
  induction calls as [|c calls IH]; intros s Hs; [exact Hs|].
  cbn [fold_left]. apply IH. destruct Hs as [Hw Hq].
  split; [apply run_call_inv, Hw|apply run_call_queue_inv, Hq].
Qed.

(** In a reachable state the two loops of [TB_Pump] have fuel
    enough. *)
Lemma TB_Pump_fuel_enough calls extra :
  let s := run_calls clock calls in
  pump_send_loop clock (Z.to_nat (q_count s) + extra) s = _pump_send clock s /\
  forall now,
    pump_timeouts_loop clock (Z.to_nat (inflight_count s) + extra) now 0 s =
      pump_timeouts_loop clock (Z.to_nat (inflight_count s)) now 0 s.
Proof.
  intros s. destruct (run_calls_inv calls) as [Hw Hq]. fold s in Hw, Hq.
  unfold queue_inv, TB_MAX_QUEUE in Hq. split.
  - apply pump_send_loop_stable; lia.
  - intros now. apply pump_timeouts_loop_stable; [lia|exact Hw|].
    destruct Hw as [[H0 _] _]. lia.
Qed.

Lemma tb_zero_inv : window_inv tb_zero.
Proof. unfold window_inv, TB_MAX_INFLIGHT. cbn. lia. Qed.

(** C8.  After any sequence of calls of TB_Init, TB_BeginBurst,
    TB_EnqueueBlock, TB_Pump, TB_OnAckBlk, TB_OnNackBlk and
    TB_EndBurst, with any arguments and any clock, the number of
    inflight blocks is at most the window and at most 8. *)
Theorem inflight_within_window (calls : list Call) :
  inflight_count (run_calls clock calls) <= window (run_calls clock calls) /\
  inflight_count (run_calls clock calls) <= 8.
Proof.
  destruct (run_calls_inv calls) as [[[_ H1] H2] _].
  split; [exact H1|exact H2].
Qed.

End Window.

(** A run: six blocks are queued under a window of 4; the first pump
    sends four of them, an ACK frees a place and the next pump sends
    a fifth. *)
Definition one_line : TB_BlockGen :=
  {| bg_gen := Some (fun _ => list_byte_of_string "DATA,0,0.000,0.000,0.000,0.000"
                               ++ [Byte.x0d; Byte.x0a]);
     bg_lines := 1 |}.

Definition six_blocks : list Call :=
  [CallInit 4 128 3; CallBeginBurst 1]
  ++ repeat (CallEnqueueBlock (Some one_line)) 6 ++ [CallPump].

Example window_is_filled :
  let s := run_calls (fun _ => 0) six_blocks in
  (inflight_count s, q_count s, window s) = (4, 2, 4).
Proof. vm_compute. reflexivity. Qed.

Example ack_frees_a_place :
  let s := run_calls (fun _ => 0) (six_blocks ++ [CallOnAckBlk 2]) in
  let s' := run_calls (fun _ => 0) (six_blocks ++ [CallOnAckBlk 2; CallPump]) in
  (inflight_count s, q_count s, inflight_count s', q_count s') = (3, 2, 4, 1).
Proof. vm_compute. reflexivity. Qed.

Example timeouts_abort_the_burst :
  let late n := if (n <? 3)%nat then 0 else Z.of_nat n * 1000 in
  let s := run_calls late (six_blocks ++ repeat CallPump 4) in
  (inflight_count s, q_count s, burst_active s,
   last (wire s)) = (0, 0, false, Some (CallBmEndAborted 400)).
Proof. vm_compute. reflexivity. Qed.

End TBFacts.

(** ** Median by quickselect *)

Module MedianFacts.
Import Median.

Example median_odd :
  calculate_median_int16 [5; -3; 9; 1; 7] 5 = Some (5, [-3; 1; 5; 7; 9]).
Proof. vm_compute. reflexivity. Qed.

Example median_even_negative :
  option_map fst (calculate_median_int16 [-3; 4; -8; 0] 4) = Some (-1).
Proof. vm_compute. reflexivity. Qed.

(** *** Arrays *)

Lemma length_put a i v : length (put a i v) = length a.
Proof. apply length_insert. Qed.

Lemma get_put_eq a i v :
  0 <= i < Z.of_nat (length a) -> get (put a i v) i = v.
Proof.
  intros Hi. unfold get, put. apply nth_lookup_Some.
  apply list_lookup_insert_eq. lia.
Qed.

Lemma get_put_ne a i j v :
  0 <= i -> 0 <= j -> i <> j -> get (put a i v) j = get a j.
Proof.
  intros Hi Hj Hne. unfold get, put. rewrite !nth_lookup.
  rewrite list_lookup_insert_ne by lia. reflexivity.
Qed.

Lemma length_swap a i j : length (swap_int16 a i j) = length a.
Proof. unfold swap_int16. rewrite !length_put. reflexivity. Qed.

Lemma get_swap_r a i j :
  0 <= j < Z.of_nat (length a) -> get (swap_int16 a i j) j = get a i.
Proof.
  intros Hj. unfold swap_int16. apply get_put_eq. rewrite length_put. exact Hj.
Qed.

Lemma get_swap_l a i j :
  0 <= i < Z.of_nat (length a) -> 0 <= j < Z.of_nat (length a) ->
  get (swap_int16 a i j) i = get a j.
Proof.
  intros Hi Hj. destruct (Z.eq_dec i j) as [->|Hne].
  - apply get_swap_r. exact Hj.
  - unfold swap_int16. rewrite get_put_ne by lia. apply get_put_eq. exact Hi.
Qed.

Lemma get_swap_other a i j x :
  0 <= i -> 0 <= j -> 0 <= x -> x <> i -> x <> j ->
  get (swap_int16 a i j) x = get a x.
Proof.
  intros Hi Hj Hx Hxi Hxj. unfold swap_int16.
  rewrite !get_put_ne by lia. reflexivity.
Qed.

Lemma insert_Permutation (a : list Z) : forall (i : nat) (x y : Z),
  a !! i = Some y -> x :: a ≡ₚ y :: <[i:=x]> a.
Proof.
  induction a as [|z a IH]; intros i x y H; [discriminate|].
  destruct i as [|i]; simpl in H.
  - injection H as ->. apply perm_swap.
  - cbn [insert list_insert]. rewrite perm_swap.
    rewrite (IH i x y H). apply perm_swap.
Qed.

Lemma get_lookup a i :
  0 <= i < Z.of_nat (length a) -> a !! Z.to_nat i = Some (get a i).
Proof.
  intros Hi. unfold get.
  destruct (nth_lookup_or_length a (Z.to_nat i) 0) as [H|H]; [exact H|lia].
Qed.

Lemma swap_Permutation a i j :
  0 <= i < Z.of_nat (length a) -> 0 <= j < Z.of_nat (length a) ->
  swap_int16 a i j ≡ₚ a.
Proof.
  intros Hi Hj. unfold swap_int16.
  apply (Permutation_cons_inv (a := get a j)).
  rewrite <- (insert_Permutation (put a i (get a j)) (Z.to_nat j) (get a i) (get a j)).
  - symmetry. unfold put.
    apply (insert_Permutation a (Z.to_nat i) (get a j) (get a i)).
    apply get_lookup. exact Hi.
  - destruct (Z.eq_dec i j) as [->|Hne].
    + unfold put. apply list_lookup_insert_eq. lia.
    + unfold put. rewrite list_lookup_insert_ne by lia.
      apply get_lookup. exact Hj.
Qed.

Lemma get_elem_of a i : 0 <= i < Z.of_nat (length a) -> get a i ∈ a.
Proof.
  intros Hi. apply list_elem_of_lookup. exists (Z.to_nat i).
  apply get_lookup. exact Hi.
Qed.

(** *** Rearrangements inside a window *)

(** [a'] rearranges [a] inside the window [lo..hi]: a permutation
    that leaves every index outside the window alone. *)
Definition shuffle (lo hi : Z) (a a' : list Z) : Prop :=
  length a' = length a /\ a' ≡ₚ a /\
  (forall x, 0 <= x -> x < lo \/ hi < x -> get a' x = get a x) /\
  (forall x, lo <= x <= hi -> exists y, lo <= y <= hi /\ get a' x = get a y).

Lemma shuffle_refl lo hi a : shuffle lo hi a a.
Proof.
  repeat split; [reflexivity|]. intros x Hx. exists x. split; [lia|reflexivity].
Qed.

Lemma shuffle_trans lo hi a b c :
  shuffle lo hi a b -> shuffle lo hi b c -> shuffle lo hi a c.
Proof.
  intros (Hl1 & Hp1 & Ho1 & Hw1) (Hl2 & Hp2 & Ho2 & Hw2).
  split; [congruence|]. split; [etransitivity; eassumption|]. split.
  - intros x Hx Hout. rewrite Ho2, Ho1 by assumption. reflexivity.
  - intros x Hx. destruct (Hw2 x Hx) as (y & Hy & ->).
    destruct (Hw1 y Hy) as (z & Hz & ->). exists z. split; [lia|reflexivity].
Qed.

Lemma shuffle_mono lo hi lo' hi' a b :
  0 <= lo' -> lo' <= lo -> hi <= hi' ->
  shuffle lo hi a b -> shuffle lo' hi' a b.
Proof.
  intros H0 Hlo Hhi (Hl & Hp & Ho & Hw).
  split; [exact Hl|]. split; [exact Hp|]. split.
  - intros x Hx Hout. apply Ho; lia.
  - intros x Hx. destruct (Z_lt_dec x lo) as [?|?]; [|destruct (Z_lt_dec hi x) as [?|?]].
    + exists x. split; [lia|]. apply Ho; lia.
    + exists x. split; [lia|]. apply Ho; lia.
    + destruct (Hw x ltac:(lia)) as (y & Hy & ->). exists y. split; [lia|reflexivity].
Qed.

Lemma shuffle_swap lo hi a i j :
  0 <= lo -> lo <= i <= hi -> lo <= j <= hi -> hi < Z.of_nat (length a) ->
  shuffle lo hi a (swap_int16 a i j).
Proof.
  intros H0 Hi Hj Hlen.
  split; [apply length_swap|]. split; [apply swap_Permutation; lia|]. split.
  - intros x Hx Hout. apply get_swap_other; lia.
  - intros x Hx. destruct (Z.eq_dec x i) as [->|Hxi]; [|destruct (Z.eq_dec x j) as [->|Hxj]].
    + exists j. split; [lia|]. apply get_swap_l; lia.
    + exists i. split; [lia|]. apply get_swap_r; lia.
    + exists x. split; [lia|]. apply get_swap_other; lia.
Qed.

(** Everything before index [m] is at most everything from [m] on. *)
Definition split_at (a : list Z) (m : Z) : Prop :=
  forall x y, 0 <= x < m -> m <= y < Z.of_nat (length a) -> get a x <= get a y.

Lemma split_at_shuffle_low lo hi a b :
  shuffle lo hi a b -> hi < Z.of_nat (length a) ->
  split_at a lo -> split_at b lo.
Proof.
  intros (Hl & Hp & Ho & Hw) Hlen HL x y Hx Hy. rewrite Hl in Hy.
  rewrite (Ho x) by lia.
  destruct (Z_lt_dec hi y) as [?|?].
  - rewrite (Ho y) by lia. apply HL; lia.
  - destruct (Hw y ltac:(lia)) as (z & Hz & ->). apply HL; lia.
Qed.

Lemma split_at_shuffle_high lo hi a b :
  shuffle lo hi a b -> 0 <= lo ->
  split_at a (hi + 1) -> split_at b (hi + 1).
Proof.
  intros (Hl & Hp & Ho & Hw) H0 HR x y Hx Hy. rewrite Hl in Hy.
  rewrite (Ho y) by lia.
  destruct (Z_lt_dec x lo) as [?|?].
  - rewrite (Ho x) by lia. apply HR; lia.
  - destruct (Hw x ltac:(lia)) as (z & Hz & ->). apply HR; lia.
Qed.

(** The element at index [k] is in its sorted place. *)
Definition placed (a : list Z) (k : Z) : Prop :=
  (forall x, 0 <= x < k -> get a x <= get a k) /\
  (forall y, k < y < Z.of_nat (length a) -> get a k <= get a y).

(** *** The partition loop *)

Lemma partition_loop_spec low high pivot : forall steps a j i,
  0 <= low -> low <= i <= j -> j <= high -> high < Z.of_nat (length a) ->
  high - j <= Z.of_nat steps ->
  (forall x, low <= x < i -> get a x < pivot) ->
  (forall x, i <= x < j -> pivot <= get a x) ->
  exists i' a',
    partition_loop steps a j high pivot i = (i', a') /\
    low <= i' <= high /\ shuffle low (high - 1) a a' /\
    (forall x, low <= x < i' -> get a' x < pivot) /\
    (forall x, i' <= x < high -> pivot <= get a' x).
Proof.
  induction steps as [|steps IH]; intros a j i H0 Hi Hj Hlen Hsteps Hlt Hge.
  - exists i, a. split; [reflexivity|]. split; [lia|].
    split; [apply shuffle_refl|]. split; [exact Hlt|].
    intros x Hx. apply Hge. lia.
  - cbn [partition_loop]. destruct (Z.ltb_spec j high) as [Hjh|Hjh].
    + destruct (Z.ltb_spec (get a j) pivot) as [Hc|Hc].
      * destruct (IH (swap_int16 a i j) (j + 1) (i + 1)) as (i' & a' & He & Hi' & Hs & Hlt' & Hge').
        -- exact H0.
        -- lia.
        -- lia.
        -- rewrite length_swap. exact Hlen.
        -- lia.
        -- intros x Hx. destruct (Z.eq_dec x i) as [->|Hxi].
           ++ rewrite get_swap_l by lia. exact Hc.
           ++ rewrite get_swap_other by lia. apply Hlt. lia.
        -- intros x Hx. destruct (Z.eq_dec x j) as [->|Hxj].
           ++ rewrite get_swap_r by lia. apply Hge. lia.
           ++ rewrite get_swap_other by lia. apply Hge. lia.
        -- exists i', a'. split; [exact He|]. split; [lia|].
           split; [|split; assumption].
           eapply shuffle_trans; [|exact Hs]. apply shuffle_swap; lia.
      * destruct (IH a (j + 1) i) as (i' & a' & He & Hi' & Hs & Hlt' & Hge').
        -- exact H0.
        -- lia.
        -- lia.
        -- exact Hlen.
        -- lia.
        -- exact Hlt.
        -- intros x Hx. destruct (Z.eq_dec x j) as [->|Hxj]; [exact Hc|].
           apply Hge. lia.
        -- exists i', a'. repeat (split; [assumption|]). assumption.
    + exists i, a. split; [reflexivity|]. split; [lia|].
      split; [apply shuffle_refl|]. split; [exact Hlt|].
      intros x Hx. apply Hge. lia.
Qed.

(** One round of the [while] loop: the pivot lands at the index [i]
    the round ends with, between the smaller and the other values. *)
Lemma partition_round a low high :
  0 <= low -> low < high -> high < Z.of_nat (length a) ->
  let pivot_idx := low + Z.quot (high - low) 2 in
  let pivot := get a pivot_idx in
  exists i a2,
    partition_loop (Z.to_nat (high - low)) (swap_int16 a pivot_idx high)
      low high pivot low = (i, a2) /\
    low <= i <= high /\
    shuffle low high a (swap_int16 a2 i high) /\
    get (swap_int16 a2 i high) i = pivot /\
    (forall x, low <= x < i -> get (swap_int16 a2 i high) x < pivot) /\
    (forall x, i < x <= high -> pivot <= get (swap_int16 a2 i high) x).
Proof.
  intros H0 Hlh Hlen pivot_idx pivot.
  assert (Hq : 0 <= Z.quot (high - low) 2 < high - low).
  { split; [apply Z.quot_pos; lia|apply Z.quot_lt; lia]. }
  assert (Hp : low <= pivot_idx < high) by (unfold pivot_idx; lia).
  destruct (partition_loop_spec low high pivot (Z.to_nat (high - low))
              (swap_int16 a pivot_idx high) low low)
    as (i & a2 & He & Hi & Hs & Hlt & Hge).
  - exact H0.
  - lia.
  - lia.
  - rewrite length_swap. exact Hlen.
  - lia.
  - intros x Hx. lia.
  - intros x Hx. lia.
  - exists i, a2. split; [exact He|]. split; [exact Hi|].
    pose proof Hs as (Hl2 & Hp2 & Ho2 & Hw2).
    assert (Hlen2 : Z.of_nat (length a2) = Z.of_nat (length a)).
    { rewrite Hl2, length_swap. reflexivity. }
    assert (Hhigh : get a2 high = pivot).
    { rewrite Ho2 by lia. apply get_swap_r. lia. }
    split; [|split; [|split]].
    + eapply shuffle_trans; [apply (shuffle_swap low high a pivot_idx high); lia|].
      eapply shuffle_trans.
      * apply (shuffle_mono low (high - 1) low high); [lia..|]. exact Hs.
      * apply shuffle_swap; [lia..|]. rewrite Hl2, length_swap. exact Hlen.
    + rewrite get_swap_l by lia. exact Hhigh.
    + intros x Hx. rewrite get_swap_other by lia. apply Hlt. exact Hx.
    + intros x Hx. destruct (Z.eq_dec x high) as [->|Hxh].
      * rewrite get_swap_r by lia. apply Hge. lia.
      * rewrite get_swap_other by lia. apply Hge. lia.
Qed.

(** *** Quickselect *)

(** With fuel for the width of the window, [quickselect_loop] returns
    the element it leaves at index [k], and that element is in its
    sorted place. *)
Lemma quickselect_loop_spec k : forall fuel a low high,
  0 <= low -> low <= k <= high -> high < Z.of_nat (length a) ->
  high - low < Z.of_nat fuel ->
  split_at a low -> split_at a (high + 1) ->
  exists a',
    quickselect_loop fuel a low high k = Some (get a' k, a') /\
    shuffle low high a a' /\ placed a' k.
Proof.
  induction fuel as [|fuel IH]; intros a low high H0 Hk Hlen Hfuel HL HR; [lia|].
  cbn [quickselect_loop].
  destruct (Z.leb_spec low high) as [_|?]; [|lia].
  destruct (Z.eqb_spec low high) as [Heq|Hne].
  - assert (k = low) as -> by lia. subst high.
    exists a. split; [reflexivity|]. split; [apply shuffle_refl|]. split.
    + intros x Hx. apply HL; lia.
    + intros y Hy. apply HR; lia.
  - pose proof (partition_round a low high H0 ltac:(lia) Hlen) as Hr.
    cbv zeta in Hr. destruct Hr as (i & a2 & He & Hi & Hs & Hpiv & Hlt & Hge).
    cbv zeta. rewrite He.
    set (a3 := swap_int16 a2 i high) in *.
    set (pivot := get a (low + Z.quot (high - low) 2)) in *.
    pose proof Hs as (Hl3 & _).
    assert (HL3 : split_at a3 low) by (eapply split_at_shuffle_low; eassumption).
    assert (HR3 : split_at a3 (high + 1)) by (eapply split_at_shuffle_high; eassumption).
    destruct (Z.eqb_spec k i) as [->|Hki]; [|destruct (Z.ltb_spec k i) as [Hlti|Hgei]].
    + exists a3. split; [reflexivity|]. split; [exact Hs|]. split.
      * intros x Hx. destruct (Z_lt_dec x low) as [?|?].
        -- apply HL3; lia.
        -- rewrite Hpiv. apply Z.lt_le_incl, Hlt. lia.
      * intros y Hy. destruct (Z_lt_dec high y) as [?|?].
        -- apply HR3; lia.
        -- rewrite Hpiv. apply Hge. lia.
    + destruct (IH a3 low (i - 1)) as (a' & Hrun & Hs' & Hplaced).
      * exact H0.
      * lia.
      * lia.
      * lia.
      * exact HL3.
      * replace (i - 1 + 1) with i by lia. intros x y Hx Hy.
        destruct (Z_lt_dec x low) as [?|?]; [apply HL3; lia|].
        destruct (Z_lt_dec high y) as [?|?]; [apply HR3; lia|].
        transitivity pivot; [apply Z.lt_le_incl, Hlt; lia|].
        destruct (Z.eq_dec y i) as [->|?]; [rewrite Hpiv; reflexivity|].
        apply Hge. lia.
      * exists a'. split; [exact Hrun|]. split; [|exact Hplaced].
        eapply shuffle_trans; [exact Hs|].
        apply (shuffle_mono low (i - 1) low high); [lia..|]. exact Hs'.
    + destruct (IH a3 (i + 1) high) as (a' & Hrun & Hs' & Hplaced).
      * lia.
      * lia.
      * lia.
      * lia.
      * intros x y Hx Hy.
        destruct (Z_lt_dec x low) as [?|?]; [apply HL3; lia|].
        destruct (Z_lt_dec high y) as [?|?]; [apply HR3; lia|].
        transitivity pivot; [|apply Hge; lia].
        destruct (Z.eq_dec x i) as [->|?]; [rewrite Hpiv; reflexivity|].
        apply Z.lt_le_incl, Hlt. lia.
      * exact HR3.
      * exists a'. split; [exact Hrun|]. split; [|exact Hplaced].
        eapply shuffle_trans; [exact Hs|].
        apply (shuffle_mono (i + 1) high low high); [lia..|]. exact Hs'.
Qed.

Lemma quickselect_int16_spec a low high k :
  0 <= low -> low <= k <= high -> high < Z.of_nat (length a) ->
  split_at a low -> split_at a (high + 1) ->
  exists a',
    quickselect_int16 a low high k = Some (get a' k, a') /\
    shuffle low high a a' /\ placed a' k.
Proof.
  intros H0 Hk Hlen HL HR. unfold quickselect_int16.
  apply quickselect_loop_spec; try assumption. lia.
Qed.

(** *** Ranks *)

(** An element in its sorted place is the element of that rank of
    the sorted array. *)
Lemma placed_rank a sorted k :
  0 <= k < Z.of_nat (length a) -> placed a k ->
  Sorted Z.le sorted -> sorted ≡ₚ a ->
  get a k = nth (Z.to_nat k) sorted 0.
Proof.
  intros Hk [Hbefore Hafter] Hsorted Hperm.
  set (n := Z.to_nat k). set (v := get a k).
  assert (Hsplit : take n a ++ v :: drop (S n) a = a).
  { apply take_drop_middle. apply get_lookup. exact Hk. }
  set (l1 := merge_sort Z.le (take n a)).
  set (l2 := merge_sort Z.le (drop (S n) a)).
  assert (Hl1 : forall x, x ∈ l1 -> x <= v).
  { intros x Hx. unfold l1 in Hx. rewrite merge_sort_Permutation in Hx.
    apply elem_of_take in Hx as (i & Hi & Hlt).
    rewrite <- (nth_lookup_Some a i 0 x Hi).
    replace i with (Z.to_nat (Z.of_nat i)) by lia. apply Hbefore. lia. }
  assert (Hl2 : forall x, x ∈ l2 -> v <= x).
  { intros x Hx. unfold l2 in Hx. rewrite merge_sort_Permutation in Hx.
    apply list_elem_of_lookup in Hx as (i & Hi). rewrite lookup_drop in Hi.
    pose proof (lookup_lt_Some _ _ _ Hi) as Hlt.
    rewrite <- (nth_lookup_Some a _ 0 x Hi).
    replace (S n + i)%nat with (Z.to_nat (Z.of_nat (S n + i))) by lia.
    apply Hafter. lia. }
  assert (Hss : StronglySorted Z.le (l1 ++ v :: l2)).
  { apply StronglySorted_app_2.
    - intros x1 x2 H1 H2. apply elem_of_cons in H2 as [->|H2]; [auto|].
      transitivity v; auto.
    - apply StronglySorted_merge_sort; apply _.
    - apply StronglySorted_cons. split.
      + apply Forall_forall. exact Hl2.
      + apply StronglySorted_merge_sort; apply _. }
  assert (Heq : sorted = l1 ++ v :: l2).
  { apply (StronglySorted_unique Z.le).
    - apply Sorted_StronglySorted; [apply _|exact Hsorted].
    - exact Hss.
    - rewrite Hperm, <- Hsplit at 1. unfold l1, l2.
      rewrite !merge_sort_Permutation. reflexivity. }
  assert (Hlen1 : length l1 = n).
  { unfold l1. rewrite (Permutation_length (merge_sort_Permutation Z.le _)).
    apply length_take_le. lia. }
  rewrite Heq, app_nth2 by lia. rewrite Hlen1, Nat.sub_diag. reflexivity.
Qed.

Lemma to_int16_id z : is_int16 z -> to_int16 z = z.
Proof.
  unfold is_int16, to_int16. intros Hz. rewrite Z.mod_small; lia.
Qed.

Lemma is_int16_mean x y : is_int16 x -> is_int16 y -> is_int16 (Z.quot (x + y) 2).
Proof.
  unfold is_int16. intros Hx Hy.
  pose proof (Z.quot_le_mono (x + y) 65534 2 ltac:(lia) ltac:(lia)) as Hhi.
  pose proof (Z.quot_le_mono (-65536) (x + y) 2 ltac:(lia) ltac:(lia)) as Hlo.
  change (Z.quot 65534 2) with 32767 in Hhi.
  change (Z.quot (-65536) 2) with (-32768) in Hlo. lia.
Qed.

Lemma is_int16_nth (l : list Z) (i : nat) :
  Forall is_int16 l -> is_int16 (nth i l 0).
Proof.
  intros Hl. destruct (nth_lookup_or_length l i 0) as [H|H].
  - eapply Forall_lookup_1; eassumption.
  - rewrite nth_overflow by lia. unfold is_int16. lia.
Qed.

(** *** The median *)

Lemma split_at_0 a : split_at a 0.
Proof. intros x y Hx Hy. lia. Qed.

Lemma split_at_length a : split_at a (Z.of_nat (length a) - 1 + 1).
Proof. intros x y Hx Hy. lia. Qed.

Lemma half_odd (n : nat) :
  Z.rem (Z.of_nat n) 2 = 1 ->
  Nat.odd n = true /\ Z.to_nat (Z.quot (Z.of_nat n) 2) = (n / 2)%nat.
Proof.
  intros Hrem.
  rewrite Z.rem_mod_nonneg in Hrem by lia.
  rewrite Z.quot_div_nonneg by lia.
  change 2 with (Z.of_nat 2) in *. rewrite <- Nat2Z.inj_div, Nat2Z.id.
  rewrite <- Nat2Z.inj_mod in Hrem. split; [|reflexivity].
  apply Nat.odd_spec. exists (n / 2)%nat.
  pose proof (Nat.div_mod_eq n 2). lia.
Qed.

Lemma half_even (n : nat) :
  Z.rem (Z.of_nat n) 2 <> 1 ->
  Nat.odd n = false /\ Z.to_nat (Z.quot (Z.of_nat n) 2) = (n / 2)%nat /\
  Z.to_nat (Z.quot (Z.of_nat n) 2 - 1) = (n / 2 - 1)%nat.
Proof.
  intros Hrem.
  rewrite Z.rem_mod_nonneg in Hrem by lia.
  rewrite Z.quot_div_nonneg by lia.
  change 2 with (Z.of_nat 2) in *. rewrite <- Nat2Z.inj_div.
  rewrite <- Nat2Z.inj_mod in Hrem. split; [|split; lia].
  destruct (Nat.odd n) eqn:Hodd; [|reflexivity].
  apply Nat.odd_spec in Hodd as [m ->]. exfalso. apply Hrem.
  replace (2 * m + 1)%nat with (1 + m * 2)%nat by lia.
  rewrite Nat.Div0.mod_add. reflexivity.
Qed.

(** C9.  For an array [data] of n [int16_t] values (n a C [int]),
    with [sorted] its values in increasing order,
    [calculate_median_int16] returns the median and leaves the
    scratch buffer a rearrangement of [data]: 0 for n = 0, the
    element of rank n/2 of [sorted] for odd n, and for even n the sum
    of the elements of ranks n/2 - 1 and n/2 halved with truncation
    toward zero. *)
Theorem calculate_median_int16_is_median (data sorted : list Z) :
  Forall is_int16 data ->
  Z.of_nat (length data) <= INT_MAX ->
  Sorted Z.le sorted -> sorted ≡ₚ data ->
  exists scratch,
    calculate_median_int16 data (Z.of_nat (length data))
      = Some (median_of_sorted sorted, scratch) /\
    scratch ≡ₚ data.
Proof.
  intros Hint _ Hsorted Hperm.
  assert (Hlen : length sorted = length data) by (apply Permutation_length; exact Hperm).
  assert (Hints : Forall is_int16 sorted) by (rewrite Hperm; exact Hint).
  unfold calculate_median_int16, median_of_sorted. rewrite Hlen.
  set (n := length data) in *.
  destruct (Z.eqb_spec (Z.of_nat n) 0) as [Hn0|Hn0].
  { exists data. assert (n = 0%nat) as -> by lia. split; reflexivity. }
  destruct (Nat.eqb_spec n 0) as [?|_]; [lia|].
  destruct (Z.eqb_spec (Z.of_nat n) 1) as [Hn1|Hn1].
  { exists data. split; [|reflexivity]. assert (n = 1%nat) as Hn by lia.
    rewrite Hn. cbn [Nat.odd Nat.even negb Nat.div Nat.divmod fst].
    destruct data as [|x [|? ?]]; try discriminate.
    apply Permutation_singleton_r in Hperm as ->. reflexivity. }
  destruct (Z.eqb_spec (Z.rem (Z.of_nat n) 2) 1) as [Hodd|Heven].
  - destruct (half_odd n Hodd) as [-> Hhalf].
    assert (Hq : 0 <= Z.quot (Z.of_nat n) 2 < Z.of_nat n).
    { split; [apply Z.quot_pos; lia|apply Z.quot_lt; lia]. }
    destruct (quickselect_int16_spec data 0 (Z.of_nat n - 1) (Z.quot (Z.of_nat n) 2))
      as (a' & Hrun & (Hl' & Hp' & _) & Hplaced).
    + lia.
    + lia.
    + fold n. lia.
    + apply split_at_0.
    + apply split_at_length.
    + exists a'. split; [|exact Hp']. rewrite Hrun. do 2 f_equal.
      rewrite <- Hhalf. apply placed_rank.
      * rewrite Hl'. lia.
      * exact Hplaced.
      * exact Hsorted.
      * rewrite Hperm, Hp'. reflexivity.
  - destruct (half_even n Heven) as (-> & Hhalf & Hhalf1).
    assert (Hq : 1 <= Z.quot (Z.of_nat n) 2 < Z.of_nat n).
    { split; [|apply Z.quot_lt; lia].
      change 1 with (Z.quot 2 2). apply Z.quot_le_mono; lia. }
    destruct (quickselect_int16_spec data 0 (Z.of_nat n - 1) (Z.quot (Z.of_nat n) 2 - 1))
      as (a1 & Hrun1 & (Hl1 & Hp1 & _) & Hplaced1).
    + lia.
    + lia.
    + fold n. lia.
    + apply split_at_0.
    + apply split_at_length.
    + rewrite Hrun1.
      destruct (quickselect_int16_spec a1 (Z.quot (Z.of_nat n) 2 - 1 + 1) (Z.of_nat n - 1)
                  (Z.quot (Z.of_nat n) 2))
        as (a2 & Hrun2 & (Hl2 & Hp2 & _) & Hplaced2).
      * lia.
      * lia.
      * rewrite Hl1. lia.
      * destruct Hplaced1 as [Hbefore Hafter]. intros x y Hx Hy.
        transitivity (get a1 (Z.quot (Z.of_nat n) 2 - 1)).
        -- destruct (Z.eq_dec x (Z.quot (Z.of_nat n) 2 - 1)) as [->|?]; [reflexivity|].
           apply Hbefore. lia.
        -- apply Hafter. lia.
      * unfold n. rewrite <- Hl1. apply split_at_length.
      * rewrite Hrun2. exists a2. split; [|rewrite Hp2, Hp1; reflexivity].
        rewrite (placed_rank a1 sorted (Z.quot (Z.of_nat n) 2 - 1)).
        -- rewrite (placed_rank a2 sorted (Z.quot (Z.of_nat n) 2)).
           ++ rewrite Hhalf, Hhalf1. do 2 f_equal.
              apply to_int16_id, is_int16_mean; apply is_int16_nth; exact Hints.
           ++ rewrite Hl2, Hl1. lia.
           ++ exact Hplaced2.
           ++ exact Hsorted.
           ++ rewrite Hperm, Hp2, Hp1. reflexivity.
        -- rewrite Hl1. lia.
        -- exact Hplaced1.
        -- exact Hsorted.
        -- rewrite Hperm, Hp1. reflexivity.
Qed.

Definition burst : list Z := [7; -3; 9; 1; 5; -8].

Lemma calculate_median_int16_is_median_witness :
  exists scratch,
    calculate_median_int16 burst (Z.of_nat (length burst))
      = Some (median_of_sorted [-8; -3; 1; 5; 7; 9], scratch) /\
    scratch ≡ₚ burst.
Proof.
  apply (calculate_median_int16_is_median burst [-8; -3; 1; 5; 7; 9]).
  - unfold burst, is_int16. repeat constructor; lia.
  - unfold INT_MAX. simpl. lia.
  - repeat constructor; lia.
  - exact (merge_sort_Permutation Z.le burst).
Defined.

End MedianFacts.

(** ** The other parsers of api_parse.c *)

Module ApiParseIntFacts.

Import ApiParseInt ApiParseFacts.

Example api_parse_u64_max :
  api_parse_u64 (lit "18446744073709551615") = Some 18446744073709551615.
Proof. reflexivity. Qed.

Example api_parse_u64_max_plus_one :
  api_parse_u64 (lit "18446744073709551616") = None.
Proof. reflexivity. Qed.

Example api_parse_u16_max_plus_one : api_parse_u16 (lit "65536") = None.
Proof. reflexivity. Qed.

(** Every string is a run of digits followed by a string that does
    not begin with a digit. *)
Lemma digit_run_split s :
  exists ds rest, s = ds ++ rest /\ forallb is_digit ds = true /\
                  is_digit (peek rest) = false.
Proof.
  induction s as [|c s IH].
  - exists [], []. repeat split.
  - destruct (is_digit c) eqn:Hc.
    + destruct IH as (ds & rest & -> & Hds & Hrest).
      exists (c :: ds), rest. simpl. rewrite Hc, Hds. repeat split. exact Hrest.
    + exists [], (c :: s). repeat split. exact Hc.
Qed.

Lemma fold_digits_snoc acc ds c :
  fold_digits acc (ds ++ [c]) = fold_digits acc ds * 10 + digit_val c.
Proof. unfold fold_digits. rewrite fold_left_app. reflexivity. Qed.

Lemma fold_digits_cons acc c ds :
  fold_digits acc (c :: ds) = fold_digits (acc * 10 + digit_val c) ds.
Proof. reflexivity. Qed.

(** What the three integer parsers have in common: a number of
    digits [ds] followed by [rest] is accepted when there is a digit,
    the value is at most [limit], and a terminator follows the
    blanks. *)
Definition parse_run (limit : Z) (ds : list ascii) (rest : cstring) : option Z :=
  if (length ds =? 0)%nat then None
  else if limit <? digits_value ds then None
  else if is_term_or_eol (peek (skip_ws rest)) then Some (digits_value ds)
  else None.

Lemma wrap64_small z : 0 <= z <= UINT64_MAX -> wrap64 z = z.
Proof. unfold wrap64, UINT64_MAX. intros H. apply Z.mod_small. lia. Qed.

Lemma u64_digits_run ds : forall rest acc nd,
  forallb is_digit ds = true -> is_digit (peek rest) = false ->
  0 <= acc <= UINT64_MAX ->
  u64_digits (ds ++ rest) acc nd =
    if UINT64_MAX <? fold_digits acc ds then None
    else Some (fold_digits acc ds, nd + Z.of_nat (length ds), rest).
Proof.
  induction ds as [|c ds IH]; intros rest acc nd Hds Hrest Hacc.
  - cbn [app fold_digits fold_left length].
    replace (UINT64_MAX <? acc) with false by (symmetry; apply Z.ltb_ge; lia).
    change (Z.of_nat 0) with 0. rewrite Z.add_0_r.
    destruct rest as [|r rest]; [reflexivity|]. simpl in Hrest |- *.
    rewrite Hrest. reflexivity.
  - simpl in Hds. apply andb_true_iff in Hds as [Hc Hds].
    pose proof (digit_val_range c Hc) as Hd.
    cbn [app u64_digits]. rewrite Hc. rewrite fold_digits_cons.
    rewrite (wrap64_small (digit_val c)) by (unfold UINT64_MAX; lia).
    unfold UINT64_MAX in *.
    destruct ((1844674407370955161 <? acc)
              || ((acc =? 1844674407370955161) && (5 <? digit_val c))) eqn:Hov.
    + assert (Hbig : 18446744073709551615 < acc * 10 + digit_val c).
      { char_cases; try apply Z.ltb_lt in H; try apply Z.ltb_lt in H0; lia. }
      pose proof (fold_digits_mono ds (acc * 10 + digit_val c) Hds ltac:(lia)) as Hm.
      replace (18446744073709551615 <? fold_digits (acc * 10 + digit_val c) ds)
        with true by (symmetry; apply Z.ltb_lt; lia).
      reflexivity.
    + assert (Hsmall : acc * 10 + digit_val c <= 18446744073709551615).
      { apply orb_false_iff in Hov as [H1 H2]. apply Z.ltb_ge in H1.
        apply andb_false_iff in H2 as [H2|H2];
          [apply Z.eqb_neq in H2|apply Z.ltb_ge in H2]; lia. }
      rewrite wrap64_small by (unfold UINT64_MAX; lia).
      rewrite IH by (try assumption; lia).
      cbn [length]. rewrite Nat2Z.inj_succ.
      destruct (18446744073709551615 <? fold_digits (acc * 10 + digit_val c) ds);
        [reflexivity|]. do 3 f_equal. lia.
Qed.

Lemma u16_digits_run ds : forall rest acc nd,
  forallb is_digit ds = true -> is_digit (peek rest) = false ->
  0 <= acc <= UINT16_MAX ->
  u16_digits (ds ++ rest) acc nd =
    if UINT16_MAX <? fold_digits acc ds then None
    else Some (fold_digits acc ds, nd + Z.of_nat (length ds), rest).
Proof.
  induction ds as [|c ds IH]; intros rest acc nd Hds Hrest Hacc.
  - cbn [app fold_digits fold_left length].
    replace (UINT16_MAX <? acc) with false by (symmetry; apply Z.ltb_ge; lia).
    change (Z.of_nat 0) with 0. rewrite Z.add_0_r.
    destruct rest as [|r rest]; [reflexivity|]. simpl in Hrest |- *.
    rewrite Hrest. reflexivity.
  - simpl in Hds. apply andb_true_iff in Hds as [Hc Hds].
    pose proof (digit_val_range c Hc) as Hd.
    cbn [app u16_digits]. rewrite Hc. rewrite fold_digits_cons.
    unfold UINT16_MAX in *.
    rewrite (wrap32_small (digit_val c)) by (unfold UINT32_MAX; lia).
    rewrite (wrap32_small (acc * 10 + digit_val c)) by (unfold UINT32_MAX; lia).
    destruct (Z.ltb_spec 65535 (acc * 10 + digit_val c)) as [Hbig|Hsmall].
    + pose proof (fold_digits_mono ds (acc * 10 + digit_val c) Hds ltac:(lia)) as Hm.
      replace (65535 <? fold_digits (acc * 10 + digit_val c) ds)
        with true by (symmetry; apply Z.ltb_lt; lia).
      reflexivity.
    + rewrite IH by (try assumption; lia).
      cbn [length]. rewrite Nat2Z.inj_succ.
      destruct (65535 <? fold_digits (acc * 10 + digit_val c) ds);
        [reflexivity|]. do 3 f_equal. lia.
Qed.

Lemma u32_digits_run ds rest acc nd :
  forallb is_digit ds = true -> is_digit (peek rest) = false ->
  0 <= acc <= UINT32_MAX ->
  u32_digits (ds ++ rest) acc nd =
    if UINT32_MAX <? fold_digits acc ds then None
    else Some (fold_digits acc ds, nd + Z.of_nat (length ds), rest).
Proof.
  intros Hds Hrest Hacc.
  destruct (Z.ltb_spec UINT32_MAX (fold_digits acc ds)) as [Hbig|Hsmall].
  - apply u32_digits_overflow; assumption.
  - apply u32_digits_complete; try assumption. lia.
Qed.

Lemma digits_value_fold ds : digits_value ds = fold_digits 0 ds.
Proof. reflexivity. Qed.

Lemma nat_length_zero {A} (l : list A) : (length l =? 0)%nat = true <-> l = [].
Proof.
  destruct l; simpl; split; intros H; try reflexivity; discriminate.
Qed.

(** The three parsers on a string that, after its leading blanks, is
    the run of digits [ds] followed by [rest]. *)
Lemma parsers_run s ds rest :
  skip_ws s = ds ++ rest -> forallb is_digit ds = true ->
  is_digit (peek rest) = false ->
  api_parse_u32 s = parse_run UINT32_MAX ds rest /\
  api_parse_u64 s = parse_run UINT64_MAX ds rest /\
  api_parse_u16 s = parse_run UINT16_MAX ds rest.
Proof.
  intros Hskip Hds Hrest.
  unfold api_parse_u32, api_parse_u64, api_parse_u16, parse_run.
  rewrite Hskip.
  rewrite u32_digits_run, u64_digits_run, u16_digits_run
    by (try assumption; unfold UINT32_MAX, UINT64_MAX, UINT16_MAX; lia).
  rewrite <- digits_value_fold.
  assert (Hpos : 0 <= digits_value ds)
    by (rewrite digits_value_fold; apply fold_digits_mono; [assumption|lia]).
  destruct ds as [|c ds].
  - cbn [length Nat.eqb]. unfold digits_value. cbn [fold_left].
    repeat split; reflexivity.
  - cbn [length Nat.eqb]. rewrite Nat2Z.inj_succ.
    assert (Hnd : (0 + Z.succ (Z.of_nat (length ds)) =? 0) = false)
      by (apply Z.eqb_neq; lia).
    repeat split.
    + destruct (UINT32_MAX <? digits_value (c :: ds)); [reflexivity|].
      rewrite Hnd. reflexivity.
    + destruct (UINT64_MAX <? digits_value (c :: ds)); [reflexivity|].
      rewrite Hnd. reflexivity.
    + destruct (Z.ltb_spec UINT16_MAX (digits_value (c :: ds))) as [?|Hle];
        [reflexivity|].
      rewrite Hnd. unfold wrap16. rewrite Z.mod_small by (unfold UINT16_MAX in Hle; lia).
      reflexivity.
Qed.

Lemma parse_run_Some limit ds rest v :
  parse_run limit ds rest = Some v <->
  ds <> [] /\ v = digits_value ds /\ v <= limit /\
  is_term_or_eol (peek (skip_ws rest)) = true.
Proof.
  unfold parse_run. destruct ds as [|c ds]; cbn [length Nat.eqb].
  { split; [discriminate|]. intros [Hne _]. contradiction. }
  destruct (Z.ltb_spec limit (digits_value (c :: ds))) as [Hlt|Hge].
  { split; [discriminate|]. intros (_ & -> & Hle & _). lia. }
  destruct (is_term_or_eol (peek (skip_ws rest))).
  - split.
    + intros Hv. injection Hv as <-. repeat split; [discriminate|exact Hge].
    + intros (_ & -> & _). reflexivity.
  - split; [discriminate|]. intros (_ & _ & _ & Hf). discriminate.
Qed.

Lemma parse_run_limit lo hi ds rest v :
  lo <= hi ->
  parse_run lo ds rest = Some v <-> parse_run hi ds rest = Some v /\ v <= lo.
Proof.
  intros Hle. rewrite !parse_run_Some. split.
  - intros (Hne & Hv & Hlo & Ht). repeat split; try assumption. lia.
  - intros ((Hne & Hv & _ & Ht) & Hlo). repeat split; assumption.
Qed.

(** X1.  [api_parse_u16] accepts exactly the strings [api_parse_u32]
    accepts with a value of at most 65535, and returns the same
    value: the same blanks, digits and terminators, and no wrap-around
    of longer digit runs. *)
Theorem api_parse_u16_is_u32_below_65536 (s : cstring) (v : Z) :
  api_parse_u16 s = Some v <-> api_parse_u32 s = Some v /\ v <= 65535.
Proof.
  destruct (digit_run_split (skip_ws s)) as (ds & rest & Hs & Hds & Hrest).
  destruct (parsers_run s ds rest Hs Hds Hrest) as (-> & _ & ->).
  apply (parse_run_limit UINT16_MAX UINT32_MAX).
  unfold UINT16_MAX, UINT32_MAX. lia.
Qed.

(** X2.  [api_parse_u64] extends [api_parse_u32]: the 32-bit parser
    accepts exactly the strings the 64-bit parser accepts with a
    value of at most 4294967295, with the same value; and the 64-bit
    parser never returns more than 18446744073709551615. *)
Theorem api_parse_u64_extends_u32 (s : cstring) (v : Z) :
  (api_parse_u32 s = Some v <->
   api_parse_u64 s = Some v /\ v <= 4294967295) /\
  (api_parse_u64 s = Some v -> 0 <= v <= 18446744073709551615).
Proof.
  destruct (digit_run_split (skip_ws s)) as (ds & rest & Hs & Hds & Hrest).
  destruct (parsers_run s ds rest Hs Hds Hrest) as (-> & -> & _).
  split.
  - apply (parse_run_limit UINT32_MAX UINT64_MAX).
    unfold UINT64_MAX, UINT32_MAX. lia.
  - intros Hv. apply parse_run_Some in Hv as (_ & -> & Hle & _).
    split; [|exact Hle].
    rewrite digits_value_fold. apply fold_digits_mono; [assumption|lia].
Qed.

End ApiParseIntFacts.

(** ** api_parse.c: the fixed-point parser *)

Module ApiParseFloatFacts.

Import Fw ApiParseFacts ApiParseIntFacts.

(** The value stored for a number read as [int] and [frac]
    thousandths, [int] below 2^32: with an integer part up to
    4294966, [(float)(int*1000 + frac) / 1000.0f]; above it,
    [(float)((double)int + (double)frac / 1000.0)]; the sign is put
    on last but for the conversion to [float]. *)
Definition decimal_float (neg : bool) (int frac : Z) : CFloat.float :=
  if int <=? 4294966 then
    let q := CFloat.float_div (CFloat.float_of_u32 (int * 1000 + frac))
                              (CFloat.float_of_u32 1000) in
    if neg then CFloat.neg q else q
  else
    let v := CFloat.double_add
               (CFloat.double_of_u32 int)
               (CFloat.double_div (CFloat.double_of_u32 frac)
                                  (CFloat.double_of_u32 1000)) in
    CFloat.float_of_double (if neg then CFloat.neg v else v).

(** 12.5 is 13107200 * 2^-20. *)
Example float_plain :
  api_parse_float_fixed3 (lit "12.5")
  = Some (SpecFloat.S754_finite false 13107200 (-20)).
Proof. reflexivity. Qed.

(** -0.25 is -(8388608 * 2^-25). *)
Example float_no_integer_part :
  api_parse_float_fixed3 (lit "-.25,")
  = Some (SpecFloat.S754_finite true 8388608 (-25)).
Proof. reflexivity. Qed.

Example float_four_decimals : api_parse_float_fixed3 (lit "1.2345") = None.
Proof. reflexivity. Qed.

(** The integer part 4294967297 wraps to 1: the value is 1.5. *)
Example float_integer_part_wraps :
  api_parse_float_fixed3 (lit "4294967297.5")
  = Some (SpecFloat.S754_finite false 12582912 (-23)).
Proof. reflexivity. Qed.

(** 16777219 thousandths do not fit the 24 bits of a [float]: the
    value stored is 8589937 * 2^-9 = 16777.220703125. *)
Example float_rounds :
  api_parse_float_fixed3 (lit "16777.219")
  = Some (SpecFloat.S754_finite false 8589937 (-9)).
Proof. reflexivity. Qed.

(** "-0" is stored as the negative zero. *)
Example float_negative_zero :
  api_parse_float_fixed3 (lit "-0") = Some (SpecFloat.S754_zero true).
Proof. reflexivity. Qed.

(** The double path: 4294967.5 is 8589935 * 2^-1. *)
Example float_double_path :
  api_parse_float_fixed3 (lit "4294967.5")
  = Some (SpecFloat.S754_finite false 8589935 (-1)).
Proof. reflexivity. Qed.

Lemma wrap32_fold_digits ds : forall a b,
  wrap32 a = wrap32 b -> wrap32 (fold_digits a ds) = wrap32 (fold_digits b ds).
Proof.
  induction ds as [|c ds IH]; intros a b Hab; [exact Hab|].
  rewrite !fold_digits_cons. apply IH. unfold wrap32 in *.
  rewrite (Z.add_mod (a * 10)), (Z.add_mod (b * 10)) by lia.
  rewrite (Z.mul_mod a), (Z.mul_mod b) by lia. rewrite Hab. reflexivity.
Qed.

Lemma wrap32_idem z : wrap32 (wrap32 z) = wrap32 z.
Proof. unfold wrap32. apply Z.mod_mod. lia. Qed.

Lemma float_int_part_run ds : forall rest ip nd,
  forallb is_digit ds = true -> is_digit (peek rest) = false ->
  0 <= ip <= UINT32_MAX ->
  float_int_part (ds ++ rest) ip nd =
    (wrap32 (fold_digits ip ds), nd + Z.of_nat (length ds), rest).
Proof.
  induction ds as [|c ds IH]; intros rest ip nd Hds Hrest Hip.
  - cbn [app fold_digits fold_left length]. rewrite wrap32_small by exact Hip.
    change (Z.of_nat 0) with 0. rewrite Z.add_0_r.
    destruct rest as [|r rest]; [reflexivity|]. simpl in Hrest |- *.
    rewrite Hrest. reflexivity.
  - simpl in Hds. apply andb_true_iff in Hds as [Hc Hds].
    pose proof (digit_val_range c Hc) as Hd.
    cbn [app float_int_part]. rewrite Hc.
    rewrite (wrap32_small (digit_val c)) by (unfold UINT32_MAX; lia).
    rewrite IH; try assumption.
    + rewrite fold_digits_cons. cbn [length]. rewrite Nat2Z.inj_succ.
      replace (nd + 1 + Z.of_nat (length ds))
        with (nd + Z.succ (Z.of_nat (length ds))) by lia.
      rewrite (wrap32_fold_digits ds _ (ip * 10 + digit_val c))
        by apply wrap32_idem.
      reflexivity.
    + unfold wrap32, UINT32_MAX.
      pose proof (Z.mod_pos_bound (ip * 10 + digit_val c) (2 ^ 32) ltac:(lia)).
      change (2 ^ 32) with 4294967296 in *. lia.
Qed.

Lemma fold_digits_bound ds : forall acc,
  forallb is_digit ds = true -> 0 <= acc ->
  fold_digits acc ds < (acc + 1) * 10 ^ Z.of_nat (length ds).
Proof.
  induction ds as [|c ds IH]; intros acc Hds Hacc.
  - cbn. lia.
  - simpl in Hds. apply andb_true_iff in Hds as [Hc Hds].
    pose proof (digit_val_range c Hc) as Hd.
    rewrite fold_digits_cons. cbn [length]. rewrite Nat2Z.inj_succ, Z.pow_succ_r by lia.
    specialize (IH (acc * 10 + digit_val c) Hds ltac:(lia)).
    assert (0 < 10 ^ Z.of_nat (length ds)) by (apply Z.pow_pos_nonneg; lia).
    nia.
Qed.

Lemma float_frac_part_run fr : forall rest fp nd,
  forallb is_digit fr = true -> is_digit (peek rest) = false ->
  0 <= nd <= 3 -> 0 <= fp < 10 ^ nd ->
  float_frac_part (fr ++ rest) fp nd =
    if 3 <? nd + Z.of_nat (length fr) then None
    else Some (fold_digits fp fr, nd + Z.of_nat (length fr), rest).
Proof.
  induction fr as [|c fr IH]; intros rest fp nd Hfr Hrest Hnd Hfp.
  - cbn [app fold_digits fold_left length].
    change (Z.of_nat 0) with 0. rewrite Z.add_0_r.
    replace (3 <? nd) with false by (symmetry; apply Z.ltb_ge; lia).
    destruct rest as [|r rest]; [reflexivity|]. simpl in Hrest |- *.
    rewrite Hrest. reflexivity.
  - simpl in Hfr. apply andb_true_iff in Hfr as [Hc Hfr].
    pose proof (digit_val_range c Hc) as Hd.
    cbn [app float_frac_part length]. rewrite Hc, Nat2Z.inj_succ.
    destruct (Z.ltb_spec nd 3) as [Hlt|Hge].
    + assert (Hpow : 10 ^ (nd + 1) = 10 * 10 ^ nd)
        by (rewrite Z.pow_add_r by lia; lia).
      assert (Hle : 10 ^ (nd + 1) <= 10 ^ 3)
        by (apply Z.pow_le_mono_r; lia).
      change (10 ^ 3) with 1000 in Hle.
      rewrite (wrap32_small (digit_val c)) by (unfold UINT32_MAX; lia).
      rewrite (wrap32_small (fp * 10 + digit_val c)) by (unfold UINT32_MAX; lia).
      rewrite IH by (try assumption; lia).
      rewrite fold_digits_cons.
      replace (nd + 1 + Z.of_nat (length fr))
        with (nd + Z.succ (Z.of_nat (length fr))) by lia.
      reflexivity.
    + replace (3 <? nd + Z.succ (Z.of_nat (length fr))) with true
        by (symmetry; apply Z.ltb_lt; lia).
      reflexivity.
Qed.

Lemma float_pad_scale fp nd :
  0 <= nd <= 3 -> 0 <= fp < 10 ^ nd ->
  float_pad 3 fp nd = fp * 10 ^ (3 - nd) /\ 0 <= fp * 10 ^ (3 - nd) < 1000.
Proof.
  intros Hnd Hfp.
  assert (Hcase : nd = 0 \/ nd = 1 \/ nd = 2 \/ nd = 3) by lia.
  destruct Hcase as [->|[->|[->| ->]]]; cbn in Hfp; cbn [float_pad];
    repeat match goal with
           | |- context [?a <? 3] =>
               let b := eval vm_compute in (a <? 3) in
               change (a <? 3) with b; cbv iota
           end;
    rewrite ?(wrap32_small (fp * 10)) by (unfold UINT32_MAX; lia);
    rewrite ?(wrap32_small (fp * 10 * 10)) by (unfold UINT32_MAX; lia);
    rewrite ?(wrap32_small (fp * 10 * 10 * 10)) by (unfold UINT32_MAX; lia);
    cbn; lia.
Qed.

Lemma digits_value_range fr :
  forallb is_digit fr = true ->
  0 <= digits_value fr < 10 ^ Z.of_nat (length fr).
Proof.
  intros Hfr. rewrite digits_value_fold.
  pose proof (fold_digits_mono fr 0 Hfr ltac:(lia)).
  pose proof (fold_digits_bound fr 0 Hfr ltac:(lia)). lia.
Qed.

Lemma float_combine_decimal neg int frac :
  0 <= int <= UINT32_MAX -> 0 <= frac < 1000 ->
  float_combine neg int frac = decimal_float neg int frac.
Proof.
  intros Hint Hfrac. unfold float_combine, decimal_float. cbv zeta.
  destruct (Z.ltb_spec 4294966 int), (Z.leb_spec int 4294966); try lia.
  - reflexivity.
  - rewrite (wrap32_small (int * 1000)) by (unfold UINT32_MAX; lia).
    rewrite (wrap32_small (int * 1000 + frac)) by (unfold UINT32_MAX; lia).
    reflexivity.
Qed.

Lemma hard_term_peek_app ws rest :
  forallb is_blank ws = true -> is_hard_term (peek rest) = true ->
  is_digit (peek (ws ++ rest)) = false /\ is_sign (peek (ws ++ rest)) = false /\
  (code (peek (ws ++ rest)) =? 46) = false /\
  is_term_or_eol (peek (skip_ws (ws ++ rest))) = true.
Proof.
  intros Hws Hrest.
  assert (Hterm : is_term_or_eol (peek (skip_ws (ws ++ rest))) = true).
  { rewrite skip_ws_app_blank by exact Hws.
    rewrite skip_ws_nonblank by (apply hard_term_not_blank; exact Hrest).
    apply hard_term_is_term. exact Hrest. }
  destruct ws as [|b ws].
  - cbn [app] in *. repeat split; try exact Hterm.
    + apply hard_term_not_digit. exact Hrest.
    + unfold is_hard_term, is_sign in *. char_cases; char_goal; lia.
    + unfold is_hard_term in *. char_cases; char_goal; lia.
  - simpl in Hws. apply andb_true_iff in Hws as [Hb _]. cbn [app peek].
    repeat split; try exact Hterm.
    + apply blank_not_digit. exact Hb.
    + unfold is_blank, is_sign in *. char_cases; char_goal; lia.
    + unfold is_blank in *. char_cases; char_goal; lia.
Qed.

Lemma digits_peek ds tl :
  forallb is_digit ds = true -> ds <> [] ->
  is_blank (peek (ds ++ tl)) = false /\ is_sign (peek (ds ++ tl)) = false.
Proof.
  intros Hds Hne. destruct ds as [|c ds]; [contradiction|].
  simpl in Hds. apply andb_true_iff in Hds as [Hc _]. cbn [app peek]. split.
  - apply digit_not_blank. exact Hc.
  - unfold is_digit, is_sign in *. char_cases; char_goal; lia.
Qed.

(** What [api_parse_float_fixed3] does after the blanks and the
    sign, on digits, an optional dot with digits, and a tail. *)
Lemma float_after_sign s (neg : bool) ip dot fr ws2 rest :
  skip_ws s = (if neg then lit "-" else @nil ascii) ++ ip ++ dot ++ fr ++ ws2 ++ rest \/
  (neg = false /\ skip_ws s = lit "+" ++ ip ++ dot ++ fr ++ ws2 ++ rest) ->
  forallb is_digit ip = true ->
  (dot = [] /\ fr = []) \/ dot = lit "." ->
  forallb is_digit fr = true -> (length fr <= 3)%nat ->
  ip <> [] \/ fr <> [] ->
  forallb is_blank ws2 = true -> is_hard_term (peek rest) = true ->
  api_parse_float_fixed3 s =
    Some (decimal_float neg (wrap32 (digits_value ip))
            (digits_value fr * 10 ^ (3 - Z.of_nat (length fr)))).
Proof.
  intros Hs Hip Hdot Hfr Hlen Hsome Hws2 Hrest.
  destruct (hard_term_peek_app ws2 rest Hws2 Hrest) as (Htd & Hts & Htdot & Hterm).
  set (tl := dot ++ fr ++ ws2 ++ rest) in *.
  assert (Htl : is_digit (peek tl) = false /\ is_sign (peek tl) = false).
  { unfold tl. destruct Hdot as [[-> ->]| ->]; cbn [app].
    - split; assumption.
    - split; reflexivity. }
  destruct Htl as [Htl_d Htl_s].
  assert (Hbody_sign : is_sign (peek (ip ++ tl)) = false).
  { destruct ip as [|c ip']; [exact Htl_s|]. apply digits_peek; [exact Hip|discriminate]. }
  unfold api_parse_float_fixed3.
  assert (Hstep : (let '(neg0, s0) :=
                     if is_sign (peek (skip_ws s))
                     then (code (peek (skip_ws s)) =? 45, advance 1 (skip_ws s))
                     else (false, skip_ws s) in (neg0, s0)) = (neg, ip ++ tl)).
  { destruct Hs as [Hs|[-> Hs]]; rewrite Hs.
    - destruct neg; cbn [app lit list_ascii_of_string peek].
      + reflexivity.
      + rewrite Hbody_sign. reflexivity.
    - reflexivity. }
  destruct (if is_sign (peek (skip_ws s))
            then (code (peek (skip_ws s)) =? 45, advance 1 (skip_ws s))
            else (false, skip_ws s)) as [neg0 s0].
  injection Hstep as -> ->.
  rewrite (float_int_part_run ip tl 0 0 Hip Htl_d) by (unfold UINT32_MAX; lia).
  rewrite <- digits_value_fold.
  cbv beta iota zeta.
  match goal with
  | |- match ?X with Some _ => _ | None => _ end = _ =>
      assert (Hfrac : X = Some (digits_value fr, Z.of_nat (length fr), ws2 ++ rest))
  end.
  { unfold tl. destruct Hdot as [[-> ->]| ->]; cbn [app].
    - rewrite Htdot. reflexivity.
    - change (lit "." ++ fr ++ ws2 ++ rest) with ("."%char :: fr ++ ws2 ++ rest).
      change (code (peek ("."%char :: fr ++ ws2 ++ rest)) =? 46) with true.
      change (advance 1 ("."%char :: fr ++ ws2 ++ rest)) with (fr ++ ws2 ++ rest).
      cbv iota.
      rewrite (float_frac_part_run fr (ws2 ++ rest) 0 0 Hfr Htd)
        by (try lia; change (10 ^ 0) with 1; lia).
      replace (3 <? 0 + Z.of_nat (length fr)) with false
        by (symmetry; apply Z.ltb_ge; lia).
      reflexivity. }
  rewrite Hfrac.
  assert (Hnd : ((0 + Z.of_nat (length ip) =? 0) && (Z.of_nat (length fr) =? 0)) = false).
  { apply andb_false_iff. destruct Hsome as [Hne|Hne]; [left|right];
      apply Z.eqb_neq; destruct ip, fr; cbn [length] in *; try contradiction; lia. }
  rewrite Hnd, Hterm. cbn [negb].
  destruct (float_pad_scale (digits_value fr) (Z.of_nat (length fr)))
    as [Hpad Hrange]; [lia|apply digits_value_range; exact Hfr|].
  rewrite Hpad. f_equal. apply float_combine_decimal; [|exact Hrange].
  unfold wrap32, UINT32_MAX.
  pose proof (Z.mod_pos_bound (digits_value ip) (2 ^ 32) ltac:(lia)).
  change (2 ^ 32) with 4294967296 in *. lia.
Qed.

Definition is_sign_text (sign : list ascii) : Prop :=
  sign = [] \/ sign = lit "+" \/ sign = lit "-".

Lemma skip_ws_sign ws sign body :
  forallb is_blank ws = true -> is_sign_text sign ->
  is_blank (peek body) = false ->
  skip_ws (ws ++ sign ++ body) = sign ++ body.
Proof.
  intros Hws Hsign Hbody. rewrite skip_ws_app_blank by exact Hws.
  apply skip_ws_nonblank. destruct Hsign as [->|[->| ->]];
    [exact Hbody|reflexivity|reflexivity].
Qed.

(** X3.  [api_parse_float_fixed3] accepts blanks, an optional sign,
    digits, optionally a dot followed by at most three digits (with
    a digit on at least one side), blanks, and then NUL, a comma, CR
    or LF.  The integer part is taken modulo 2^32, as the loop that
    reads it has no overflow check.  The value stored is the [float]
    the code computes from the decimal read: with an integer part up
    to 4294966 the thousandths, converted to [float], divided by
    1000.0f; above it the integer part plus the fraction divided by
    1000.0, in [double], converted to [float]; each step rounds to
    nearest, and the sign is put on the result (so "-0" is the
    negative zero). *)
Theorem api_parse_float_fixed3_accepts
  (ws sign ip dot fr ws2 rest : list ascii) :
  forallb is_blank ws = true -> is_sign_text sign ->
  forallb is_digit ip = true ->
  (dot = [] /\ fr = []) \/ dot = lit "." ->
  forallb is_digit fr = true -> (length fr <= 3)%nat ->
  ip <> [] \/ fr <> [] ->
  forallb is_blank ws2 = true -> is_hard_term (peek rest) = true ->
  api_parse_float_fixed3 (ws ++ sign ++ ip ++ dot ++ fr ++ ws2 ++ rest) =
    Some (decimal_float (starts_with (lit "-") sign)
            (wrap32 (digits_value ip))
            (digits_value fr * 10 ^ (3 - Z.of_nat (length fr)))).
Proof.
  intros Hws Hsign Hip Hdot Hfr Hlen Hsome Hws2 Hrest.
  assert (Hbody : is_blank (peek (ip ++ dot ++ fr ++ ws2 ++ rest)) = false).
  { destruct ip as [|c ip'].
    - destruct Hdot as [[-> ->]| ->]; [|reflexivity].
      destruct Hsome as [H|H]; contradiction.
    - apply digits_peek; [exact Hip|discriminate]. }
  pose proof (skip_ws_sign ws sign _ Hws Hsign Hbody) as Hskip.
  destruct Hsign as [->|[->| ->]].
  - apply (float_after_sign _ false ip dot fr ws2 rest); try assumption.
    left. exact Hskip.
  - apply (float_after_sign _ false ip dot fr ws2 rest); try assumption.
    right. split; [reflexivity|exact Hskip].
  - apply (float_after_sign _ true ip dot fr ws2 rest); try assumption.
    left. exact Hskip.
Qed.

Lemma api_parse_float_fixed3_accepts_witness :
  api_parse_float_fixed3
    (lit " " ++ lit "-" ++ lit "12" ++ lit "." ++ lit "5" ++ lit " " ++ lit ",x")
  = Some (decimal_float true (wrap32 (digits_value (lit "12")))
            (digits_value (lit "5") * 10 ^ (3 - Z.of_nat (length (lit "5"))))).
Proof.
  apply (api_parse_float_fixed3_accepts
           (lit " ") (lit "-") (lit "12") (lit ".") (lit "5") (lit " ") (lit ",x")).
  - reflexivity.
  - right. right. reflexivity.
  - reflexivity.
  - right. reflexivity.
  - reflexivity.
  - simpl. lia.
  - left. discriminate.
  - reflexivity.
  - reflexivity.
Defined.

(** The sign step of [api_parse_float_fixed3], and the rest of the
    function after it. *)
Definition float_after (neg : bool) (s : cstring) : option CFloat.float :=
  let '(ip, nd_int, s) := float_int_part s 0 0 in
  match (if code (peek s) =? 46 then float_frac_part (advance 1 s) 0 0
         else Some (0, 0, s)) with
  | None => None
  | Some (fp, nd_frac, s) =>
      if (nd_int =? 0) && (nd_frac =? 0) then None
      else if negb (is_term_or_eol (peek (skip_ws s))) then None
      else
        let fp := float_pad 3 fp nd_frac in
        Some (float_combine neg ip fp)
  end.

Lemma float_sign_step ws sign body :
  forallb is_blank ws = true -> is_sign_text sign ->
  is_blank (peek body) = false -> is_sign (peek body) = false ->
  api_parse_float_fixed3 (ws ++ sign ++ body) =
    float_after (starts_with (lit "-") sign) body.
Proof.
  intros Hws Hsign Hb Hs. unfold api_parse_float_fixed3.
  rewrite (skip_ws_sign ws sign body Hws Hsign Hb).
  destruct Hsign as [->|[->| ->]].
  - cbn [app]. rewrite Hs. reflexivity.
  - reflexivity.
  - reflexivity.
Qed.

Lemma code_inj c d : code c = code d -> c = d.
Proof.
  unfold code. intros H. apply N2Z.inj in H.
  rewrite <- (ascii_N_embedding c), <- (ascii_N_embedding d), H. reflexivity.
Qed.

Lemma api_parse_float_fixed3_sign_step s :
  api_parse_float_fixed3 s =
    if is_sign (peek (skip_ws s))
    then float_after (code (peek (skip_ws s)) =? 45) (advance 1 (skip_ws s))
    else float_after false (skip_ws s).
Proof.
  unfold api_parse_float_fixed3, float_after.
  destruct (is_sign (peek (skip_ws s))); reflexivity.
Qed.

(** The shape of a number without its sign: digits, an optional dot
    with at most three digits, blanks and a terminator. *)
Definition unsigned_decimal (ip dot fr ws2 rest : list ascii) : Prop :=
  forallb is_digit ip = true /\
  ((dot = [] /\ fr = []) \/ dot = lit ".") /\
  forallb is_digit fr = true /\ (length fr <= 3)%nat /\
  (ip <> [] \/ fr <> []) /\
  forallb is_blank ws2 = true /\ is_hard_term (peek rest) = true.

(** The value stored for the digits [ip] and [fr]. *)
Definition decimal_value (neg : bool) (ip fr : list ascii) : CFloat.float :=
  decimal_float neg (wrap32 (digits_value ip))
                (digits_value fr * 10 ^ (3 - Z.of_nat (length fr))).

Lemma float_after_sound neg body v :
  float_after neg body = Some v ->
  exists ip dot fr ws2 rest,
    body = ip ++ dot ++ fr ++ ws2 ++ rest /\
    unsigned_decimal ip dot fr ws2 rest /\
    v = decimal_value neg ip fr.
Proof.
  unfold float_after. intros H.
  destruct (digit_run_split body) as (ip & tl & -> & Hip & Htl).
  rewrite (float_int_part_run ip tl 0 0 Hip Htl) in H by (unfold UINT32_MAX; lia).
  cbv beta iota zeta in H.
  assert (Hshape : exists dot fr t2,
    tl = dot ++ fr ++ t2 /\ ((dot = [] /\ fr = []) \/ dot = lit ".") /\
    forallb is_digit fr = true /\
    (if code (peek tl) =? 46 then float_frac_part (advance 1 tl) 0 0
     else Some (0, 0, tl)) =
    if (3 <? Z.of_nat (length fr)) then None
    else Some (digits_value fr, Z.of_nat (length fr), t2)).
  { destruct (Z.eqb_spec (code (peek tl)) 46) as [Hdot|Hdot].
    - destruct tl as [|c tl']; [discriminate Hdot|]. cbn [peek] in Hdot.
      assert (c = "."%char) as -> by (apply code_inj; exact Hdot).
      destruct (digit_run_split tl') as (fr & t2 & -> & Hfr & Ht2).
      exists (lit "."), fr, t2. repeat split; try assumption.
      + right. reflexivity.
      + change (advance 1 ("."%char :: fr ++ t2)) with (fr ++ t2).
        rewrite (float_frac_part_run fr t2 0 0 Hfr Ht2)
          by (try lia; change (10 ^ 0) with 1; lia).
        reflexivity.
    - exists [], [], tl. repeat split. left. split; reflexivity. }
  destruct Hshape as (dot & fr & t2 & -> & Hdot & Hfr & Heq).
  match type of H with
  | match ?X with Some _ => _ | None => _ end = _ =>
      replace X with (if 3 <? Z.of_nat (length fr) then None
                      else Some (digits_value fr, Z.of_nat (length fr), t2)) in H
  end.
  destruct (Z.ltb_spec 3 (Z.of_nat (length fr))) as [?|Hlen]; [discriminate|].
  destruct ((0 + Z.of_nat (length ip) =? 0) && (Z.of_nat (length fr) =? 0)) eqn:Hnd;
    [discriminate|].
  destruct (is_term_or_eol (peek (skip_ws t2))) eqn:Hterm; [|discriminate].
  cbn [negb] in H. injection H as <-.
  destruct (skip_ws_split t2) as (ws2 & Ht2 & Hws2 & Hnb).
  exists ip, dot, fr, ws2, (skip_ws t2). split; [|split].
  - rewrite <- Ht2. reflexivity.
  - repeat split; try assumption.
    + lia.
    + apply andb_false_iff in Hnd as [Hn|Hn]; apply Z.eqb_neq in Hn;
        [left|right]; intros ->; cbn [length] in Hn; lia.
    + apply term_not_blank_hard; assumption.
  - unfold decimal_value. rewrite <- digits_value_fold.
    destruct (float_pad_scale (digits_value fr) (Z.of_nat (length fr)))
      as [Hpad Hrange]; [lia|apply digits_value_range; exact Hfr|].
    unfold float_pad in Hpad. rewrite Hpad. apply float_combine_decimal; [|exact Hrange].
    unfold wrap32, UINT32_MAX.
    pose proof (Z.mod_pos_bound (digits_value ip) (2 ^ 32) ltac:(lia)).
    change (2 ^ 32) with 4294967296 in *. lia.
Qed.

(** X4.  Whatever [api_parse_float_fixed3] accepts has the shape
    blanks, optional sign, digits, optional dot with at most three
    digits, blanks, terminator, with a digit on at least one side of
    the dot; so a fourth decimal, an exponent, a blank after the sign
    or a string without a digit is rejected.  The value returned is
    the [float] computed from the digits read: from the integer part
    modulo 2^32 and the fraction in thousandths, by the conversions
    and the division of [decimal_float], with the sign. *)
Theorem api_parse_float_fixed3_sound (s : cstring) (v : CFloat.float) :
  api_parse_float_fixed3 s = Some v ->
  exists ws sign ip dot fr ws2 rest,
    s = ws ++ sign ++ ip ++ dot ++ fr ++ ws2 ++ rest /\
    forallb is_blank ws = true /\ is_sign_text sign /\
    unsigned_decimal ip dot fr ws2 rest /\
    v = decimal_float (starts_with (lit "-") sign)
          (wrap32 (digits_value ip))
          (digits_value fr * 10 ^ (3 - Z.of_nat (length fr))).
Proof.
  rewrite api_parse_float_fixed3_sign_step. intros H.
  destruct (skip_ws_split s) as (ws & Hs & Hws & Hnb).
  destruct (is_sign (peek (skip_ws s))) eqn:Hsign.
  - destruct (skip_ws s) as [|c body] eqn:Hskip; [discriminate Hsign|].
    cbn [peek] in *. change (advance 1 (c :: body)) with body in H.
    apply float_after_sound in H as (ip & dot & fr & ws2 & rest & -> & Hshape & ->).
    exists ws, [c], ip, dot, fr, ws2, rest.
    unfold is_sign in Hsign. apply orb_true_iff in Hsign as [Hc|Hc];
      apply Z.eqb_eq in Hc.
    + assert (c = "+"%char) as -> by (apply code_inj; exact Hc).
      split; [rewrite Hs at 1; reflexivity|].
      split; [exact Hws|]. split; [right; left; reflexivity|].
      split; [exact Hshape|reflexivity].
    + assert (c = "-"%char) as -> by (apply code_inj; exact Hc).
      split; [rewrite Hs at 1; reflexivity|].
      split; [exact Hws|]. split; [right; right; reflexivity|].
      split; [exact Hshape|reflexivity].
  - apply float_after_sound in H as (ip & dot & fr & ws2 & rest & Hbody & Hshape & ->).
    exists ws, [], ip, dot, fr, ws2, rest. rewrite Hbody in Hs.
    split; [exact Hs|]. split; [exact Hws|]. split; [left; reflexivity|].
    split; [exact Hshape|reflexivity].
Qed.

Lemma api_parse_float_fixed3_sound_witness :
  exists ws sign ip dot fr ws2 rest,
    lit "-0.25," = ws ++ sign ++ ip ++ dot ++ fr ++ ws2 ++ rest /\
    forallb is_blank ws = true /\ is_sign_text sign /\
    unsigned_decimal ip dot fr ws2 rest /\
    SpecFloat.S754_finite true 8388608 (-25)
    = decimal_float (starts_with (lit "-") sign)
        (wrap32 (digits_value ip))
        (digits_value fr * 10 ^ (3 - Z.of_nat (length fr))).
Proof.
  apply (api_parse_float_fixed3_sound (lit "-0.25,")
           (SpecFloat.S754_finite true 8388608 (-25))).
  reflexivity.
Defined.

End ApiParseFloatFacts.

(** ** CRC-16: what the check sum gives its user *)

Module Crc16CheckFacts.

Import Crc16 Crc16Facts.

Fixpoint count_up (n : nat) (from : Z) : list Z :=
  match n with
  | O => []
  | S n' => from :: count_up n' (from + 1)
  end.

Lemma count_up_In n : forall from z,
  from <= z < from + Z.of_nat n -> In z (count_up n from).
Proof.
  induction n as [|n IH]; intros from z Hz; [lia|].
  cbn [count_up]. destruct (Z.eq_dec from z) as [->|Hne]; [left; reflexivity|].
  right. apply IH. lia.
Qed.

Definition u16_values : list Z := count_up (Z.to_nat 65536) 0.

Lemma u16_values_In z : 0 <= z < 65536 -> In z u16_values.
Proof. intros Hz. apply count_up_In. lia. Qed.

Lemma is_u16_range z : is_u16 z <-> 0 <= z < 65536.
Proof.
  unfold is_u16, wrap16. change (2 ^ 16) with 65536. split.
  - intros <-. apply Z.mod_pos_bound. lia.
  - intros H. apply Z.mod_small. exact H.
Qed.

(** The round of the update loop undone: the bit shifted out is the
    low bit of the result, for the polynomial is odd. *)
Definition crc_unround (y : Z) : Z :=
  if Z.odd y then Z.lor (Z.shiftr (Z.lxor y PROTO_CRC16_POLY) 1) 0x8000
  else Z.shiftr y 1.

Lemma crc_unround_round_all :
  forallb (fun x => crc_unround (crc_round x) =? x) u16_values = true.
Proof. vm_compute. reflexivity. Qed.

Lemma crc_unround_round x : is_u16 x -> crc_unround (crc_round x) = x.
Proof.
  intros Hx. apply is_u16_range in Hx.
  pose proof crc_unround_round_all as H. rewrite forallb_forall in H.
  apply Z.eqb_eq. apply H. apply u16_values_In. exact Hx.
Qed.

Lemma iter_round_u16 k x : is_u16 x -> is_u16 (Nat.iter k crc_round x).
Proof.
  intros Hx. destruct k as [|k]; [exact Hx|]. simpl. apply crc_round_u16.
Qed.

Lemma iter_round_inj k : forall x y,
  is_u16 x -> is_u16 y ->
  Nat.iter k crc_round x = Nat.iter k crc_round y -> x = y.
Proof.
  induction k as [|k IH]; intros x y Hx Hy H; [exact H|].
  apply IH; try assumption. simpl in H.
  rewrite <- (crc_unround_round (Nat.iter k crc_round x)) by (apply iter_round_u16; exact Hx).
  rewrite <- (crc_unround_round (Nat.iter k crc_round y)) by (apply iter_round_u16; exact Hy).
  rewrite H. reflexivity.
Qed.

Lemma byte_val_inj b1 b2 : byte_val b1 = byte_val b2 -> b1 = b2.
Proof.
  unfold byte_val. intros H. apply N2Z.inj in H.
  assert (Hs : Some b1 = Some b2).
  { rewrite <- (Byte.of_to_N b1), <- (Byte.of_to_N b2), H. reflexivity. }
  injection Hs as ->. reflexivity.
Qed.

Lemma xor_byte_u16 crc b :
  is_u16 crc ->
  wrap16 (Z.lxor crc (Z.shiftl (byte_val b) 8)) =
    Z.lxor crc (Z.shiftl (byte_val b) 8).
Proof.
  intros Hc. rewrite wrap16_lxor, Hc.
  destruct (byte_top_bits b) as (_ & _ & ->). reflexivity.
Qed.

(** The update by one byte is one-to-one in the running value and in
    the byte. *)
Lemma update_byte_inj c1 c2 b1 b2 :
  is_u16 c1 -> is_u16 c2 ->
  proto_crc16_update_byte c1 b1 = proto_crc16_update_byte c2 b2 ->
  Z.lxor c1 (Z.shiftl (byte_val b1) 8) = Z.lxor c2 (Z.shiftl (byte_val b2) 8).
Proof.
  intros H1 H2 H. unfold proto_crc16_update_byte in H. cbv zeta in H.
  apply iter_round_inj in H; try apply wrap16_idem.
  rewrite !xor_byte_u16 in H by assumption. exact H.
Qed.

Lemma lxor_cancel_l a x y : Z.lxor a x = Z.lxor a y -> x = y.
Proof.
  intros H. rewrite <- (Z.lxor_0_l x), <- (Z.lxor_0_l y).
  rewrite <- (Z.lxor_nilpotent a), !Z.lxor_assoc, H. reflexivity.
Qed.

Lemma lxor_cancel_r a b x : Z.lxor a x = Z.lxor b x -> a = b.
Proof.
  rewrite (Z.lxor_comm a), (Z.lxor_comm b). apply lxor_cancel_l.
Qed.

Lemma proto_crc16_init_u16 : is_u16 proto_crc16_init.
Proof. reflexivity. Qed.

Lemma update_u16 data : forall crc, is_u16 crc -> is_u16 (proto_crc16_update crc data).
Proof.
  induction data as [|b data IH]; intros crc Hc; [exact Hc|].
  apply IH. apply update_byte_u16.
Qed.

Lemma update_inj data : forall c1 c2,
  is_u16 c1 -> is_u16 c2 ->
  proto_crc16_update c1 data = proto_crc16_update c2 data -> c1 = c2.
Proof.
  induction data as [|b data IH]; intros c1 c2 H1 H2 H; [exact H|].
  apply IH in H; try apply update_byte_u16.
  apply update_byte_inj in H; try assumption.
  apply lxor_cancel_r in H. exact H.
Qed.

(** X6.  A change of one byte of a message, whatever the rest,
    changes the value of [proto_crc16_buf]. *)
Theorem proto_crc16_detects_byte_change (pre post : list Byte.byte)
  (b1 b2 : Byte.byte) :
  b1 <> b2 ->
  proto_crc16_buf (pre ++ b1 :: post) <> proto_crc16_buf (pre ++ b2 :: post).
Proof.
  intros Hne H. apply Hne. unfold proto_crc16_buf, proto_crc16_final in H.
  rewrite <- !update_app in H.
  pose proof (update_u16 pre _ proto_crc16_init_u16) as Hc.
  set (c := proto_crc16_update proto_crc16_init pre) in *.
  change (proto_crc16_update c (b1 :: post))
    with (proto_crc16_update (proto_crc16_update_byte c b1) post) in H.
  change (proto_crc16_update c (b2 :: post))
    with (proto_crc16_update (proto_crc16_update_byte c b2) post) in H.
  apply update_inj in H; try apply update_byte_u16.
  apply update_byte_inj in H; try assumption.
  apply lxor_cancel_l in H. apply byte_val_inj.
  apply (f_equal (fun z => Z.shiftr z 8)) in H.
  rewrite !Z.shiftr_shiftl_l, !Z.sub_diag in H by lia.
  exact H.
Qed.

Lemma proto_crc16_detects_byte_change_witness :
  proto_crc16_buf ([Byte.x31] ++ Byte.x32 :: [Byte.x33])
  <> proto_crc16_buf ([Byte.x31] ++ Byte.x3a :: [Byte.x33]).
Proof.
  apply (proto_crc16_detects_byte_change [Byte.x31] [Byte.x33] Byte.x32 Byte.x3a).
  discriminate.
Defined.

Definition byte_of_Z (z : Z) : Byte.byte :=
  match Byte.of_N (Z.to_N z) with
  | Some b => b
  | None => Byte.x00
  end.

Lemma byte_of_Z_val b z : byte_val b = z -> b = byte_of_Z z.
Proof.
  intros <-. unfold byte_of_Z, byte_val. rewrite N2Z.id, Byte.of_to_N.
  reflexivity.
Qed.

Lemma residue_all :
  forallb (fun c =>
             proto_crc16_update_byte
               (proto_crc16_update_byte c (byte_of_Z (c / 256)))
               (byte_of_Z (c mod 256)) =? 0) u16_values = true.
Proof. vm_compute. reflexivity. Qed.

(** X5.  A message followed by its check sum, high byte first, has
    the check sum 0: the receiver may run [proto_crc16_buf] over
    message and check sum together and compare with 0. *)
Theorem proto_crc16_residue (data : list Byte.byte) (hi lo : Byte.byte) :
  byte_val hi = proto_crc16_buf data / 256 ->
  byte_val lo = proto_crc16_buf data mod 256 ->
  proto_crc16_buf (data ++ [hi; lo]) = 0.
Proof.
  intros Hhi Hlo. apply byte_of_Z_val in Hhi, Hlo. subst hi lo.
  unfold proto_crc16_buf, proto_crc16_final. rewrite <- update_app.
  pose proof (update_u16 data _ proto_crc16_init_u16) as Hc.
  set (c := proto_crc16_update proto_crc16_init data) in *.
  apply is_u16_range in Hc.
  pose proof residue_all as H. rewrite forallb_forall in H.
  apply Z.eqb_eq. apply (H c). apply u16_values_In. exact Hc.
Qed.

Lemma proto_crc16_residue_witness :
  proto_crc16_buf (check_line ++ [Byte.xdc; Byte.x92]) = 0.
Proof.
  apply (proto_crc16_residue check_line Byte.xdc Byte.x92); reflexivity.
Defined.

End Crc16CheckFacts.

(** ** comm.c: the receive ring as a queue, and the budgeted loop *)

Module CommRingFacts.

Import Comm CommFacts.

Lemma ring_bytes_length n : forall buf tail, length (ring_bytes n buf tail) = n.
Proof. induction n as [|n IH]; intros buf tail; simpl; [|rewrite IH]; reflexivity. Qed.

Lemma ring_bytes_snoc n : forall buf tail,
  0 <= tail < RX_RING_BUFFER_SIZE ->
  ring_bytes (S n) buf tail =
    ring_bytes n buf tail
    ++ [nth (Z.to_nat ((tail + Z.of_nat n) mod RX_RING_BUFFER_SIZE)) buf NUL].
Proof.
  induction n as [|n IH]; intros buf tail Ht.
  - cbn [ring_bytes app]. change (Z.of_nat 0) with 0.
    rewrite Z.add_0_r, Z.mod_small by exact Ht. reflexivity.
  - change (ring_bytes (S (S n)) buf tail)
      with (nth (Z.to_nat tail) buf NUL :: ring_bytes (S n) buf ((tail + 1) mod RX_RING_BUFFER_SIZE)).
    rewrite IH by (apply Z.mod_pos_bound; reflexivity).
    replace (((tail + 1) mod RX_RING_BUFFER_SIZE + Z.of_nat n) mod RX_RING_BUFFER_SIZE)
      with ((tail + Z.of_nat (S n)) mod RX_RING_BUFFER_SIZE); [reflexivity|].
    rewrite Nat2Z.inj_succ. unfold RX_RING_BUFFER_SIZE.
    rewrite Zplus_mod_idemp_l. f_equal. lia.
Qed.

Lemma ring_bytes_insert n : forall buf tail i d,
  0 <= tail < RX_RING_BUFFER_SIZE -> 0 <= i < RX_RING_BUFFER_SIZE -> Z.of_nat n <= (i - tail) mod RX_RING_BUFFER_SIZE ->
  ring_bytes n (<[Z.to_nat i := d]> buf) tail = ring_bytes n buf tail.
Proof.
  induction n as [|n IH]; intros buf tail i d Ht Hi Hn; [reflexivity|].
  cbn [ring_bytes].
  assert (Hne : i <> tail).
  { intros ->. rewrite Z.sub_diag in Hn. change (0 mod RX_RING_BUFFER_SIZE) with 0 in Hn. lia. }
  rewrite nth_lookup, list_lookup_insert_ne, <- nth_lookup by lia.
  rewrite IH; [reflexivity|apply Z.mod_pos_bound; reflexivity|exact Hi|].
  unfold RX_RING_BUFFER_SIZE in *.
  revert Hn. rewrite Nat2Z.inj_succ.
  generalize (Z.of_nat n). intros m Hn.
  Z.div_mod_to_equations. lia.
Qed.

Lemma ring_bytes_drop k : forall n buf tail,
  0 <= tail < RX_RING_BUFFER_SIZE -> (k <= n)%nat ->
  drop k (ring_bytes n buf tail) =
    ring_bytes (n - k) buf ((tail + Z.of_nat k) mod RX_RING_BUFFER_SIZE).
Proof.
  induction k as [|k IH]; intros n buf tail Ht Hk.
  - change (Z.of_nat 0) with 0. rewrite Z.add_0_r, Z.mod_small by exact Ht.
    rewrite Nat.sub_0_r. reflexivity.
  - destruct n as [|n]; [lia|]. cbn [ring_bytes drop Nat.sub].
    rewrite IH by (try lia; apply Z.mod_pos_bound; reflexivity).
    f_equal. rewrite Nat2Z.inj_succ. unfold RX_RING_BUFFER_SIZE.
    rewrite Zplus_mod_idemp_l. f_equal. lia.
Qed.

(** The loop of [COMM_OnRxEvent]: with [n] bytes waiting, the first
    [RX_RING_BUFFER_SIZE - 1 - n] bytes of [data] are appended, in order, and every
    further byte is counted and dropped. *)
Lemma rx_push_spec data : forall buf head tail ovf n,
  length buf = Z.to_nat RX_RING_BUFFER_SIZE ->
  0 <= head < RX_RING_BUFFER_SIZE -> 0 <= tail < RX_RING_BUFFER_SIZE ->
  (head - tail) mod RX_RING_BUFFER_SIZE = Z.of_nat n ->
  let room := (Z.to_nat (RX_RING_BUFFER_SIZE - 1) - n)%nat in
  let '(buf', head', ovf') := rx_push data buf head tail ovf in
  let n' := (n + length (take room data))%nat in
  0 <= head' < RX_RING_BUFFER_SIZE /\
  (head' - tail) mod RX_RING_BUFFER_SIZE = Z.of_nat n' /\
  length buf' = length buf /\
  ring_bytes n' buf' tail = ring_bytes n buf tail ++ take room data /\
  wrap32 ovf' = wrap32 (ovf + Z.of_nat (length (drop room data))) /\
  (0 <= ovf <= UINT32_MAX -> 0 <= ovf' <= UINT32_MAX).
Proof.
  induction data as [|d data IH]; intros buf head tail ovf n Hlen Hh Ht Hn room.
  - cbn [rx_push]. rewrite take_nil, drop_nil. cbn [length].
    rewrite Nat.add_0_r, app_nil_r, Z.add_0_r. repeat split; try assumption; lia.
  - cbn [rx_push].
    assert (Hfull : (head + 1) mod RX_RING_BUFFER_SIZE = tail <-> room = O).
    { unfold room, RX_RING_BUFFER_SIZE in *.
      pose proof (Z.mod_pos_bound (head - tail) 2048 ltac:(lia)) as Hb.
      split; intros H.
      - assert (Z.of_nat n = 2047); [|lia].
        rewrite <- Hn. clear Hb. Z.div_mod_to_equations. lia.
      - assert (Z.of_nat n = 2047) as Hn' by lia. rewrite Hn' in Hn.
        clear Hb. Z.div_mod_to_equations. lia. }
    destruct (Z.eqb_spec ((head + 1) mod RX_RING_BUFFER_SIZE) tail) as [Heq|Hneq]; cbn [negb].
    + apply Hfull in Heq. 
      specialize (IH buf head tail (wrap32 (ovf + 1)) n Hlen Hh Ht Hn).
      fold room in IH. cbv zeta in IH.
      destruct (rx_push data buf head tail (wrap32 (ovf + 1))) as [[buf' head'] ovf'].
      rewrite Heq in *. rewrite take_0 in *. rewrite drop_0 in *.
      cbn [length] in *. destruct IH as (H1 & H2 & H3 & H4 & H5 & H6).
      split; [exact H1|]. split; [exact H2|]. split; [exact H3|].
      split; [exact H4|]. split.
      * rewrite H5. unfold wrap32. rewrite Zplus_mod_idemp_l. f_equal. lia.
      * intros _. apply H6. unfold wrap32, UINT32_MAX.
        pose proof (Z.mod_pos_bound (ovf + 1) (2 ^ 32) ltac:(lia)).
        change (2 ^ 32) with 4294967296 in *. lia.
    + assert (Hroom : room <> O) by (intros H; apply Hneq, Hfull, H).
      assert (Hn1 : ((head + 1) mod RX_RING_BUFFER_SIZE - tail) mod RX_RING_BUFFER_SIZE = Z.of_nat (S n)).
      { rewrite Nat2Z.inj_succ, <- Hn. unfold room, RX_RING_BUFFER_SIZE in *.
        assert (Z.of_nat n < 2047) by lia. rewrite <- Hn in H.
        revert H. clear. intros H. Z.div_mod_to_equations. lia. }
      specialize (IH (<[Z.to_nat head := d]> buf) ((head + 1) mod RX_RING_BUFFER_SIZE) tail ovf (S n)
                     ltac:(rewrite length_insert; exact Hlen)
                     ltac:(apply Z.mod_pos_bound; reflexivity) Ht Hn1).
      cbv zeta in IH.
      replace (Z.to_nat (RX_RING_BUFFER_SIZE - 1) - S n)%nat with (pred room) in IH by (unfold room; lia).
      destruct (rx_push data (<[Z.to_nat head := d]> buf) ((head + 1) mod RX_RING_BUFFER_SIZE) tail ovf)
        as [[buf' head'] ovf'].
      destruct room as [|room']; [contradiction|]. cbn [pred] in IH.
      rewrite firstn_cons, skipn_cons. cbn [length].
      destruct IH as (H1 & H2 & H3 & H4 & H5 & H6).
      replace (n + S (length (take room' data)))%nat
        with (S n + length (take room' data))%nat by lia.
      split; [exact H1|]. split; [exact H2|].
      split; [rewrite H3; apply length_insert|]. split; [|split; [exact H5|exact H6]].
      rewrite H4. rewrite ring_bytes_snoc by exact Ht.
      assert (Hhead : (tail + Z.of_nat n) mod RX_RING_BUFFER_SIZE = head).
      { rewrite <- Hn. unfold RX_RING_BUFFER_SIZE in *.
        clear - Hh Ht. Z.div_mod_to_equations. lia. }
      rewrite Hhead.
      rewrite ring_bytes_insert; try assumption; [|lia].
      rewrite <- app_assoc. cbn [app]. do 2 f_equal.
      apply nth_lookup_Some. apply list_lookup_insert_eq.
      rewrite Hlen. unfold RX_RING_BUFFER_SIZE in *. lia.
Qed.

(** The free places of the receive ring: one place is always left
    empty. *)
Definition rx_room (st : CommState) : nat :=
  (Z.to_nat (RX_RING_BUFFER_SIZE - 1) - Z.to_nat (rx_pending st))%nat.

Definition ring_ok (st : CommState) : Prop :=
  ring_wf st /\ length (rx_ring_buffer st) = Z.to_nat RX_RING_BUFFER_SIZE /\
  0 <= s_rx_overflow_count st <= UINT32_MAX.

Lemma rx_pending_nat st : Z.of_nat (Z.to_nat (rx_pending st)) = rx_pending st.
Proof.
  apply Z2Nat.id. unfold rx_pending. apply Z.mod_pos_bound. reflexivity.
Qed.

Lemma rx_event_appends (data : list ascii) (st : CommState) :
  ring_ok st ->
  let st' := COMM_OnRxEvent data st in
  pending_bytes st' = pending_bytes st ++ take (rx_room st) data /\
  s_rx_overflow_count st' =
    wrap32 (s_rx_overflow_count st
            + Z.of_nat (length (drop (rx_room st) data))) /\
  rx_ring_tail st' = rx_ring_tail st /\
  line_buffer st' = line_buffer st /\ line_len st' = line_len st /\
  line_truncated st' = line_truncated st /\
  ring_ok st'.
Proof.
  intros ([Hh Ht] & Hlen & Hovf) st'.
  pose proof (rx_push_spec data (rx_ring_buffer st) (rx_ring_head st)
                (rx_ring_tail st) (s_rx_overflow_count st)
                (Z.to_nat (rx_pending st)) Hlen Hh Ht
                (eq_sym (rx_pending_nat st))) as H.
  cbv zeta in H. fold (rx_room st) in H.
  unfold st', COMM_OnRxEvent.
  destruct (rx_push data (rx_ring_buffer st) (rx_ring_head st)
              (rx_ring_tail st) (s_rx_overflow_count st)) as [[buf' head'] ovf'].
  destruct H as (H1 & H2 & H3 & H4 & H5 & H6).
  specialize (H6 Hovf).
  unfold pending_bytes, rx_pending at 1.
  cbn [rx_ring_buffer rx_ring_head rx_ring_tail s_rx_overflow_count
       line_buffer line_len line_truncated].
  split; [|split; [|unfold ring_ok, ring_wf;
                     cbn [rx_ring_buffer rx_ring_head rx_ring_tail
                          s_rx_overflow_count];
                     repeat split; try assumption; try lia]].
  - rewrite H2, Nat2Z.id. exact H4.
  - rewrite <- H5. symmetry. apply ApiParseFacts.wrap32_small. exact H6.
Qed.

(** X8.  [COMM_OnRxEvent] appends the received bytes to the ring in
    order as long as there is room (2047 bytes in all); every byte
    that finds the ring full is dropped and counted in
    [s_rx_overflow_count], and the bytes that wait and the line under
    assembly are not touched. *)
Theorem COMM_OnRxEvent_queue (data : list ascii) (st : CommState) :
  ring_ok st ->
  let st' := COMM_OnRxEvent data st in
  pending_bytes st' = pending_bytes st ++ take (rx_room st) data /\
  s_rx_overflow_count st' =
    wrap32 (s_rx_overflow_count st
            + Z.of_nat (length (drop (rx_room st) data))) /\
  rx_ring_tail st' = rx_ring_tail st /\
  line_buffer st' = line_buffer st /\ line_len st' = line_len st /\
  line_truncated st' = line_truncated st /\
  ring_ok st'.
Proof. exact (rx_event_appends data st). Qed.

Lemma COMM_Init_ring_ok : ring_ok COMM_Init.
Proof. repeat split; unfold UINT32_MAX; cbn; lia. Qed.

Lemma COMM_OnRxEvent_queue_witness :
  let st' := COMM_OnRxEvent (lit "AB") COMM_Init in
  pending_bytes st' = pending_bytes COMM_Init ++ take (rx_room COMM_Init) (lit "AB") /\
  s_rx_overflow_count st' =
    wrap32 (s_rx_overflow_count COMM_Init
            + Z.of_nat (length (drop (rx_room COMM_Init) (lit "AB")))) /\
  rx_ring_tail st' = rx_ring_tail COMM_Init /\
  line_buffer st' = line_buffer COMM_Init /\ line_len st' = line_len COMM_Init /\
  line_truncated st' = line_truncated COMM_Init /\
  ring_ok st'.
Proof.
  apply (COMM_OnRxEvent_queue (lit "AB") COMM_Init). exact COMM_Init_ring_ok.
Defined.

Lemma feed_ring p : forall st,
  rx_ring_buffer (fst (feed p st)) = rx_ring_buffer st /\
  rx_ring_head (fst (feed p st)) = rx_ring_head st /\
  rx_ring_tail (fst (feed p st)) = rx_ring_tail st.
Proof.
  induction p as [|c p IH]; intros st; [repeat split|].
  cbn [feed]. destruct (line_step_ring c st) as (Hb & Hh & Ht).
  destruct (line_step c st) as [st1 e1]. cbn [fst] in *.
  destruct (IH st1) as (Hb' & Hh' & Ht').
  destruct (feed p st1) as [st2 e2]. cbn [fst] in *.
  rewrite Hb', Hh', Ht'. repeat split; assumption.
Qed.

(** *** From the ring to the assembler *)

Definition same_line (a b : CommState) : Prop :=
  line_buffer a = line_buffer b /\ line_len a = line_len b /\
  line_truncated a = line_truncated b.

Lemma line_step_same_line c a b :
  same_line a b ->
  snd (line_step c a) = snd (line_step c b) /\
  same_line (fst (line_step c a)) (fst (line_step c b)).
Proof.
  intros (Hb & Hl & Ht). unfold line_step, terminated_line.
  rewrite Hb, Hl, Ht.
  destruct (is_eol c);
    [destruct (0 <? line_len b); [|destruct (line_truncated b) eqn:Etr]
    |destruct (line_truncated b) eqn:Etr;
     [|destruct (line_len b <? LINE_BUFFER_SIZE - 1)]];
    cbn [fst snd negb]; (split; [reflexivity|]); unfold same_line;
    cbn [set_line line_buffer line_len line_truncated]; repeat split;
    try reflexivity; congruence.
Qed.

Lemma feed_same_line p : forall a b,
  same_line a b ->
  snd (feed p a) = snd (feed p b) /\ same_line (fst (feed p a)) (fst (feed p b)).
Proof.
  induction p as [|c p IH]; intros a b Hab; [split; [reflexivity|exact Hab]|].
  cbn [feed]. destruct (line_step_same_line c a b Hab) as [He Hs].
  destruct (line_step c a) as [a1 e1], (line_step c b) as [b1 e2].
  cbn [fst snd] in *. destruct (IH a1 b1 Hs) as [He' Hs'].
  destruct (feed p a1) as [a2 e1'], (feed p b1) as [b2 e2'].
  cbn [fst snd] in *. subst. split; [reflexivity|exact Hs'].
Qed.

(** The bytes of several receive events, handed over one event
    after the other. *)
Definition receive (chunks : list (list ascii)) (st : CommState) : CommState :=
  fold_left (fun st data => COMM_OnRxEvent data st) chunks st.

Lemma receive_queue chunks : forall st,
  ring_ok st ->
  (length (concat chunks) <= rx_room st)%nat ->
  pending_bytes (receive chunks st) = pending_bytes st ++ concat chunks /\
  same_line (receive chunks st) st /\ ring_ok (receive chunks st).
Proof.
  induction chunks as [|data chunks IH]; intros st Hok Hroom.
  - cbn. rewrite app_nil_r. repeat split; apply Hok.
  - cbn [receive fold_left concat] in *. rewrite length_app in Hroom.
    destruct (rx_event_appends data st Hok)
      as (Hp & _ & Ht & Hb & Hl & Htr & Hok').
    rewrite take_ge in Hp by lia.
    destruct (IH (COMM_OnRxEvent data st) Hok') as (Hp' & Hs' & Hok'').
    + unfold rx_room in *.
      assert (Hpend : rx_pending (COMM_OnRxEvent data st)
                      = rx_pending st + Z.of_nat (length data)).
      { pose proof (f_equal (@length ascii) Hp) as Hlen.
        unfold pending_bytes in Hlen.
        rewrite length_app, !ring_bytes_length in Hlen.
        rewrite <- (rx_pending_nat (COMM_OnRxEvent data st)), <- (rx_pending_nat st).
        lia. }
      rewrite Hpend. pose proof (rx_pending_nat st). 
      assert (0 <= rx_pending st) by lia. lia.
    + fold (receive chunks (COMM_OnRxEvent data st)) in *.
      rewrite Hp', Hp, <- app_assoc. split; [reflexivity|]. split; [|exact Hok''].
      destruct Hs' as (H1 & H2 & H3). unfold same_line.
      rewrite H1, H2, H3. repeat split; assumption.
Qed.

(** X9.  What has been received is processed in the order of
    arrival: after any number of receive events that together bring
    at most 2047 bytes, [COMM_Process] does to the firmware exactly
    what the line assembler does when it is fed these bytes one after
    the other, and it leaves the ring empty. *)
Theorem COMM_Process_in_order (chunks : list (list ascii)) :
  (length (concat chunks) <= 2047)%nat ->
  snd (COMM_Process (receive chunks COMM_Init))
    = snd (feed (concat chunks) COMM_Init) /\
  rx_pending (fst (COMM_Process (receive chunks COMM_Init))) = 0.
Proof.
  intros Hlen.
  destruct (receive_queue chunks COMM_Init COMM_Init_ring_ok Hlen)
    as (Hp & Hs & (Hwf & _)).
  rewrite (COMM_Process_feed _ Hwf). cbn [fst snd]. split.
  - rewrite Hp. change (pending_bytes COMM_Init) with (@nil ascii).
    cbn [app]. apply feed_same_line. exact Hs.
  - unfold rx_pending. cbn [set_tail rx_ring_head rx_ring_tail].
    destruct (feed_ring (pending_bytes (receive chunks COMM_Init))
                (receive chunks COMM_Init)) as (_ & -> & _).
    rewrite Z.sub_diag. reflexivity.
Qed.

Lemma COMM_Process_in_order_witness :
  snd (COMM_Process (receive [lit "PI"; lit "NG"; [CR; LF]] COMM_Init))
    = snd (feed (concat [lit "PI"; lit "NG"; [CR; LF]]) COMM_Init) /\
  rx_pending (fst (COMM_Process (receive [lit "PI"; lit "NG"; [CR; LF]] COMM_Init))) = 0.
Proof.
  apply (COMM_Process_in_order [lit "PI"; lit "NG"; [CR; LF]]). simpl. lia.
Defined.

(** *** Lines *)

(** X10.  A stream of lines, each ended by CR LF, fed to the
    assembler from a line boundary: an empty line gives nothing, a
    line of 1 to 255 bytes is handed to [process_command] as it is,
    and a longer line gives one NACK 300 line_too_long; the lines
    come out in order and do not affect one another. *)
Theorem line_assembler_stream (ps : list (list ascii)) (st : CommState) :
  Forall no_eol ps -> at_line_start st ->
  snd (feed (concat (map (fun p => p ++ [CR; LF]) ps)) st) =
    concat (map (fun p => if (length p =? 0)%nat then []
                          else if (length p <=? 255)%nat then [EvCommand p]
                          else [EvSend NACK_line_too_long]) ps).
Proof.
  intros Hps. revert st. induction Hps as [|p ps Hp Hps IH]; intros st Hst.
  - reflexivity.
  - cbn [map concat]. rewrite feed_app.
    destruct (feed_line p CR st Hp eq_refl Hst) as (st1 & Hf1 & Hst1).
    destruct (feed_second_eol LF st1 eq_refl Hst1) as (st2 & Hf2 & Hst2).
    assert (Hline : feed (p ++ [CR; LF]) st = (st2, line_events p)).
    { change (p ++ [CR; LF]) with (p ++ [CR] ++ [LF]).
      rewrite app_assoc, feed_app, Hf1, Hf2, app_nil_r. reflexivity. }
    rewrite Hline. specialize (IH st2 Hst2).
    destruct (feed (concat (map (fun p0 => p0 ++ [CR; LF]) ps)) st2) as [st3 evs].
    cbn [snd] in *. rewrite IH. reflexivity.
Qed.

Lemma line_assembler_stream_witness :
  snd (feed (concat (map (fun p => p ++ [CR; LF]) [lit "HELLO"; []; lit "STOP"]))
            COMM_Init) =
    concat (map (fun p => if (length p =? 0)%nat then []
                          else if (length p <=? 255)%nat then [EvCommand p]
                          else [EvSend NACK_line_too_long])
                [lit "HELLO"; []; lit "STOP"]).
Proof.
  apply (line_assembler_stream [lit "HELLO"; []; lit "STOP"] COMM_Init).
  - repeat constructor.
  - exact COMM_Init_at_line_start.
Defined.

(** *** The budgeted loop *)

Definition is_command (e : Event) : bool :=
  match e with EvCommand _ => true | EvSend _ => false end.

Definition commands (evs : list Event) : nat := length (filter is_command evs).

Lemma commands_app a b : commands (a ++ b) = (commands a + commands b)%nat.
Proof. unfold commands. rewrite filter_app, length_app. reflexivity. Qed.

Lemma line_step_commands c st :
  commands (snd (line_step c st)) =
    if is_eol c && (0 <? line_len st) then 1%nat else 0%nat.
Proof.
  unfold line_step.
  destruct (is_eol c); cbn [andb].
  - destruct (0 <? line_len st); [reflexivity|].
    destruct (line_truncated st); reflexivity.
  - destruct (line_truncated st); cbn [negb]; [reflexivity|].
    destruct (line_len st <? LINE_BUFFER_SIZE - 1); reflexivity.
Qed.

Lemma budgeted_loop_commands fuel tick start : forall i lp st,
  0 <= lp < COMM_MAX_LINES_PER_CALL ->
  Z.of_nat (commands (snd (COMM_Process_Budgeted_loop fuel tick start i lp st)))
    <= COMM_MAX_LINES_PER_CALL - lp.
Proof.
  unfold COMM_MAX_LINES_PER_CALL.
  induction fuel as [|fuel IH]; intros i lp st Hlp; [cbn; lia|].
  cbn [COMM_Process_Budgeted_loop].
  destruct (rx_ring_head st =? rx_ring_tail st); [cbn; lia|].
  destruct (ring_pop st) as [c st0].
  pose proof (line_step_commands c st0) as Hc.
  destruct (line_step c st0) as [st1 ev]. cbn [snd] in Hc.
  set (lp' := if is_eol c && (0 <? line_len st0) then wrap32 (lp + 1) else lp) in *.
  assert (Hlp' : lp' = lp + Z.of_nat (commands ev)).
  { unfold lp'. rewrite Hc. destruct (is_eol c && (0 <? line_len st0)); [|lia].
    rewrite ApiParseFacts.wrap32_small by (unfold UINT32_MAX; lia). lia. }
  unfold COMM_MAX_LINES_PER_CALL.
  assert (commands ev <= 1)%nat
    by (rewrite Hc; destruct (is_eol c && (0 <? line_len st0)); lia).
  destruct (Z.leb_spec 8 lp') as [Hfull|Hmore]; [cbn [snd]; lia|].
  destruct (COMM_MAX_MS_PER_CALL <=? wrap32 (tick (S i) - start)); [cbn [snd]; lia|].
  specialize (IH (S i) lp' st1 ltac:(lia)).
  destruct (COMM_Process_Budgeted_loop fuel tick start (S i) lp' st1) as [st2 evs].
  cbn [snd] in *. rewrite commands_app. lia.
Qed.

(** X11.  One call of [COMM_Process_Budgeted] hands at most 8 lines
    to [process_command], whatever waits in the ring and whatever
    the clock says. *)
Theorem COMM_Process_Budgeted_at_most_8 (tick : nat -> Z) (st : CommState) :
  (commands (snd (COMM_Process_Budgeted tick st)) <= 8)%nat.
Proof.
  unfold COMM_Process_Budgeted.
  pose proof (budgeted_loop_commands (Z.to_nat (rx_pending st)) tick (tick O) O 0 st)
    as H.
  unfold COMM_MAX_LINES_PER_CALL in H. specialize (H ltac:(lia)). lia.
Qed.

(** X12.  The budgeted loop loses nothing: what one call of
    [COMM_Process_Budgeted] does, followed by what [COMM_Process]
    does with the bytes it left in the ring, is what [COMM_Process]
    does at once. *)
Theorem COMM_Process_Budgeted_then_rest (tick : nat -> Z) (st : CommState) :
  ring_wf st ->
  snd (COMM_Process st) =
    snd (COMM_Process_Budgeted tick st)
    ++ snd (COMM_Process (fst (COMM_Process_Budgeted tick st))).
Proof.
  intros Hwf.
  assert (Hp : rx_pending st = Z.of_nat (Z.to_nat (rx_pending st)))
    by (symmetry; apply rx_pending_nat).
  set (n := Z.to_nat (rx_pending st)) in *.
  destruct (COMM_Process_Budgeted_loop_feed tick (tick O) n O 0 st Hwf Hp)
    as (k & Hk & Hrun).
  unfold COMM_Process_Budgeted. fold n. rewrite Hrun. cbn [fst snd].
  set (bytes := ring_bytes n (rx_ring_buffer st) (rx_ring_tail st)) in *.
  destruct (feed_ring (take k bytes) st) as (Hb & Hh & Ht).
  set (X := fst (feed (take k bytes) st)) in *.
  set (t' := (rx_ring_tail st + Z.of_nat k) mod RX_RING_BUFFER_SIZE).
  assert (Hwf' : ring_wf (set_tail t' X)).
  { unfold ring_wf. cbn [set_tail rx_ring_head rx_ring_tail]. rewrite Hh.
    split; [apply Hwf|apply Z.mod_pos_bound; reflexivity]. }
  assert (Hpend' : rx_pending (set_tail t' X) = Z.of_nat (n - k)).
  { unfold rx_pending in *. cbn [set_tail rx_ring_head rx_ring_tail].
    rewrite Hh. unfold t'. rewrite Nat2Z.inj_sub by exact Hk.
    rewrite <- Hp. destruct Hwf as [H1 H2].
    assert (Hkn : Z.of_nat k <= (rx_ring_head st - rx_ring_tail st) mod RX_RING_BUFFER_SIZE)
      by lia.
    revert Hkn. generalize (Z.of_nat k) (Nat2Z.is_nonneg k).
    unfold RX_RING_BUFFER_SIZE in *. intros m Hm Hkn.
    Z.div_mod_to_equations. lia. }
  rewrite (COMM_Process_feed st Hwf), (COMM_Process_feed _ Hwf'). cbn [snd].
  assert (Hbytes : pending_bytes (set_tail t' X) = drop k bytes).
  { unfold pending_bytes. rewrite Hpend', Nat2Z.id.
    cbn [set_tail rx_ring_buffer rx_ring_tail]. rewrite Hb.
    unfold bytes. rewrite ring_bytes_drop by (try lia; apply Hwf). reflexivity. }
  rewrite Hbytes, feed_set_tail. cbn [snd].
  change (pending_bytes st) with bytes.
  rewrite <- (take_drop k bytes) at 1. rewrite feed_app. fold X.
  destruct (feed (take k bytes) st) as [x e1] eqn:Hf. cbn [fst snd] in *.
  subst X. destruct (feed (drop k bytes) x) as [y e2]. reflexivity.
Qed.

Lemma COMM_Process_Budgeted_then_rest_witness :
  let st := receive [lit "A"; [CR]; lit "B"; [LF]] COMM_Init in
  snd (COMM_Process st) =
    snd (COMM_Process_Budgeted (fun n => Z.of_nat n) st)
    ++ snd (COMM_Process (fst (COMM_Process_Budgeted (fun n => Z.of_nat n) st))).
Proof.
  apply (COMM_Process_Budgeted_then_rest
           (fun n => Z.of_nat n) (receive [lit "A"; [CR]; lit "B"; [LF]] COMM_Init)).
  unfold ring_wf. vm_compute. repeat split; discriminate.
Defined.

End CommRingFacts.

(** ** comm.c: the transmit ring as a queue *)

Module CommTxFacts.

Import CommTx.

Lemma memcpy_length src : forall dst at_, length (memcpy dst at_ src) = length dst.
Proof.
  induction src as [|c src IH]; intros dst at_; [reflexivity|].
  cbn [memcpy]. rewrite IH. apply length_insert.
Qed.

Lemma memcpy_nth src : forall dst at_ j,
  (at_ + length src <= length dst)%nat ->
  nth j (memcpy dst at_ src) NUL =
    if (at_ <=? j)%nat && (j <? at_ + length src)%nat
    then nth (j - at_) src NUL else nth j dst NUL.
Proof.
  induction src as [|c src IH]; intros dst at_ j Hfit.
  - cbn [memcpy length]. rewrite Nat.add_0_r.
    destruct (Nat.leb_spec at_ j), (Nat.ltb_spec j at_); cbn [andb]; try reflexivity; lia.
  - cbn [memcpy length] in *. rewrite IH by (rewrite length_insert; lia).
    destruct (Nat.leb_spec (S at_) j), (Nat.ltb_spec j (S at_ + length src)),
             (Nat.leb_spec at_ j), (Nat.ltb_spec j (at_ + S (length src)));
      cbn [andb]; try lia.
    + replace (j - at_)%nat with (S (j - S at_)) by lia. reflexivity.
    + rewrite nth_lookup, list_lookup_insert_ne, <- nth_lookup by lia. reflexivity.
    + assert (j = at_) as -> by lia. rewrite Nat.sub_diag. cbn [nth].
      apply nth_lookup_Some. apply list_lookup_insert_eq. lia.
    + rewrite nth_lookup, list_lookup_insert_ne, <- nth_lookup by lia. reflexivity.
Qed.

Lemma memcpy_take src dst :
  (length src <= length dst)%nat -> take (length src) (memcpy dst 0 src) = src.
Proof.
  intros Hfit. apply (nth_ext _ _ NUL NUL).
  - rewrite length_take, memcpy_length. lia.
  - intros j Hj. rewrite length_take, memcpy_length in Hj.
    rewrite nth_lookup, lookup_take_lt, <- nth_lookup by lia.
    rewrite memcpy_nth by lia. cbn [Nat.leb andb Nat.add].
    replace (j <? length src)%nat with true by (symmetry; apply Nat.ltb_lt; lia).
    rewrite Nat.sub_0_r. reflexivity.
Qed.

(** *** Reading around the end of the buffer *)

Lemma ring_read_length buf s n : length (ring_read buf s n) = n.
Proof. unfold ring_read. rewrite length_map, length_seq. reflexivity. Qed.

Lemma ring_read_nth buf s n i :
  (i < n)%nat ->
  nth i (ring_read buf s n) NUL =
    nth (Z.to_nat ((s + Z.of_nat i) mod COMM_TX_RING_SIZE)) buf NUL.
Proof.
  intros Hi. unfold ring_read.
  rewrite (nth_indep _ NUL (nth (Z.to_nat ((s + Z.of_nat 0) mod COMM_TX_RING_SIZE)) buf NUL))
    by (rewrite length_map, length_seq; exact Hi).
  rewrite (map_nth (fun i => nth (Z.to_nat ((s + Z.of_nat i) mod COMM_TX_RING_SIZE)) buf NUL)
             (seq 0 n) O i).
  rewrite seq_nth by exact Hi. reflexivity.
Qed.

Lemma ring_read_ext buf buf' s s' n :
  (forall i, (i < n)%nat ->
     nth (Z.to_nat ((s + Z.of_nat i) mod COMM_TX_RING_SIZE)) buf NUL =
     nth (Z.to_nat ((s' + Z.of_nat i) mod COMM_TX_RING_SIZE)) buf' NUL) ->
  ring_read buf s n = ring_read buf' s' n.
Proof.
  intros H. apply (nth_ext _ _ NUL NUL).
  - rewrite !ring_read_length. reflexivity.
  - intros i Hi. rewrite ring_read_length in Hi.
    rewrite !ring_read_nth by exact Hi. apply H. exact Hi.
Qed.

Lemma ring_read_app buf s n m :
  ring_read buf s (n + m) =
    ring_read buf s n
    ++ ring_read buf ((s + Z.of_nat n) mod COMM_TX_RING_SIZE) m.
Proof.
  apply (nth_ext _ _ NUL NUL).
  - rewrite length_app, !ring_read_length. reflexivity.
  - intros i Hi. rewrite ring_read_length in Hi.
    rewrite ring_read_nth by exact Hi.
    destruct (Nat.lt_ge_cases i n) as [Hlt|Hge].
    + rewrite app_nth1 by (rewrite ring_read_length; exact Hlt).
      rewrite ring_read_nth by exact Hlt. reflexivity.
    + rewrite app_nth2 by (rewrite ring_read_length; exact Hge).
      rewrite ring_read_length, ring_read_nth by lia.
      unfold COMM_TX_RING_SIZE. rewrite Zplus_mod_idemp_l.
      do 3 f_equal. lia.
Qed.

Lemma ring_read_take buf s n k :
  (k <= n)%nat -> take k (ring_read buf s n) = ring_read buf s k.
Proof.
  intros Hk. replace n with (k + (n - k))%nat by lia.
  rewrite ring_read_app, take_app_length'; [reflexivity|symmetry; apply ring_read_length].
Qed.

Lemma ring_read_drop buf s n k :
  (k <= n)%nat ->
  drop k (ring_read buf s n) =
    ring_read buf ((s + Z.of_nat k) mod COMM_TX_RING_SIZE) (n - k).
Proof.
  intros Hk. replace n with (k + (n - k))%nat at 1 by lia.
  rewrite ring_read_app, drop_app_length'; [reflexivity|symmetry; apply ring_read_length].
Qed.

Lemma ring_read_contiguous buf s n :
  0 <= s -> s + Z.of_nat n <= COMM_TX_RING_SIZE ->
  length buf = Z.to_nat COMM_TX_RING_SIZE ->
  take n (drop (Z.to_nat s) buf) = ring_read buf s n.
Proof.
  intros Hs Hn Hlen. apply (nth_ext _ _ NUL NUL).
  - rewrite length_take, length_drop, ring_read_length, Hlen.
    unfold COMM_TX_RING_SIZE in *. lia.
  - intros i Hi. rewrite length_take in Hi.
    rewrite ring_read_nth by lia.
    rewrite nth_lookup, lookup_take_lt, lookup_drop, <- nth_lookup by lia.
    rewrite Z.mod_small by (unfold COMM_TX_RING_SIZE in *; lia).
    f_equal. lia.
Qed.

(** *** The state between calls *)

Definition tx_wf (st : TxState) : Prop :=
  length (tx_ring_buffer st) = Z.to_nat COMM_TX_RING_SIZE /\
  length (tx_dma_buffer st) = Z.to_nat COMM_TX_DMA_SIZE /\
  0 <= tx_ring_head st < COMM_TX_RING_SIZE /\
  0 <= tx_ring_tail st < COMM_TX_RING_SIZE /\
  0 <= s_tx_drop_count st <= UINT32_MAX /\
  0 <= tx_dma_active_len st <= COMM_TX_DMA_SIZE /\
  tx_dma_active_len st <= _tx_rb_usage st /\
  tx_ring_tail st + tx_dma_active_len st <= COMM_TX_RING_SIZE /\
  (tx_dma_busy st = false -> tx_dma_active_len st = 0).

Lemma wrap16_small z : 0 <= z < 65536 -> wrap16 z = z.
Proof. intros H. unfold wrap16. apply Z.mod_small. exact H. Qed.

Lemma usage_eq st :
  0 <= tx_ring_head st < COMM_TX_RING_SIZE ->
  0 <= tx_ring_tail st < COMM_TX_RING_SIZE ->
  _tx_rb_usage st = (tx_ring_head st - tx_ring_tail st) mod COMM_TX_RING_SIZE /\
  _rb_free st = COMM_TX_RING_SIZE - 1 - _tx_rb_usage st /\
  0 <= _tx_rb_usage st < COMM_TX_RING_SIZE.
Proof.
  unfold _tx_rb_usage, _rb_free, COMM_TX_RING_SIZE. intros Hh Ht.
  destruct (Z.leb_spec (tx_ring_tail st) (tx_ring_head st)) as [Hle|Hgt];
    rewrite !wrap16_small by lia; repeat split; try lia.
  - symmetry. apply Z.mod_small. lia.
  - apply Z.mod_unique_pos with (q := -1); lia.
Qed.

(** The two [memcpy] of [Telemetry_Write]. *)
Definition write_buf (buf : list ascii) (head : Z) (data : list ascii)
  : list ascii :=
  let first := Z.to_nat (Z.min (Z.of_nat (length data)) (COMM_TX_RING_SIZE - head)) in
  let buf1 := memcpy buf (Z.to_nat head) (take first data) in
  if (first <? length data)%nat then memcpy buf1 0 (drop first data) else buf1.

Lemma write_buf_length buf head data :
  length (write_buf buf head data) = length buf.
Proof.
  unfold write_buf.
  destruct (_ <? _)%nat; rewrite ?memcpy_length; reflexivity.
Qed.

Lemma write_buf_nth buf head data j :
  length buf = Z.to_nat COMM_TX_RING_SIZE ->
  0 <= head < COMM_TX_RING_SIZE ->
  Z.of_nat (length data) < COMM_TX_RING_SIZE ->
  0 <= j < COMM_TX_RING_SIZE ->
  nth (Z.to_nat j) (write_buf buf head data) NUL =
    if (j - head) mod COMM_TX_RING_SIZE <? Z.of_nat (length data)
    then nth (Z.to_nat ((j - head) mod COMM_TX_RING_SIZE)) data NUL
    else nth (Z.to_nat j) buf NUL.
Proof.
  unfold write_buf, COMM_TX_RING_SIZE. intros Hlen Hh Hd Hj.
  set (len := length data) in *.
  set (first := Z.to_nat (Z.min (Z.of_nat len) (4096 - head))).
  assert (Hfirst : (first <= len)%nat) by (unfold first; lia).
  assert (Hfit1 : (Z.to_nat head + length (take first data) <= length buf)%nat).
  { rewrite length_take. fold len. rewrite Hlen. unfold first. lia. }
  assert (Hmod : (j - head) mod 4096 = if head <=? j then j - head else j - head + 4096).
  { destruct (Z.leb_spec head j).
    - apply Z.mod_small. lia.
    - symmetry. apply Z.mod_unique_pos with (q := -1); lia. }
  rewrite Hmod.
  destruct (Nat.ltb_spec first len) as [Hwrap|Hnowrap].
  - assert (Hf : Z.of_nat first = 4096 - head) by (unfold first in *; lia).
    rewrite memcpy_nth by (rewrite memcpy_length, length_drop; fold len; lia).
    rewrite length_drop. fold len. cbn [Nat.leb andb]. rewrite Nat.sub_0_r.
    destruct (Nat.ltb_spec (Z.to_nat j) (0 + (len - first))) as [Hin2|Hout2].
    + destruct (Z.leb_spec head j); [lia|].
      replace (j - head + 4096 <? Z.of_nat len) with true
        by (symmetry; apply Z.ltb_lt; lia).
      rewrite nth_lookup, lookup_drop, <- nth_lookup. f_equal. lia.
    + rewrite memcpy_nth by exact Hfit1. rewrite length_take. fold len.
      destruct (Nat.leb_spec (Z.to_nat head) (Z.to_nat j)),
               (Nat.ltb_spec (Z.to_nat j) (Z.to_nat head + Nat.min first len));
        cbn [andb]; destruct (Z.leb_spec head j); try lia.
      * replace (j - head <? Z.of_nat len) with true
          by (symmetry; apply Z.ltb_lt; lia).
        rewrite nth_lookup, lookup_take_lt, <- nth_lookup by lia. f_equal. lia.
      * replace (j - head + 4096 <? Z.of_nat len) with false
          by (symmetry; apply Z.ltb_ge; lia).
        reflexivity.
  - assert (Hf : first = len) by lia.
    rewrite memcpy_nth by exact Hfit1. rewrite length_take. fold len.
    rewrite Hf in *. rewrite Nat.min_id.
    assert (Hroom : Z.of_nat len <= 4096 - head) by (unfold first in Hf; lia).
    destruct (Nat.leb_spec (Z.to_nat head) (Z.to_nat j)),
             (Nat.ltb_spec (Z.to_nat j) (Z.to_nat head + len));
      cbn [andb]; destruct (Z.leb_spec head j); try lia.
    + replace (j - head <? Z.of_nat len) with true
        by (symmetry; apply Z.ltb_lt; lia).
      rewrite take_ge by (fold len; lia). f_equal. lia.
    + replace (j - head <? Z.of_nat len) with false
        by (symmetry; apply Z.ltb_ge; lia).
      reflexivity.
    + replace (j - head + 4096 <? Z.of_nat len) with false
        by (symmetry; apply Z.ltb_ge; lia).
      reflexivity.
Qed.

Lemma write_pending buf head tail data n :
  length buf = Z.to_nat COMM_TX_RING_SIZE ->
  0 <= tail < COMM_TX_RING_SIZE ->
  head = (tail + Z.of_nat n) mod COMM_TX_RING_SIZE ->
  Z.of_nat n + Z.of_nat (length data) < COMM_TX_RING_SIZE ->
  ring_read (write_buf buf head data) tail (n + length data) =
    ring_read buf tail n ++ data.
Proof.
  intros Hlen Ht Hhead Hfit.
  assert (Hh : 0 <= head < COMM_TX_RING_SIZE)
    by (rewrite Hhead; apply Z.mod_pos_bound; reflexivity).
  rewrite ring_read_app. f_equal.
  - apply ring_read_ext. intros i Hi.
    rewrite write_buf_nth; try assumption; try lia.
    + replace (((tail + Z.of_nat i) mod COMM_TX_RING_SIZE - head)
                 mod COMM_TX_RING_SIZE <? Z.of_nat (length data)) with false;
        [reflexivity|].
      symmetry. apply Z.ltb_ge. rewrite Hhead. unfold COMM_TX_RING_SIZE in *.
      assert (Hin : 0 <= Z.of_nat i < Z.of_nat n) by lia.
      revert Hin Hfit. generalize (Z.of_nat i) (Z.of_nat n) (Z.of_nat (length data)).
      intros a b c Hin Hfit. clear - Ht Hin Hfit. Z.div_mod_to_equations. lia.
    + apply Z.mod_pos_bound. reflexivity.
  - rewrite <- Hhead. apply (nth_ext _ _ NUL NUL).
    + apply ring_read_length.
    + intros i Hi. rewrite ring_read_length in Hi.
      rewrite ring_read_nth by exact Hi.
      rewrite write_buf_nth; try assumption; try lia;
        [|apply Z.mod_pos_bound; reflexivity].
      assert (Hpos : ((head + Z.of_nat i) mod COMM_TX_RING_SIZE - head)
                       mod COMM_TX_RING_SIZE = Z.of_nat i).
      { unfold COMM_TX_RING_SIZE in *.
        assert (Hin : 0 <= Z.of_nat i < 4096) by lia.
        revert Hin. generalize (Z.of_nat i). intros a Hin.
        clear - Hh Hin. Z.div_mod_to_equations. lia. }
      rewrite Hpos.
      replace (Z.of_nat i <? Z.of_nat (length data)) with true
        by (symmetry; apply Z.ltb_lt; lia).
      rewrite Nat2Z.id. reflexivity.
Qed.

(** The state [Telemetry_Write] leaves when the data fit, before
    the DMA is looked at. *)
Definition written_state (data : list ascii) (st : TxState) : TxState :=
  {| tx_ring_buffer := write_buf (tx_ring_buffer st) (tx_ring_head st) data;
     tx_ring_head := (tx_ring_head st + Z.of_nat (length data))
                       mod COMM_TX_RING_SIZE;
     tx_ring_tail := tx_ring_tail st; tx_dma_busy := tx_dma_busy st;
     tx_dma_buffer := tx_dma_buffer st;
     tx_dma_active_len := tx_dma_active_len st;
     s_tx_drop_count := s_tx_drop_count st;
     is_sending_debug_message := is_sending_debug_message st;
     uart := uart st; queued := queued st ++ [data] |}.

(** What a call of [Telemetry_Write] does that has room for the
    data. *)
Definition accepted (ok : bool) (data : list ascii) (st : TxState) : TxState :=
  let st1 := written_state data st in
  if tx_dma_busy st then st1 else StartDmaTx ok st1.

(** The debug line of a refused write. *)
Definition drop_line (len free_before : Z) : list ascii :=
  lit "[DEBUG] " ++ TX_ENQ_DROP len free_before.

(** [Telemetry_Write] when the data fit. *)
Lemma Telemetry_Write_fuel_accept n ok data st :
  tx_wf st ->
  0 < Z.of_nat (length data) <= _rb_free st ->
  Telemetry_Write_fuel (S n) ok data st =
    Some (Z.of_nat (length data), accepted ok data st).
Proof.
  intros (Hbuf & Hdma & Hh & Ht & Hdrop & Hact & Hau & Hcont & Hidle) Hlen.
  destruct (usage_eq st Hh Ht) as (Hu & Hf & Hub).
  cbn [Telemetry_Write_fuel].
  replace (Z.of_nat (length data) =? 0) with false
    by (symmetry; apply Z.eqb_neq; lia).
  replace (_rb_free st <? Z.of_nat (length data)) with false
    by (symmetry; apply Z.ltb_ge; lia).
  unfold DevTel_TxEnqueue. do 2 f_equal.
  unfold accepted, written_state, write_buf. unfold COMM_TX_RING_SIZE in *.
  rewrite (wrap16_small (4096 - tx_ring_head st)) by lia.
  destruct (Z.ltb_spec (Z.of_nat (length data)) (4096 - tx_ring_head st))
    as [Hshort|Hlong].
  - rewrite (wrap16_small (Z.of_nat (length data))) by lia.
    rewrite Z.min_l by lia. rewrite Z.sub_diag. change (0 <? 0) with false.
    rewrite Nat2Z.id, Nat.ltb_irrefl.
    rewrite wrap16_small
      by (pose proof (Z.mod_pos_bound (tx_ring_head st + Z.of_nat (length data))
                        4096 ltac:(lia)); lia).
    destruct (tx_dma_busy st); reflexivity.
  - rewrite Z.min_r by lia.
    assert (Hz : (tx_ring_head st + (4096 - tx_ring_head st)) mod 4096 = 0).
    { replace (tx_ring_head st + (4096 - tx_ring_head st)) with 4096 by lia.
      reflexivity. }
    rewrite Hz. change (wrap16 0) with 0.
    destruct (Z.ltb_spec 0 (Z.of_nat (length data) - (4096 - tx_ring_head st)))
      as [Hrem|Hnorem].
    + replace (Z.to_nat (4096 - tx_ring_head st) <? length data)%nat with true
        by (symmetry; apply Nat.ltb_lt; lia).
      rewrite wrap16_small by lia.
      replace ((tx_ring_head st + Z.of_nat (length data)) mod 4096)
        with (0 + (Z.of_nat (length data) - (4096 - tx_ring_head st)))
        by (apply Z.mod_unique_pos with (q := 1); lia).
      destruct (tx_dma_busy st); reflexivity.
    + replace (Z.to_nat (4096 - tx_ring_head st) <? length data)%nat with false
        by (symmetry; apply Nat.ltb_ge; lia).
      replace ((tx_ring_head st + Z.of_nat (length data)) mod 4096) with 0
        by (apply Z.mod_unique_pos with (q := 1); lia).
      destruct (tx_dma_busy st); reflexivity.
Qed.

Lemma Telemetry_Write_fuel_refuse_step n ok data st :
  _rb_free st < Z.of_nat (length data) ->
  Telemetry_Write_fuel (S n) ok data st =
    match DevTel_TxEnqueue (Telemetry_Write_fuel n ok)
                           (Z.of_nat (length data)) (_rb_free st) true
                           (count_drops (Z.of_nat (length data)) st) with
    | Some st => Some (0, st)
    | None => None
    end.
Proof.
  intros Hbig.
  assert (Hf : 0 <= _rb_free st).
  { unfold _rb_free, wrap16.
    destruct (_ <=? _); apply Z.mod_pos_bound; lia. }
  cbn [Telemetry_Write_fuel].
  replace (Z.of_nat (length data) =? 0) with false
    by (symmetry; apply Z.eqb_neq; lia).
  replace (_rb_free st <? Z.of_nat (length data)) with true
    by (symmetry; apply Z.ltb_lt; lia).
  reflexivity.
Qed.

(** A refused write while the debug lock is held: the drop is
    counted and that is all. *)
Lemma Telemetry_Write_fuel_refuse_locked n ok data st :
  is_sending_debug_message st = true ->
  _rb_free st < Z.of_nat (length data) ->
  Telemetry_Write_fuel (S n) ok data st =
    Some (0, count_drops (Z.of_nat (length data)) st).
Proof.
  intros Hlock Hbig.
  rewrite Telemetry_Write_fuel_refuse_step by exact Hbig.
  unfold DevTel_TxEnqueue, DevTel_SendMessage.
  cbn [count_drops is_sending_debug_message]. rewrite Hlock. reflexivity.
Qed.

(** *** The debug line *)

Lemma dec_digits_length fuel : forall n acc,
  (length acc < length (dec_digits (S fuel) n acc)
   <= length acc + S fuel)%nat.
Proof.
  induction fuel as [|fuel IH]; intros n acc.
  - cbn [dec_digits]. destruct (n / 10 =? 0); cbn [length]; lia.
  - change (dec_digits (S (S fuel)) n acc)
      with (let acc' := ascii_of_nat (Z.to_nat (48 + n mod 10)) :: acc in
            if n / 10 =? 0 then acc' else dec_digits (S fuel) (n / 10) acc').
    cbv zeta. destruct (n / 10 =? 0).
    + cbn [length]. lia.
    + specialize (IH (n / 10) (ascii_of_nat (Z.to_nat (48 + n mod 10)) :: acc)).
      cbn [length] in IH. lia.
Qed.

Lemma fmt_u_length n : (1 <= length (fmt_u n) <= 10)%nat.
Proof.
  unfold fmt_u. pose proof (dec_digits_length 9 (wrap32 n) []) as H.
  cbn [length] in H. lia.
Qed.

Lemma drop_line_length len free_before :
  (37 <= length (drop_line len free_before) <= 55)%nat.
Proof.
  unfold drop_line, TX_ENQ_DROP. rewrite !length_app.
  pose proof (fmt_u_length len). pose proof (fmt_u_length free_before).
  change (length (lit "[DEBUG] ")) with 8%nat.
  change (length (lit "TX_ENQ: DROP, req=")) with 18%nat.
  change (length (lit ", free=")) with 7%nat.
  cbn [length]. lia.
Qed.

(** *** The lock of dev_telemetry.c does not touch the ring *)

Lemma set_debug_lock_id st :
  set_debug_lock (is_sending_debug_message st) st = st.
Proof. destruct st. reflexivity. Qed.

Lemma set_debug_lock_twice b c st :
  set_debug_lock b (set_debug_lock c st) = set_debug_lock b st.
Proof. reflexivity. Qed.

Lemma StartDmaTx_lock ok b st :
  StartDmaTx ok (set_debug_lock b st) = set_debug_lock b (StartDmaTx ok st).
Proof.
  unfold StartDmaTx.
  cbn [set_debug_lock tx_dma_busy tx_ring_head tx_ring_tail tx_ring_buffer
       tx_dma_buffer tx_dma_active_len s_tx_drop_count uart queued
       is_sending_debug_message].
  destruct (tx_dma_busy st); [reflexivity|].
  destruct (tx_ring_head st =? tx_ring_tail st); [reflexivity|].
  destruct ok; reflexivity.
Qed.

Lemma accepted_lock ok data b st :
  accepted ok data (set_debug_lock b st)
  = set_debug_lock b (accepted ok data st).
Proof.
  unfold accepted. cbn [set_debug_lock tx_dma_busy].
  change (written_state data (set_debug_lock b st))
    with (set_debug_lock b (written_state data st)).
  destruct (tx_dma_busy st); [reflexivity|]. apply StartDmaTx_lock.
Qed.

(** What is left of a refused write of [len] bytes: the drop is
    counted, and the debug line is queued if the ring has room for
    it and counted as dropped too if not. *)
Definition refused (ok : bool) (len : Z) (st : TxState) : TxState :=
  let line := drop_line len (_rb_free st) in
  let st1 := count_drops len st in
  if Z.of_nat (length line) <=? _rb_free st then accepted ok line st1
  else count_drops (Z.of_nat (length line)) st1.

Lemma tx_wf_lock b st : tx_wf st -> tx_wf (set_debug_lock b st).
Proof. intros H. exact H. Qed.

Lemma count_drops_wf len st : tx_wf st -> tx_wf (count_drops len st).
Proof.
  intros (Hbuf & Hdma & Hh & Ht & Hdrop & Hact & Hau & Hcont & Hidle).
  unfold tx_wf, _tx_rb_usage in *.
  cbn [count_drops tx_ring_buffer tx_dma_buffer tx_ring_head tx_ring_tail
       s_tx_drop_count tx_dma_active_len tx_dma_busy].
  repeat split; try assumption; try lia.
  - destruct (Z.leb_spec (s_tx_drop_count st) (UINT32_MAX - wrap32 len));
      [|unfold UINT32_MAX; lia].
    unfold wrap32. apply Z.mod_pos_bound. lia.
  - destruct (Z.leb_spec (s_tx_drop_count st) (UINT32_MAX - wrap32 len));
      [|lia].
    unfold wrap32, UINT32_MAX.
    pose proof (Z.mod_pos_bound (s_tx_drop_count st + len mod 2 ^ 32) (2 ^ 32)
                  ltac:(lia)).
    change (2 ^ 32) with 4294967296 in *. lia.
Qed.

(** A refused write with the debug lock free. *)
Lemma Telemetry_Write_fuel_refuse n ok data st :
  tx_wf st ->
  is_sending_debug_message st = false ->
  _rb_free st < Z.of_nat (length data) ->
  Telemetry_Write_fuel (S (S n)) ok data st =
    Some (0, refused ok (Z.of_nat (length data)) st).
Proof.
  intros Hwf Hlock Hbig.
  assert (Hf : 0 <= _rb_free st).
  { unfold _rb_free, wrap16.
    destruct (_ <=? _); apply Z.mod_pos_bound; lia. }
  set (len := Z.of_nat (length data)) in *.
  set (line := drop_line len (_rb_free st)).
  pose proof (drop_line_length len (_rb_free st)) as Hll. fold line in Hll.
  set (st1 := count_drops len st).
  assert (Hinner : Telemetry_Write_fuel (S n) ok line (set_debug_lock true st1)
                   = Some (if Z.of_nat (length line) <=? _rb_free st
                           then Z.of_nat (length line) else 0,
                           set_debug_lock true (refused ok len st))).
  { unfold refused. fold line st1.
    destruct (Z.leb_spec (Z.of_nat (length line)) (_rb_free st)) as [Hfit|Hno].
    - rewrite Telemetry_Write_fuel_accept.
      + rewrite accepted_lock. reflexivity.
      + apply tx_wf_lock, count_drops_wf, Hwf.
      + change (_rb_free (set_debug_lock true st1)) with (_rb_free st). lia.
    - rewrite Telemetry_Write_fuel_refuse_locked; [reflexivity|reflexivity|].
      change (_rb_free (set_debug_lock true st1)) with (_rb_free st). lia. }
  unfold len at 1. rewrite Telemetry_Write_fuel_refuse_step by (fold len; lia).
  fold len.
  fold st1. unfold DevTel_TxEnqueue, DevTel_SendMessage.
  replace (is_sending_debug_message st1) with false by (symmetry; exact Hlock).
  change (Z.of_nat (length (lit "[DEBUG] "))) with 8.
  change ((0 <? 8) && (8 <? Comm.PROTO_MAX_LINE)) with true. cbv iota.
  fold (drop_line len (_rb_free st)). fold line.
  assert (Hmsg : Z.of_nat (length (TX_ENQ_DROP len (_rb_free st)))
                 = Z.of_nat (length line) - 8).
  { unfold line, drop_line. rewrite length_app.
    change (length (lit "[DEBUG] ")) with 8%nat. lia. }
  rewrite Hmsg.
  replace (0 <? Z.of_nat (length line) - 8) with true
    by (symmetry; apply Z.ltb_lt; lia).
  replace (Comm.PROTO_MAX_LINE <=? 8 + (Z.of_nat (length line) - 8)) with false
    by (symmetry; apply Z.leb_gt; unfold Comm.PROTO_MAX_LINE; lia).
  rewrite Hinner. rewrite set_debug_lock_twice.
  f_equal. f_equal.
  assert (Hl : is_sending_debug_message (refused ok len st) = false).
  { unfold refused. fold line st1.
    destruct (_ <=? _).
    - unfold accepted. destruct (tx_dma_busy st1); [exact Hlock|].
      unfold StartDmaTx.
      cbn [written_state tx_dma_busy tx_ring_head tx_ring_tail].
      destruct (tx_dma_busy st1); [exact Hlock|].
      destruct (_ =? _); [exact Hlock|]. destruct ok; exact Hlock.
    - exact Hlock. }
  rewrite <- Hl. apply set_debug_lock_id.
Qed.


(** *** The queue *)

(** The bytes put into the ring so far are the bytes already given
    to the UART and confirmed, followed by the bytes that wait in
    the ring; a transfer under way carries the first
    [tx_dma_active_len] of the waiting bytes. *)
Definition ring_inv (st : TxState) : Prop :=
  tx_wf st /\
  exists delivered,
    concat (queued st) = delivered ++ tx_pending st /\
    concat (uart st) =
      delivered ++ take (Z.to_nat (tx_dma_active_len st)) (tx_pending st).

(** The state between two calls: the debug lock is free. *)
Definition tx_inv (st : TxState) : Prop :=
  is_sending_debug_message st = false /\ ring_inv st.

Lemma tx_pending_length st :
  0 <= tx_ring_head st < COMM_TX_RING_SIZE ->
  0 <= tx_ring_tail st < COMM_TX_RING_SIZE ->
  Z.of_nat (length (tx_pending st)) = _tx_rb_usage st.
Proof.
  intros Hh Ht. destruct (usage_eq st Hh Ht) as (_ & _ & Hu).
  unfold tx_pending. rewrite ring_read_length. lia.
Qed.

Lemma StartDmaTx_inv ok st :
  ring_inv st -> tx_dma_busy st = false ->
  ring_inv (StartDmaTx ok st) /\
  tx_pending (StartDmaTx ok st) = tx_pending st /\
  s_tx_drop_count (StartDmaTx ok st) = s_tx_drop_count st /\
  queued (StartDmaTx ok st) = queued st /\
  is_sending_debug_message (StartDmaTx ok st) = is_sending_debug_message st.
Proof.
  intros [Hwf (delivered & Hw & Hu)] Hbusy.
  destruct Hwf as (Hbuf & Hdma & Hh & Ht & Hdrop & Hact & Hau & Hcont & Hidle).
  specialize (Hidle Hbusy).
  destruct (usage_eq st Hh Ht) as (Hue & Hf & Hub).
  unfold StartDmaTx. rewrite Hbusy.
  destruct (Z.eqb_spec (tx_ring_head st) (tx_ring_tail st)) as [Heq|Hne].
  - split; [|repeat split; reflexivity].
    split.
    + unfold tx_wf, _tx_rb_usage in *.
      cbn [tx_ring_buffer tx_dma_buffer tx_ring_head tx_ring_tail s_tx_drop_count
           tx_dma_active_len tx_dma_busy].
      repeat split; try assumption; try lia; try (unfold COMM_TX_DMA_SIZE; lia).
    + exists delivered. split; [exact Hw|].
      cbn [uart tx_dma_active_len]. rewrite Hu, Hidle. reflexivity.
  - set (len0 := if tx_ring_tail st <? tx_ring_head st
                 then wrap16 (tx_ring_head st - tx_ring_tail st)
                 else wrap16 (COMM_TX_RING_SIZE - tx_ring_tail st)).
    set (len := if COMM_TX_DMA_SIZE <? len0 then COMM_TX_DMA_SIZE else len0).
    assert (Hlen : 0 < len <= COMM_TX_DMA_SIZE /\ len <= _tx_rb_usage st /\
                   tx_ring_tail st + len <= COMM_TX_RING_SIZE).
    { unfold len, len0, COMM_TX_DMA_SIZE, COMM_TX_RING_SIZE in *.
      rewrite Hue.
      destruct (Z.ltb_spec (tx_ring_tail st) (tx_ring_head st)) as [Hlt|Hge].
      - rewrite wrap16_small by lia.
        rewrite (Z.mod_small (tx_ring_head st - tx_ring_tail st)) by lia.
        destruct (Z.ltb_spec 512 (tx_ring_head st - tx_ring_tail st)); lia.
      - rewrite wrap16_small by lia.
        replace ((tx_ring_head st - tx_ring_tail st) mod 4096)
          with (tx_ring_head st - tx_ring_tail st + 4096)
          by (apply Z.mod_unique_pos with (q := -1); lia).
        destruct (Z.ltb_spec 512 (4096 - tx_ring_tail st)); lia. }
    destruct Hlen as (Hl1 & Hl2 & Hl3).
    set (chunk := take (Z.to_nat len)
                       (drop (Z.to_nat (tx_ring_tail st)) (tx_ring_buffer st))).
    assert (Hchunk : chunk = take (Z.to_nat len) (tx_pending st)).
    { unfold chunk, tx_pending.
      rewrite ring_read_contiguous by (try assumption; lia).
      rewrite ring_read_take by lia. reflexivity. }
    assert (Hclen : length chunk = Z.to_nat len).
    { rewrite Hchunk, length_take.
      pose proof (tx_pending_length st Hh Ht). lia. }
    assert (Hsent : take (Z.to_nat len) (memcpy (tx_dma_buffer st) 0 chunk) = chunk).
    { rewrite <- Hclen. apply memcpy_take. rewrite Hclen, Hdma. lia. }
    destruct ok.
    + split; [|repeat split; reflexivity]. split.
      * unfold tx_wf, _tx_rb_usage in *.
        cbn [tx_ring_buffer tx_dma_buffer tx_ring_head tx_ring_tail
             s_tx_drop_count tx_dma_active_len tx_dma_busy].
        rewrite memcpy_length.
        repeat split; try assumption; try lia; try discriminate.
      * exists delivered. split; [exact Hw|].
        cbn [uart tx_dma_active_len]. rewrite concat_app, Hu, Hidle.
        change (Z.to_nat 0) with O. rewrite take_0, app_nil_r.
        cbn [concat]. rewrite app_nil_r, Hsent, Hchunk. reflexivity.
    + split; [|repeat split; reflexivity]. split.
      * unfold tx_wf, _tx_rb_usage in *.
        cbn [tx_ring_buffer tx_dma_buffer tx_ring_head tx_ring_tail
             s_tx_drop_count tx_dma_active_len tx_dma_busy].
        rewrite memcpy_length.
        repeat split; try assumption; try lia; try (unfold COMM_TX_DMA_SIZE; lia).
      * exists delivered. split; [exact Hw|].
        cbn [uart tx_dma_active_len]. rewrite Hu, Hidle. reflexivity.
Qed.

Lemma COMM_TxCpltCallback_inv ok st :
  tx_inv st -> tx_inv (COMM_TxCpltCallback ok st) /\
  queued (COMM_TxCpltCallback ok st) = queued st.
Proof.
  intros [Hlock [Hwf (delivered & Hw & Hu)]].
  pose proof Hwf as (Hbuf & Hdma & Hh & Ht & Hdrop & Hact & Hau & Hcont & Hidle).
  destruct (usage_eq st Hh Ht) as (Hue & Hf & Hub).
  unfold COMM_TxCpltCallback. cbv zeta.
  set (done := tx_dma_active_len st) in *.
  set (tail' := if negb (done =? 0)
                then wrap16 ((tx_ring_tail st + done) mod COMM_TX_RING_SIZE)
                else tx_ring_tail st).
  assert (Htail : tail' = (tx_ring_tail st + done) mod COMM_TX_RING_SIZE).
  { unfold tail', COMM_TX_RING_SIZE in *.
    destruct (Z.eqb_spec done 0) as [->|Hne]; cbn [negb].
    - rewrite Z.add_0_r, Z.mod_small by lia. reflexivity.
    - apply wrap16_small.
      pose proof (Z.mod_pos_bound (tx_ring_tail st + done) 4096 ltac:(lia)). lia. }
  clearbody tail'.
  set (st2 := {| tx_ring_buffer := tx_ring_buffer st;
                 tx_ring_head := tx_ring_head st; tx_ring_tail := tail';
                 tx_dma_busy := false; tx_dma_buffer := tx_dma_buffer st;
                 tx_dma_active_len := 0;
                 s_tx_drop_count := s_tx_drop_count st;
                 is_sending_debug_message := is_sending_debug_message st;
                 uart := uart st; queued := queued st |}).
  assert (Ht' : 0 <= tail' < COMM_TX_RING_SIZE)
    by (rewrite Htail; apply Z.mod_pos_bound; reflexivity).
  assert (Husage2 : _tx_rb_usage st2 = _tx_rb_usage st - done).
  { destruct (usage_eq st2 Hh Ht') as (Hue2 & _ & _). rewrite Hue2, Hue.
    cbn [st2 tx_ring_head tx_ring_tail]. rewrite Htail.
    rewrite Hue in Hau, Hub. unfold COMM_TX_RING_SIZE in *.
    clear - Hh Ht Hact Hau Hub. Z.div_mod_to_equations. lia. }
  assert (Hpend2 : tx_pending st2 = drop (Z.to_nat done) (tx_pending st)).
  { unfold tx_pending. rewrite Husage2.
    cbn [st2 tx_ring_buffer tx_ring_tail].
    rewrite ring_read_drop by lia. rewrite Htail, Z2Nat.id by lia.
    f_equal. lia. }
  assert (Hinv2 : ring_inv st2).
  { split.
    - unfold tx_wf.
      cbn [st2 tx_ring_buffer tx_dma_buffer tx_ring_head tx_ring_tail
           s_tx_drop_count tx_dma_active_len tx_dma_busy].
      fold st2. rewrite Husage2.
      repeat split; try assumption; try lia; try (unfold COMM_TX_DMA_SIZE; lia).
    - exists (delivered ++ take (Z.to_nat done) (tx_pending st)). split.
      + rewrite Hpend2, <- app_assoc, take_drop. exact Hw.
      + cbn [st2 uart tx_dma_active_len]. change (Z.to_nat 0) with O.
        rewrite take_0, app_nil_r. exact Hu. }
  destruct (StartDmaTx_inv ok st2 Hinv2 eq_refl) as (Hr & _ & _ & Hq & Hl).
  split; [split; [rewrite Hl; exact Hlock|exact Hr]|exact Hq].
Qed.

Lemma count_drops_inv len st :
  ring_inv st ->
  ring_inv (count_drops len st) /\
  tx_pending (count_drops len st) = tx_pending st.
Proof.
  intros [Hwf (delivered & Hw & Hu)].
  split; [|reflexivity]. split; [apply count_drops_wf; exact Hwf|].
  exists delivered. split; [exact Hw|exact Hu].
Qed.

Lemma written_state_inv data st :
  ring_inv st ->
  0 < Z.of_nat (length data) <= _rb_free st ->
  ring_inv (written_state data st) /\
  tx_pending (written_state data st) = tx_pending st ++ data.
Proof.
  intros Hinv Hfit. pose proof Hinv as [Hwf (delivered & Hw & Hu)].
  pose proof Hwf as (Hbuf & Hdma & Hh & Ht & Hdrop & Hact & Hau & Hcont & Hidle).
  destruct (usage_eq st Hh Ht) as (Hue & Hf & Hub).
  set (st1 := written_state data st).
  assert (Hh1 : 0 <= tx_ring_head st1 < COMM_TX_RING_SIZE)
    by (apply Z.mod_pos_bound; reflexivity).
  assert (Husage1 : _tx_rb_usage st1 = _tx_rb_usage st + Z.of_nat (length data)).
  { destruct (usage_eq st1 Hh1 Ht) as (Hue1 & _ & _). rewrite Hue1, Hue.
    cbn [st1 written_state tx_ring_head tx_ring_tail].
    rewrite Hue in Hf, Hub. rewrite Hf in Hfit. unfold COMM_TX_RING_SIZE in *.
    destruct Hfit as [_ Hfit]. revert Hfit.
    generalize (Z.of_nat (length data)) (Nat2Z.is_nonneg (length data)).
    intros m Hm Hfit. clear - Hh Ht Hub Hm Hfit. Z.div_mod_to_equations. lia. }
  assert (Hpend1 : tx_pending st1 = tx_pending st ++ data).
  { unfold tx_pending. rewrite Husage1.
    cbn [st1 written_state tx_ring_buffer tx_ring_tail].
    rewrite Z2Nat.inj_add, Nat2Z.id by lia.
    apply write_pending; try assumption.
    - rewrite Z2Nat.id by lia. rewrite Hue.
      unfold COMM_TX_RING_SIZE in *. clear - Hh Ht. Z.div_mod_to_equations. lia.
    - rewrite Z2Nat.id by lia. lia. }
  split; [|exact Hpend1]. split.
  - unfold tx_wf.
    cbn [st1 written_state tx_ring_buffer tx_dma_buffer tx_ring_head
         tx_ring_tail s_tx_drop_count tx_dma_active_len tx_dma_busy].
    fold (written_state data st). fold st1. rewrite Husage1, write_buf_length.
    repeat split; try assumption; try lia.
    apply Z.mod_pos_bound. reflexivity. apply Z.mod_pos_bound. reflexivity.
  - exists delivered. split.
    + cbn [st1 written_state queued]. fold (written_state data st). fold st1.
      rewrite Hpend1, concat_app, Hw, app_assoc. cbn [concat].
      rewrite app_nil_r. reflexivity.
    + cbn [st1 written_state uart tx_dma_active_len].
      fold (written_state data st). fold st1. rewrite Hpend1, Hu.
      rewrite take_app_le; [reflexivity|].
      pose proof (tx_pending_length st Hh Ht). lia.
Qed.

(** The data of an accepted write join the queue, and nothing else
    changes but the DMA. *)
Lemma accepted_inv ok data st :
  ring_inv st ->
  0 < Z.of_nat (length data) <= _rb_free st ->
  ring_inv (accepted ok data st) /\
  tx_pending (accepted ok data st) = tx_pending st ++ data /\
  queued (accepted ok data st) = queued st ++ [data] /\
  s_tx_drop_count (accepted ok data st) = s_tx_drop_count st /\
  is_sending_debug_message (accepted ok data st) = is_sending_debug_message st.
Proof.
  intros Hinv Hfit. unfold accepted. cbv zeta.
  destruct (written_state_inv data st Hinv Hfit) as [Hinv1 Hpend1].
  destruct (tx_dma_busy st) eqn:Hbusy.
  - repeat split; try assumption; try reflexivity; apply Hinv1.
  - destruct (StartDmaTx_inv ok _ Hinv1 Hbusy) as (Hr & Hp & Hd & Hq & Hl).
    rewrite Hp, Hd, Hq, Hl. repeat split; try assumption; try reflexivity;
      apply Hr.
Qed.

Lemma count_drops_value len st :
  0 <= s_tx_drop_count st <= UINT32_MAX ->
  s_tx_drop_count (count_drops len st)
  = Z.min UINT32_MAX (s_tx_drop_count st + wrap32 len).
Proof.
  intros Hd. cbn [count_drops s_tx_drop_count].
  destruct (Z.leb_spec (s_tx_drop_count st) (UINT32_MAX - wrap32 len)) as [Hle|Hgt].
  - rewrite Z.min_r by lia. apply ApiParseFacts.wrap32_small.
    unfold wrap32 in *.
    pose proof (Z.mod_pos_bound len (2 ^ 32) ltac:(lia)).
    lia.
  - rewrite Z.min_l by lia. reflexivity.
Qed.

(** What a refused write leaves. *)
Lemma refused_inv ok len st :
  tx_inv st ->
  let line := drop_line len (_rb_free st) in
  tx_inv (refused ok len st) /\
  (Z.of_nat (length line) <= _rb_free st ->
   tx_pending (refused ok len st) = tx_pending st ++ line /\
   queued (refused ok len st) = queued st ++ [line] /\
   s_tx_drop_count (refused ok len st)
   = Z.min UINT32_MAX (s_tx_drop_count st + wrap32 len)) /\
  (_rb_free st < Z.of_nat (length line) ->
   tx_pending (refused ok len st) = tx_pending st /\
   queued (refused ok len st) = queued st /\
   uart (refused ok len st) = uart st /\
   s_tx_drop_count (refused ok len st)
   = Z.min UINT32_MAX
       (Z.min UINT32_MAX (s_tx_drop_count st + wrap32 len)
        + Z.of_nat (length line))).
Proof.
  intros [Hlock Hinv] line.
  pose proof (drop_line_length len (_rb_free st)) as Hll. fold line in Hll.
  assert (Hd : 0 <= s_tx_drop_count st <= UINT32_MAX) by apply Hinv.
  destruct (count_drops_inv len st Hinv) as [Hinv1 Hpend1].
  pose proof (count_drops_value len st Hd) as Hv1.
  unfold refused. fold line.
  destruct (Z.leb_spec (Z.of_nat (length line)) (_rb_free st)) as [Hfit|Hno].
  - destruct (accepted_inv ok line (count_drops len st) Hinv1)
      as (Hr & Hp & Hq & Hdr & Hl);
      [change (_rb_free (count_drops len st)) with (_rb_free st); lia|].
    split; [split; [rewrite Hl; exact Hlock|exact Hr]|].
    split; [|lia]. intros _.
    rewrite Hp, Hq, Hdr, Hpend1, Hv1. repeat split.
  - destruct (count_drops_inv (Z.of_nat (length line)) _ Hinv1) as [Hinv2 Hpend2].
    split; [split; [exact Hlock|exact Hinv2]|].
    split; [lia|]. intros _.
    rewrite Hpend2, Hpend1. repeat split.
    rewrite count_drops_value by apply Hinv1. rewrite Hv1.
    rewrite (ApiParseFacts.wrap32_small (Z.of_nat (length line)))
      by (unfold UINT32_MAX; lia).
    reflexivity.
Qed.


Lemma Telemetry_Write_cases ok data st :
  tx_wf st -> is_sending_debug_message st = false ->
  Telemetry_Write ok data st =
    if Z.of_nat (length data) =? 0 then (0, st)
    else if _rb_free st <? Z.of_nat (length data)
         then (0, refused ok (Z.of_nat (length data)) st)
         else (Z.of_nat (length data), accepted ok data st).
Proof.
  intros Hwf Hlock. unfold Telemetry_Write.
  destruct (Z.eqb_spec (Z.of_nat (length data)) 0) as [Hz|Hnz].
  { cbn [Telemetry_Write_fuel]. rewrite Hz. reflexivity. }
  destruct (Z.ltb_spec (_rb_free st) (Z.of_nat (length data))) as [Hbig|Hfit].
  - rewrite Telemetry_Write_fuel_refuse by assumption. reflexivity.
  - rewrite Telemetry_Write_fuel_accept by (try assumption; lia). reflexivity.
Qed.

Lemma Telemetry_Write_inv ok data st :
  tx_inv st -> tx_inv (snd (Telemetry_Write ok data st)).
Proof.
  intros Hinv. pose proof Hinv as [Hlock Hr].
  rewrite Telemetry_Write_cases by (try apply Hr; exact Hlock).
  destruct (Z.eqb_spec (Z.of_nat (length data)) 0) as [Hz|Hnz]; [exact Hinv|].
  destruct (Z.ltb_spec (_rb_free st) (Z.of_nat (length data))) as [Hbig|Hfit].
  - apply (refused_inv ok _ st Hinv).
  - destruct (accepted_inv ok data st Hr ltac:(lia)) as (Hr' & _ & _ & _ & Hl).
    split; [cbn [snd]; rewrite Hl; exact Hlock|exact Hr'].
Qed.

Lemma COMM_Init_inv : tx_inv COMM_Init.
Proof.
  split; [reflexivity|]. split.
  - unfold tx_wf, UINT32_MAX. cbn. repeat split; try lia; try discriminate.
  - exists []. split; reflexivity.
Qed.

Lemma tx_run_inv ops : tx_inv (tx_run ops).
Proof.
  unfold tx_run.
  assert (H : forall st, tx_inv st -> tx_inv (fold_left tx_step ops st)).
  { induction ops as [|op ops IH]; intros st Hst; [exact Hst|].
    cbn [fold_left]. apply IH. destruct op as [data ok|ok]; unfold tx_step.
    - apply Telemetry_Write_inv. exact Hst.
    - apply COMM_TxCpltCallback_inv. exact Hst. }
  apply H. exact COMM_Init_inv.
Qed.


Lemma Telemetry_Write_queued ok data st :
  tx_inv st ->
  queued (snd (Telemetry_Write ok data st)) = queued st \/
  queued (snd (Telemetry_Write ok data st)) = queued st ++ [data] \/
  exists len free_before,
    queued (snd (Telemetry_Write ok data st))
    = queued st ++ [drop_line len free_before].
Proof.
  intros Hinv. pose proof Hinv as [Hlock Hr].
  rewrite Telemetry_Write_cases by (try apply Hr; exact Hlock).
  destruct (Z.eqb_spec (Z.of_nat (length data)) 0) as [Hz|Hnz];
    [left; reflexivity|].
  destruct (Z.ltb_spec (_rb_free st) (Z.of_nat (length data))) as [Hbig|Hfit].
  - destruct (refused_inv ok (Z.of_nat (length data)) st Hinv)
      as (_ & Hyes & Hno). cbv zeta in Hyes, Hno. cbn [snd].
    destruct (Z.le_gt_cases
                (Z.of_nat (length (drop_line (Z.of_nat (length data))
                                             (_rb_free st))))
                (_rb_free st)) as [Hl|Hl].
    + right. right. exists (Z.of_nat (length data)), (_rb_free st).
      apply (Hyes Hl).
    + left. apply (Hno Hl).
  - right. left. apply (accepted_inv ok data st Hr). lia.
Qed.

(** X14.  The transmit ring is a queue: after any sequence of
    [Telemetry_Write] and transfer-complete interrupts, with DMA
    starts that succeed or fail, the bytes given to the UART are, in
    order and without a gap or a repeat, a beginning of the bytes
    put into the ring; what was put into the ring is data of the
    writes, each whole, and debug lines
    "[DEBUG] TX_ENQ: DROP, req=..., free=..." of refused writes;
    at most 4095 bytes are still to be sent, and none when
    [COMM_TxIsIdle] holds. *)
Theorem tx_ring_is_a_queue (ops : list TxOp) :
  let st := tx_run ops in
  Forall (fun chunk =>
            (exists ok, In (OpWrite chunk ok) ops) \/
            (exists len free_before, chunk = drop_line len free_before))
         (queued st) /\
  exists rest,
    concat (queued st) = concat (uart st) ++ rest /\
    (length rest <= 4095)%nat /\
    (COMM_TxIsIdle st = true -> rest = []).
Proof.
  cbv zeta. split.
  - unfold tx_run.
    set (Q := fun chunk : list ascii =>
                (exists ok, In (OpWrite chunk ok) ops) \/
                (exists len free_before, chunk = drop_line len free_before)).
    assert (H : forall todo st, (forall op, In op todo -> In op ops) ->
                  tx_inv st -> Forall Q (queued st) ->
                  Forall Q (queued (fold_left tx_step todo st))).
    { induction todo as [|op todo IH]; intros st Hin Hst HQ; [exact HQ|].
      cbn [fold_left].
      assert (Hop : In op ops) by (apply Hin; left; reflexivity).
      assert (Hin' : forall op', In op' todo -> In op' ops)
        by (intros op' H'; apply Hin; right; exact H').
      destruct op as [data ok|ok]; cbn [tx_step].
      - apply IH; [exact Hin'|apply Telemetry_Write_inv; exact Hst|].
        destruct (Telemetry_Write_queued ok data st Hst)
          as [->|[->|(len & fb & ->)]].
        + exact HQ.
        + apply Forall_app. split; [exact HQ|].
          constructor; [|constructor]. left. exists ok. exact Hop.
        + apply Forall_app. split; [exact HQ|].
          constructor; [|constructor]. right. exists len, fb. reflexivity.
      - destruct (COMM_TxCpltCallback_inv ok st Hst) as [Hst' Hq].
        apply IH; [exact Hin'|exact Hst'|]. rewrite Hq. exact HQ. }
    apply H; [auto|exact COMM_Init_inv|constructor].
  - destruct (tx_run_inv ops) as [_ [Hwf (delivered & Hw & Hu)]].
    destruct Hwf as (Hbuf & Hdma & Hh & Ht & Hdrop & Hact & Hau & Hcont & Hidle).
    set (st := tx_run ops) in *.
    destruct (usage_eq st Hh Ht) as (Hue & Hf & Hub).
    pose proof (tx_pending_length st Hh Ht) as Hplen.
    exists (drop (Z.to_nat (tx_dma_active_len st)) (tx_pending st)).
    split; [|split].
    + rewrite Hu, <- app_assoc, take_drop. exact Hw.
    + rewrite length_drop. unfold COMM_TX_RING_SIZE in *. lia.
    + unfold COMM_TxIsIdle. intros Hi. apply andb_true_iff in Hi as [_ Heq].
      apply Z.eqb_eq in Heq. rewrite Hue, Heq, Z.sub_diag in Hplen.
      change (0 mod COMM_TX_RING_SIZE) with 0 in Hplen.
      destruct (tx_pending st); [apply drop_nil|cbn [length] in Hplen; lia].
Qed.


Lemma COMM_Sendf_cases ok text st :
  tx_inv st ->
  COMM_Sendf ok text st =
    let len := Z.of_nat (length text) in
    if len =? 0 then (0, st)
    else if 256 <? len then (0, count_drops len st)
    else if _rb_free st <? len then (0, refused ok len st)
    else (len, accepted ok text st).
Proof.
  intros [Hlock Hr]. unfold COMM_Sendf. cbv zeta.
  rewrite Telemetry_Write_cases by (try apply Hr; exact Hlock).
  unfold Comm.PROTO_MAX_LINE.
  destruct (Z.leb_spec (Z.of_nat (length text)) 0) as [Hz|Hpos].
  { replace (Z.of_nat (length text) =? 0) with true
      by (symmetry; apply Z.eqb_eq; lia). reflexivity. }
  replace (Z.of_nat (length text) =? 0) with false
    by (symmetry; apply Z.eqb_neq; lia).
  destruct (Z.leb_spec (256 + 1) (Z.of_nat (length text))) as [Hlong|Hshort].
  { replace (256 <? Z.of_nat (length text)) with true
      by (symmetry; apply Z.ltb_lt; lia). reflexivity. }
  replace (256 <? Z.of_nat (length text)) with false
    by (symmetry; apply Z.ltb_ge; lia).
  destruct (_rb_free st <? Z.of_nat (length text)).
  - replace (0 =? Z.of_nat (length text)) with false
      by (symmetry; apply Z.eqb_neq; lia). reflexivity.
  - rewrite Z.eqb_refl. reflexivity.
Qed.

(** X15.  [COMM_Sendf] never queues a part of a line.  No text:
    0 is returned and nothing changes.  A text of more than 256
    bytes: 0 is returned, the ring is as it was and the length is
    added to the drop counter (which stops at 0xFFFFFFFF); no debug
    line is written.  A text of 1 to 256 bytes that fits the free
    space is queued whole and its length is returned.  A text of 1
    to 256 bytes that does not fit: 0 is returned, the length is
    added to the drop counter, and the line
    "[DEBUG] TX_ENQ: DROP, req=<len>, free=<free>" is queued whole
    if the ring has room for it, and if not its length is added to
    the drop counter too and the ring is as it was. *)
Theorem COMM_Sendf_whole_line (ok : bool) (text : list ascii) (st : TxState) :
  tx_inv st ->
  let len := Z.of_nat (length text) in
  let n := fst (COMM_Sendf ok text st) in
  let st' := snd (COMM_Sendf ok text st) in
  let line := lit "[DEBUG] TX_ENQ: DROP, req=" ++ fmt_u len ++ lit ", free="
              ++ fmt_u (COMM_TxFree st) ++ [Comm.CR; Comm.LF] in
  (len = 0 -> n = 0 /\ st' = st) /\
  (256 < len ->
   n = 0 /\ tx_pending st' = tx_pending st /\ queued st' = queued st /\
   uart st' = uart st /\
   s_tx_drop_count st' = Z.min UINT32_MAX (s_tx_drop_count st + wrap32 len)) /\
  (0 < len <= 256 -> len <= COMM_TxFree st ->
   n = len /\ tx_pending st' = tx_pending st ++ text /\
   queued st' = queued st ++ [text] /\
   s_tx_drop_count st' = s_tx_drop_count st) /\
  (0 < len <= 256 -> COMM_TxFree st < len ->
   n = 0 /\
   (Z.of_nat (length line) <= COMM_TxFree st ->
    tx_pending st' = tx_pending st ++ line /\
    queued st' = queued st ++ [line] /\
    s_tx_drop_count st' = Z.min UINT32_MAX (s_tx_drop_count st + wrap32 len)) /\
   (COMM_TxFree st < Z.of_nat (length line) ->
    tx_pending st' = tx_pending st /\ queued st' = queued st /\
    uart st' = uart st /\
    s_tx_drop_count st' =
      Z.min UINT32_MAX
        (Z.min UINT32_MAX (s_tx_drop_count st + wrap32 len)
         + Z.of_nat (length line)))).
Proof.
  intros Hinv len n st' line. pose proof Hinv as [Hlock Hr].
  change line with (drop_line len (_rb_free st)).
  unfold n, st', COMM_TxFree.
  rewrite (COMM_Sendf_cases ok text st Hinv). cbv zeta. fold len.
  split; [|split; [|split]].
  - intros ->. split; reflexivity.
  - intros Hlong.
    replace (len =? 0) with false by (symmetry; apply Z.eqb_neq; lia).
    replace (256 <? len) with true by (symmetry; apply Z.ltb_lt; lia).
    cbn [fst snd]. repeat split.
    apply count_drops_value. apply Hr.
  - intros Hlen Hfit.
    replace (len =? 0) with false by (symmetry; apply Z.eqb_neq; lia).
    replace (256 <? len) with false by (symmetry; apply Z.ltb_ge; lia).
    replace (_rb_free st <? len) with false by (symmetry; apply Z.ltb_ge; lia).
    cbn [fst snd].
    destruct (accepted_inv ok text st Hr ltac:(fold len; lia))
      as (_ & Hp & Hq & Hd & _).
    repeat split; assumption.
  - intros Hlen Hbig.
    replace (len =? 0) with false by (symmetry; apply Z.eqb_neq; lia).
    replace (256 <? len) with false by (symmetry; apply Z.ltb_ge; lia).
    replace (_rb_free st <? len) with true by (symmetry; apply Z.ltb_lt; lia).
    cbn [fst snd]. split; [reflexivity|].
    apply (refused_inv ok len st Hinv).
Qed.

(** *** The ring nearly full *)

(** Sixteen lines of 250 bytes: 95 bytes are free. *)
Definition nearly_full : TxState :=
  tx_run (repeat (OpWrite (repeat "a"%char 250) true) 16).

(** And 90 bytes more: 5 bytes are free. *)
Definition full : TxState :=
  tx_run (repeat (OpWrite (repeat "a"%char 250) true) 16
          ++ [OpWrite (repeat "a"%char 90) true]).

Example refused_write_queues_debug_line :
  let r := Telemetry_Write true (repeat "b"%char 100) nearly_full in
  COMM_TxFree nearly_full = 95 /\ tx_ring_head nearly_full = 4000 /\
  fst r = 0 /\ tx_ring_head (snd r) = 4040 /\ s_tx_drop_count (snd r) = 100 /\
  last (queued (snd r)) = Some (lit "[DEBUG] TX_ENQ: DROP, req=100, free=95"
                                ++ [Comm.CR; Comm.LF]).
Proof. vm_compute. repeat split. Qed.

Example refused_write_counts_debug_line :
  let r := Telemetry_Write true (repeat "b"%char 10) full in
  COMM_TxFree full = 5 /\
  fst r = 0 /\ tx_ring_head (snd r) = tx_ring_head full /\
  s_tx_drop_count (snd r) = 48 /\ queued (snd r) = queued full.
Proof. vm_compute. repeat split. Qed.

Lemma tx_ring_is_a_queue_examples :
  concat (uart nearly_full) = repeat "a"%char 250 /\
  length (concat (queued nearly_full)) = 4000%nat.
Proof. vm_compute. split; reflexivity. Qed.


Lemma COMM_Sendf_whole_line_witness :
  let text := repeat "b"%char 100 in
  let st := nearly_full in
  let len := Z.of_nat (length text) in
  let n := fst (COMM_Sendf true text st) in
  let st' := snd (COMM_Sendf true text st) in
  let line := lit "[DEBUG] TX_ENQ: DROP, req=" ++ fmt_u len ++ lit ", free="
              ++ fmt_u (COMM_TxFree st) ++ [Comm.CR; Comm.LF] in
  (len = 0 -> n = 0 /\ st' = st) /\
  (256 < len ->
   n = 0 /\ tx_pending st' = tx_pending st /\ queued st' = queued st /\
   uart st' = uart st /\
   s_tx_drop_count st' = Z.min UINT32_MAX (s_tx_drop_count st + wrap32 len)) /\
  (0 < len <= 256 -> len <= COMM_TxFree st ->
   n = len /\ tx_pending st' = tx_pending st ++ text /\
   queued st' = queued st ++ [text] /\
   s_tx_drop_count st' = s_tx_drop_count st) /\
  (0 < len <= 256 -> COMM_TxFree st < len ->
   n = 0 /\
   (Z.of_nat (length line) <= COMM_TxFree st ->
    tx_pending st' = tx_pending st ++ line /\
    queued st' = queued st ++ [line] /\
    s_tx_drop_count st' = Z.min UINT32_MAX (s_tx_drop_count st + wrap32 len)) /\
   (COMM_TxFree st < Z.of_nat (length line) ->
    tx_pending st' = tx_pending st /\ queued st' = queued st /\
    uart st' = uart st /\
    s_tx_drop_count st' =
      Z.min UINT32_MAX
        (Z.min UINT32_MAX (s_tx_drop_count st + wrap32 len)
         + Z.of_nat (length line)))).
Proof.
  exact (COMM_Sendf_whole_line true (repeat "b"%char 100) nearly_full
           (tx_run_inv _)).
Defined.


End CommTxFacts.

(** ** BLOCKS transport: the queue, the check sum and the abort *)

Module TBQueueFacts.
Import TB TBFacts.

Section Queue.
Variable clock : nat -> Z.

(** The queue is a ring of 16 slots: [q_count] entries from
    [q_head] on, and [q_tail] is the slot after them. *)
Definition ring_inv (s : State) : Prop :=
  0 <= q_head s < TB_MAX_QUEUE /\ 0 <= q_count s <= TB_MAX_QUEUE /\
  q_tail s = (q_head s + q_count s) mod TB_MAX_QUEUE.

Lemma ring_inv_queue_inv s : ring_inv s -> queue_inv s.
Proof. intros (_ & H & _). exact H. Qed.

Lemma queue_pop_ring s : ring_inv s -> ring_inv (snd (_queue_pop s)).
Proof.
  unfold ring_inv, _queue_pop, _queue_empty, TB_MAX_QUEUE.
  intros (Hh & Hc & Ht). destruct (Z.eqb_spec (q_count s) 0) as [H0|Hne].
  - cbn [snd]. repeat split; try assumption; lia.
  - cbn [snd q_head q_tail q_count set_q_indices].
    pose proof (Z.mod_pos_bound (q_head s + 1) 16 ltac:(lia)) as Hb.
    rewrite !wrap8_small by lia. repeat split; try lia.
    rewrite Ht. rewrite Zplus_mod_idemp_l. f_equal. lia.
Qed.

Lemma drain_queue_ring fuel : forall s, ring_inv s -> ring_inv (drain_queue fuel s).
Proof.
  induction fuel as [|fuel IH]; intros s Hr; [exact Hr|].
  cbn [drain_queue]. destruct (_queue_empty s); cbn [negb]; [exact Hr|].
  apply IH, queue_pop_ring, Hr.
Qed.

Lemma abort_mark_ring fuel : forall i s,
  q_head (abort_mark fuel i s) = q_head s /\
  q_tail (abort_mark fuel i s) = q_tail s /\
  q_count (abort_mark fuel i s) = q_count s.
Proof.
  induction fuel as [|fuel IH]; intros i s; [repeat split|].
  cbn [abort_mark]. destruct (i <? inflight_count s); [|repeat split].
  destruct (IH (wrap8 (i + 1))
              (set_entry (nth (Z.to_nat i) (inflight_ptrs s) O)
                 (set_flags false true
                    (entry_at (nth (Z.to_nat i) (inflight_ptrs s) O) s)) s))
    as (-> & -> & ->).
  repeat split.
Qed.

Lemma abort_all_ring s : ring_inv s -> ring_inv (_abort_all s).
Proof.
  intros Hr. unfold _abort_all.
  set (s1 := abort_mark (Z.to_nat (inflight_count s)) 0 s).
  set (s2 := set_inflight (inflight_ptrs s1) 0 s1).
  assert (H2 : ring_inv s2).
  { destruct (abort_mark_ring (Z.to_nat (inflight_count s)) 0 s) as (Hh & Ht & Hc).
    unfold ring_inv, s2. cbn [q_head q_tail q_count set_inflight].
    fold s1 in Hh, Ht, Hc. rewrite Hh, Ht, Hc. exact Hr. }
  apply (drain_queue_ring (Z.to_nat (q_count s2))) in H2. exact H2.
Qed.

Lemma inflight_add_ring slot s : ring_inv s -> ring_inv (_inflight_add slot s).
Proof.
  unfold _inflight_add. destruct (inflight_count s <? TB_MAX_INFLIGHT); trivial.
Qed.

Lemma inflight_remove_ring idx s :
  ring_inv s -> ring_inv (_inflight_remove_index idx s).
Proof.
  unfold _inflight_remove_index. destruct (inflight_count s <=? idx); trivial.
Qed.

Lemma send_block_ring slot s : ring_inv s -> ring_inv (_send_block clock slot s).
Proof. trivial. Qed.

Lemma pump_send_loop_ring fuel : forall s,
  ring_inv s -> ring_inv (pump_send_loop clock fuel s).
Proof.
  induction fuel as [|fuel IH]; intros s Hr; [exact Hr|].
  cbn [pump_send_loop].
  destruct ((inflight_count s <? window s) && negb (_queue_empty s)); [|exact Hr].
  pose proof (queue_pop_ring s Hr) as Hp.
  destruct (_queue_pop s) as [[slot|] s1]; cbn [snd] in Hp; [|exact Hp].
  apply IH, inflight_add_ring, send_block_ring, Hp.
Qed.

Lemma pump_timeouts_loop_ring fuel : forall now i s,
  ring_inv s -> ring_inv (pump_timeouts_loop clock fuel now i s).
Proof.
  induction fuel as [|fuel IH]; intros now i s Hr; [exact Hr|].
  cbn [pump_timeouts_loop].
  destruct (i <? inflight_count s); [|exact Hr].
  destruct (negb (inflight _)).
  { apply IH, inflight_remove_ring, Hr. }
  destruct (PROTO_BLOCK_TIMEOUT_MS <=? _).
  - destruct (retries _ <? max_retries s).
    + apply IH. exact Hr.
    + apply IH. apply abort_all_ring in Hr. exact Hr.
  - apply IH. exact Hr.
Qed.

Lemma run_call_ring s c : ring_inv s -> ring_inv (run_call clock s c).
Proof.
  intros Hr. destruct c as [w bl mr|id|b| |b|b code|]; cbn [run_call].
  - unfold ring_inv, TB_MAX_QUEUE. repeat split; try (cbn; lia).
  - unfold ring_inv, TB_MAX_QUEUE. repeat split; try (cbn; lia).
  - unfold TB_EnqueueBlock. destruct b as [b|]; [|exact Hr].
    destruct (negb (burst_active s) || negb (Fw.is_some (bg_gen b))
              || (wrap16 (bg_lines b) =? 0)
              || (blk_lines s <? wrap16 (bg_lines b))); [exact Hr|].
    destruct (_queue_full s) eqn:Hf; [exact Hr|].
    unfold _queue_push. rewrite Hf.
    unfold ring_inv, TB_MAX_QUEUE, _queue_full in *.
    apply Z.leb_gt in Hf. unfold TB_MAX_QUEUE in Hf.
    destruct Hr as (Hh & Hc & Ht).
    cbn [snd q_head q_tail q_count set_entry set_queue set_burst set_q_indices].
    pose proof (Z.mod_pos_bound (q_tail s + 1) 16 ltac:(lia)) as Hb.
    rewrite !wrap8_small by lia. repeat split; try lia.
    rewrite Ht, Zplus_mod_idemp_l. f_equal. lia.
  - unfold TB_Pump. destruct (negb (burst_active s)); [exact Hr|].
    unfold _pump_timeouts, _pump_send, HAL_GetTick.
    apply pump_timeouts_loop_ring.
    apply (pump_send_loop_ring (Z.to_nat (q_count s))) in Hr. exact Hr.
  - unfold TB_OnAckBlk.
    destruct (_inflight_find_blk (wrap16 b) s); [|exact Hr].
    apply inflight_remove_ring. exact Hr.
  - unfold TB_OnNackBlk.
    destruct (_inflight_find_blk (wrap16 b) s); [|exact Hr].
    destruct (retries _ <? max_retries s); [exact Hr|].
    apply abort_all_ring in Hr. exact Hr.
  - exact Hr.
Qed.

(** X16.  In every state the transport reaches, the queue of
    blocks holds at most 16 entries and its indices agree: the entries
    are the [q_count] slots from [q_head] on, and [q_tail], where the
    next block goes, is the slot after them, modulo 16. *)
Theorem queue_indices_agree (calls : list Call) :
  let s := run_calls clock calls in
  0 <= q_head s < 16 /\ 0 <= q_count s <= 16 /\
  q_tail s = (q_head s + q_count s) mod 16.
Proof.
  change (ring_inv (run_calls clock calls)). unfold run_calls.
  assert (H0 : ring_inv tb_zero)
    by (unfold ring_inv, TB_MAX_QUEUE; repeat split; cbn; lia).
  revert H0. generalize tb_zero.
  induction calls as [|c calls IH]; intros s Hs; [exact Hs|].
  cbn [fold_left]. apply IH, run_call_ring, Hs.
Qed.

(** *** Enqueueing *)

(** X17.  [TB_EnqueueBlock] takes a block exactly when a burst is
    open, the block has a generator and between 1 and [blk_lines]
    lines, and fewer than 16 blocks wait; it then returns 1, gives
    the block the next number, and leaves it waiting, not sent.  In
    every other case it returns 0 and changes nothing. *)
Theorem TB_EnqueueBlock_accepts (b : option TB_BlockGen) (s : State) :
  0 <= q_count s <= 16 -> 0 <= q_tail s < 16 -> length (queue s) = 16%nat ->
  let r := fst (TB_EnqueueBlock b s) in
  let s' := snd (TB_EnqueueBlock b s) in
  let slot := Z.to_nat (q_tail s) in
  (r = 1 <->
   exists bg g, b = Some bg /\ bg_gen bg = Some g /\ burst_active s = true /\
                1 <= wrap16 (bg_lines bg) <= blk_lines s /\ q_count s < 16) /\
  (r <> 1 -> r = 0 /\ s' = s) /\
  (r = 1 ->
   q_count s' = q_count s + 1 /\ next_blk s' = wrap16 (next_blk s + 1) /\
   inflight_count s' = inflight_count s /\ wire s' = wire s /\
   blk (entry_at slot s') = next_blk s /\
   sent (entry_at slot s') = false /\ inflight (entry_at slot s') = false /\
   retries (entry_at slot s') = 0).
Proof.
  intros Hc Ht Hlen r s' slot. unfold r, s', TB_EnqueueBlock.
  destruct b as [bg|].
  2:{ cbn [fst snd]. split; [|split].
      - split; [discriminate|]. intros (bg & g & Hb & _). discriminate.
      - intros _. split; reflexivity.
      - discriminate. }
  destruct (burst_active s) eqn:Hact; cbn [negb orb].
  2:{ cbn [fst snd]. split; [|split].
      - split; [discriminate|]. intros (bg' & g & _ & _ & Hf & _). discriminate.
      - intros _. split; reflexivity.
      - discriminate. }
  destruct (bg_gen bg) as [g|] eqn:Hgen; cbn [Fw.is_some negb orb].
  2:{ cbn [fst snd]. split; [|split].
      - split; [discriminate|]. intros (bg' & g & Hb & Hg & _).
        injection Hb as <-. rewrite Hgen in Hg. discriminate.
      - intros _. split; reflexivity.
      - discriminate. }
  assert (Hw : 0 <= wrap16 (bg_lines bg))
    by (unfold wrap16; apply Z.mod_pos_bound; lia).
  destruct (Z.eqb_spec (wrap16 (bg_lines bg)) 0) as [Hz|Hnz]; cbn [orb].
  { cbn [fst snd]. split; [|split].
    - split; [discriminate|]. intros (bg' & g' & Hb & _ & _ & Hl & _).
      injection Hb as <-. lia.
    - intros _. split; reflexivity.
    - discriminate. }
  destruct (Z.ltb_spec (blk_lines s) (wrap16 (bg_lines bg))) as [Hbig|Hok].
  { cbn [fst snd]. split; [|split].
    - split; [discriminate|]. intros (bg' & g' & Hb & _ & _ & Hl & _).
      injection Hb as <-. lia.
    - intros _. split; reflexivity.
    - discriminate. }
  unfold _queue_push, _queue_full, TB_MAX_QUEUE.
  destruct (Z.leb_spec 16 (q_count s)) as [Hfull|Hroom].
  { cbn [fst snd]. split; [|split].
    - split; [discriminate|]. intros (bg' & g' & _ & _ & _ & _ & Hq). lia.
    - intros _. split; reflexivity.
    - discriminate. }
  cbn [fst snd]. split; [|split].
  - split; [|reflexivity]. intros _. exists bg, g. repeat split; try assumption; lia.
  - intros H. contradiction.
  - intros _.
    cbn [q_count next_blk inflight_count wire set_entry set_queue set_burst
         set_q_indices].
    rewrite wrap8_small by lia.
    repeat split; try reflexivity.
    all: unfold entry_at, set_entry;
      cbn [queue set_queue set_burst set_q_indices q_tail];
      erewrite nth_lookup_Some
        by (apply list_lookup_insert_eq; rewrite length_insert;
            unfold slot; lia);
      reflexivity.
Qed.

(** *** Giving up *)

Lemma drain_queue_empties fuel : forall s,
  queue_inv s -> (Z.to_nat (q_count s) <= fuel)%nat ->
  q_count (drain_queue fuel s) = 0.
Proof.
  unfold queue_inv, TB_MAX_QUEUE.
  induction fuel as [|fuel IH]; intros s Hq Hf.
  - cbn [drain_queue]. lia.
  - cbn [drain_queue]. destruct (_queue_empty s) eqn:He; cbn [negb].
    + unfold _queue_empty in He. apply Z.eqb_eq in He. exact He.
    + unfold _queue_empty in He. apply Z.eqb_neq in He.
      assert (Hc : q_count (snd (_queue_pop s)) = q_count s - 1).
      { unfold _queue_pop, _queue_empty.
        destruct (Z.eqb_spec (q_count s) 0) as [|_]; [contradiction|].
        cbn [snd q_count set_q_indices]. apply wrap8_small. lia. }
      apply IH; rewrite Hc; lia.
Qed.

Lemma drain_queue_rest fuel : forall s,
  wire (drain_queue fuel s) = wire s /\
  burst_id (drain_queue fuel s) = burst_id s /\
  next_blk (drain_queue fuel s) = next_blk s.
Proof.
  induction fuel as [|fuel IH]; intros s; [repeat split|].
  cbn [drain_queue]. destruct (_queue_empty s) eqn:He; cbn [negb]; [repeat split|].
  destruct (IH (snd (_queue_pop s))) as (-> & -> & ->).
  unfold _queue_pop. rewrite He. repeat split.
Qed.

Lemma abort_mark_rest fuel : forall i s,
  wire (abort_mark fuel i s) = wire s /\
  burst_id (abort_mark fuel i s) = burst_id s /\
  next_blk (abort_mark fuel i s) = next_blk s.
Proof.
  induction fuel as [|fuel IH]; intros i s; [repeat split|].
  cbn [abort_mark]. destruct (i <? inflight_count s); [|repeat split].
  match goal with
  | |- context [abort_mark fuel ?j ?t] => destruct (IH j t) as (-> & -> & ->)
  end.
  repeat split.
Qed.

Lemma abort_all_clears s :
  queue_inv s ->
  q_count (_abort_all s) = 0 /\ inflight_count (_abort_all s) = 0 /\
  burst_active (_abort_all s) = false /\ wire (_abort_all s) = wire s /\
  burst_id (_abort_all s) = burst_id s /\ next_blk (_abort_all s) = next_blk s.
Proof.
  intros Hq. destruct (abort_all_window s) as [Hi _].
  split; [|split; [exact Hi|split; [reflexivity|]]].
  - unfold _abort_all.
    set (s1 := abort_mark (Z.to_nat (inflight_count s)) 0 s).
    set (s2 := set_inflight (inflight_ptrs s1) 0 s1).
    cbn [q_count set_burst]. apply drain_queue_empties; [|lia].
    unfold queue_inv, s2, s1. cbn [q_count set_inflight].
    rewrite abort_mark_q_count. exact Hq.
  - unfold _abort_all.
    set (s1 := abort_mark (Z.to_nat (inflight_count s)) 0 s).
    set (s2 := set_inflight (inflight_ptrs s1) 0 s1).
    cbn [wire burst_id next_blk set_burst].
    destruct (drain_queue_rest (Z.to_nat (q_count s2)) s2) as (-> & -> & ->).
    unfold s2, s1. cbn [wire burst_id next_blk set_inflight].
    destruct (abort_mark_rest (Z.to_nat (inflight_count s)) 0 s) as (-> & -> & ->).
    repeat split.
Qed.

Lemma nack_abort_state (b code : Z) (s : State) (idx : Z) :
  _inflight_find_blk (wrap16 b) s = Some idx ->
  max_retries s <= retries (inflight_entry idx s) ->
  TB_OnNackBlk clock b code s
  = emit [CallBmEndAborted (if wrap32 code =? 0 then 400 else wrap32 code)]
         (_abort_all s).
Proof.
  intros Hfind Hret. unfold TB_OnNackBlk. rewrite Hfind.
  unfold inflight_entry in Hret.
  destruct (Z.ltb_spec (retries (entry_at (nth (Z.to_nat idx) (inflight_ptrs s) 0%nat) s))
                       (max_retries s)) as [Hlt|_]; [lia|].
  destruct (wrap32 code =? 0); reflexivity.
Qed.

(** X18.  A NACK for a block in flight that has used up its retries
    gives the burst up: nothing is in flight or waiting any more, the
    burst is closed, [BM_EndAborted] is called once with the code of
    the NACK (400 when that code is 0) and nothing else is sent.
    After that [TB_Pump] does nothing and no block is accepted. *)
Theorem nack_after_last_retry_aborts (b code : Z) (s : State) (idx : Z) :
  queue_inv s ->
  _inflight_find_blk (wrap16 b) s = Some idx ->
  max_retries s <= retries (inflight_entry idx s) ->
  let s' := TB_OnNackBlk clock b code s in
  TB_IsIdle s' = true /\ burst_active s' = false /\
  wire s' = wire s ++ [CallBmEndAborted
                         (if wrap32 code =? 0 then 400 else wrap32 code)] /\
  TB_Pump clock s' = s' /\
  forall blk, TB_EnqueueBlock blk s' = (0, s').
Proof.
  intros Hq Hfind Hret s'.
  destruct (abort_all_clears s Hq) as (Hqc & Hic & Hact & Hwire & _).
  assert (Hs' : s' = emit [CallBmEndAborted
                             (if negb (wrap32 code =? 0) then wrap32 code else 400)]
                          (_abort_all s)).
  { unfold s', TB_OnNackBlk. rewrite Hfind.
    unfold inflight_entry in Hret.
    destruct (Z.ltb_spec (retries (entry_at (nth (Z.to_nat idx) (inflight_ptrs s) 0%nat) s))
                         (max_retries s)) as [Hlt|_]; [lia|reflexivity]. }
  assert (Hact' : burst_active s' = false) by (rewrite Hs'; exact Hact).
  split; [|split; [exact Hact'|split; [|split]]].
  - rewrite Hs'. unfold TB_IsIdle, _queue_empty. cbn [inflight_count q_count emit].
    rewrite Hic, Hqc. reflexivity.
  - rewrite Hs'. cbn [wire emit]. rewrite Hwire.
    destruct (wrap32 code =? 0); reflexivity.
  - unfold TB_Pump. rewrite Hact'. reflexivity.
  - intros [bg|]; unfold TB_EnqueueBlock; [|reflexivity].
    rewrite Hact'. reflexivity.
Qed.

End Queue.

Lemma TB_EnqueueBlock_accepts_witness :
  let s := TB_BeginBurst 7 (TB_Init 4 128 3 tb_zero) in
  fst (TB_EnqueueBlock (Some one_line) s) = 1 <->
  exists bg g, Some one_line = Some bg /\ bg_gen bg = Some g /\
               burst_active s = true /\
               1 <= wrap16 (bg_lines bg) <= blk_lines s /\ q_count s < 16.
Proof.
  apply (TB_EnqueueBlock_accepts (Some one_line)
           (TB_BeginBurst 7 (TB_Init 4 128 3 tb_zero))).
  - vm_compute. split; discriminate.
  - vm_compute. split; [discriminate|reflexivity].
  - reflexivity.
Defined.

(** One block, sent once and refused by the host four times under
    three retries. *)
Definition refused_block : list Call :=
  [CallInit 4 128 3; CallBeginBurst 1; CallEnqueueBlock (Some one_line);
   CallPump; CallOnNackBlk 1 0; CallOnNackBlk 1 0; CallOnNackBlk 1 0].

Lemma nack_after_last_retry_aborts_witness :
  let s := run_calls (fun _ => 0) refused_block in
  let s' := TB_OnNackBlk (fun _ => 0) 1 301 s in
  TB_IsIdle s' = true /\ burst_active s' = false /\
  wire s' = wire s ++ [CallBmEndAborted 301] /\
  TB_Pump (fun _ => 0) s' = s' /\
  forall blk, TB_EnqueueBlock blk s' = (0, s').
Proof.
  apply (nack_after_last_retry_aborts (fun _ => 0) 1 301
           (run_calls (fun _ => 0) refused_block) 0).
  - vm_compute. split; discriminate.
  - vm_compute. reflexivity.
  - vm_compute. discriminate.
Defined.

End TBQueueFacts.

(** ** transport_blocks.c: the checksum of a block *)

Module TBCrcFacts.
Import Crc16 Crc16Facts TB TBFacts.

(** The bytes of the DATA lines among the events, in order. *)
Definition data_bytes (evs : list TxEvent) : list Byte.byte :=
  flat_map (fun ev => match ev with TxData l => l | _ => [] end) evs.

Lemma wrap16_next i : 0 <= i -> i + 1 < 65536 -> wrap16 (i + 1) = i + 1.
Proof. intros H0 H1. unfold wrap16. apply Z.mod_small. lia. Qed.

Lemma crc_lines_all (g : TB_GenLineFn) (n : nat) : forall i crc,
  0 <= i -> i + Z.of_nat n <= 65536 ->
  (forall k, (k < n)%nat -> g (i + Z.of_nat k) <> []) ->
  crc_lines n i g crc = proto_crc16_update crc (data_bytes (data_lines n i g)).
Proof.
  induction n as [|n IH]; intros i crc Hi Hn Hg; [reflexivity|].
  cbn [crc_lines data_lines].
  pose proof (Hg O ltac:(lia)) as H0. rewrite Z.add_0_r in H0.
  destruct (g i) as [|b line] eqn:Egi; [contradiction|].
  cbn [data_bytes flat_map]. fold (data_bytes (data_lines n (wrap16 (i + 1)) g)).
  rewrite <- update_app.
  destruct n as [|n'].
  - cbn [crc_lines data_lines data_bytes flat_map]. reflexivity.
  - rewrite wrap16_next by lia. apply IH; [lia|lia|].
    intros k Hk. replace (i + 1 + Z.of_nat k) with (i + Z.of_nat (S k)) by lia.
    apply Hg. lia.
Qed.

Lemma crc_lines_gap (g : TB_GenLineFn) (n : nat) : forall i crc k,
  0 <= i -> i + Z.of_nat n <= 65536 ->
  (k < n)%nat -> g (i + Z.of_nat k) = [] ->
  crc_lines n i g crc = 0.
Proof.
  induction n as [|n IH]; intros i crc k Hi Hn Hk Hg; [lia|].
  cbn [crc_lines]. destruct (g i) as [|b line] eqn:Egi; [reflexivity|].
  destruct k as [|k'].
  - rewrite Z.add_0_r in Hg. congruence.
  - rewrite wrap16_next by lia. apply (IH _ _ k'); [lia|lia|lia|].
    replace (i + 1 + Z.of_nat k') with (i + Z.of_nat (S k')) by lia. exact Hg.
Qed.

(** X7.  The checksum [_compute_crc16] stores for a block of [n]
    lines is the CRC of the bytes of the DATA lines [_send_block]
    writes for it, in order, when the generator yields every line;
    when the generator fails for one of the lines the checksum is 0. *)
Theorem block_crc_covers_data_lines (g : TB_GenLineFn) (n : Z) :
  0 <= n <= 65535 ->
  ((forall i, 0 <= i < n -> g i <> []) ->
   _compute_crc16 (Some g) n
   = proto_crc16_buf (data_bytes (data_lines (Z.to_nat n) 0 g))) /\
  ((exists i, 0 <= i < n /\ g i = []) -> _compute_crc16 (Some g) n = 0).
Proof.
  intros Hn. unfold _compute_crc16. split.
  - intros Hg. unfold proto_crc16_buf, proto_crc16_final.
    apply crc_lines_all; [lia|lia|].
    intros k Hk. apply Hg. lia.
  - intros (i & Hi & Hg).
    apply (crc_lines_gap g _ 0 _ (Z.to_nat i)); [lia|lia|lia|].
    rewrite Z2Nat.id by lia. exact Hg.
Qed.

(** Two lines of a block. *)
Definition two_lines : TB_GenLineFn :=
  fun i => list_byte_of_string "DATA," ++ [if i =? 0 then Byte.x30 else Byte.x31]
           ++ [Byte.x0d; Byte.x0a].

Lemma block_crc_covers_data_lines_witness :
  0 <= 2 <= 65535 /\ (forall i, 0 <= i < 2 -> two_lines i <> []) /\
  _compute_crc16 (Some two_lines) 2
  = proto_crc16_buf (data_bytes (data_lines (Z.to_nat 2) 0 two_lines)).
Proof.
  assert (Hn : 0 <= 2 <= 65535) by lia.
  assert (Hg : forall i, 0 <= i < 2 -> two_lines i <> []).
  { intros i _. unfold two_lines. destruct (i =? 0); discriminate. }
  split; [exact Hn|]. split; [exact Hg|].
  exact (proj1 (block_crc_covers_data_lines two_lines 2 Hn) Hg).
Defined.

Example two_lines_crc :
  _compute_crc16 (Some two_lines) 2
  = proto_crc16_buf (list_byte_of_string "DATA,0" ++ [Byte.x0d; Byte.x0a]
                     ++ list_byte_of_string "DATA,1" ++ [Byte.x0d; Byte.x0a]).
Proof. vm_compute. reflexivity. Qed.

End TBCrcFacts.

(** ** Configuration kept by the command handler *)

Module CfgFacts.
Import Sensor Fw ApiParseFacts SensorFacts CmdFacts.

Lemma api_parse_u32_range s v : api_parse_u32 s = Some v -> is_u32 v.
Proof.
  intros Hv. apply api_parse_u32_sound in Hv.
  destruct Hv as (ws1 & ds & ws2 & rest0 & _ & _ & Hds & _ & _ & _ & <- & Hle).
  split; [|exact Hle].
  apply (fold_digits_mono ds 0 Hds). lia.
Qed.

(** A configuration the firmware can run with: every field fits its
    32 bits, the burst lasts between 1 ms and 10 min, the heartbeat
    is off or at least 100 ms, the sampling rate is one the sensor
    has, and the streaming rate is off or divides it. *)
Definition cfg_valid (c : RuntimeCfg_t) : Prop :=
  cfg_wf c /\
  1 <= burst_ms c <= 600000 /\
  (hb_ms c = 0 \/ 100 <= hb_ms c) /\
  In (odr_hz c) supported_odr /\
  stream_rate_hz c <= odr_hz c /\
  (stream_rate_hz c <> 0 -> odr_hz c mod stream_rate_hz c = 0).

Lemma supported_odr_u32 r : In r supported_odr -> is_u32 r.
Proof.
  unfold supported_odr, is_u32, UINT32_MAX. cbn [In].
  intros [<-|[<-|[<-|[<-|[<-|[<-|[]]]]]]]; lia.
Qed.

Section OnBoard.
Context {board : Board}.

Lemma SetCfg_valid_result line c :
  cfg_wf c -> SetCfg_valid (SetCfg_request line c) ->
  cfg_valid (SetCfg_result (SetCfg_request line c)).
Proof.
  intros Hwf (Hb & Hh & Hs & Hd).
  destruct (SetCfg_request_range line c Hwf) as (Ho & Hb' & Hh' & Hs').
  unfold cfg_valid, cfg_wf, SetCfg_result. cbn [hb_ms burst_ms odr_hz stream_rate_hz].
  pose proof (Sensor_SnapODR_supported (req_odr_hz (SetCfg_request line c))) as Hin.
  repeat split; try assumption; try apply Hb'; try apply Hh'; try apply Hs';
    try (apply supported_odr_u32; exact Hin); try apply Hb.
Qed.

Lemma Parse_SetCfg_cfg line w :
  cfg_valid (cfg (ctx w)) ->
  cfg_valid (cfg (ctx (outcome_world (Parse_SetCfg line w)))).
Proof.
  intros Hv. pose proof Hv as (Hwf & _).
  destruct (SetCfg_request_range line _ Hwf) as (_ & Hb & Hh & Hs).
  pose proof (SetCfg_rejects_spec _ Hb Hh Hs) as Hspec.
  rewrite Parse_SetCfg_cases.
  destruct (SetCfg_rejects (SetCfg_request line (cfg (ctx w)))) eqn:Hrej.
  - exact Hv.
  - assert (Hval : SetCfg_valid (SetCfg_request line (cfg (ctx w))))
      by (apply Hspec; reflexivity).
    pose proof (SetCfg_valid_result line _ Hwf Hval) as Hres.
    unfold SetCfg_apply.
    set (r := SetCfg_request line (cfg (ctx w))) in *.
    set (w0 := set_ctx (set_cfg (SetCfg_result r) (ctx w)) w).
    destruct (negb (odr_hz (cfg (ctx w)) =? Sensor_SnapODR (req_odr_hz r))).
    + set (w1 := if Sensor_IsSampling w0 then Sensor_StopSampling w0 else w0).
      assert (Hw1 : ctx w1 = ctx w0)
        by (unfold w1; destruct (Sensor_IsSampling w0); reflexivity).
      set (w2 := snd (Sensor_SetODR (Sensor_SnapODR (req_odr_hz r)) w1)).
      assert (Hw2 : ctx w2 = ctx w0)
        by (unfold w2; rewrite Sensor_SetODR_ctx; exact Hw1).
      destruct (Sensor_ReconfigureTimer_cases (Sensor_SnapODR (req_odr_hz r)) w2)
        as [(w3 & -> & Hc3 & _)|(w3 & -> & Hc3 & _)]; cbn [bind outcome_world].
      * cbn [ctx Telemetry_SendACK COMM_Sendf set_tx Streaming_UpdateDivider
             set_streaming].
        rewrite Streaming_Reconfigure_ctx.
        destruct (Sensor_IsSampling w0);
          cbn [ctx Sensor_StartSampling set_sensor]; rewrite Hc3, Hw2; exact Hres.
      * rewrite Hc3, Hw2. exact Hres.
    + cbn [bind outcome_world]. exact Hres.
Qed.

Lemma Parse_HB_cfg line w :
  cfg_valid (cfg (ctx w)) -> cfg_valid (cfg (ctx (Parse_HB line w))).
Proof.
  intros Hv.
  assert (Hstore : forall v, is_u32 v -> v = 0 \/ 100 <= v ->
            cfg_valid (set_hb_ms v (cfg (ctx w)))).
  { intros v Hu Hr. destruct Hv as ((_ & H2 & H3 & H4) & Hb & _ & Ho & Hs & Hd).
    unfold cfg_valid, cfg_wf, set_hb_ms.
    cbn [hb_ms burst_ms odr_hz stream_rate_hz].
    repeat split; try assumption; try apply Hu; try apply H2; try apply H3;
      try apply H4; try apply Hb. }
  unfold Parse_HB.
  destruct (is_some (strstr line (lit "OFF"))).
  { apply Hstore; [unfold is_u32, UINT32_MAX; lia|left; reflexivity]. }
  destruct (is_some (strstr line (lit "ON"))).
  { destruct (hb_ms (cfg (ctx w)) =? 0); [|exact Hv].
    apply Hstore; [unfold is_u32, UINT32_MAX; lia|right; lia]. }
  destruct (strstr line (lit "ms=")) as [p|]; [|exact Hv].
  destruct (api_parse_u32 (advance 3 p)) as [v|] eqn:Hp; [|exact Hv].
  apply api_parse_u32_range in Hp. unfold is_u32, UINT32_MAX in Hp.
  cbn [ctx Telemetry_SendACK COMM_Sendf set_tx set_ctx cfg set_cfg].
  apply Hstore.
  - unfold is_u32, UINT32_MAX.
    destruct ((0 <? v) && (v <? 100)); lia.
  - destruct (Z.ltb_spec 0 v); destruct (Z.ltb_spec v 100); cbn [andb]; lia.
Qed.

(** X19.  The configuration stays valid: from a valid one, whatever
    the line, SET_CFG (acknowledged, refused or stopped in
    [Error_Handler]) and HB leave a valid one, and SET_TRG and STOP
    do not touch it.  The configuration of [AppContext_Init] is
    valid. *)
Theorem runtime_cfg_stays_valid (line : cstring) (w : World) :
  cfg_valid (cfg (ctx w)) ->
  cfg_valid (cfg (ctx (outcome_world (Parse_SetCfg line w)))) /\
  cfg_valid (cfg (ctx (Parse_HB line w))) /\
  cfg (ctx (Parse_SetTrg line w)) = cfg (ctx w) /\
  cfg (ctx (handle_stop line w)) = cfg (ctx w) /\
  cfg_valid (cfg AppContext_Init).
Proof.
  intros Hv.
  split; [apply Parse_SetCfg_cfg; exact Hv|].
  split; [apply Parse_HB_cfg; exact Hv|].
  split; [|split].
  - unfold Parse_SetTrg.
    destruct (negb _); reflexivity.
  - unfold handle_stop. destruct (_ && _); reflexivity.
  - unfold cfg_valid, cfg_wf, is_u32, UINT32_MAX, supported_odr.
    cbn [AppContext_Init cfg hb_ms burst_ms odr_hz stream_rate_hz In].
    repeat split; lia.
Qed.

Lemma SetCfg_apply_done r w w' :
  SetCfg_apply r w = Done w' ->
  exists w2, w' = Telemetry_SendACK "SET_CFG" (Streaming_UpdateDivider w2) /\
             ctx w2 = set_cfg (SetCfg_result r) (ctx w).
Proof.
  unfold SetCfg_apply.
  set (w0 := set_ctx (set_cfg (SetCfg_result r) (ctx w)) w).
  destruct (negb (odr_hz (cfg (ctx w)) =? Sensor_SnapODR (req_odr_hz r))).
  - set (w1 := if Sensor_IsSampling w0 then Sensor_StopSampling w0 else w0).
    assert (Hw1 : ctx w1 = ctx w0)
      by (unfold w1; destruct (Sensor_IsSampling w0); reflexivity).
    set (w2 := snd (Sensor_SetODR (Sensor_SnapODR (req_odr_hz r)) w1)).
    assert (Hw2 : ctx w2 = ctx w0)
      by (unfold w2; rewrite Sensor_SetODR_ctx; exact Hw1).
    destruct (Sensor_ReconfigureTimer_cases (Sensor_SnapODR (req_odr_hz r)) w2)
      as [(w3 & -> & Hc3 & _)|(w3 & -> & _ & _)]; cbn [bind];
      [|discriminate].
    intros H. injection H as <-. eexists. split; [reflexivity|].
    rewrite Streaming_Reconfigure_ctx.
    destruct (Sensor_IsSampling w0); cbn [ctx Sensor_StartSampling set_sensor];
      rewrite Hc3, Hw2; reflexivity.
  - cbn [bind]. intros H. injection H as <-. exists w0. split; reflexivity.
Qed.

(** X20.  After an acknowledged SET_CFG the streaming divider agrees
    with the configuration stored: it is at least 1, it is 1 when
    streaming is off, and otherwise divider times streaming rate is
    exactly the sampling rate. *)
Theorem set_cfg_divider_matches_rates (line : cstring) (w w' : World) :
  cfg_wf (cfg (ctx w)) ->
  Parse_SetCfg line w = Done w' ->
  last (tx w') = Some (MSG_ACK "SET_CFG") ->
  let c := cfg (ctx w') in
  let div := g_stream_div (streaming w') in
  1 <= div /\
  (stream_rate_hz c = 0 -> div = 1) /\
  (0 < stream_rate_hz c -> div * stream_rate_hz c = odr_hz c).
Proof.
  intros Hwf Hdone Hack c div.
  destruct (SetCfg_request_range line _ Hwf) as (_ & Hb & Hh & Hs).
  pose proof (SetCfg_rejects_spec _ Hb Hh Hs) as Hspec.
  rewrite Parse_SetCfg_cases in Hdone.
  destruct (SetCfg_rejects (SetCfg_request line (cfg (ctx w)))) eqn:Hrej.
  { injection Hdone as <-.
    unfold Telemetry_SendNACK, COMM_Sendf in Hack. cbn [tx set_tx] in Hack.
    rewrite last_snoc in Hack. discriminate. }
  assert (Hval : SetCfg_valid (SetCfg_request line (cfg (ctx w))))
    by (apply Hspec; reflexivity).
  destruct (SetCfg_apply_done _ _ _ Hdone) as (w2 & -> & Hc2).
  destruct Hval as (_ & _ & Hle & Hdiv).
  pose proof (Sensor_SnapODR_supported
                (req_odr_hz (SetCfg_request line (cfg (ctx w))))) as Hin.
  apply supported_odr_u32 in Hin. unfold is_u32 in Hin, Hs.
  unfold div, c.
  cbn [streaming ctx Telemetry_SendACK COMM_Sendf set_tx Streaming_UpdateDivider
       set_streaming g_stream_div].
  rewrite Hc2. cbn [cfg set_cfg SetCfg_result stream_rate_hz odr_hz].
  set (rate := new_stream_rate (SetCfg_request line (cfg (ctx w)))) in *.
  set (odr := Sensor_SnapODR (req_odr_hz (SetCfg_request line (cfg (ctx w))))) in *.
  destruct (Z.ltb_spec 0 rate) as [Hpos|Hzero].
  - specialize (Hdiv ltac:(lia)).
    assert (Hq : odr = rate * (odr / rate))
      by (apply Z.div_exact; [lia|exact Hdiv]).
    assert (H1 : 1 <= odr / rate)
      by (apply Z.div_le_lower_bound; lia).
    destruct (Z.eqb_spec (odr / rate) 0) as [H0|_]; [lia|].
    repeat split; lia.
  - change (if 1 =? 0 then 1 else 1) with 1.
    repeat split; lia.
Qed.

(** The rate code depends on the rate the request snaps to, and on
    nothing else. *)
Lemma Sensor_SetODR_snapped odr w :
  Sensor_SetODR (Sensor_SnapODR odr) w = Sensor_SetODR odr w.
Proof.
  unfold Sensor_SetODR, Sensor_SnapODR.
  destruct (Z.leb_spec 3200 odr); [reflexivity|].
  destruct (Z.leb_spec 1600 odr); [reflexivity|].
  destruct (Z.leb_spec 800 odr); [reflexivity|].
  destruct (Z.leb_spec 400 odr); [reflexivity|].
  destruct (Z.leb_spec 200 odr); reflexivity.
Qed.

End OnBoard.

(** X27.  On a board whose sensor takes every write,
    [Sensor_SetODR] succeeds, sends nothing, and leaves in the
    BW_RATE register (0x2C) the ADXL345 code of the rate
    [Sensor_SnapODR] gives for the request: code 0x0A for 100 Hz
    and one more for each doubling, up to 0x0F for 3200 Hz; no other
    register changes. *)
Theorem Sensor_SetODR_code_matches_snap (odr : Z) (w : World (board := ideal_board)) :
  let ok := fst (Sensor_SetODR odr w) in
  let w' := snd (Sensor_SetODR odr w) in
  ok = true /\ tx w' = tx w /\ ctx w' = ctx w /\
  10 <= hal w' ACCEL_REG_BW_RATE <= 15 /\
  Sensor_SnapODR odr = 100 * 2 ^ (hal w' ACCEL_REG_BW_RATE - 10) /\
  (forall r, r <> ACCEL_REG_BW_RATE -> hal w' r = hal w r) /\
  Sensor_SetODR (Sensor_SnapODR odr) w = Sensor_SetODR odr w.
Proof.
  intros ok w'.
  assert (Hreg : forall r, r <> ACCEL_REG_BW_RATE ->
                 (ACCEL_REG_BW_RATE =? r) = false /\ (r =? ACCEL_REG_BW_RATE) = false).
  { intros r Hr. split; apply Z.eqb_neq; congruence. }
  unfold ok, w', Sensor_SetODR, Sensor_SnapODR.
  destruct (Z.leb_spec 3200 odr);
    [|destruct (Z.leb_spec 1600 odr);
      [|destruct (Z.leb_spec 800 odr);
        [|destruct (Z.leb_spec 400 odr);
          [|destruct (Z.leb_spec 200 odr)]]]].
  all: cbn -[Z.pow Z.mul]; repeat split; try reflexivity; try lia.
  all: try (intros r Hr; destruct (Hreg r Hr) as [Hra Hrb];
            first [rewrite Hrb | rewrite Hra]; reflexivity).
Qed.

Lemma runtime_cfg_stays_valid_witness :
  cfg_valid (cfg (ctx (outcome_world
     (Parse_SetCfg (board := ideal_board)
        (lit "SET_CFG,odr_hz=1600,stream_rate_hz=200") boot_world)))).
Proof.
  apply (runtime_cfg_stays_valid (board := ideal_board)
           (lit "SET_CFG,odr_hz=1600,stream_rate_hz=200") boot_world).
  unfold cfg_valid, cfg_wf, is_u32, UINT32_MAX, supported_odr.
  cbn [boot_world ctx AppContext_Init cfg hb_ms burst_ms odr_hz stream_rate_hz In].
  repeat split; lia.
Defined.

Lemma set_cfg_divider_matches_rates_witness :
  let w' := outcome_world
     (Parse_SetCfg (board := ideal_board)
        (lit "SET_CFG,odr_hz=1600,stream_rate_hz=200") boot_world) in
  1 <= g_stream_div (streaming w') /\
  (stream_rate_hz (cfg (ctx w')) = 0 -> g_stream_div (streaming w') = 1) /\
  (0 < stream_rate_hz (cfg (ctx w')) ->
   g_stream_div (streaming w') * stream_rate_hz (cfg (ctx w'))
   = odr_hz (cfg (ctx w'))).
Proof.
  apply (set_cfg_divider_matches_rates (board := ideal_board)
           (lit "SET_CFG,odr_hz=1600,stream_rate_hz=200") boot_world).
  - unfold cfg_wf, is_u32, UINT32_MAX.
    cbn [boot_world ctx AppContext_Init cfg hb_ms burst_ms odr_hz stream_rate_hz].
    lia.
  - vm_compute. reflexivity.
  - vm_compute. reflexivity.
Defined.

Example set_cfg_divider_example :
  let w' := outcome_world
     (Parse_SetCfg (board := ideal_board)
        (lit "SET_CFG,odr_hz=1600,stream_rate_hz=200") boot_world) in
  (odr_hz (cfg (ctx w')), stream_rate_hz (cfg (ctx w')),
   g_stream_div (streaming w')) = (1600, 200, 8).
Proof. vm_compute. reflexivity. Qed.

End CfgFacts.

(** ** cmd_handler.c: how a line finds its command *)

Module DispatchFacts.
Import Sensor Fw ApiParseFacts CmdFacts.

(** The characters [cmd_exact] accepts after a command name: the
    end of the line, a space, a comma. *)
Definition is_delim (c : ascii) : bool :=
  (code c =? 0) || (code c =? 32) || (code c =? 44).

(** The first word of a line: the characters before the first
    delimiter. *)
Fixpoint command_word (s : cstring) : cstring :=
  match s with
  | [] => []
  | c :: s' => if is_delim c then [] else c :: command_word s'
  end.

(** The lines [BM_HandleHostLine] looks at. *)
Definition is_host_line (line : cstring) : bool :=
  starts_with (lit "ACK_BLK") line || starts_with (lit "NACK_BLK") line
  || starts_with (lit "ACK_COMPLETE") line.

Definition no_delim (v : string) : bool :=
  forallb (fun c => negb (is_delim c)) (lit v).

(** The names [process_command] tests for, in its order. *)
Definition command_names : list string :=
  ["HELLO"; "GET_STATUS"; "GET_CFG"; "SET_CFG"; "HB"; "TIME_SYNC";
   "STREAM_START"; "STREAM_STOP"; "GET_TRG"; "SET_TRG"; "MODE"; "CAL_READY";
   "ARM"; "START_BURST_WEIGHT"; "START_BURST_DAMPING"; "GET_PREVIEW"; "STOP";
   "GET_DIAG"; "REBOOT"; "ZERO"; "_TEST_FORCE_TRIGGER"; "ADXL_ST";
   "DIAG_HW_TEST"]%string.

(** The commands whose branch is in [other_command]. *)
Definition verb_names : list (string * Verb) :=
  [("HELLO", V_HELLO); ("GET_STATUS", V_GET_STATUS); ("GET_CFG", V_GET_CFG);
   ("TIME_SYNC", V_TIME_SYNC); ("STREAM_START", V_STREAM_START);
   ("STREAM_STOP", V_STREAM_STOP); ("GET_TRG", V_GET_TRG); ("MODE", V_MODE);
   ("CAL_READY", V_CAL_READY); ("ARM", V_ARM);
   ("START_BURST_WEIGHT", V_START_BURST_WEIGHT);
   ("START_BURST_DAMPING", V_START_BURST_DAMPING);
   ("GET_PREVIEW", V_GET_PREVIEW); ("GET_DIAG", V_GET_DIAG);
   ("REBOOT", V_REBOOT); ("ZERO", V_ZERO);
   ("_TEST_FORCE_TRIGGER", V_TEST_FORCE_TRIGGER); ("ADXL_ST", V_ADXL_ST);
   ("DIAG_HW_TEST", V_DIAG_HW_TEST)]%string.

Lemma lit_length (v : string) : length (lit v) = String.length v.
Proof. induction v as [|c v IH]; simpl; [reflexivity|]. rewrite IH. reflexivity. Qed.

Lemma prefix_is_word (pfx : list ascii) : forall line,
  forallb (fun c => negb (is_delim c)) pfx = true ->
  (starts_with pfx line && is_delim (peek (advance (length pfx) line)) = true
   <-> command_word line = pfx).
Proof.
  induction pfx as [|p pfx IH]; intros line Hp.
  - cbn [starts_with length andb]. unfold advance. rewrite drop_0.
    destruct line as [|c line]; cbn [peek command_word].
    + split; reflexivity.
    + destruct (is_delim c); split; congruence.
  - cbn [forallb] in Hp. apply andb_true_iff in Hp as [Hp0 Hp1].
    apply negb_true_iff in Hp0.
    destruct line as [|c line]; cbn [starts_with command_word].
    + split; discriminate.
    + cbn [length]. unfold advance. cbn [drop]. fold (advance (length pfx) line).
      destruct (Ascii.eqb_spec p c) as [<-|Hne].
      * rewrite Hp0. cbn [andb]. rewrite (IH line Hp1). split; congruence.
      * cbn [andb]. split; [discriminate|].
        destruct (is_delim c); congruence.
Qed.

Section Dispatch.
Context {board : Board} {handlers : Handlers}.

(** The end of [process_command] after a branch has run. *)
Definition finish (o : Outcome) : Outcome :=
  bind o (fun w => Done (set_processing false w)).

Lemma cmd_exact_word line v :
  no_delim v = true -> (cmd_exact line v = true <-> command_word line = lit v).
Proof.
  intros Hv. unfold cmd_exact. rewrite <- lit_length.
  exact (prefix_is_word (lit v) line Hv).
Qed.

Lemma cmd_exact_other line v :
  no_delim v = true -> command_word line <> lit v -> cmd_exact line v = false.
Proof.
  intros Hv Hne. destruct (cmd_exact line v) eqn:E; [|reflexivity].
  apply (cmd_exact_word line v Hv) in E. contradiction.
Qed.

Lemma cmd_exact_same line v :
  no_delim v = true -> command_word line = lit v -> cmd_exact line v = true.
Proof. intros Hv H. apply (cmd_exact_word line v Hv). exact H. Qed.

Ltac by_word H :=
  unfold dispatch;
  repeat match goal with
    | |- context [cmd_exact ?l ?v] =>
        first [ rewrite (cmd_exact_same l v eq_refl H)
              | rewrite (cmd_exact_other l v eq_refl)
                  by (rewrite H; discriminate) ]
    end.

Lemma dispatch_unknown line w :
  (forall name, In name command_names -> command_word line <> lit name) ->
  dispatch line w = Done (Telemetry_SendNACK "UNKNOWN" "unknown_command" 100 w).
Proof.
  intros Hnone. unfold dispatch.
  repeat match goal with
    | |- context [cmd_exact ?l ?v] =>
        rewrite (cmd_exact_other l v eq_refl)
          by (apply Hnone; unfold command_names; cbn [In];
              repeat (first [left; reflexivity | right]))
    end.
  reflexivity.
Qed.

Lemma dispatch_by_word (line : cstring) (w : World) :
  (forall name V, In (name, V) verb_names -> command_word line = lit name ->
                  dispatch line w = other_command V line w) /\
  (command_word line = lit "SET_CFG" -> dispatch line w = Parse_SetCfg line w) /\
  (command_word line = lit "HB" -> dispatch line w = Done (Parse_HB line w)) /\
  (command_word line = lit "SET_TRG" ->
   dispatch line w = Done (Parse_SetTrg line w)) /\
  (command_word line = lit "STOP" -> dispatch line w = Done (handle_stop line w)).
Proof.
  split; [|split; [|split; [|split]]].
  - intros name V Hin. unfold verb_names in Hin. cbn [In] in Hin.
    repeat (destruct Hin as [Hin|Hin];
            [injection Hin as <- <-; intros H; by_word H; reflexivity|]).
    contradiction.
  - intros H. by_word H. reflexivity.
  - intros H. by_word H. reflexivity.
  - intros H. by_word H. reflexivity.
  - intros H. by_word H. reflexivity.
Qed.

Lemma command_word_app (pfx rest : cstring) :
  forallb (fun c => negb (is_delim c)) pfx = true ->
  command_word (pfx ++ rest) = pfx ++ command_word rest.
Proof.
  induction pfx as [|c pfx IH]; intros Hp; [reflexivity|].
  cbn [forallb] in Hp. apply andb_true_iff in Hp as [Hc Hp].
  apply negb_true_iff in Hc. cbn [app command_word]. rewrite Hc.
  rewrite (IH Hp). reflexivity.
Qed.

(** A line whose first word is a command name is none of the lines
    of the block transport. *)
Lemma command_is_no_host_line (line : cstring) (name : string) :
  In name command_names -> command_word line = lit name ->
  is_host_line line = false.
Proof.
  intros Hin Hw. unfold is_host_line.
  assert (Hno : forall v, no_delim v = true ->
            (forall x, lit v ++ x <> lit name) ->
            starts_with (lit v) line = false).
  { intros v Hv Hne. destruct (starts_with (lit v) line) eqn:E; [|reflexivity].
    apply starts_with_split in E as [rest ->].
    rewrite (command_word_app (lit v) rest Hv) in Hw.
    exfalso. exact (Hne _ Hw). }
  unfold command_names in Hin. cbn [In] in Hin.
  repeat (destruct Hin as [<-|Hin];
          [rewrite !Hno by (first [reflexivity | intros x; discriminate]);
           reflexivity|]).
  contradiction.
Qed.

Lemma process_command_host (line : cstring) (w : World) :
  code (peek line) <> 0 ->
  is_host_line (skip_spaces line) = true ->
  process_command line w =
    (let '(handled, w') :=
       host_line_hook (skip_spaces line) (set_processing true w) in
     if handled then Done (set_processing false w')
     else Done (set_processing false
                  (Telemetry_SendNACK "UNKNOWN" "unknown_command" 100 w'))).
Proof.
  intros Hpeek Hhost. apply Z.eqb_neq in Hpeek.
  unfold process_command. rewrite Hpeek.
  unfold BM_HandleHostLine. unfold is_host_line in Hhost. rewrite Hhost.
  destruct (host_line_hook (skip_spaces line) (set_processing true w))
    as [[|] w'] eqn:E; [reflexivity|].
  rewrite dispatch_unknown; [reflexivity|].
  intros name Hin Hw.
  pose proof (command_is_no_host_line _ name Hin Hw) as Hf.
  unfold is_host_line in Hf. congruence.
Qed.

Lemma process_command_dispatch (line : cstring) (w : World) :
  code (peek line) <> 0 ->
  is_host_line (skip_spaces line) = false ->
  process_command line w =
    finish (dispatch (skip_spaces line) (set_processing true w)).
Proof.
  intros Hpeek Hhost. apply Z.eqb_neq in Hpeek.
  unfold process_command. rewrite Hpeek.
  unfold BM_HandleHostLine. unfold is_host_line in Hhost. rewrite Hhost.
  reflexivity.
Qed.

(** X21.  [process_command], on a line that is not empty, with the
    leading spaces stepped over: a line that begins with ACK_BLK,
    NACK_BLK or ACK_COMPLETE goes to [BM_HandleHostLine] first, and
    if that takes it nothing more is done (no reply from the
    dispatcher), while if it does not the line is answered
    NACK,SUBJECT=UNKNOWN,reason=unknown_command,code=100; every
    other line is dispatched by its first word alone (the
    characters before the first space, comma or end of line): each
    of the 23 command names selects its own branch, whatever the
    order of the tests, and any other first word is answered
    NACK,SUBJECT=UNKNOWN,reason=unknown_command,code=100. *)
Theorem process_command_by_command_word (line : cstring) (w : World) :
  code (peek line) <> 0 ->
  let l := skip_spaces line in
  let w1 := set_processing true w in
  (forall name V, In (name, V) verb_names -> command_word l = lit name ->
                  process_command line w = finish (other_command V l w1)) /\
  (command_word l = lit "SET_CFG" ->
   process_command line w = finish (Parse_SetCfg l w1)) /\
  (command_word l = lit "HB" ->
   process_command line w = finish (Done (Parse_HB l w1))) /\
  (command_word l = lit "SET_TRG" ->
   process_command line w = finish (Done (Parse_SetTrg l w1))) /\
  (command_word l = lit "STOP" ->
   process_command line w = finish (Done (handle_stop l w1))) /\
  (is_host_line l = false ->
   (forall name, In name command_names -> command_word l <> lit name) ->
   process_command line w =
     Done (set_processing false
             (Telemetry_SendNACK "UNKNOWN" "unknown_command" 100 w1))) /\
  (is_host_line l = true ->
   process_command line w =
     (let '(handled, w2) := host_line_hook l w1 in
      if handled then Done (set_processing false w2)
      else Done (set_processing false
                   (Telemetry_SendNACK "UNKNOWN" "unknown_command" 100 w2)))).
Proof.
  intros Hpeek l w1.
  destruct (dispatch_by_word l w1) as (Hverb & Hcfg & Hhb & Htrg & Hstop).
  assert (Hname : forall name, In name command_names ->
            command_word l = lit name ->
            process_command line w = finish (dispatch l w1)).
  { intros name Hin Hw. apply process_command_dispatch; [exact Hpeek|].
    exact (command_is_no_host_line l name Hin Hw). }
  repeat split.
  - intros name V Hin Hw. rewrite <- (Hverb name V Hin Hw).
    apply (Hname name); [|exact Hw].
    unfold verb_names in Hin. unfold command_names. cbn [In] in Hin |- *.
    repeat (destruct Hin as [Hin|Hin];
            [injection Hin as <- _; tauto|]).
    contradiction.
  - intros Hw. rewrite <- (Hcfg Hw).
    apply (Hname "SET_CFG"%string); [unfold command_names; cbn [In]; tauto|exact Hw].
  - intros Hw. rewrite <- (Hhb Hw).
    apply (Hname "HB"%string); [unfold command_names; cbn [In]; tauto|exact Hw].
  - intros Hw. rewrite <- (Htrg Hw).
    apply (Hname "SET_TRG"%string); [unfold command_names; cbn [In]; tauto|exact Hw].
  - intros Hw. rewrite <- (Hstop Hw).
    apply (Hname "STOP"%string); [unfold command_names; cbn [In]; tauto|exact Hw].
  - intros Hhost Hnone.
    rewrite (process_command_dispatch line w Hpeek Hhost).
    fold l w1. rewrite (dispatch_unknown l w1 Hnone). reflexivity.
  - intros Hhost. exact (process_command_host line w Hpeek Hhost).
Qed.

Lemma skip_spaces_repeat n line :
  skip_spaces (repeat " "%char n ++ line) = skip_spaces line.
Proof. induction n as [|n IH]; [reflexivity|]. cbn. exact IH. Qed.

(** X22.  Leading spaces do not matter to [process_command]: a
    line that is not empty is handled as if the spaces before it
    were not there.  The empty line is dropped without a reply, but
    a line of spaces only is answered
    NACK,SUBJECT=UNKNOWN,reason=unknown_command,code=100. *)
Theorem process_command_leading_spaces (n : nat) (line : cstring) (w : World) :
  (code (peek line) <> 0 ->
   process_command (repeat " "%char n ++ line) w = process_command line w) /\
  process_command [] w = Done (set_processing false (set_processing true w)) /\
  process_command (repeat " "%char (S n)) w =
    Done (set_processing false
            (Telemetry_SendNACK "UNKNOWN" "unknown_command" 100
               (set_processing true w))).
Proof.
  split; [|split].
  - intros Hpeek. unfold process_command.
    rewrite skip_spaces_repeat.
    apply Z.eqb_neq in Hpeek. rewrite Hpeek.
    destruct n as [|n].
    + cbn [repeat app]. rewrite Hpeek. reflexivity.
    + cbn [repeat app peek]. reflexivity.
  - reflexivity.
  - unfold process_command. cbn [repeat app peek].
    change (code " "%char =? 0) with false. cbv iota.
    replace (" "%char :: repeat " "%char n)
      with (repeat " "%char (S n) ++ []) by (rewrite app_nil_r; reflexivity).
    rewrite skip_spaces_repeat. cbn [skip_spaces].
    rewrite hook_skips_commands by reflexivity.
    rewrite dispatch_unknown; [reflexivity|].
    intros name Hin. unfold command_names in Hin. cbn [In] in Hin.
    repeat (destruct Hin as [<-|Hin]; [discriminate|]). contradiction.
Qed.

End Dispatch.

(** Handlers whose block transport takes every line it is shown. *)
Definition taking_handlers : Handlers := {|
  other_command := @other_command _ idle_handlers;
  host_line_hook := fun _ w => (true, w)
|}.

Lemma process_command_by_command_word_witness :
  process_command (handlers := idle_handlers) (lit " SET_CFG,odr_hz=200") boot_world
  = finish (Parse_SetCfg (lit "SET_CFG,odr_hz=200")
              (set_processing true boot_world)) /\
  process_command (handlers := idle_handlers) (lit "SET_CFGX,odr_hz=200") boot_world
  = Done (set_processing false
            (Telemetry_SendNACK "UNKNOWN" "unknown_command" 100
               (set_processing true boot_world))) /\
  process_command (handlers := taking_handlers) (lit "ACK_BLK,blk=0") boot_world
  = Done (set_processing false (set_processing true boot_world)) /\
  process_command (handlers := idle_handlers) (lit "ACK_BLK,blk=0") boot_world
  = Done (set_processing false
            (Telemetry_SendNACK "UNKNOWN" "unknown_command" 100
               (set_processing true boot_world))).
Proof.
  split; [|split; [|split]].
  - apply (proj1 (proj2 (process_command_by_command_word
                           (handlers := idle_handlers)
                           (lit " SET_CFG,odr_hz=200") boot_world
                           ltac:(discriminate)))).
    reflexivity.
  - apply (proj1 (proj2 (proj2 (proj2 (proj2 (proj2
             (process_command_by_command_word (handlers := idle_handlers)
                (lit "SET_CFGX,odr_hz=200") boot_world
                ltac:(discriminate)))))))).
    + reflexivity.
    + intros name Hin. unfold command_names in Hin. cbn [In] in Hin.
      repeat (destruct Hin as [<-|Hin]; [discriminate|]). contradiction.
  - apply (proj2 (proj2 (proj2 (proj2 (proj2 (proj2
             (process_command_by_command_word (handlers := taking_handlers)
                (lit "ACK_BLK,blk=0") boot_world
                ltac:(discriminate)))))))).
    reflexivity.
  - apply (proj2 (proj2 (proj2 (proj2 (proj2 (proj2
             (process_command_by_command_word (handlers := idle_handlers)
                (lit "ACK_BLK,blk=0") boot_world
                ltac:(discriminate)))))))).
    reflexivity.
Defined.

Lemma process_command_leading_spaces_witness :
  process_command (handlers := idle_handlers)
    (repeat " "%char 2 ++ lit "STOP") boot_world
  = process_command (handlers := idle_handlers) (lit "STOP") boot_world.
Proof.
  apply (proj1 (process_command_leading_spaces (handlers := idle_handlers)
                  2 (lit "STOP") boot_world)).
  discriminate.
Defined.

End DispatchFacts.

(** ** countdown.c *)

Module CountdownFacts.
Import Countdown.

(** The lines that announce [j] steps below [c]: c-1, c-2, ... *)
Definition ids_below (c : Z) (j : nat) : list CdMsg :=
  map (fun i => COUNTDOWN_ID (c - 1 - Z.of_nat i)) (seq 0 j).

(** Every tick comes at least a second after the one that counted
    before it. *)
Fixpoint all_due (last : Z) (nows : list Z) : Prop :=
  match nows with
  | [] => True
  | now :: nows' =>
      1000 <= wrap32 (wrap32 now - last) /\ all_due (wrap32 now) nows'
  end.

Lemma ids_below_S c j :
  ids_below c (S j) = COUNTDOWN_ID (c - 1) :: ids_below (c - 1) j.
Proof.
  unfold ids_below. cbn [seq map]. rewrite Z.sub_0_r. f_equal.
  rewrite <- seq_shift, map_map. apply map_ext. intros i. f_equal. lia.
Qed.

Lemma ticks_inactive nows : forall g,
  active g = false -> ticks nows g = (g, []).
Proof.
  induction nows as [|now nows IH]; intros g Hg; [reflexivity|].
  cbn [ticks]. unfold Countdown_Tick. rewrite Hg. cbn [negb].
  rewrite (IH g Hg). reflexivity.
Qed.

Lemma wrap8_step s : 1 < s <= 255 -> wrap8 (s - 1) = s - 1.
Proof. intros H. unfold wrap8. apply Z.mod_small. lia. Qed.

Lemma ticks_count_down nows : forall g,
  active g = true -> 1 <= step g <= 255 ->
  exists j : nat,
    Z.of_nat j <= step g - 1 /\
    snd (ticks nows g) = ids_below (step g) j /\
    step (fst (ticks nows g)) = step g - Z.of_nat j /\
    (active (fst (ticks nows g)) = false -> Z.of_nat j = step g - 1).
Proof.
  induction nows as [|now nows IH]; intros g Hact Hstep.
  - exists O. cbn [ticks fst snd]. repeat split; try lia; try reflexivity.
    rewrite Hact. discriminate.
  - cbn [ticks]. unfold Countdown_Tick. rewrite Hact. cbn [negb].
    destruct (1000 <=? wrap32 (wrap32 now - last_ms g)).
    + destruct (Z.ltb_spec 1 (step g)) as [Hgt|Hle].
      * rewrite wrap8_step by lia.
        set (g1 := {| active := true; step := step g - 1; last_ms := wrap32 now |}).
        destruct (IH g1 eq_refl ltac:(cbn; lia)) as (j & Hj & Hout & Hs & Hend).
        destruct (ticks nows g1) as [g2 out2]. cbn [fst snd] in *.
        exists (S j). unfold g1 in Hj, Hs, Hend, Hout.
        cbn [step] in Hj, Hs, Hend, Hout.
        rewrite ids_below_S. split; [lia|]. split; [|split].
        -- cbn [app]. rewrite Hout. reflexivity.
        -- lia.
        -- intros H. specialize (Hend H). lia.
      * rewrite ticks_inactive by reflexivity. cbn [fst snd step app].
        exists O. repeat split; try lia; reflexivity.
    + destruct (IH g Hact Hstep) as (j & Hj & Hout & Hs & Hend).
      destruct (ticks nows g) as [g2 out2]. cbn [fst snd app] in *.
      exists j. repeat split; assumption.
Qed.

Lemma ticks_all_due nows : forall g,
  active g = true -> 1 <= step g <= 255 -> all_due (last_ms g) nows ->
  snd (ticks nows g)
  = ids_below (step g) (Nat.min (length nows) (Z.to_nat (step g - 1))) /\
  active (fst (ticks nows g)) = (Z.of_nat (length nows) <? step g).
Proof.
  induction nows as [|now nows IH]; intros g Hact Hstep Hdue.
  - cbn [ticks fst snd length Nat.min]. split; [reflexivity|].
    rewrite Hact. symmetry. apply Z.ltb_lt. cbn. lia.
  - destruct Hdue as [Hnow Hrest].
    cbn [ticks]. unfold Countdown_Tick. rewrite Hact. cbn [negb].
    replace (1000 <=? wrap32 (wrap32 now - last_ms g)) with true
      by (symmetry; apply Z.leb_le; exact Hnow).
    destruct (Z.ltb_spec 1 (step g)) as [Hgt|Hle].
    + rewrite wrap8_step by lia.
      set (g1 := {| active := true; step := step g - 1; last_ms := wrap32 now |}).
      destruct (IH g1 eq_refl ltac:(cbn; lia) Hrest) as (Hout & Ha).
      destruct (ticks nows g1) as [g2 out2]. unfold g1 in Hout, Ha.
      cbn [fst snd step] in *.
      split.
      * cbn [app length]. rewrite Hout.
        replace (Z.to_nat (step g - 1)) with (S (Z.to_nat (step g - 1 - 1)))
          by lia.
        cbn [Nat.min]. rewrite ids_below_S. reflexivity.
      * rewrite Ha. cbn [length].
        destruct (Z.ltb_spec (Z.of_nat (length nows)) (step g - 1));
          destruct (Z.ltb_spec (Z.of_nat (S (length nows))) (step g));
          try reflexivity; lia.
    + rewrite ticks_inactive by reflexivity. cbn [fst snd app active length].
      replace (Z.to_nat (step g - 1)) with O by lia.
      rewrite Nat.min_0_r. split; [reflexivity|].
      symmetry. apply Z.ltb_ge. lia.
Qed.

(** X23.  A countdown started for [seconds] counts from c, the
    seconds kept within 5 and 10: it announces c at once, and the
    ticks after it announce c-1, c-2, ... in this order and nothing
    else, never 0; it is over only after 1 was announced.  When the
    ticks come a second or more apart every one of them counts: k
    ticks announce down to max(1, c-k), and the countdown is active
    exactly while k < c. *)
Theorem countdown_counts_down (seconds t0 : Z) (g_cd : cd_ctx_t) (nows : list Z) :
  let c := step (fst (Countdown_Start seconds t0 g_cd)) in
  let g := fst (ticks nows (fst (Countdown_Start seconds t0 g_cd))) in
  let out := snd (ticks nows (fst (Countdown_Start seconds t0 g_cd))) in
  5 <= c <= 10 /\
  (0 <= seconds <= 255 -> c = Z.max 5 (Z.min 10 seconds)) /\
  snd (Countdown_Start seconds t0 g_cd) = [COUNTDOWN_ID c] /\
  (exists j : nat, Z.of_nat j <= c - 1 /\ out = ids_below c j /\
                   (active g = false -> Z.of_nat j = c - 1)) /\
  (all_due (wrap32 t0) nows ->
   out = ids_below c (Nat.min (length nows) (Z.to_nat (c - 1))) /\
   active g = (Z.of_nat (length nows) <? c)).
Proof.
  intros c g out.
  assert (Hc : 5 <= c <= 10).
  { unfold c, Countdown_Start. cbn [fst step].
    destruct (Z.ltb_spec (wrap8 seconds) 5).
    - cbn. lia.
    - destruct (Z.ltb_spec 10 (wrap8 seconds)); lia. }
  split; [exact Hc|]. split; [|split; [|split]].
  - intros Hs. unfold c, Countdown_Start. cbn [fst step].
    unfold wrap8. rewrite Z.mod_small by lia.
    destruct (Z.ltb_spec seconds 5).
    + cbn. lia.
    + destruct (Z.ltb_spec 10 seconds); lia.
  - reflexivity.
  - destruct (ticks_count_down nows (fst (Countdown_Start seconds t0 g_cd))
                eq_refl ltac:(fold c; lia)) as (j & Hj & Hout & _ & Hend).
    exists j. split; [exact Hj|]. split; [exact Hout|exact Hend].
  - intros Hdue.
    apply (ticks_all_due nows (fst (Countdown_Start seconds t0 g_cd)) eq_refl);
      [fold c; lia|exact Hdue].
Qed.

Lemma countdown_counts_down_witness :
  let g0 := fst (Countdown_Start 3 100 Countdown_Init) in
  snd (ticks [1100; 2100; 3500] g0)
  = ids_below (step g0) (Nat.min 3 (Z.to_nat (step g0 - 1))) /\
  active (fst (ticks [1100; 2100; 3500] g0)) = (3 <? step g0).
Proof.
  apply (countdown_counts_down 3 100 Countdown_Init [1100; 2100; 3500]).
  vm_compute. repeat split; discriminate.
Defined.

Example countdown_run :
  let g0 := fst (Countdown_Start 3 100 Countdown_Init) in
  (snd (Countdown_Start 3 100 Countdown_Init),
   snd (ticks [1100; 1500; 2100; 3500; 5000] g0),
   active (fst (ticks [1100; 1500; 2100; 3500; 5000] g0)))
  = ([COUNTDOWN_ID 5],
     [COUNTDOWN_ID 4; COUNTDOWN_ID 3; COUNTDOWN_ID 2; COUNTDOWN_ID 1], true).
Proof. vm_compute. reflexivity. Qed.

End CountdownFacts.

(** ** blocks_cfg.c *)

Module BlocksCfgFacts.
Import BlocksCfg.

Lemma wrap16_range z : 0 <= wrap16 z < 65536.
Proof. unfold wrap16. apply Z.mod_pos_bound. lia. Qed.

Lemma wrap8_range z : 0 <= wrap8 z < 256.
Proof. unfold wrap8. apply Z.mod_pos_bound. lia. Qed.

Lemma wrap16_fits z : 0 <= z < 65536 -> wrap16 z = z.
Proof. intros H. unfold wrap16. apply Z.mod_small. lia. Qed.

Lemma wrap8_fits z : 0 <= z < 256 -> wrap8 z = z.
Proof. intros H. unfold wrap8. apply Z.mod_small. lia. Qed.

(** X24.  [BlocksCfg_Set] never refuses: it returns 1 for every
    argument, after bringing the window into 1..8, the lines per
    block into 32..512 and the retries to at least 1; values already
    in range are kept.  The transport gets exactly the values
    stored, and nothing else of it changes.  [BlocksCfg_Init] does
    the same. *)
Theorem BlocksCfg_Set_clamps (w l r : Z) (tb : TB.State) :
  let ret := fst (fst (BlocksCfg_Set w l r tb)) in
  let bc := snd (fst (BlocksCfg_Set w l r tb)) in
  let tb' := snd (BlocksCfg_Set w l r tb) in
  ret = 1 /\
  1 <= window bc <= 8 /\ 32 <= lines bc <= 512 /\ 1 <= retries bc <= 255 /\
  (1 <= w <= 8 -> window bc = w) /\
  (32 <= l <= 512 -> lines bc = l) /\
  (1 <= r <= 255 -> retries bc = r) /\
  TB.window tb' = window bc /\ TB.blk_lines tb' = lines bc /\
  TB.max_retries tb' = retries bc /\
  TB.set_params (TB.window tb) (TB.blk_lines tb) (TB.max_retries tb) tb' = tb /\
  BlocksCfg_Init w l r tb = (bc, tb').
Proof.
  intros ret bc tb'.
  assert (Hw : 1 <= window bc <= 8).
  { unfold bc, BlocksCfg_Set. cbn [fst snd window].
    pose proof (wrap16_range w).
    destruct (Z.ltb_spec (wrap16 w) 1); [lia|].
    destruct (Z.ltb_spec 8 (wrap16 w)); lia. }
  assert (Hl : 32 <= lines bc <= 512).
  { unfold bc, BlocksCfg_Set. cbn [fst snd lines].
    pose proof (wrap16_range l).
    destruct (Z.ltb_spec (wrap16 l) 32); [lia|].
    destruct (Z.ltb_spec 512 (wrap16 l)); lia. }
  assert (Hr : 1 <= retries bc <= 255).
  { unfold bc, BlocksCfg_Set. cbn [fst snd retries].
    pose proof (wrap8_range r).
    destruct (Z.ltb_spec (wrap8 r) 1); lia. }
  assert (Htb : tb' = TB.TB_SetMaxRetries (retries bc)
                        (TB.TB_SetBlockLines (lines bc)
                           (TB.TB_SetWindow (window bc) tb))) by reflexivity.
  assert (Hset : tb' = TB.set_params (window bc) (lines bc) (retries bc) tb).
  { rewrite Htb. unfold TB.TB_SetMaxRetries, TB.TB_SetBlockLines, TB.TB_SetWindow.
    rewrite (wrap16_fits (window bc)) by lia.
    rewrite (wrap16_fits (lines bc)) by lia.
    rewrite (wrap8_fits (retries bc)) by lia.
    destruct (Z.eqb_spec (window bc) 0); [lia|].
    destruct (Z.eqb_spec (lines bc) 0); [lia|].
    destruct (Z.eqb_spec (retries bc) 0); [lia|].
    reflexivity. }
  split; [reflexivity|]. split; [exact Hw|]. split; [exact Hl|].
  split; [exact Hr|].
  split; [|split; [|split]].
  - intros H. unfold bc, BlocksCfg_Set. cbn [fst snd window].
    rewrite wrap16_fits by lia.
    destruct (Z.ltb_spec w 1); [lia|]. destruct (Z.ltb_spec 8 w); [lia|reflexivity].
  - intros H. unfold bc, BlocksCfg_Set. cbn [fst snd lines].
    rewrite wrap16_fits by lia.
    destruct (Z.ltb_spec l 32); [lia|].
    destruct (Z.ltb_spec 512 l); [lia|reflexivity].
  - intros H. unfold bc, BlocksCfg_Set. cbn [fst snd retries].
    rewrite wrap8_fits by lia.
    destruct (Z.ltb_spec r 1); [lia|reflexivity].
  - split; [|split; [|split; [|split]]].
    + rewrite Hset. reflexivity.
    + rewrite Hset. reflexivity.
    + rewrite Hset. reflexivity.
    + rewrite Hset. destruct tb; reflexivity.
    + reflexivity.
Qed.

Lemma BlocksCfg_Set_clamps_witness :
  window (snd (fst (BlocksCfg_Set 4 128 3 TB.tb_zero))) = 4 /\
  lines (snd (fst (BlocksCfg_Set 4 128 3 TB.tb_zero))) = 128 /\
  retries (snd (fst (BlocksCfg_Set 4 128 3 TB.tb_zero))) = 3.
Proof.
  pose proof (BlocksCfg_Set_clamps 4 128 3 TB.tb_zero)
    as (_ & _ & _ & _ & Hw & Hl & Hr & _).
  split; [apply Hw; lia|]. split; [apply Hl; lia|apply Hr; lia].
Defined.

Example BlocksCfg_Set_out_of_range :
  fst (BlocksCfg_Set 0 1000 0 TB.tb_zero)
  = (1, {| window := 1; lines := 512; retries := 1 |}).
Proof. vm_compute. reflexivity. Qed.

End BlocksCfgFacts.

(** ** burst_mgr.c: a burst cut into blocks *)

Module BurstFacts.
Import Burst.

Lemma full_blocks (k : nat) :
  concat (map (fun b => seq (128 * b) 128) (seq 0 k)) = seq 0 (128 * k).
Proof.
  induction k as [|k IH]; [reflexivity|].
  rewrite seq_S, map_app, concat_app, IH. cbn [map concat plus].
  rewrite app_nil_r. replace (128 * S k)%nat with (128 * k + 128)%nat by lia.
  rewrite seq_app. reflexivity.
Qed.

Lemma total_blocks_ceil samples :
  0 <= samples <= 8000 -> total_blocks samples = (samples + 127) / 128.
Proof.
  intros H. unfold total_blocks, BM_CTX_MAX_BLOCKS, SAMPLES_PER_BURST,
    PROTO_BLOCK_LINES_DEFAULT, wrap32, wrap16.
  change (2 ^ 32) with 4294967296. change (2 ^ 16) with 65536.
  replace (samples + 128 - 1) with (samples + 127) by lia.
  rewrite (Z.mod_small (samples + 127)) by lia.
  assert (Hq : 0 <= (samples + 127) / 128 <= 63).
  { split; [apply Z.div_pos; lia|].
    assert ((samples + 127) / 128 < 64)
      by (apply Z.div_lt_upper_bound; lia).
    lia. }
  rewrite Z.mod_small by lia.
  change ((8000 + 128 - 1) / 128) with 63.
  destruct (Z.ltb_spec 63 ((samples + 127) / 128)); lia.
Qed.

Lemma lines_in_block_full b samples :
  0 <= samples <= 8000 -> 0 <= b < total_blocks samples - 1 ->
  lines_in_block b (total_blocks samples) samples = 128.
Proof.
  intros Hs Hb. unfold lines_in_block.
  destruct (Z.eqb_spec b (total_blocks samples - 1)); [lia|]. reflexivity.
Qed.

Lemma lines_in_block_last samples :
  0 < samples <= 8000 ->
  lines_in_block (total_blocks samples - 1) (total_blocks samples) samples
  = samples - 128 * (total_blocks samples - 1) /\
  1 <= samples - 128 * (total_blocks samples - 1) <= 128.
Proof.
  intros Hs. unfold lines_in_block. rewrite Z.eqb_refl.
  rewrite total_blocks_ceil by lia.
  set (t := (samples + 127) / 128).
  assert (Ht : 128 * t <= samples + 127 < 128 * t + 128).
  { unfold t. pose proof (Z.div_mod (samples + 127) 128 ltac:(lia)).
    pose proof (Z.mod_pos_bound (samples + 127) 128 ltac:(lia)). lia. }
  unfold PROTO_BLOCK_LINES_DEFAULT, wrap32, wrap16.
  change (2 ^ 32) with 4294967296. change (2 ^ 16) with 65536.
  rewrite (Z.mod_small ((t - 1) * 128)) by lia.
  rewrite (Z.mod_small (samples - (t - 1) * 128)) by lia.
  rewrite Z.mod_small by lia. lia.
Qed.

Lemma gen_ctx_base_small b : 0 <= b < 63 -> gen_ctx_base b = 128 * b.
Proof.
  intros H. unfold gen_ctx_base, PROTO_BLOCK_LINES_DEFAULT, wrap32, wrap16.
  change (2 ^ 32) with 4294967296. change (2 ^ 16) with 65536.
  rewrite (Z.mod_small (b * 128)) by lia. rewrite Z.mod_small by lia. lia.
Qed.

Section Lines.
Variable render : Z -> list Byte.byte.

(** The line sample [i] is sent as, unless it is too long for the
    buffer of the transport. *)
Definition sample_line (i : nat) : list Byte.byte :=
  if 256 <=? Z.of_nat (length (render (Z.of_nat i))) then []
  else render (Z.of_nat i).

Lemma block_lines_range b n samples total :
  0 <= b < 63 -> (n <= 128)%nat -> 128 * b + Z.of_nat n <= 8000 ->
  lines_in_block b total samples = Z.of_nat n ->
  block_lines (block_generator render b total samples)
  = map sample_line (seq (128 * Z.to_nat b) n).
Proof.
  intros Hb Hn Hfit Hlines. unfold block_lines, block_generator.
  cbn [TB.bg_gen TB.bg_lines]. rewrite Hlines, Nat2Z.id.
  rewrite gen_ctx_base_small by lia.
  replace (seq (128 * Z.to_nat b) n)
    with (map (fun i => (128 * Z.to_nat b + i)%nat) (seq 0 n)).
  2:{ clear. generalize (128 * Z.to_nat b)%nat as m. intros m.
      induction n as [|n IH]; [reflexivity|].
      rewrite seq_S, map_app, IH, seq_S. cbn [map]. reflexivity. }
  rewrite map_map. apply map_ext_in. intros i Hi. apply in_seq in Hi.
  unfold GenDataLine, sample_line, SAMPLES_PER_BURST, PROTO_MAX_LINE, wrap16.
  change (2 ^ 16) with 65536.
  rewrite Z.mod_small by lia.
  destruct (Z.leb_spec 8000 (128 * b + Z.of_nat i)); [lia|].
  replace (Z.of_nat (128 * Z.to_nat b + i)) with (128 * b + Z.of_nat i) by lia.
  reflexivity.
Qed.

(** X25.  A burst of up to 8000 samples is cut into
    ceil(samples / 128) blocks of 1 to 128 lines each, and the
    lines of the blocks, taken in the order of the blocks, are the
    lines of the samples 0, 1, ..., samples-1: each sample is sent
    in exactly one block, in order. *)
Theorem burst_blocks_cover_samples (samples : Z) :
  0 <= samples <= 8000 ->
  let total := total_blocks samples in
  total = (samples + 127) / 128 /\
  (forall b, 0 <= b < total -> 1 <= lines_in_block b total samples <= 128) /\
  concat (map (fun b => block_lines
                          (block_generator render (Z.of_nat b) total samples))
              (seq 0 (Z.to_nat total)))
  = map sample_line (seq 0 (Z.to_nat samples)).
Proof.
  intros Hs total.
  pose proof (total_blocks_ceil samples Hs) as Ht. fold total in Ht.
  split; [exact Ht|].
  assert (Hq : 128 * total <= samples + 127 < 128 * total + 128).
  { rewrite Ht. pose proof (Z.div_mod (samples + 127) 128 ltac:(lia)).
    pose proof (Z.mod_pos_bound (samples + 127) 128 ltac:(lia)). lia. }
  split.
  - intros b Hb. destruct (Z.eq_dec b (total - 1)) as [->|Hne].
    + destruct (lines_in_block_last samples ltac:(lia)) as [Hlast Hr].
      fold total in Hlast, Hr. rewrite Hlast. exact Hr.
    + pose proof (lines_in_block_full b samples Hs) as Hfull.
      fold total in Hfull. rewrite Hfull by lia. lia.
  - destruct (Z.eq_dec samples 0) as [->|Hpos].
    { reflexivity. }
    assert (Htot : Z.to_nat total = S (Z.to_nat (total - 1))) by lia.
    rewrite Htot, seq_S, map_app, concat_app. cbn [map concat plus].
    rewrite app_nil_r.
    destruct (lines_in_block_last samples ltac:(lia)) as [Hlast Hr].
    fold total in Hlast, Hr.
    rewrite (block_lines_range (Z.of_nat (Z.to_nat (total - 1)))
               (Z.to_nat (samples - 128 * (total - 1))) samples total);
      try lia.
    2:{ rewrite Z2Nat.id by lia. rewrite Hlast. lia. }
    replace (map (fun b => block_lines
                             (block_generator render (Z.of_nat b) total samples))
                 (seq 0 (Z.to_nat (total - 1))))
      with (map (fun b => map sample_line (seq (128 * b) 128))
                (seq 0 (Z.to_nat (total - 1)))).
    2:{ apply map_ext_in. intros b Hb. apply in_seq in Hb.
        rewrite (block_lines_range (Z.of_nat b) 128 samples total); try lia.
        - rewrite Nat2Z.id. reflexivity.
        - pose proof (lines_in_block_full (Z.of_nat b) samples Hs) as Hfull.
          fold total in Hfull. rewrite Hfull by lia. reflexivity. }
    rewrite <- (map_map (fun b => seq (128 * b) 128) (map sample_line)).
    rewrite <- concat_map, full_blocks, <- map_app. f_equal.
    rewrite Nat2Z.id.
    replace (Z.to_nat samples)
      with (128 * Z.to_nat (total - 1)
            + Z.to_nat (samples - 128 * (total - 1)))%nat by lia.
    rewrite seq_app. reflexivity.
Qed.

End Lines.

Lemma burst_blocks_cover_samples_witness :
  let render := fun i : Z => [Byte.x44; Byte.x0d; Byte.x0a] in
  concat (map (fun b => block_lines
                          (block_generator render (Z.of_nat b)
                             (total_blocks 300) 300))
              (seq 0 (Z.to_nat (total_blocks 300))))
  = map (sample_line render) (seq 0 (Z.to_nat 300)).
Proof.
  apply (burst_blocks_cover_samples
           (fun i : Z => [Byte.x44; Byte.x0d; Byte.x0a]) 300).
  lia.
Defined.

Example burst_of_300 :
  (total_blocks 300,
   map (fun b => lines_in_block b (total_blocks 300) 300) [0; 1; 2])
  = (3, [128; 128; 44]).
Proof. vm_compute. reflexivity. Qed.

End BurstFacts.

(** ** streaming.c: the LIVE lines *)

Module LiveFacts.
Import Fw Live CmdFacts.

Section OnBoard.
Context {board : Board}.

Definition pend (l : LiveWorld) : Z := if g_live_ready l then 1 else 0.

Definition is_sample (op : LiveOp) : bool :=
  match op with OpSample _ _ => true | OpPump _ => false end.

(** The samples delivered by [ops]. *)
Definition samples_in (ops : list LiveOp) : Z :=
  Z.of_nat (length (List.filter is_sample ops)).

(** While streaming, after [m] samples: the lines sent since the
    start are numbered from 0, the next number is kept for the
    sample in the buffer or for the next one, and [m] is made of
    the samples offered ([d] apart) and those counted since the
    last one. *)
Definition live_inv (d drops0 : Z) (base : list LiveLine) (l : LiveWorld) (m : Z)
  : Prop :=
  exists (new : list LiveLine) (dropped : Z),
    let st := streaming (fw l) in
    g_stream_enabled st = true /\ g_stream_div st = d /\
    live_tx l = base ++ new /\
    map live_seq new = map Z.of_nat (seq 0 (length new)) /\
    g_stream_seq st = Z.of_nat (length new) + pend l /\
    (g_live_ready l = true -> buf_seq (g_live_buf l) = Z.of_nat (length new)) /\
    live_drops (diag (ctx (fw l))) = drops0 + dropped /\ 0 <= dropped /\
    0 <= g_stream_decim st < d /\
    m = (Z.of_nat (length new) + pend l + dropped) * d + g_stream_decim st.

Lemma wrap32_fits z : 0 <= z < 4294967296 -> wrap32 z = z.
Proof. intros H. unfold wrap32. apply Z.mod_small. exact H. Qed.

Lemma live_inv_pump d drops0 base l m tx_free :
  live_inv d drops0 base l m ->
  live_inv d drops0 base (Streaming_Pump tx_free l) m.
Proof.
  intros (new & dropped & Hen & Hdiv & Htx & Hseq & Hnext & Hbuf & Hdr & Hdp
          & Hdec & Hm).
  cbv zeta in *. unfold Streaming_Pump.
  destruct (g_live_ready l) eqn:Hr; cbn [negb].
  2:{ exists new, dropped. unfold pend. rewrite Hr. unfold pend in Hnext, Hm.
      rewrite Hr in Hnext, Hm. repeat split; try assumption; try lia. }
  rewrite Hen. cbn [negb].
  destruct (128 <? tx_free).
  2:{ exists new, dropped. unfold pend. rewrite Hr. unfold pend in Hnext, Hm.
      rewrite Hr in Hnext, Hm. repeat split; try assumption; try lia. }
  unfold pend in Hnext, Hm. rewrite Hr in Hnext, Hm. specialize (Hbuf eq_refl).
  exists (new ++ [{| live_seq := buf_seq (g_live_buf l);
                     live_ax := buf_x (g_live_buf l);
                     live_ay := buf_y (g_live_buf l);
                     live_az := buf_z (g_live_buf l);
                     live_ts_us := buf_ts_us (g_live_buf l) |}]), dropped.
  unfold pend. cbn [fw g_live_ready live_tx g_live_buf].
  rewrite length_app. cbn [length].
  split; [exact Hen|]. split; [exact Hdiv|].
  split; [rewrite Htx, app_assoc; reflexivity|].
  split.
  { rewrite map_app. cbn [map live_seq].
    replace (length new + 1)%nat with (S (length new)) by lia.
    rewrite seq_S, map_app, Hseq, Hbuf. reflexivity. }
  split; [lia|]. split; [discriminate|].
  split; [exact Hdr|]. split; [exact Hdp|]. split; [exact Hdec|]. lia.
Qed.

Lemma live_inv_sample d drops0 base l m clk tx_free s :
  1 <= d < 4294967296 -> 0 <= drops0 -> drops0 + m + 1 < 4294967296 ->
  live_inv d drops0 base l m ->
  live_inv d drops0 base (Streaming_ProcessSampleFromISR clk tx_free s l) (m + 1).
Proof.
  intros Hd Hd0 Hbound (new & dropped & Hen & Hdiv & Htx & Hseq & Hnext & Hbuf
                        & Hdr & Hdp & Hdec & Hm).
  cbv zeta in *. unfold Streaming_ProcessSampleFromISR.
  rewrite Hen. cbn [negb]. rewrite Hdiv.
  rewrite (wrap32_fits (g_stream_decim (streaming (fw l)) + 1)) by lia.
  assert (Hp : 0 <= pend l <= 1) by (unfold pend; destruct (g_live_ready l); lia).
  assert (Hq : Z.of_nat (length new) + pend l + dropped <= m) by nia.
  destruct (Z.leb_spec d (g_stream_decim (streaming (fw l)) + 1)) as [Hfull|Hless].
  - destruct (g_live_ready l) eqn:Hr; cbn [negb andb].
    + (* the buffer is taken: a drop *)
      exists new, (dropped + 1). unfold pend in *.
      cbn [fw set_fw g_live_ready live_tx g_live_buf streaming set_streaming
           set_stream ctx set_ctx diag set_diag live_drops
           g_stream_enabled g_stream_div g_stream_seq g_stream_decim].
      rewrite Hr in *. rewrite Hdr. rewrite wrap32_fits by lia.
      repeat split; try assumption; try lia.
    + destruct (128 <? tx_free).
      * (* handed over *)
        exists new, dropped. unfold pend in *.
        cbn [fw set_fw g_live_ready live_tx g_live_buf streaming set_streaming
             set_stream ctx set_ctx diag set_diag live_drops buf_seq
             g_stream_enabled g_stream_div g_stream_seq g_stream_decim].
        rewrite Hr in *. rewrite wrap32_fits by lia.
        repeat split; try assumption; try lia.
      * exists new, (dropped + 1). unfold pend in *.
        cbn [fw set_fw g_live_ready live_tx g_live_buf streaming set_streaming
             set_stream ctx set_ctx diag set_diag live_drops
             g_stream_enabled g_stream_div g_stream_seq g_stream_decim].
        rewrite Hr in *. rewrite Hdr. rewrite wrap32_fits by lia.
        repeat split; try assumption; try lia.
  - exists new, dropped. unfold pend in *.
    cbn [fw set_fw g_live_ready live_tx g_live_buf streaming set_streaming
         set_stream ctx set_ctx diag set_diag live_drops
         g_stream_enabled g_stream_div g_stream_seq g_stream_decim].
    repeat split; try assumption; try lia.
Qed.

Lemma samples_in_cons op ops :
  samples_in (op :: ops) = (if is_sample op then 1 else 0) + samples_in ops.
Proof.
  unfold samples_in. cbn [List.filter]. destruct (is_sample op); cbn [length]; lia.
Qed.

Lemma samples_in_range ops : 0 <= samples_in ops <= Z.of_nat (length ops).
Proof.
  induction ops as [|op ops IH]; [unfold samples_in; cbn; lia|].
  rewrite samples_in_cons. cbn [length]. destruct (is_sample op); lia.
Qed.

Lemma live_inv_run d drops0 base clk ops : forall l m,
  1 <= d < 4294967296 -> 0 <= drops0 -> 0 <= m ->
  drops0 + m + Z.of_nat (length ops) < 4294967296 ->
  live_inv d drops0 base l m ->
  live_inv d drops0 base (live_run clk ops l) (m + samples_in ops).
Proof.
  induction ops as [|op ops IH]; intros l m Hd Hd0 Hm Hbound Hinv.
  - unfold samples_in. cbn. rewrite Z.add_0_r. exact Hinv.
  - rewrite samples_in_cons. cbn [live_run fold_left length] in *.
    fold (live_run clk ops (live_step clk l op)).
    destruct op as [tx_free s|tx_free]; cbn [is_sample live_step].
    + rewrite Z.add_assoc. apply IH; try assumption; try lia.
      apply live_inv_sample; try assumption; lia.
    + rewrite Z.add_0_l. apply IH; try assumption; try lia.
      apply live_inv_pump. exact Hinv.
Qed.

Lemma Streaming_Start_inv l :
  g_live_ready l = false -> cfg_wf (cfg (ctx (fw l))) ->
  let l0 := Streaming_Start l in
  1 <= g_stream_div (streaming (fw l0)) < 4294967296 /\
  live_inv (g_stream_div (streaming (fw l0))) (live_drops (diag (ctx (fw l))))
           (live_tx l) l0 0.
Proof.
  intros Hr (_ & _ & Ho & Hs) l0. unfold is_u32, UINT32_MAX in Ho, Hs.
  assert (Hdiv : g_stream_div (streaming (fw l0))
                 = let c := cfg (ctx (fw l)) in
                   let dv := if 0 <? stream_rate_hz c
                             then odr_hz c / stream_rate_hz c else 1 in
                   if dv =? 0 then 1 else dv).
  { unfold l0, Streaming_Start, Streaming_UpdateDivider.
    cbn [fw set_fw streaming set_streaming ctx set_ctx cfg].
    destruct (OpMode_eqb (op_mode (ctx (fw l))) OP_MODE_IDLE); reflexivity. }
  assert (Hd : 1 <= g_stream_div (streaming (fw l0)) < 4294967296).
  { rewrite Hdiv. cbv zeta.
    destruct (Z.ltb_spec 0 (stream_rate_hz (cfg (ctx (fw l))))) as [Hpos|_].
    - assert (0 <= odr_hz (cfg (ctx (fw l))) / stream_rate_hz (cfg (ctx (fw l)))
              <= odr_hz (cfg (ctx (fw l)))).
      { split; [apply Z.div_pos; lia|].
        apply Z.div_le_upper_bound; [lia|]. nia. }
      destruct (Z.eqb_spec (odr_hz (cfg (ctx (fw l)))
                            / stream_rate_hz (cfg (ctx (fw l)))) 0); lia.
    - cbn. lia. }
  split; [exact Hd|].
  rewrite Hdiv in Hd. cbv zeta in Hd. clear Hdiv.
  exists [], 0. cbv zeta. unfold pend.
  assert (Hl0 : g_live_ready l0 = false) by exact Hr.
  rewrite Hl0.
  unfold l0, Streaming_Start.
  destruct (OpMode_eqb (op_mode (ctx (fw l))) OP_MODE_IDLE) eqn:Hidle.
  - cbn [fw set_fw streaming set_streaming ctx set_ctx cfg Streaming_UpdateDivider
         Sensor_StartSampling set_sensor set_stream diag set_diag live_drops
         set_is_dumping op_mode g_stream_enabled g_stream_div g_stream_seq
         g_stream_decim live_tx]. rewrite Hidle.
    cbn [fw set_fw streaming set_streaming ctx set_ctx cfg Streaming_UpdateDivider
         Sensor_StartSampling set_sensor set_stream diag set_diag live_drops
         set_is_dumping op_mode g_stream_enabled g_stream_div g_stream_seq
         g_stream_decim live_tx length map seq].
    rewrite app_nil_r.
    repeat split; try reflexivity; try lia; try discriminate.
  - cbn [fw set_fw streaming set_streaming ctx set_ctx cfg Streaming_UpdateDivider
         Sensor_StartSampling set_sensor set_stream diag set_diag live_drops
         set_is_dumping op_mode g_stream_enabled g_stream_div g_stream_seq
         g_stream_decim live_tx]. rewrite Hidle.
    cbn [fw set_fw streaming set_streaming ctx set_ctx cfg Streaming_UpdateDivider
         Sensor_StartSampling set_sensor set_stream diag set_diag live_drops
         set_is_dumping op_mode g_stream_enabled g_stream_div g_stream_seq
         g_stream_decim live_tx length map seq].
    rewrite app_nil_r.
    repeat split; try reflexivity; try lia; try discriminate.
Qed.

(** The line [Streaming_Pump] sends for the sample in the buffer. *)
Definition line_of (b : live_buf_t) : LiveLine :=
  {| live_seq := buf_seq b; live_ax := buf_x b; live_ay := buf_y b;
     live_az := buf_z b; live_ts_us := buf_ts_us b |}.

(** The line still owed to an earlier streaming session. *)
Definition old_line (l : LiveWorld) : list LiveLine :=
  if g_live_ready l then [line_of (g_live_buf l)] else [].

(** While the sample of an earlier session still waits in the buffer
    nothing is sent and every sample offered is counted as dropped. *)
Definition stale_inv (d drops0 : Z) (base : list LiveLine) (buf0 : live_buf_t)
  (l : LiveWorld) (m : Z) : Prop :=
  exists dropped : Z,
    let st := streaming (fw l) in
    g_stream_enabled st = true /\ g_stream_div st = d /\
    live_tx l = base /\ g_live_ready l = true /\ g_live_buf l = buf0 /\
    g_stream_seq st = 0 /\
    live_drops (diag (ctx (fw l))) = drops0 + dropped /\ 0 <= dropped /\
    0 <= g_stream_decim st < d /\
    m = dropped * d + g_stream_decim st.

Lemma stale_inv_pump d drops0 base buf0 l m tx_free :
  stale_inv d drops0 base buf0 l m ->
  stale_inv d drops0 base buf0 (Streaming_Pump tx_free l) m \/
  live_inv d drops0 (base ++ [line_of buf0]) (Streaming_Pump tx_free l) m.
Proof.
  intros (dropped & Hen & Hdiv & Htx & Hr & Hbuf & Hseq & Hdr & Hdp & Hdec & Hm).
  cbv zeta in *. unfold Streaming_Pump. rewrite Hr, Hen. cbn [negb].
  destruct (128 <? tx_free).
  - right. exists [], dropped. cbv zeta. unfold pend.
    cbn [fw g_live_ready live_tx g_live_buf length map seq].
    rewrite Htx, Hbuf, app_nil_r.
    repeat split; try assumption; try reflexivity; try discriminate; try lia.
  - left. exists dropped. cbv zeta.
    repeat split; try assumption; try lia.
Qed.

Lemma stale_inv_sample d drops0 base buf0 l m clk tx_free s :
  1 <= d < 4294967296 -> 0 <= drops0 -> drops0 + m + 1 < 4294967296 ->
  stale_inv d drops0 base buf0 l m ->
  stale_inv d drops0 base buf0 (Streaming_ProcessSampleFromISR clk tx_free s l)
            (m + 1).
Proof.
  intros Hd Hd0 Hbound
         (dropped & Hen & Hdiv & Htx & Hr & Hbuf & Hseq & Hdr & Hdp & Hdec & Hm).
  cbv zeta in *. unfold Streaming_ProcessSampleFromISR.
  rewrite Hen. cbn [negb]. rewrite Hdiv.
  rewrite (wrap32_fits (g_stream_decim (streaming (fw l)) + 1)) by lia.
  assert (Hq : dropped <= m) by nia.
  destruct (Z.leb_spec d (g_stream_decim (streaming (fw l)) + 1)) as [Hfull|Hless].
  - rewrite Hr. cbn [negb andb].
    exists (dropped + 1).
    cbn [fw set_fw g_live_ready live_tx g_live_buf streaming set_streaming
         set_stream ctx set_ctx diag set_diag live_drops
         g_stream_enabled g_stream_div g_stream_seq g_stream_decim].
    rewrite Hdr. rewrite wrap32_fits by lia.
    repeat split; try assumption; try lia.
  - exists dropped.
    cbn [fw set_fw g_live_ready live_tx g_live_buf streaming set_streaming
         set_stream ctx set_ctx diag set_diag live_drops
         g_stream_enabled g_stream_div g_stream_seq g_stream_decim].
    repeat split; try assumption; try lia.
Qed.

Lemma stale_inv_run d drops0 base buf0 clk ops : forall l m,
  1 <= d < 4294967296 -> 0 <= drops0 -> 0 <= m ->
  drops0 + m + Z.of_nat (length ops) < 4294967296 ->
  stale_inv d drops0 base buf0 l m ->
  stale_inv d drops0 base buf0 (live_run clk ops l) (m + samples_in ops) \/
  live_inv d drops0 (base ++ [line_of buf0]) (live_run clk ops l)
           (m + samples_in ops).
Proof.
  induction ops as [|op ops IH]; intros l m Hd Hd0 Hm Hbound Hinv.
  - unfold samples_in. cbn. rewrite Z.add_0_r. left. exact Hinv.
  - rewrite samples_in_cons. cbn [live_run fold_left length] in *.
    fold (live_run clk ops (live_step clk l op)).
    destruct op as [tx_free s|tx_free]; cbn [is_sample live_step].
    + rewrite Z.add_assoc. apply IH; try assumption; try lia.
      apply stale_inv_sample; try assumption; lia.
    + rewrite Z.add_0_l.
      destruct (stale_inv_pump d drops0 base buf0 l m tx_free Hinv) as [Hs|Hl].
      * apply IH; try assumption; lia.
      * right. apply live_inv_run; try assumption; lia.
Qed.

Lemma Streaming_Start_stale l :
  g_live_ready l = true -> cfg_wf (cfg (ctx (fw l))) ->
  let l0 := Streaming_Start l in
  1 <= g_stream_div (streaming (fw l0)) < 4294967296 /\
  stale_inv (g_stream_div (streaming (fw l0))) (live_drops (diag (ctx (fw l))))
            (live_tx l) (g_live_buf l) l0 0.
Proof.
  intros Hr (_ & _ & Ho & Hs) l0. unfold is_u32, UINT32_MAX in Ho, Hs.
  assert (Hdiv : g_stream_div (streaming (fw l0))
                 = let c := cfg (ctx (fw l)) in
                   let dv := if 0 <? stream_rate_hz c
                             then odr_hz c / stream_rate_hz c else 1 in
                   if dv =? 0 then 1 else dv).
  { unfold l0, Streaming_Start, Streaming_UpdateDivider.
    cbn [fw set_fw streaming set_streaming ctx set_ctx cfg].
    destruct (OpMode_eqb (op_mode (ctx (fw l))) OP_MODE_IDLE); reflexivity. }
  assert (Hd : 1 <= g_stream_div (streaming (fw l0)) < 4294967296).
  { rewrite Hdiv. cbv zeta.
    destruct (Z.ltb_spec 0 (stream_rate_hz (cfg (ctx (fw l))))) as [Hpos|_].
    - assert (0 <= odr_hz (cfg (ctx (fw l))) / stream_rate_hz (cfg (ctx (fw l)))
              <= odr_hz (cfg (ctx (fw l)))).
      { split; [apply Z.div_pos; lia|].
        apply Z.div_le_upper_bound; [lia|]. nia. }
      destruct (Z.eqb_spec (odr_hz (cfg (ctx (fw l)))
                            / stream_rate_hz (cfg (ctx (fw l)))) 0); lia.
    - cbn. lia. }
  split; [exact Hd|].
  rewrite Hdiv in Hd. cbv zeta in Hd. clear Hdiv.
  exists 0. cbv zeta.
  assert (Hl0 : g_live_ready l0 = true) by exact Hr.
  assert (Hb0 : g_live_buf l0 = g_live_buf l) by reflexivity.
  rewrite Hl0, Hb0.
  unfold l0, Streaming_Start.
  destruct (OpMode_eqb (op_mode (ctx (fw l))) OP_MODE_IDLE) eqn:Hidle.
  - cbn [fw set_fw streaming set_streaming ctx set_ctx cfg Streaming_UpdateDivider
         Sensor_StartSampling set_sensor set_stream diag set_diag live_drops
         set_is_dumping op_mode g_stream_enabled g_stream_div g_stream_seq
         g_stream_decim live_tx]. rewrite Hidle.
    cbn [fw set_fw streaming set_streaming ctx set_ctx cfg Streaming_UpdateDivider
         Sensor_StartSampling set_sensor set_stream diag set_diag live_drops
         set_is_dumping op_mode g_stream_enabled g_stream_div g_stream_seq
         g_stream_decim live_tx length map seq].
    repeat split; try reflexivity; try lia; try discriminate.
  - cbn [fw set_fw streaming set_streaming ctx set_ctx cfg Streaming_UpdateDivider
         Sensor_StartSampling set_sensor set_stream diag set_diag live_drops
         set_is_dumping op_mode g_stream_enabled g_stream_div g_stream_seq
         g_stream_decim live_tx]. rewrite Hidle.
    cbn [fw set_fw streaming set_streaming ctx set_ctx cfg Streaming_UpdateDivider
         Sensor_StartSampling set_sensor set_stream diag set_diag live_drops
         set_is_dumping op_mode g_stream_enabled g_stream_div g_stream_seq
         g_stream_decim live_tx length map seq].
    repeat split; try reflexivity; try lia; try discriminate.
Qed.

(** X26.  The LIVE lines after [Streaming_Start], however samples
    and pumps alternate and whatever room the transmit ring has.
    [Streaming_Start] does not clear the hand-over buffer: a sample
    that waits there from an earlier session ([g_live_ready] set) is
    sent first, with the number it was given then, and as long as
    it waits ([stale]) nothing is sent and no new sample is taken.
    The lines of the new session are numbered 0, 1, 2, ... without
    a gap or a repeat.  Of the samples delivered since
    [Streaming_Start] every d-th one is offered, d the streaming
    divider, and each sample offered is either sent, waiting in the
    buffer, or counted in [live_drops]. *)
Theorem live_lines_numbered (clk : TimerClock) (ops : list LiveOp) (l : LiveWorld) :
  cfg_wf (cfg (ctx (fw l))) ->
  0 <= live_drops (diag (ctx (fw l))) ->
  live_drops (diag (ctx (fw l))) + Z.of_nat (length ops) < 4294967296 ->
  let l0 := Streaming_Start l in
  let l' := live_run clk ops l0 in
  let d := g_stream_div (streaming (fw l0)) in
  exists (new : list LiveLine) (stale : bool),
    (stale = true ->
     g_live_ready l = true /\ g_live_ready l' = true /\
     g_live_buf l' = g_live_buf l /\ new = [] /\ live_tx l' = live_tx l) /\
    (stale = false -> live_tx l' = live_tx l ++ old_line l ++ new) /\
    map live_seq new = map Z.of_nat (seq 0 (length new)) /\
    Z.of_nat (length new) + (if stale then 0 else pend l')
    + (live_drops (diag (ctx (fw l'))) - live_drops (diag (ctx (fw l))))
    = samples_in ops / d /\
    g_stream_decim (streaming (fw l')) = samples_in ops mod d.
Proof.
  intros Hwf Hd0 Hbound l0 l' d.
  assert (Hfin : forall base,
            live_inv d (live_drops (diag (ctx (fw l)))) base l' (samples_in ops) ->
            exists new,
              live_tx l' = base ++ new /\
              map live_seq new = map Z.of_nat (seq 0 (length new)) /\
              Z.of_nat (length new) + pend l'
              + (live_drops (diag (ctx (fw l')))
                 - live_drops (diag (ctx (fw l))))
              = samples_in ops / d /\
              g_stream_decim (streaming (fw l')) = samples_in ops mod d).
  { intros base (new & dropped & _ & _ & Htx & Hseq & _ & _ & Hdr & Hdp
                 & Hdec & Hm).
    cbv zeta in *.
    exists new. split; [exact Htx|]. split; [exact Hseq|].
    rewrite Hdr.
    split.
    - replace (Z.of_nat (length new) + pend l'
               + (live_drops (diag (ctx (fw l))) + dropped
                  - live_drops (diag (ctx (fw l)))))
        with (Z.of_nat (length new) + pend l' + dropped) by lia.
      apply (Z.div_unique_pos _ _ _ (g_stream_decim (streaming (fw l'))));
        [exact Hdec|]. rewrite Hm. lia.
    - apply (Z.mod_unique_pos _ _ (Z.of_nat (length new) + pend l' + dropped));
        [exact Hdec|]. rewrite Hm. lia. }
  destruct (g_live_ready l) eqn:Hr.
  - destruct (Streaming_Start_stale l Hr Hwf) as [Hd Hinv0].
    fold l0 in Hd, Hinv0. fold d in Hd, Hinv0.
    destruct (stale_inv_run d _ _ _ clk ops l0 0 Hd Hd0 ltac:(lia) ltac:(lia)
                Hinv0) as [Hs|Hl];
      fold l' in Hs || fold l' in Hl.
    + rewrite Z.add_0_l in Hs.
      destruct Hs as (dropped & _ & _ & Htx & Hr' & Hbuf & _ & Hdr & Hdp
                      & Hdec & Hm).
      cbv zeta in *.
      exists [], true. cbn [length map seq].
      split; [intros _; repeat split; assumption|].
      split; [discriminate|]. split; [reflexivity|].
      rewrite Hdr. split.
      * replace (Z.of_nat 0 + 0
                 + (live_drops (diag (ctx (fw l))) + dropped
                    - live_drops (diag (ctx (fw l)))))
          with dropped by lia.
        apply (Z.div_unique_pos _ _ _ (g_stream_decim (streaming (fw l'))));
          [exact Hdec|]. rewrite Hm. lia.
      * apply (Z.mod_unique_pos _ _ dropped); [exact Hdec|]. rewrite Hm. lia.
    + rewrite Z.add_0_l in Hl.
      destruct (Hfin _ Hl) as (new & Htx & Hseq & Hcount & Hdecim).
      exists new, false.
      split; [discriminate|].
      split; [intros _; unfold old_line; rewrite Hr, Htx, <- app_assoc;
              reflexivity|].
      repeat split; assumption.
  - destruct (Streaming_Start_inv l Hr Hwf) as [Hd Hinv0].
    fold l0 in Hd, Hinv0. fold d in Hd, Hinv0.
    pose proof (live_inv_run d _ _ clk ops l0 0 Hd Hd0 ltac:(lia) ltac:(lia) Hinv0)
      as Hinv.
    fold l' in Hinv. rewrite Z.add_0_l in Hinv.
    destruct (Hfin _ Hinv) as (new & Htx & Hseq & Hcount & Hdecim).
    exists new, false.
    split; [discriminate|].
    split; [intros _; unfold old_line; rewrite Hr; exact Htx|].
    repeat split; assumption.
Qed.

End OnBoard.

(** Streaming at a fifth of the sampling rate, the host slow to
    read. *)
Definition live_boot : LiveWorld (board := ideal_board) :=
  {| fw := with_modes OP_MODE_IDLE TRG_STATE_IDLE
             (outcome_world
                (Parse_SetCfg (lit "SET_CFG,odr_hz=100,stream_rate_hz=50")
                              boot_world));
     g_live_ready := false;
     g_live_buf := {| buf_seq := 0; buf_x := 0; buf_y := 0; buf_z := 0;
                      buf_ts_us := 0 |};
     live_tx := [] |}.

Definition mhz_clock : TimerClock :=
  {| pclk1 := 45000000; ppre1_is_div1 := false; tim2_prescaler := 89 |}.

Definition live_ops : list LiveOp :=
  let s v t := {| x := v; y := 0; z := 0; timestamp := t |} in
  [OpSample 4095 (s 1 10); OpSample 4095 (s 2 20); OpPump 4095;
   OpSample 4095 (s 3 30); OpSample 100 (s 4 40);
   OpSample 4095 (s 5 50); OpSample 4095 (s 6 60); OpPump 100; OpPump 4095;
   OpSample 4095 (s 7 70)].

Example live_run_example :
  let l' := live_run mhz_clock live_ops (Streaming_Start live_boot) in
  (map (fun ln => (live_seq ln, live_ax ln, live_ts_us ln)) (live_tx l'),
   live_drops (diag (ctx (fw l'))), g_stream_decim (streaming (fw l')))
  = ([(0, 2, 20); (1, 6, 60)], 1, 1).
Proof. vm_compute. reflexivity. Qed.

(** A second STREAM_START while a sample waits in the buffer. *)
Definition live_again : LiveWorld (board := ideal_board) :=
  live_run mhz_clock [OpSample 4095 {| x := 9; y := 0; z := 0; timestamp := 5 |};
                      OpSample 4095 {| x := 8; y := 0; z := 0; timestamp := 6 |};
                      OpPump 4095;
                      OpSample 4095 {| x := 7; y := 0; z := 0; timestamp := 7 |};
                      OpSample 4095 {| x := 6; y := 0; z := 0; timestamp := 8 |}]
           (Streaming_Start live_boot).

Example live_again_example :
  let l' := live_run mhz_clock live_ops (Streaming_Start live_again) in
  g_live_ready live_again = true /\
  map (fun ln => (live_seq ln, live_ax ln, live_ts_us ln)) (live_tx l')
  = [(0, 8, 6); (1, 6, 8); (0, 6, 60)].
Proof. vm_compute. split; reflexivity. Qed.

Lemma live_lines_numbered_witness :
  let l' := live_run mhz_clock live_ops (Streaming_Start live_again) in
  exists (new : list LiveLine) (stale : bool),
    (stale = true ->
     g_live_ready live_again = true /\ g_live_ready l' = true /\
     g_live_buf l' = g_live_buf live_again /\ new = [] /\
     live_tx l' = live_tx live_again) /\
    (stale = false -> live_tx l' = live_tx live_again ++ old_line live_again ++ new) /\
    map live_seq new = map Z.of_nat (seq 0 (length new)) /\
    Z.of_nat (length new) + (if stale then 0 else pend l')
    + (live_drops (diag (ctx (fw l')))
       - live_drops (diag (ctx (fw live_again))))
    = samples_in live_ops
      / g_stream_div (streaming (fw (Streaming_Start live_again))) /\
    g_stream_decim (streaming (fw l'))
    = samples_in live_ops
      mod g_stream_div (streaming (fw (Streaming_Start live_again))).
Proof.
  apply (live_lines_numbered (board := ideal_board) mhz_clock live_ops live_again).
  - vm_compute. intuition discriminate.
  - vm_compute. discriminate.
  - vm_compute. reflexivity.
Defined.

End LiveFacts.

(** ** sensor_hal.c: timestamps *)

Module TicksFacts.
Import Live.

(** The tick rate of TIM2 as [Sensor_TicksToUs] works it out. *)
Definition tim2_tick_hz (clk : TimerClock) : Z :=
  (if negb (ppre1_is_div1 clk) then wrap32 (pclk1 clk * 2) else pclk1 clk)
  / wrap32 (tim2_prescaler clk + 1).

Lemma ticks_to_us_min clk ticks :
  0 <= ticks -> 0 < tim2_tick_hz clk ->
  Sensor_TicksToUs clk ticks
  = Z.min 4294967295 (ticks * 1000000 / tim2_tick_hz clk).
Proof.
  intros Ht Hhz. unfold Sensor_TicksToUs. fold (tim2_tick_hz clk).
  destruct (Z.eqb_spec (tim2_tick_hz clk) 0); [lia|].
  assert (0 <= ticks * 1000000 / tim2_tick_hz clk) by (apply Z.div_pos; lia).
  destruct (Z.ltb_spec 4294967295 (ticks * 1000000 / tim2_tick_hz clk)).
  - rewrite Z.min_l by lia. reflexivity.
  - rewrite Z.min_r by lia. unfold wrap32. apply Z.mod_small.
    change (2 ^ 32) with 4294967296. lia.
Qed.

(** X28.  [Sensor_TicksToUs] never wraps: with a prescaler below
    0xFFFFFFFF (so that the division is defined) and a timer clock
    that is not negative, its result stays within 32 bits, grows
    with the ticks and stops at 0xFFFFFFFF; with TIM2 counting at
    1 MHz it returns the ticks unchanged. *)
Theorem Sensor_TicksToUs_saturates (clk : TimerClock) (t1 t2 : Z) :
  0 <= tim2_prescaler clk < 4294967295 ->
  0 <= tim2_tick_hz clk -> 0 <= t1 <= t2 ->
  0 <= Sensor_TicksToUs clk t1 <= Sensor_TicksToUs clk t2 /\
  Sensor_TicksToUs clk t2 <= 4294967295 /\
  (tim2_tick_hz clk = 1000000 -> t1 <= 4294967295 ->
   Sensor_TicksToUs clk t1 = t1) /\
  (0 < tim2_tick_hz clk ->
   4294967295 * tim2_tick_hz clk <= t2 * 1000000 ->
   Sensor_TicksToUs clk t2 = 4294967295).
Proof.
  intros _ Hhz Ht.
  destruct (Z.eq_dec (tim2_tick_hz clk) 0) as [H0|Hne].
  - assert (Hz : forall t, Sensor_TicksToUs clk t = 0).
    { intros t. unfold Sensor_TicksToUs. fold (tim2_tick_hz clk).
      rewrite H0. reflexivity. }
    rewrite !Hz. repeat split; try lia.
  - assert (Hpos : 0 < tim2_tick_hz clk) by lia.
    rewrite !ticks_to_us_min by lia.
    assert (H1 : 0 <= t1 * 1000000 / tim2_tick_hz clk)
      by (apply Z.div_pos; lia).
    assert (H2 : t1 * 1000000 / tim2_tick_hz clk
                 <= t2 * 1000000 / tim2_tick_hz clk)
      by (apply Z.div_le_mono; lia).
    split; [lia|]. split; [lia|]. split.
    + intros -> Hle. rewrite Z.div_mul by lia. lia.
    + intros _ Hbig.
      assert (4294967295 <= t2 * 1000000 / tim2_tick_hz clk)
        by (apply Z.div_le_lower_bound; lia).
      lia.
Qed.

Lemma Sensor_TicksToUs_saturates_witness :
  Sensor_TicksToUs LiveFacts.mhz_clock 1234567 = 1234567.
Proof.
  apply (Sensor_TicksToUs_saturates LiveFacts.mhz_clock 1234567 1234567).
  - cbn. lia.
  - vm_compute. discriminate.
  - lia.
  - reflexivity.
  - lia.
Defined.

End TicksFacts.

(** ** burst_mgr.c: how a burst ends *)

Module BMFacts.
Import TB TBFacts TBQueueFacts BM.

Section Ending.
Variable clock : nat -> Z.

Lemma TB_Pump_idle (s : State) :
  TB_IsIdle s = true ->
  wire (TB_Pump clock s) = wire s /\ TB_IsIdle (TB_Pump clock s) = true.
Proof.
  unfold TB_IsIdle, _queue_empty. intros H.
  apply andb_true_iff in H as [Hi Hq].
  apply Z.eqb_eq in Hi. apply Z.eqb_eq in Hq.
  unfold TB_Pump. destruct (burst_active s); cbn [negb].
  2:{ rewrite Hi, Hq. split; reflexivity. }
  unfold _pump_send. rewrite Hq.
  change (pump_send_loop clock (Z.to_nat 0) s) with s.
  unfold _pump_timeouts, HAL_GetTick.
  cbn [inflight_count set_tick_reads]. rewrite Hi.
  change (Z.to_nat 0) with O.
  cbn [pump_timeouts_loop wire inflight_count q_count set_tick_reads].
  rewrite Hi, Hq. split; reflexivity.
Qed.

Lemma after_tb_quiet (tb' : State) (w : BmWorld) :
  wire tb' = wire (tb w) ->
  after_tb tb' w = {| g_bm := g_bm w; tb := tb'; bm_tx := bm_tx w |}.
Proof.
  intros H. unfold after_tb. rewrite H, drop_all. reflexivity.
Qed.

Lemma complete_time_ms_nearest (n odr : Z) :
  0 <= n <= 65535 -> 0 <= odr <= 4294967295 ->
  (0 < odr -> 2 * Z.abs (complete_time_ms n odr * odr - 1000 * n) <= odr) /\
  (odr = 0 -> complete_time_ms n odr = 0).
Proof.
  intros Hn Ho. unfold complete_time_ms. split.
  - intros Hpos. replace (0 <? odr) with true by (symmetry; apply Z.ltb_lt; lia).
    unfold ApiParseInt.wrap64, wrap32.
    change (2 ^ 64) with 18446744073709551616.
    change (2 ^ 32) with 4294967296.
    assert (Hh : 0 <= odr / 2 <= odr) by (split; [apply Z.div_pos; lia|
      apply Z.div_le_upper_bound; lia]).
    rewrite (Z.mod_small (n * 1000)) by lia.
    rewrite (Z.mod_small (n * 1000 + odr / 2)) by lia.
    pose proof (Z.div_mod (n * 1000 + odr / 2) odr ltac:(lia)) as Hdm.
    pose proof (Z.mod_pos_bound (n * 1000 + odr / 2) odr Hpos) as Hr.
    pose proof (Z.div_mod odr 2 ltac:(lia)) as Hdm2.
    pose proof (Z.mod_pos_bound odr 2 ltac:(lia)) as Hr2.
    assert (Hq : 0 <= (n * 1000 + odr / 2) / odr <= n * 1000 + odr / 2).
    { split; [apply Z.div_pos; lia|]. apply Z.div_le_upper_bound; [lia|]. nia. }
    assert (Hq2 : (n * 1000 + odr / 2) / odr <= 65535001).
    { apply Z.div_le_upper_bound; [lia|]. nia. }
    rewrite Z.mod_small by lia.
    set (t := (n * 1000 + odr / 2) / odr) in *.
    lia.
  - intros ->. reflexivity.
Qed.

Lemma wrap32_code (code : Z) :
  wrap32 (if wrap32 code =? 0 then 400 else wrap32 code)
  = (if wrap32 code =? 0 then 400 else wrap32 code).
Proof.
  destruct (wrap32 code =? 0); [reflexivity|].
  unfold wrap32. apply Z.mod_mod. discriminate.
Qed.

(** X29.  When the host refuses a block that has no retry left,
    the burst manager is told at once, and the next [BM_Pump]
    reports it: exactly one line
    COMPLETE,burst_id=..,reason=aborted,code=.. with the code of the
    NACK (400 when that is 0), no block is sent again, the manager
    waits for ACK_COMPLETE, and further pumps do nothing. *)
Theorem nack_abort_is_reported (b code : Z) (w : BmWorld) (idx : Z) :
  active (g_bm w) = true -> waiting_ack_complete (g_bm w) = false ->
  queue_inv (tb w) ->
  _inflight_find_blk (wrap16 b) (tb w) = Some idx ->
  max_retries (tb w) <= retries (inflight_entry idx (tb w)) ->
  let code' := if wrap32 code =? 0 then 400 else wrap32 code in
  let w1 := on_nack_blk clock b code w in
  let w2 := BM_Pump clock w1 in
  bm_tx w1 = bm_tx w /\
  bm_tx w2 = bm_tx w ++ [COMPLETE_aborted (bm_burst_id (g_bm w)) code'] /\
  wire (tb w2) = wire (tb w) ++ [CallBmEndAborted code'] /\
  BM_IsActive w2 = true /\ BM_IsWaitingAckComplete w2 = true /\
  BM_Pump clock w2 = w2.
Proof.
  intros Hact Hwait Hq Hfind Hret code' w1 w2.
  destruct (abort_all_clears (tb w) Hq) as (Hqc & Hic & Hba & Hwire & _).
  pose proof (nack_abort_state clock b code (tb w) idx Hfind Hret) as Hnack.
  fold code' in Hnack.
  set (tb1 := emit [CallBmEndAborted code'] (_abort_all (tb w))) in *.
  assert (Hw1 : w1 = {| g_bm := BM_EndAborted code' (g_bm w); tb := tb1;
                        bm_tx := bm_tx w |}).
  { unfold w1, on_nack_blk, after_tb. rewrite Hnack. unfold tb1.
    cbn [wire emit]. rewrite Hwire, drop_app_length. reflexivity. }
  assert (Hidle : TB_IsIdle tb1 = true).
  { unfold TB_IsIdle, _queue_empty, tb1. cbn [inflight_count q_count emit].
    rewrite Hic, Hqc. reflexivity. }
  assert (Hpump : TB_Pump clock tb1 = tb1).
  { unfold TB_Pump, tb1. cbn [burst_active emit]. rewrite Hba. reflexivity. }
  assert (Hg1 : BM_EndAborted code' (g_bm w)
                = {| active := true; waiting_ack_complete := false;
                     type := type (g_bm w); bm_burst_id := bm_burst_id (g_bm w);
                     done_pending := true; aborted := true; abort_code := code';
                     samples := samples (g_bm w); odr_hz := odr_hz (g_bm w) |}).
  { unfold BM_EndAborted. rewrite Hact, Hwait. cbn [negb].
    unfold code'. rewrite wrap32_code. reflexivity. }
  assert (Hw2 : w2 = {| g_bm := {| active := true; waiting_ack_complete := true;
                                   type := type (g_bm w);
                                   bm_burst_id := bm_burst_id (g_bm w);
                                   done_pending := false; aborted := true;
                                   abort_code := code';
                                   samples := samples (g_bm w);
                                   odr_hz := odr_hz (g_bm w) |};
                        tb := tb1;
                        bm_tx := bm_tx w
                                 ++ [COMPLETE_aborted (bm_burst_id (g_bm w)) code'] |}).
  { unfold w2, BM_Pump. rewrite Hw1. cbn [g_bm tb]. rewrite Hg1.
    cbn [active negb]. rewrite Hpump.
    rewrite after_tb_quiet by reflexivity.
    cbn [g_bm tb bm_tx done_pending waiting_ack_complete negb andb aborted
         bm_burst_id abort_code active type samples odr_hz].
    rewrite Hidle. reflexivity. }
  split; [rewrite Hw1; reflexivity|].
  split; [rewrite Hw2; reflexivity|].
  split; [rewrite Hw2; cbn [tb]; unfold tb1; cbn [wire emit];
          rewrite Hwire; reflexivity|].
  split; [rewrite Hw2; reflexivity|].
  split; [rewrite Hw2; reflexivity|].
  rewrite Hw2. unfold BM_Pump. cbn [g_bm tb active negb]. rewrite Hpump.
  rewrite after_tb_quiet by reflexivity. reflexivity.
Qed.

(** X30.  A burst that ended well is reported once the transport
    is idle: [BM_Pump] sends one line COMPLETE with the samples of
    the burst, dropped=0 and the duration samples/odr_hz in
    milliseconds rounded to the nearest (0 when the rate is 0),
    sends no block, and the pump after it sends nothing more. *)
Theorem finished_burst_is_reported (w : BmWorld) :
  active (g_bm w) = true -> waiting_ack_complete (g_bm w) = false ->
  TB_IsIdle (tb w) = true ->
  0 <= samples (g_bm w) <= 65535 -> 0 <= odr_hz (g_bm w) <= 4294967295 ->
  let n := samples (g_bm w) in
  let odr := odr_hz (g_bm w) in
  let w1 := BM_Pump clock {| g_bm := BM_EndOk (g_bm w); tb := tb w;
                             bm_tx := bm_tx w |} in
  exists t,
    bm_tx w1 = bm_tx w ++ [COMPLETE (bm_burst_id (g_bm w)) n 0 t] /\
    (0 < odr -> 2 * Z.abs (t * odr - 1000 * n) <= odr) /\
    (odr = 0 -> t = 0) /\
    wire (tb w1) = wire (tb w) /\
    BM_IsWaitingAckComplete w1 = true /\
    bm_tx (BM_Pump clock w1) = bm_tx w1.
Proof.
  intros Hact Hwait Hidle Hn Ho n odr w1.
  destruct (TB_Pump_idle (tb w) Hidle) as [Hwire Hidle1].
  destruct (complete_time_ms_nearest n odr Hn Ho) as [Hnear Hzero].
  exists (complete_time_ms n odr).
  assert (Hw1 : w1 = {| g_bm := {| active := true; waiting_ack_complete := true;
                                   type := type (g_bm w);
                                   bm_burst_id := bm_burst_id (g_bm w);
                                   done_pending := false; aborted := false;
                                   abort_code := abort_code (g_bm w);
                                   samples := n; odr_hz := odr |};
                        tb := TB_Pump clock (tb w);
                        bm_tx := bm_tx w
                                 ++ [COMPLETE (bm_burst_id (g_bm w)) n 0
                                       (complete_time_ms n odr)] |}).
  { unfold w1, BM_Pump, BM_EndOk. rewrite Hact. cbn [g_bm tb active negb].
    rewrite after_tb_quiet by (cbn [tb]; exact Hwire).
    cbn [g_bm tb bm_tx done_pending waiting_ack_complete negb andb aborted
         bm_burst_id abort_code active type samples odr_hz].
    rewrite Hwait, Hidle1. reflexivity. }
  split; [rewrite Hw1; reflexivity|].
  split; [exact Hnear|]. split; [exact Hzero|].
  split; [rewrite Hw1; exact Hwire|].
  split; [rewrite Hw1; reflexivity|].
  rewrite Hw1. unfold BM_Pump. cbn [g_bm tb active negb].
  destruct (TB_Pump_idle (TB_Pump clock (tb w)) Hidle1) as [Hwire2 _].
  rewrite after_tb_quiet by (cbn [tb]; exact Hwire2). reflexivity.
Qed.

End Ending.

(** A burst of one block that the host refuses four times, and a
    burst of 1000 samples at 800 Hz that is sent and
    acknowledged. *)
Definition refused_burst : BmWorld :=
  let w := BM_Begin BM_TYPE_DAMP_TRG 1 0 1 800
             (BM_Init 4 128 3 {| g_bm := bm_zero; tb := tb_zero; bm_tx := [] |}) in
  let w := snd (BM_Enqueue (Some one_line) w) in
  let w := BM_Pump (fun _ => 0) w in
  on_nack_blk (fun _ => 0) 1 0
    (on_nack_blk (fun _ => 0) 1 0 (on_nack_blk (fun _ => 0) 1 0 w)).

Lemma nack_abort_is_reported_witness :
  bm_tx (BM_Pump (fun _ => 0) (on_nack_blk (fun _ => 0) 1 0 refused_burst))
  = bm_tx refused_burst ++ [COMPLETE_aborted 1 400].
Proof.
  apply (nack_abort_is_reported (fun _ => 0) 1 0 refused_burst 0).
  - reflexivity.
  - reflexivity.
  - vm_compute. split; discriminate.
  - vm_compute. reflexivity.
  - vm_compute. discriminate.
Defined.

Definition sent_burst : BmWorld :=
  let w := BM_Begin BM_TYPE_DAMP_CD 7 0 1000 800
             (BM_Init 4 128 3 {| g_bm := bm_zero; tb := tb_zero; bm_tx := [] |}) in
  let w := snd (BM_Enqueue (Some one_line) w) in
  let w := BM_Pump (fun _ => 0) w in
  on_ack_blk 1 w.

Lemma finished_burst_is_reported_witness :
  exists t,
    bm_tx (BM_Pump (fun _ => 0)
             {| g_bm := BM_EndOk (g_bm sent_burst); tb := tb sent_burst;
                bm_tx := bm_tx sent_burst |})
    = bm_tx sent_burst ++ [COMPLETE 7 1000 0 t] /\
    (0 < 800 -> 2 * Z.abs (t * 800 - 1000 * 1000) <= 800).
Proof.
  destruct (finished_burst_is_reported (fun _ => 0) sent_burst)
    as (t & Htx & Hnear & _); try reflexivity.
  - vm_compute. split; discriminate.
  - vm_compute. split; discriminate.
  - exists t. split; [exact Htx|exact Hnear].
Defined.

Example sent_burst_complete :
  bm_tx (BM_Pump (fun _ => 0)
           {| g_bm := BM_EndOk (g_bm sent_burst); tb := tb sent_burst;
              bm_tx := bm_tx sent_burst |})
  = [DATA_HEADER BM_TYPE_DAMP_CD 7 0 1000; COMPLETE 7 1000 0 1250].
Proof. vm_compute. reflexivity. Qed.

End BMFacts.
